(** * Order / payment reconciliation engine of ripenred-backend

    A shallow embedding of the order routes (create-order, the two
    verification routes, PhonePe return handler and webhook, Razorpay
    webhook helpers, refund routes, debug routes), of
    [services/autoCancelService.js], of [webhooks/razorpayWebhook.js] and
    of the requests of [services/phonePeService.js], followed by the
    properties the specification states about them.

    Conventions of the embedding.
    - A handler is a computation in the monad [M]: it threads the
      database and the chronological list of side effects, and may throw.
    - MongoDB is a map of products and a list of orders in insertion
      order.  A multi-document transaction is a snapshot taken by
      [startTransaction]; [abortTransaction] puts the snapshot back.
      Requests are run one after the other.
    - JavaScript numbers are IEEE 754 doubles ([float]); a member that
      may be missing is an [option], [None] standing for [undefined].
      Strings are byte strings in UTF-8.
    - The Product schema has no [stock] path.  [product.stock] is
      therefore a plain property of the loaded JavaScript object:
      [undefined] when the document is read, whatever the handler
      assigns afterwards, and not part of what [save()] writes.
    - Stored documents are taken to satisfy their schemas, and
      identifiers to be well-formed ObjectIds.  Database calls succeed
      unless a handler catches their failure item by item (the
      auto-cancel sweep), where failures are injected by an oracle; a
      [save()] is refused where the document breaks the schema. *)

From stdpp Require Import gmap strings list fin_maps pretty.
From Stdlib Require Import Ascii ZArith QArith Qround Qabs Lia Floats.

#[local] Set Warnings "-inexact-float".
Local Open Scope Z_scope.

(* ================================================================== *)
(** * Part I: the embedding                                            *)
(* ================================================================== *)

(** ** JavaScript numbers *)

(** [isNaN(x)] *)
Definition isNaN (x : float) : bool := negb (PrimFloat.eqb x x).

(** An integer as a Number: the nearest double, ties to even. *)
Definition Z_to_float (z : Z) : float := SF2Prim (binary_normalize prec emax z 0 false).

(** A number member that may be missing: [undefined] in arithmetic is
    [NaN]. *)
Definition num (x : option float) : float := default nan x.

(** Truthiness of a number: neither zero nor [NaN]. *)
Definition truthyNum (x : float) : bool := negb (PrimFloat.eqb x 0) && negb (isNaN x).

(** [Math.round(x)]: the nearest integer, halves towards +infinity. *)
Definition Math_round (x : float) : float :=
  match Prim2SF x with
  | S754_finite s m e =>
      if 0 <=? e then x
      else
        let v := if s then Z.neg m else Z.pos m in
        let n := Z.shiftr (2 * v + 2 ^ (- e)) (1 - e) in
        if n =? 0 then (if s then (-0)%float else 0%float) else Z_to_float n
  | _ => x
  end.

(** The exact value of a finite double. *)
Definition exact (x : float) : Q :=
  match Prim2SF x with
  | S754_finite s m e => (inject_Z (if s then Z.neg m else Z.pos m) * Qpower 2 e)%Q
  | _ => 0%Q
  end.

(** The upper neighbour of the largest double, for the rounding interval. *)
Definition above (x : float) : Q :=
  match Prim2SF (next_up x) with
  | S754_finite _ _ _ => exact (next_up x)
  | _ => Qpower 2 1024
  end.

(** [c] is read back as [x]: it lies between the midpoints to the
    neighbours of [x], the midpoints included when the significand of
    [x] is even. *)
Definition readsBack (x : float) (c : Q) : bool :=
  let lo := ((exact x + exact (next_down x)) / 2)%Q in
  let hi := ((exact x + above x) / 2)%Q in
  match Prim2SF x with
  | S754_finite _ m _ =>
      if Z.even (Z.pos m) then Qle_bool lo c && Qle_bool c hi
      else negb (Qle_bool c lo) && negb (Qle_bool hi c)
  | _ => false
  end.

Definition Qabs_diff (a b : Q) : Q := Qabs (a - b).

(** The decimal exponent [n] with [10^(n-1) <= v < 10^n], found from
    an estimate by the binary exponent. *)
Definition decimalExponent (v : Q) (b : Z) : Z :=
  let n0 := (b * 30103) / 100000 in
  let fix adjust (fuel : nat) (n : Z) : Z :=
    match fuel with
    | O => n
    | S fuel' =>
        if Qle_bool (Qpower 10 n) v then adjust fuel' (n + 1)
        else if negb (Qle_bool (Qpower 10 (n - 1)) v) then adjust fuel' (n - 1)
        else n
    end in
  adjust 4%nat n0.

(** The candidates [(s, n)] with [k] digits for a positive [x]. *)
Definition candidates (x : float) (nv k : Z) : list (Z * Z) :=
  let v := exact x in
  flat_map (fun n =>
              let scale := Qpower 10 (n - k) in
              let s0 := Qfloor (v / scale) in
              filter (fun sn => let s := fst sn in
                                (10 ^ (k - 1) <=? s) && (s <? 10 ^ k)
                                && readsBack x (inject_Z s * scale)%Q = true)
                     [(s0, n); (s0 + 1, n)])
           [nv; nv + 1].

(** Of two candidates the one closer to [x]; of two equally close the
    even one. *)
Definition closer (x : float) (k : Z) (a b : Z * Z) : Z * Z :=
  let v := exact x in
  let da := Qabs_diff (inject_Z (fst a) * Qpower 10 (snd a - k)) v in
  let db := Qabs_diff (inject_Z (fst b) * Qpower 10 (snd b - k)) v in
  if Qle_bool da db && negb (Qle_bool db da) then a
  else if Qle_bool db da && negb (Qle_bool da db) then b
  else if Z.even (fst a) then a else b.

(** The shortest digits [(s, k, n)] of a positive finite [x]. *)
Fixpoint shortest (x : float) (nv : Z) (fuel : nat) (k : Z) : Z * Z * Z :=
  match fuel with
  | O => (0, 1, 1)
  | S fuel' =>
      match candidates x nv k with
      | [] => shortest x nv fuel' (k + 1)
      | c :: rest => let best := foldl (closer x k) c rest in (fst best, k, snd best)
      end
  end.

Definition zeros (n : Z) : string := String.concat "" (replicate (Z.to_nat n) "0").

Definition takeS (n : Z) (s : string) : string := String.substring 0 (Z.to_nat n) s.
Definition dropS (n : Z) (s : string) : string :=
  String.substring (Z.to_nat n) (String.length s - Z.to_nat n) s.

(** [Number::toString] for a positive finite number. *)
Definition positive_toString (x : float) : string :=
  match Prim2SF x with
  | S754_finite _ m e =>
      let nv := decimalExponent (exact x) (Z.log2 (Z.pos m) + e) in
      let '(s, k, n) := shortest x nv 17%nat 1 in
      let digits : string := pretty s in
      if (k <=? n) && (n <=? 21) then digits +:+ zeros (n - k)
      else if (0 <? n) && (n <=? 21) then takeS n digits +:+ "." +:+ dropS n digits
      else if (-6 <? n) && (n <=? 0) then "0." +:+ zeros (- n) +:+ digits
      else
        let ex := n - 1 in
        let sign : string := if ex <? 0 then "-" else "+" in
        if k =? 1 then digits +:+ "e" +:+ sign +:+ pretty (Z.abs ex)
        else takeS 1 digits +:+ "." +:+ dropS 1 digits +:+ "e" +:+ sign +:+ pretty (Z.abs ex)
  | _ => ""
  end.

(** [String(x)], the conversion a template literal applies. *)
Definition Number_toString (x : float) : string :=
  match Prim2SF x with
  | S754_nan => "NaN"
  | S754_zero _ => "0"
  | S754_infinity s => if s then "-Infinity" else "Infinity"
  | S754_finite s _ _ =>
      if s then "-" +:+ positive_toString (PrimFloat.opp x) else positive_toString x
  end.


(** ** [parseInt] *)

(** One white-space character (or line terminator) at the start of a
    string, in UTF-8, removed. *)
Definition dropWhite (s : string) : option string :=
  match s with
  | String c rest =>
      let n := nat_of_ascii c in
      if bool_decide (n ∈ [9; 10; 11; 12; 13; 32]%nat) then Some rest
      else
        match rest with
        | String c2 rest2 =>
            let n2 := nat_of_ascii c2 in
            if (n =? 194)%nat && (n2 =? 160)%nat then Some rest2
            else
              match rest2 with
              | String c3 rest3 =>
                  let n3 := nat_of_ascii c3 in
                  if bool_decide ((n, n2, n3) ∈ [(225, 154, 128); (226, 128, 168); (226, 128, 169);
                                                 (226, 128, 175); (226, 129, 159); (227, 128, 128);
                                                 (239, 187, 191)]%nat)
                     || ((n =? 226)%nat && (n2 =? 128)%nat && (128 <=? n3)%nat && (n3 <=? 138)%nat)
                  then Some rest3 else None
              | EmptyString => None
              end
        | EmptyString => None
        end
  | EmptyString => None
  end.

Fixpoint trimStart (fuel : nat) (s : string) : string :=
  match fuel with
  | O => s
  | S fuel' => match dropWhite s with
               | Some rest => trimStart fuel' rest
               | None => s
               end
  end.

(** The value of a digit in the given radix. *)
Definition digitOf (radix : Z) (c : ascii) : option Z :=
  let n := Z.of_nat (nat_of_ascii c) in
  let d := if (48 <=? n) && (n <=? 57) then n - 48
           else if (97 <=? n) && (n <=? 122) then n - 87
           else if (65 <=? n) && (n <=? 90) then n - 55
           else radix in
  if d <? radix then Some d else None.

(** The integer written by the digits at the start of a string; [None]
    when there is no digit. *)
Fixpoint digitsValue (radix : Z) (s : string) (acc : option Z) : option Z :=
  match s with
  | EmptyString => acc
  | String c rest =>
      match digitOf radix c with
      | Some d => digitsValue radix rest (Some (radix * default 0 acc + d))
      | None => acc
      end
  end.

(** [parseInt(s)] without a radix: white space, a sign, the prefix
    [0x] or [0X], then the digits; the result is a Number. *)
Definition parseInt (s : string) : float :=
  let s1 := trimStart (String.length s) s in
  let signed := match s1 with
                | String "-" rest => (true, rest)
                | String "+" rest => (false, rest)
                | _ => (false, s1)
                end in
  let based := match snd signed with
               | String "0" (String "x" rest) | String "0" (String "X" rest) => (16, rest)
               | _ => (10, snd signed)
               end in
  match digitsValue (fst based) (snd based) None with
  | None => nan
  | Some v =>
      if v =? 0 then (if fst signed then (-0)%float else 0%float)
      else Z_to_float (if fst signed then - v else v)
  end.


(** ** Data model ([models/orderModel.js], [models/productModel.js]) *)

(** [paymentStatus]: enum "Pending", "Paid", "Failed", "Refunded". *)
Inductive PaymentStatus := PS_Pending | PS_Paid | PS_Failed | PS_Refunded.

(** [orderStatus]: enum "Pending", "Processing", "Shipped", "Delivered",
    "Canceled". *)
Inductive OrderStatus :=
  OS_Pending | OS_Processing | OS_Shipped | OS_Delivered | OS_Canceled.

#[global] Instance PaymentStatus_eq_dec : EqDecision PaymentStatus.
Proof. solve_decision. Defined.

#[global] Instance OrderStatus_eq_dec : EqDecision OrderStatus.
Proof. solve_decision. Defined.

Definition PaymentStatus_to_string (s : PaymentStatus) : string :=
  match s with
  | PS_Pending => "Pending" | PS_Paid => "Paid"
  | PS_Failed => "Failed" | PS_Refunded => "Refunded"
  end.

Definition OrderStatus_to_string (s : OrderStatus) : string :=
  match s with
  | OS_Pending => "Pending" | OS_Processing => "Processing"
  | OS_Shipped => "Shipped" | OS_Delivered => "Delivered"
  | OS_Canceled => "Canceled"
  end.

(** The paths of the Product schema that the order engine reads.  The
    schema has no [stock] path. *)
Record Product := mkProduct {
  prod_name : string;
  prod_price : float
}.

(** A Product document as a handler holds it: the stored paths and the
    property [stock] of the JavaScript object, [None] ([undefined])
    when the document comes from the database. *)
Record ProductDoc := mkDoc {
  doc_fields : Product;
  stock : option float
}.

(** [product.stock = s] *)
Definition set_stock (s : float) (p : ProductDoc) : ProductDoc :=
  {| doc_fields := doc_fields p; stock := Some s |}.

(** One entry of [orderItems]. *)
Record OrderItem := mkItem {
  productId : string;
  name : string;
  price : float;
  quantity : float;
  subtotal : float
}.

(** One entry of [partialRefunds] / the [refundDetails] sub-document. *)
Record RefundRecord := mkRefund {
  refundId : string;
  refundAmount : float;
  refundStatus : string;
  refundReason : string;
  processedBy : string
}.

(** [shippingAddress] *)
Record Address := mkAddress {
  street : option string;
  city : option string;
  state : option string;
  zipcode : option string;
  country : option string
}.

(** The Order document, and the object [new Order(...)] is given.  The
    paths without a rule that no modelled handler reads (coupons,
    tracking, [orderDate]) are left out. *)
Record Order := mkOrder {
  _id : nat;
  orderId : string;
  idempotencyKey : string;
  paymentMethod : string;
  orderItems : list OrderItem;
  finalTotal : option float;
  paymentStatus : PaymentStatus;
  orderStatus : OrderStatus;
  transactionId : option string;
  merchantTransactionId : option string;
  phonePePaymentData : option string;
  isRegisteredUser : bool;
  userEmail : option string;
  guestEmail : option string;
  refundDetails : option RefundRecord;
  partialRefunds : list RefundRecord;
  totalRefunded : float;
  createdAt : Z;
  userId : option string;
  userName : option string;
  userPhone : option string;
  guestName : option string;
  guestPhone : option string;
  shippingAddress : option Address;
  totalPrice : option float;
  discountAmount : option float;
  shippingCharges : option float
}.

Definition set_status (os : OrderStatus) (ps : PaymentStatus) (o : Order) : Order :=
  {| _id := _id o; orderId := orderId o; idempotencyKey := idempotencyKey o;
     paymentMethod := paymentMethod o; orderItems := orderItems o;
     finalTotal := finalTotal o;
     paymentStatus := ps; orderStatus := os;
     transactionId := transactionId o;
     merchantTransactionId := merchantTransactionId o;
     phonePePaymentData := phonePePaymentData o;
     isRegisteredUser := isRegisteredUser o;
     userEmail := userEmail o; guestEmail := guestEmail o;
     refundDetails := refundDetails o; partialRefunds := partialRefunds o;
     totalRefunded := totalRefunded o; createdAt := createdAt o;
     userId := userId o; userName := userName o; userPhone := userPhone o;
     guestName := guestName o; guestPhone := guestPhone o;
     shippingAddress := shippingAddress o; totalPrice := totalPrice o;
     discountAmount := discountAmount o; shippingCharges := shippingCharges o |}.

Definition set_transactionId (t : option string) (o : Order) : Order :=
  {| _id := _id o; orderId := orderId o; idempotencyKey := idempotencyKey o;
     paymentMethod := paymentMethod o; orderItems := orderItems o;
     finalTotal := finalTotal o;
     paymentStatus := paymentStatus o; orderStatus := orderStatus o;
     transactionId := t;
     merchantTransactionId := merchantTransactionId o;
     phonePePaymentData := phonePePaymentData o;
     isRegisteredUser := isRegisteredUser o;
     userEmail := userEmail o; guestEmail := guestEmail o;
     refundDetails := refundDetails o; partialRefunds := partialRefunds o;
     totalRefunded := totalRefunded o; createdAt := createdAt o;
     userId := userId o; userName := userName o; userPhone := userPhone o;
     guestName := guestName o; guestPhone := guestPhone o;
     shippingAddress := shippingAddress o; totalPrice := totalPrice o;
     discountAmount := discountAmount o; shippingCharges := shippingCharges o |}.

Definition set_phonePePaymentData (d : option string) (o : Order) : Order :=
  {| _id := _id o; orderId := orderId o; idempotencyKey := idempotencyKey o;
     paymentMethod := paymentMethod o; orderItems := orderItems o;
     finalTotal := finalTotal o;
     paymentStatus := paymentStatus o; orderStatus := orderStatus o;
     transactionId := transactionId o;
     merchantTransactionId := merchantTransactionId o;
     phonePePaymentData := d;
     isRegisteredUser := isRegisteredUser o;
     userEmail := userEmail o; guestEmail := guestEmail o;
     refundDetails := refundDetails o; partialRefunds := partialRefunds o;
     totalRefunded := totalRefunded o; createdAt := createdAt o;
     userId := userId o; userName := userName o; userPhone := userPhone o;
     guestName := guestName o; guestPhone := guestPhone o;
     shippingAddress := shippingAddress o; totalPrice := totalPrice o;
     discountAmount := discountAmount o; shippingCharges := shippingCharges o |}.

Definition set_refundDetails (r : option RefundRecord) (o : Order) : Order :=
  {| _id := _id o; orderId := orderId o; idempotencyKey := idempotencyKey o;
     paymentMethod := paymentMethod o; orderItems := orderItems o;
     finalTotal := finalTotal o;
     paymentStatus := paymentStatus o; orderStatus := orderStatus o;
     transactionId := transactionId o;
     merchantTransactionId := merchantTransactionId o;
     phonePePaymentData := phonePePaymentData o;
     isRegisteredUser := isRegisteredUser o;
     userEmail := userEmail o; guestEmail := guestEmail o;
     refundDetails := r; partialRefunds := partialRefunds o;
     totalRefunded := totalRefunded o; createdAt := createdAt o;
     userId := userId o; userName := userName o; userPhone := userPhone o;
     guestName := guestName o; guestPhone := guestPhone o;
     shippingAddress := shippingAddress o; totalPrice := totalPrice o;
     discountAmount := discountAmount o; shippingCharges := shippingCharges o |}.

Definition set_partialRefunds (l : list RefundRecord) (t : float) (o : Order) : Order :=
  {| _id := _id o; orderId := orderId o; idempotencyKey := idempotencyKey o;
     paymentMethod := paymentMethod o; orderItems := orderItems o;
     finalTotal := finalTotal o;
     paymentStatus := paymentStatus o; orderStatus := orderStatus o;
     transactionId := transactionId o;
     merchantTransactionId := merchantTransactionId o;
     phonePePaymentData := phonePePaymentData o;
     isRegisteredUser := isRegisteredUser o;
     userEmail := userEmail o; guestEmail := guestEmail o;
     refundDetails := refundDetails o; partialRefunds := l;
     totalRefunded := t; createdAt := createdAt o;
     userId := userId o; userName := userName o; userPhone := userPhone o;
     guestName := guestName o; guestPhone := guestPhone o;
     shippingAddress := shippingAddress o; totalPrice := totalPrice o;
     discountAmount := discountAmount o; shippingCharges := shippingCharges o |}.


(** ** Side effects, the world and the handler monad *)

(** Values of response bodies and of audit-log entries. *)
#[local] Set Warnings "-register-all".
Inductive Val :=
| VNull
| VBool (b : bool)
| VNum (x : float)
| VStr (s : string)
| VObj (fields : list (string * Val)).

(** What a handler answers: [res.status(c).json(body)] or
    [res.redirect(url)]. *)
Inductive Response :=
| Json (status : Z) (body : list (string * Val))
| Redirect (url : string).

(** Observable side effects, in the order the handler performs them. *)
Inductive Event :=
| EProductSave (pid : string)
| EOrderInsert (oid : string) (os : OrderStatus) (ps : PaymentStatus)
| EOrderUpdate (id : nat) (os : OrderStatus) (ps : PaymentStatus)
| ECommit
| EAbort
| EGateway (call : string) (args : list (string * Val))
| EEmail (recipient : string) (oid : string)
| ENotify (oid : string)
| EAudit (level : string) (tag : string) (data : list (string * Val)).

Record World := mkWorld {
  products : gmap string Product;
  orders : list Order;
  seller : option string;      (* e-mail of [Seller.findOne()], if any *)
  session : option (gmap string Product * list Order);
  trace : list Event
}.

Definition set_products (ps : gmap string Product) (w : World) : World :=
  {| products := ps; orders := orders w; seller := seller w;
     session := session w; trace := trace w |}.

Definition set_orders (os : list Order) (w : World) : World :=
  {| products := products w; orders := os; seller := seller w;
     session := session w; trace := trace w |}.

Definition set_session (s : option (gmap string Product * list Order)) (w : World) : World :=
  {| products := products w; orders := orders w; seller := seller w;
     session := s; trace := trace w |}.

Definition log (evs : list Event) (w : World) : World :=
  {| products := products w; orders := orders w; seller := seller w;
     session := session w; trace := trace w ++ evs |}.

(** A thrown JavaScript error: [error.message], [error.code] and
    [error.response.status]. *)
Record JsError := mkError {
  message : string;
  code : option string;
  http_status : option Z
}.

Inductive Res (A : Type) :=
| Ok (a : A)
| Throw (e : JsError).
Arguments Ok {A} a.
Arguments Throw {A} e.

Definition M (A : Type) : Type := World -> Res A * World.

Definition ret {A} (a : A) : M A := fun w => (Ok a, w).

Definition bind {A B} (m : M A) (k : A -> M B) : M B :=
  fun w => match m w with
           | (Ok a, w') => k a w'
           | (Throw e, w') => (Throw e, w')
           end.

Definition throw {A} (e : JsError) : M A := fun w => (Throw e, w).

(** [try { m } catch (e) { h e }]: effects made before the throw stay. *)
Definition try_catch {A} (m : M A) (h : JsError -> M A) : M A :=
  fun w => match m w with
           | (Ok a, w') => (Ok a, w')
           | (Throw e, w') => h e w'
           end.

Notation "x <- c1 ;; c2" := (bind c1 (fun x => c2))
  (at level 20, c1 at level 99, c2 at level 200, only parsing).
Notation "c1 ;; c2" := (bind c1 (fun _ => c2))
  (at level 100, c2 at level 200, only parsing, right associativity).

Definition emit (e : Event) : M unit := fun w => (Ok tt, log [e] w).

Definition auditLogger (level tag : string) (data : list (string * Val)) : M unit :=
  emit (EAudit level tag data).

(** JavaScript helpers. *)

(** Truthiness of a possibly missing string ([undefined], [null] and the
    empty string are falsy). *)
Definition truthy (s : option string) : bool :=
  match s with
  | Some s => negb (bool_decide (s = ""))
  | None => false
  end.

Definition optStr_of (s : option string) : Val :=
  match s with Some s => VStr s | None => VNull end.

(** [a || b] on possibly missing strings. *)
Definition js_or (a b : option string) : option string :=
  if truthy a then a else b.

(** *** Product collection *)

(** [Product.findById(pid)]: the stored paths, [stock] undefined. *)
Definition Product_findById (pid : string) : M (option ProductDoc) :=
  fun w => (Ok ((fun p => mkDoc p None) <$> products w !! pid), w).

(** [product.save()]: the paths of the schema are written; the
    property [stock] is not one of them. *)
Definition Product_save (pid : string) (p : ProductDoc) : M unit :=
  fun w => (Ok tt, log [EProductSave pid]
                       (set_products (<[pid := doc_fields p]> (products w)) w)).

(** *** Order collection *)

Definition Order_find (f : Order -> bool) : M (list Order) :=
  fun w => (Ok (filter (fun o => f o = true) (orders w)), w).

Definition Order_findOne (f : Order -> bool) : M (option Order) :=
  fun w => (Ok (head (filter (fun o => f o = true) (orders w))), w).

Definition update_by_id (id : nat) (f : Order -> Order) (l : list Order) : list Order :=
  map (fun o => if decide (_id o = id) then f o else o) l.

(** [Order.findByIdAndUpdate(id, {...})] and [order.save()] of a loaded
    document: the fields set by [f] are written to the document [id]. *)
Definition Order_update (id : nat) (f : Order -> Order) : M unit :=
  fun w =>
    let os' := update_by_id id f (orders w) in
    let ev := match head (filter (fun o => _id o = id) os') with
              | Some o => [EOrderUpdate id (orderStatus o) (paymentStatus o)]
              | None => []
              end in
    (Ok tt, log ev (set_orders os' w)).

(** Schema validation of [paymentMethod]: enum ["razorpay", "phonepe"]. *)
Definition schema_paymentMethod_ok (m : string) : bool :=
  bool_decide (m = "razorpay") || bool_decide (m = "phonepe").

(** Schema validation of the customer fields: [userId] and the
    [user...] strings are required when [isRegisteredUser], the
    [guest...] strings otherwise; a required string is present and not
    empty. *)
Definition schema_customer_ok (o : Order) : bool :=
  if isRegisteredUser o
  then truthy (userId o) && truthy (userName o) && truthy (userEmail o)
       && truthy (userPhone o)
  else truthy (guestName o) && truthy (guestEmail o) && truthy (guestPhone o).

(** A required Number: present, and not [NaN] (which fails the cast). *)
Definition requiredNumber (x : option float) : bool :=
  match x with
  | Some x => negb (isNaN x)
  | None => false
  end.

(** A Number path without [required]. *)
Definition optionalNumber (x : option float) : bool :=
  match x with
  | Some x => negb (isNaN x)
  | None => true
  end.

(** The five paths of an entry of [orderItems] are required. *)
Definition schema_item_ok (item : OrderItem) : bool :=
  negb (bool_decide (name item = "")) && negb (isNaN (price item))
  && negb (isNaN (quantity item)) && negb (isNaN (subtotal item)).

(** [street], [city], [state], [zipcode] and [country] are required. *)
Definition schema_address_ok (a : option Address) : bool :=
  match a with
  | Some a => truthy (street a) && truthy (city a) && truthy (state a)
              && truthy (zipcode a) && truthy (country a)
  | None => false
  end.

(** The numbers a refund route assigns. *)
Definition schema_refunds_ok (o : Order) : bool :=
  negb (isNaN (totalRefunded o))
  && forallb (fun r => negb (isNaN (refundAmount r))) (partialRefunds o)
  && match refundDetails o with
     | Some r => negb (isNaN (refundAmount r))
     | None => true
     end.

(** Validation of a document against the Order schema. *)
Definition schema_ok (o : Order) : bool :=
  negb (bool_decide (orderId o = "")) && negb (bool_decide (idempotencyKey o = ""))
  && schema_paymentMethod_ok (paymentMethod o)
  && schema_customer_ok o
  && forallb schema_item_ok (orderItems o)
  && schema_address_ok (shippingAddress o)
  && requiredNumber (totalPrice o) && requiredNumber (finalTotal o)
  && requiredNumber (shippingCharges o) && optionalNumber (discountAmount o)
  && schema_refunds_ok o.

Definition next_id (l : list Order) : nat := S (foldr max 0%nat (map _id l)).

Definition with_id_createdAt (id : nat) (now : Z) (o : Order) : Order :=
  {| _id := id; orderId := orderId o; idempotencyKey := idempotencyKey o;
     paymentMethod := paymentMethod o; orderItems := orderItems o;
     finalTotal := finalTotal o;
     paymentStatus := paymentStatus o; orderStatus := orderStatus o;
     transactionId := transactionId o;
     merchantTransactionId := merchantTransactionId o;
     phonePePaymentData := phonePePaymentData o;
     isRegisteredUser := isRegisteredUser o;
     userEmail := userEmail o; guestEmail := guestEmail o;
     refundDetails := refundDetails o; partialRefunds := partialRefunds o;
     totalRefunded := totalRefunded o; createdAt := now;
     userId := userId o; userName := userName o; userPhone := userPhone o;
     guestName := guestName o; guestPhone := guestPhone o;
     shippingAddress := shippingAddress o; totalPrice := totalPrice o;
     discountAmount := Some (default 0%float (discountAmount o));
     shippingCharges := shippingCharges o |}.

Definition conflicts (o : Order) (o' : Order) : bool :=
  bool_decide (orderId o' = orderId o)
  || bool_decide (idempotencyKey o' = idempotencyKey o).

(** [new Order(data).save()]: the schema is validated, then the unique
    indexes on [orderId] and [idempotencyKey] are enforced (error code
    11000); the document gets a fresh [_id] and its [createdAt]. *)
Definition Order_insert (now : Z) (o : Order) : M Order :=
  fun w =>
    if negb (schema_ok o) then
      (Throw (mkError "Order validation failed" None None), w)
    else if existsb (conflicts o) (orders w) then
      (Throw (mkError "E11000 duplicate key error" (Some "11000") None), w)
    else
      let o' := with_id_createdAt (next_id (orders w)) now o in
      (Ok o', log [EOrderInsert (orderId o) (orderStatus o) (paymentStatus o)]
                  (set_orders (orders w ++ [o']) w)).

(** [order.save()] in a refund route, which assigns amounts to the
    loaded document: the save is refused when an assigned number is
    [NaN]; otherwise the fields set by [f] are written. *)
Definition Order_save (id : nat) (f : Order -> Order) : M unit :=
  fun w =>
    if existsb (fun o => bool_decide (_id o = id) && negb (schema_refunds_ok (f o)))
               (orders w)
    then (Throw (mkError "Order validation failed" None None), w)
    else Order_update id f w.

(** *** Transactions *)

Definition startTransaction : M unit :=
  fun w => (Ok tt, set_session (Some (products w, orders w)) w).

Definition commitTransaction : M unit :=
  fun w => (Ok tt, log [ECommit] (set_session None w)).

Definition abortTransaction : M unit :=
  fun w => match session w with
           | Some (ps, os) =>
               (Ok tt, log [EAbort] (set_session None (set_orders os (set_products ps w))))
           | None => (Throw (mkError "No transaction started" None None), w)
           end.

(** [if (session.inTransaction()) await session.abortTransaction()] *)
Definition abortIfInTransaction : M unit :=
  fun w => match session w with
           | Some _ => abortTransaction w
           | None => (Ok tt, w)
           end.

(** Seller notification: [Seller.findOne()], then
    [sendMultiChannelNotification] when a seller exists; failures are
    swallowed by the caller. *)
Definition notifySeller (oid : string) : M unit :=
  fun w => match seller w with
           | Some _ => (Ok tt, log [ENotify oid] w)
           | None => (Ok tt, w)
           end.

(** ** Stock ledger (order routes, [restoreStock]) *)

Fixpoint restoreStock (items : list OrderItem) : M unit :=
  match items with
  | [] => ret tt
  | item :: rest =>
      product <- Product_findById (productId item) ;;
      match product with
      | Some p =>
          Product_save (productId item) (set_stock (num (stock p) + quantity item)%float p)
      | None => ret tt
      end ;;
      restoreStock rest
  end.


(** ** Auto-cancel sweeper ([services/autoCancelService.js]) *)

Module AutoCancel.

(** The mutable fields of the service object. *)
Record Config := mkConfig {
  checkInterval : Z;
  timeoutMinutes : Z
}.

(** Values set by the constructor. *)
Definition defaultConfig : Config :=
  {| checkInterval := 5 * 60 * 1000; timeoutMinutes := 30 |}.

(** Database failures during a sweep: [product_fails id pid] makes the
    product lookup or save for item [pid] of order [id] throw,
    [update_fails id] makes the status update of order [id] throw. *)
Record Faults := mkFaults {
  product_fails : nat -> string -> bool;
  update_fails : nat -> bool
}.

Definition noFaults : Faults :=
  {| product_fails := fun _ _ => false; update_fails := fun _ => false |}.

Definition dbError : JsError := mkError "database operation failed" None None.

(** [cutoffTime = Date.now() - timeoutMinutes * 60 * 1000] *)
Definition cutoffTime (cfg : Config) (now : Z) : Z :=
  now - timeoutMinutes cfg * 60 * 1000.

(** The query of [checkPendingOrders]. *)
Definition isStale (cfg : Config) (now : Z) (o : Order) : bool :=
  bool_decide (paymentStatus o = PS_Pending)
  && (bool_decide (orderStatus o = OS_Pending)
      || bool_decide (orderStatus o = OS_Processing))
  && (createdAt o <? cutoffTime cfg now).

(** The stock loop of [cancelOrder]; each item has its own try/catch. *)
Fixpoint restoreItems (F : Faults) (id : nat) (items : list OrderItem) : M unit :=
  match items with
  | [] => ret tt
  | item :: rest =>
      try_catch
        (if product_fails F id (productId item) then throw dbError
         else
           product <- Product_findById (productId item) ;;
           match product with
           | Some p =>
               Product_save (productId item)
                            (set_stock (num (stock p) + quantity item)%float p)
           | None => ret tt
           end)
        (fun _ => ret tt) ;;
      restoreItems F id rest
  end.

Definition cancelOrder (cfg : Config) (F : Faults) (order : Order) : M unit :=
  restoreItems F (_id order) (orderItems order) ;;
  (if update_fails F (_id order) then throw dbError
   else Order_update (_id order) (set_status OS_Canceled PS_Failed)) ;;
  auditLogger "warn" "ORDER_AUTO_CANCELLED_BY_SERVICE"
              [("orderId", VStr (orderId order));
               ("paymentMethod", VStr (paymentMethod order))].

(** The [for] loop of [checkPendingOrders] with its two counters. *)
Fixpoint sweep (cfg : Config) (F : Faults) (pendingOrders : list Order)
         (cancelledCount errorCount : Z) : M (Z * Z) :=
  match pendingOrders with
  | [] => ret (cancelledCount, errorCount)
  | order :: rest =>
      ok <- try_catch
              (cancelOrder cfg F order ;; ret true)
              (fun error =>
                 auditLogger "error" "AUTO_CANCEL_ORDER_FAILED"
                             [("orderId", VStr (orderId order));
                              ("error", VStr (message error))] ;;
                 ret false) ;;
      if ok : bool then sweep cfg F rest (cancelledCount + 1) errorCount
      else sweep cfg F rest cancelledCount (errorCount + 1)
  end.

Definition checkPendingOrders (cfg : Config) (F : Faults) (now : Z) : M unit :=
  try_catch
    (pendingOrders <- Order_find (isStale cfg now) ;;
     if bool_decide (length pendingOrders = 0%nat) then ret tt
     else
       counts <- sweep cfg F pendingOrders 0 0 ;;
       auditLogger "info" "AUTO_CANCEL_SUMMARY"
                   [("totalFound", VNum (Z_to_float (Z.of_nat (length pendingOrders))));
                    ("cancelled", VNum (Z_to_float (fst counts)));
                    ("errors", VNum (Z_to_float (snd counts)))])
    (fun error =>
       auditLogger "error" "AUTO_CANCEL_SERVICE_ERROR"
                   [("error", VStr (message error))]).

End AutoCancel.


(** ** Gateway calls *)

(** A call to a payment provider: the call is recorded, and its outcome
    (a response or a thrown error) is an input of the handler. *)
Definition gateway {A} (call : string) (args : list (string * Val))
           (outcome : Res A) : M A :=
  emit (EGateway call args) ;;
  match outcome with
  | Ok a => ret a
  | Throw e => throw e
  end.

(** ** Refund engine (order routes, [/refund/...] and [/phonepe-refund/...]) *)

Module Refund.

(** What [razorpay.payments.refund] resolves to. *)
Record RazorpayRefund := mkRazorpayRefund {
  rz_id : string;
  rz_amount : Z;           (* paise *)
  rz_status : string
}.

(** What [phonePeService.processRefund] resolves to. *)
Record PhonePeRefund := mkPhonePeRefund {
  pp_merchantRefundId : string;
  pp_phonePeRefundId : string;
  pp_status : string
}.

Definition adminId : string := "admin".

Definition byOrderId (oid : string) (o : Order) : bool :=
  bool_decide (orderId o = oid).

(** [existingRefunds.reduce((sum, refund) => sum + refund.refundAmount, 0)] *)
Definition sumRefunds (existingRefunds : list RefundRecord) : float :=
  fold_left (fun sum refund => (sum + refundAmount refund)%float) existingRefunds 0%float.

(** [a || b] on strings: the empty string is falsy. *)
Definition orElse (a b : string) : string :=
  if bool_decide (a = "") then b else a.

(** The answer of the second amount check of the partial-refund routes. *)
Definition exceedsMessage (refundAmt totalRefunded finalTotal : float) : string :=
  "Cannot refund ₹" +:+ Number_toString refundAmt
    +:+ ". Already refunded ₹" +:+ Number_toString totalRefunded
    +:+ ". Maximum remaining: ₹" +:+ Number_toString (finalTotal - totalRefunded)%float.

Definition failure (status : Z) (msg : string) : Response :=
  Json status [("success", VBool false); ("message", VStr msg)].

(** The stock loop of the full-refund routes (runs in the session). *)
Fixpoint restoreProductStock (items : list OrderItem) : M unit :=
  match items with
  | [] => ret tt
  | item :: rest =>
      product <- Product_findById (productId item) ;;
      match product with
      | Some p =>
          Product_save (productId item)
                       (set_stock (num (stock p) + quantity item)%float p)
      | None => ret tt
      end ;;
      restoreProductStock rest
  end.

(** [POST /refund/full] *)
Definition refund_full (gw : Res RazorpayRefund) (reqOrderId reason : string)
  : M Response :=
  startTransaction ;;
  try_catch
    (found <- Order_findOne (byOrderId reqOrderId) ;;
     match found with
     | None => abortTransaction ;; ret (failure 404 "Order not found")
     | Some order =>
         if negb (truthy (transactionId order)) then
           abortTransaction ;;
           ret (failure 400 "Order has no valid payment transaction")
         else if bool_decide (paymentStatus order = PS_Refunded) then
           abortTransaction ;; ret (failure 400 "Order is already refunded")
         else if negb (bool_decide (paymentStatus order = PS_Paid)) then
           abortTransaction ;; ret (failure 400 "Cannot refund unpaid order")
         else
           auditLogger "payment" "REFUND_INITIATED"
                       [("orderId", VStr reqOrderId);
                        ("originalAmount", VNum (num (finalTotal order)))] ;;
           let refundAmt := Math_round (num (finalTotal order) * 100) in
           refundResponse <- gateway "razorpay.payments.refund"
                               [("amount", VNum refundAmt)] gw ;;
           Order_save (_id order)
             (fun o => set_refundDetails
                         (Some (mkRefund (rz_id refundResponse)
                                         (Z_to_float (rz_amount refundResponse) / 100)
                                         (rz_status refundResponse) reason adminId))
                         (set_status OS_Canceled PS_Refunded o)) ;;
           restoreProductStock (orderItems order) ;;
           commitTransaction ;;
           auditLogger "payment" "REFUND_SUCCESSFUL"
                       [("orderId", VStr reqOrderId);
                        ("refundId", VStr (rz_id refundResponse))] ;;
           ret (Json 200
                  [("success", VBool true);
                   ("message", VStr "Full refund processed successfully");
                   ("data", VObj [("refundId", VStr (rz_id refundResponse));
                                  ("amount", VNum (Z_to_float (rz_amount refundResponse) / 100));
                                  ("status", VStr (rz_status refundResponse));
                                  ("orderId", VStr reqOrderId)])])
     end)
    (fun error =>
       abortIfInTransaction ;;
       let errorMessage := orElse (message error) "Failed to process refund" in
       let errorCode := orElse (default "" (code error)) "REFUND_ERROR" in
       auditLogger "error" "REFUND_FAILED"
                   [("orderId", VStr reqOrderId); ("error", VStr errorMessage);
                    ("errorCode", VStr errorCode)] ;;
       ret (Json 400 [("success", VBool false); ("message", VStr errorMessage);
                      ("errorCode", VStr errorCode)])).

(** [POST /refund/partial]; [amount] is [parseFloat(req.body.amount)]. *)
Definition refund_partial (gw : Res RazorpayRefund) (reqOrderId : string)
           (amount : float) (reason : string) : M Response :=
  startTransaction ;;
  try_catch
    (found <- Order_findOne (byOrderId reqOrderId) ;;
     match found with
     | None => abortTransaction ;; ret (failure 404 "Order not found")
     | Some order =>
         if negb (truthy (transactionId order)) then
           abortTransaction ;;
           ret (failure 400 "Order has no valid payment transaction")
         else if negb (bool_decide (paymentStatus order = PS_Paid)) then
           abortTransaction ;; ret (failure 400 "Cannot refund unpaid order")
         else if (amount <=? 0)%float || (num (finalTotal order) <? amount)%float then
           abortTransaction ;; ret (failure 400 "Invalid refund amount")
         else
           let existingRefunds := partialRefunds order in
           let totalRefunded := sumRefunds existingRefunds in
           if (num (finalTotal order) <? totalRefunded + amount)%float then
             abortTransaction ;;
             ret (failure 400 (exceedsMessage amount totalRefunded (num (finalTotal order))))
           else
             auditLogger "payment" "PARTIAL_REFUND_INITIATED"
                         [("orderId", VStr reqOrderId);
                          ("refundAmount", VNum amount);
                          ("originalAmount", VNum (num (finalTotal order)))] ;;
             refundResponse <- gateway "razorpay.payments.refund"
                                 [("amount", VNum (Math_round (amount * 100)))] gw ;;
             let refunded := (Z_to_float (rz_amount refundResponse) / 100)%float in
             let newTotalRefunded := (totalRefunded + refunded)%float in
             Order_save (_id order)
               (fun o =>
                  let o' := set_partialRefunds
                              (existingRefunds
                                 ++ [mkRefund (rz_id refundResponse) refunded
                                              (rz_status refundResponse) reason adminId])
                              newTotalRefunded o in
                  if (num (finalTotal order) <=? newTotalRefunded)%float
                  then set_status OS_Canceled PS_Refunded o'
                  else o') ;;
             commitTransaction ;;
             auditLogger "payment" "PARTIAL_REFUND_SUCCESSFUL"
                         [("orderId", VStr reqOrderId);
                          ("totalRefunded", VNum newTotalRefunded)] ;;
             ret (Json 200
                    [("success", VBool true);
                     ("message", VStr "Partial refund processed successfully");
                     ("data", VObj [("refundId", VStr (rz_id refundResponse));
                                    ("amount", VNum refunded);
                                    ("status", VStr (rz_status refundResponse));
                                    ("orderId", VStr reqOrderId);
                                    ("totalRefunded", VNum newTotalRefunded)])])
     end)
    (fun error =>
       abortIfInTransaction ;;
       auditLogger "error" "PARTIAL_REFUND_FAILED"
                   [("orderId", VStr reqOrderId); ("refundAmount", VNum amount);
                    ("error", VStr (message error))] ;;
       ret (failure 400 (orElse (message error) "Failed to process partial refund"))).

(** [phonePeService.validateRefundAmount] *)
Definition validateRefundAmount (refundAmt originalAmount : float) : bool :=
  if negb (truthyNum refundAmt) || (refundAmt <=? 0)%float then false
  else if (originalAmount <? refundAmt)%float then false
  else true.

Definition noTransaction (order : Order) : bool :=
  negb (truthy (transactionId order)) && negb (truthy (merchantTransactionId order)).

(** [POST /phonepe-refund/full] *)
Definition phonepe_refund_full (gw : Res PhonePeRefund) (reqOrderId reason : string)
  : M Response :=
  startTransaction ;;
  try_catch
    (found <- Order_findOne (byOrderId reqOrderId) ;;
     match found with
     | None => abortTransaction ;; ret (failure 404 "Order not found")
     | Some order =>
         if negb (bool_decide (paymentMethod order = "phonepe")) then
           abortTransaction ;; ret (failure 400 "This is not a PhonePe order")
         else if noTransaction order then
           abortTransaction ;;
           ret (failure 400 "Order has no valid payment transaction")
         else if bool_decide (paymentStatus order = PS_Refunded) then
           abortTransaction ;; ret (failure 400 "Order is already refunded")
         else if negb (bool_decide (paymentStatus order = PS_Paid)) then
           abortTransaction ;; ret (failure 400 "Cannot refund unpaid order")
         else
           auditLogger "payment" "PHONEPE_REFUND_INITIATED"
                       [("orderId", VStr reqOrderId);
                        ("originalAmount", VNum (num (finalTotal order)))] ;;
           let refundAmt := Math_round (num (finalTotal order) * 100) in
           refundResponse <- gateway "phonePeService.processRefund"
                               [("amount", VNum refundAmt)] gw ;;
           Order_save (_id order)
             (fun o => set_refundDetails
                         (Some (mkRefund (pp_merchantRefundId refundResponse)
                                         (num (finalTotal order))
                                         (pp_status refundResponse) reason adminId))
                         (set_status OS_Canceled PS_Refunded o)) ;;
           restoreProductStock (orderItems order) ;;
           commitTransaction ;;
           auditLogger "payment" "PHONEPE_REFUND_SUCCESSFUL"
                       [("orderId", VStr reqOrderId);
                        ("refundId", VStr (pp_merchantRefundId refundResponse))] ;;
           ret (Json 200
                  [("success", VBool true);
                   ("message", VStr "PhonePe full refund processed successfully");
                   ("data", VObj [("refundId", VStr (pp_merchantRefundId refundResponse));
                                  ("phonePeRefundId", VStr (pp_phonePeRefundId refundResponse));
                                  ("amount", VNum (num (finalTotal order)));
                                  ("status", VStr (pp_status refundResponse));
                                  ("orderId", VStr reqOrderId)])])
     end)
    (fun error =>
       abortIfInTransaction ;;
       auditLogger "error" "PHONEPE_REFUND_FAILED"
                   [("orderId", VStr reqOrderId); ("error", VStr (message error))] ;;
       ret (failure 400 (orElse (message error) "Failed to process PhonePe refund"))).

(** [POST /phonepe-refund/partial] *)
Definition phonepe_refund_partial (gw : Res PhonePeRefund) (reqOrderId : string)
           (amount : float) (reason : string) : M Response :=
  startTransaction ;;
  try_catch
    (found <- Order_findOne (byOrderId reqOrderId) ;;
     match found with
     | None => abortTransaction ;; ret (failure 404 "Order not found")
     | Some order =>
         if negb (bool_decide (paymentMethod order = "phonepe")) then
           abortTransaction ;; ret (failure 400 "This is not a PhonePe order")
         else if noTransaction order then
           abortTransaction ;;
           ret (failure 400 "Order has no valid payment transaction")
         else if negb (bool_decide (paymentStatus order = PS_Paid)) then
           abortTransaction ;; ret (failure 400 "Cannot refund unpaid order")
         else if negb (validateRefundAmount amount (num (finalTotal order))) then
           abortTransaction ;; ret (failure 400 "Invalid refund amount")
         else
           let existingRefunds := partialRefunds order in
           let totalRefunded := sumRefunds existingRefunds in
           if (num (finalTotal order) <? totalRefunded + amount)%float then
             abortTransaction ;;
             ret (failure 400 (exceedsMessage amount totalRefunded (num (finalTotal order))))
           else
             auditLogger "payment" "PHONEPE_PARTIAL_REFUND_INITIATED"
                         [("orderId", VStr reqOrderId);
                          ("refundAmount", VNum amount);
                          ("originalAmount", VNum (num (finalTotal order)))] ;;
             refundResponse <- gateway "phonePeService.processRefund"
                                 [("amount", VNum (Math_round (amount * 100)))] gw ;;
             let newTotalRefunded := (totalRefunded + amount)%float in
             Order_save (_id order)
               (fun o =>
                  let o' := set_partialRefunds
                              (existingRefunds
                                 ++ [mkRefund (pp_merchantRefundId refundResponse) amount
                                              (pp_status refundResponse) reason adminId])
                              newTotalRefunded o in
                  if (num (finalTotal order) <=? newTotalRefunded)%float
                  then set_status OS_Canceled PS_Refunded o'
                  else o') ;;
             commitTransaction ;;
             auditLogger "payment" "PHONEPE_PARTIAL_REFUND_SUCCESSFUL"
                         [("orderId", VStr reqOrderId);
                          ("totalRefunded", VNum newTotalRefunded)] ;;
             ret (Json 200
                    [("success", VBool true);
                     ("message", VStr "PhonePe partial refund processed successfully");
                     ("data", VObj [("refundId", VStr (pp_merchantRefundId refundResponse));
                                    ("phonePeRefundId", VStr (pp_phonePeRefundId refundResponse));
                                    ("amount", VNum amount);
                                    ("status", VStr (pp_status refundResponse));
                                    ("orderId", VStr reqOrderId);
                                    ("totalRefunded", VNum newTotalRefunded)])])
     end)
    (fun error =>
       abortIfInTransaction ;;
       auditLogger "error" "PHONEPE_PARTIAL_REFUND_FAILED"
                   [("orderId", VStr reqOrderId); ("refundAmount", VNum amount);
                    ("error", VStr (message error))] ;;
       ret (failure 400 (orElse (message error) "Failed to process PhonePe partial refund"))).

End Refund.


(** ** JSON bodies *)

(** A parsed JSON body ([req.body]).  Numbers are the integers the
    gateways send (amounts in minor units). *)
Inductive json :=
| JNull
| JBool (b : bool)
| JNum (n : Z)
| JStr (s : string)
| JArr (items : list json)
| JObj (fields : list (string * json)).

Definition dquote : string := String (Ascii.ascii_of_nat 34) EmptyString.

(** String escaping of [JSON.stringify] for the quote and the backslash. *)
Fixpoint escape (s : string) : string :=
  match s with
  | EmptyString => EmptyString
  | String c rest =>
      if bool_decide (c = Ascii.ascii_of_nat 34) then String "\" (String c (escape rest))
      else if bool_decide (c = "\"%char) then String "\" (String "\" (escape rest))
      else String c (escape rest)
  end.

Definition quoted (s : string) : string := dquote +:+ escape s +:+ dquote.

Fixpoint join (sep : string) (l : list string) : string :=
  match l with
  | [] => ""
  | [x] => x
  | x :: rest => x +:+ sep +:+ join sep rest
  end.

(** [JSON.stringify(value)]: compact output, members in insertion order. *)
Fixpoint JSON_stringify (j : json) : string :=
  match j with
  | JNull => "null"
  | JBool true => "true"
  | JBool false => "false"
  | JNum n => pretty n
  | JStr s => quoted s
  | JArr items => "[" +:+ join "," (map JSON_stringify items) +:+ "]"
  | JObj fields =>
      "{" +:+ join "," (map (fun kv => quoted (fst kv) +:+ ":" +:+ JSON_stringify (snd kv)) fields)
          +:+ "}"
  end.

(** [value[key]]; [None] is [undefined]. *)
Definition field (key : string) (j : json) : option json :=
  match j with
  | JObj fields => snd <$> head (filter (fun kv => fst kv = key) fields)
  | _ => None
  end.

(** [value?.k1?.k2...] *)
Definition at_path (keys : list string) (j : option json) : option json :=
  foldl (fun acc key => match acc with Some v => field key v | None => None end) j keys.

Definition as_string (j : option json) : option string :=
  match j with
  | Some (JStr s) => Some s
  | _ => None
  end.

(** An incoming webhook request.  [rawBody] is the byte string the
    provider sent and signed; [body] is what the JSON body parser made of
    it ([req.body]). *)
Record WebhookRequest := mkWebhookRequest {
  rawBody : string;
  body : json;
  headers : list (string * string)
}.

Definition header (h : string) (req : WebhookRequest) : option string :=
  snd <$> head (filter (fun kv => fst kv = h) (headers req)).


(** ** PhonePe service ([services/phonePeService.js]) *)

Module PhonePeService.

Record RetryConfig := mkRetryConfig {
  maxRetries : nat;
  retryableErrors : list string
}.

(** [this.retryConfig] as set by the constructor. *)
Definition retryConfig : RetryConfig :=
  {| maxRetries := 1; retryableErrors := ["ECONNRESET"; "ENOTFOUND"; "EAI_AGAIN"] |}.

Definition isRetryableError (error : JsError) : bool :=
  match code error, http_status error with
  | None, None => false
  | c, st =>
      if match c with
         | Some c => bool_decide (c ∈ retryableErrors retryConfig)
         | None => false
         end
      then true
      else match st with
           | Some st => bool_decide (st ∈ [502; 503; 504; 522; 524])
           | None => false
           end
  end.

(** The [for] loop of [executeWithRetry]; [requestFunc n] is the
    outcome of the [n]-th attempt, each attempt is a provider call. *)
Fixpoint retryLoop {A} (call : string) (fuel attempt : nat)
         (requestFunc : nat -> Res A) (lastError : JsError) : M A :=
  match fuel with
  | O => throw lastError
  | S fuel' =>
      emit (EGateway call [("attempt", VNum (Z_to_float (Z.of_nat attempt)))]) ;;
      match requestFunc attempt with
      | Ok a => ret a
      | Throw error =>
          if bool_decide (attempt = maxRetries retryConfig)
             || negb (isRetryableError error)
          then throw error
          else retryLoop call fuel' (S attempt) requestFunc error
      end
  end.

Definition executeWithRetry {A} (call : string) (requestFunc : nat -> Res A) : M A :=
  retryLoop call (maxRetries retryConfig) 1%nat requestFunc
            (mkError "undefined" None None).

(** The body of the provider's status answer, as far as it is read. *)
Record StatusResponse := mkStatusResponse {
  r_state : option string;
  r_status : option string;
  r_data_state : option string;
  r_code : option string;
  r_data_code : option string;
  r_raw : string
}.

(** What [checkPaymentStatus] returns. *)
Record PaymentStatusResult := mkPaymentStatusResult {
  success : bool;
  st_transactionId : string;
  st_status : option string;
  st_code : option string;
  fullResponse : string
}.

(** [checkPaymentStatus(merchantOrderId)] *)
Definition checkPaymentStatus (requestFunc : nat -> Res StatusResponse)
           (merchantOrderId : string) : M PaymentStatusResult :=
  try_catch
    (result <- executeWithRetry "phonepe.checkout.v2.order.status" requestFunc ;;
     let paymentState := js_or (r_state result) (js_or (r_status result) (r_data_state result)) in
     let paymentCode := js_or (r_code result) (r_data_code result) in
     ret {| success := bool_decide (paymentState = Some "COMPLETED")
                       || bool_decide (paymentCode = Some "PAYMENT_SUCCESS");
            st_transactionId := merchantOrderId;
            st_status := paymentState;
            st_code := paymentCode;
            fullResponse := r_raw result |})
    (fun error =>
       if bool_decide (code error = Some "ECONNABORTED") then
         ret {| success := true;
                st_transactionId := merchantOrderId;
                st_status := Some "COMPLETED";
                st_code := Some "TIMEOUT_ASSUMED_SUCCESS";
                fullResponse := "{ assumedSuccess: true }" |}
       else
         ret {| success := false;
                st_transactionId := merchantOrderId;
                st_status := Some "PENDING";
                st_code := Some "STATUS_CHECK_FAILED";
                fullResponse := message error |}).

(** [xVerifyHeader.split('###')] *)
Fixpoint split_hashes (s : string) (acc : string) : list string :=
  match s with
  | EmptyString => [acc]
  | String "#" (String "#" (String "#" rest)) => acc :: split_hashes rest ""
  | String c rest => split_hashes rest (acc +:+ String c EmptyString)
  end.

Section Signature.
(** [crypto.createHash('sha256').update(s).digest('hex')] *)
Variable sha256_hex : string -> string.
(** [this.clientSecret] *)
Variable clientSecret : string.

Definition expectedSignature (responseBody : string) : string :=
  sha256_hex (responseBody +:+ "/pg/v1/status/" +:+ clientSecret).

Definition verifyWebhookSignature (xVerifyHeader : option string)
           (responseBody : string) : bool :=
  if negb (truthy xVerifyHeader) then false
  else
    match split_hashes (default "" xVerifyHeader) "" with
    | receivedSignature :: _ =>
        if bool_decide (receivedSignature = "") then false
        else bool_decide (expectedSignature responseBody = receivedSignature)
    | [] => false
    end.
End Signature.

End PhonePeService.


(** ** Order routes: create-order *)

Module OrderRoutes.

Record CartItem := mkCartItem {
  ci_productId : string;
  ci_quantity : float
}.

(** [userInfo] of a guest, or the [name email phone] of a user record. *)
Record Customer := mkCustomer {
  c_name : option string;
  c_email : option string;
  c_phone : option string
}.

(** The request of [POST /create-order]: the idempotency header and the
    body fields the handler reads. *)
Record CreateOrderRequest := mkCreateOrderRequest {
  x_idempotency_key : option string;
  req_paymentMethod : string;
  cartItems : list CartItem;
  req_shippingAddress : option Address;
  userInfo : option Customer;
  req_userId : option string;
  req_totalPrice : float;
  req_discountAmount : option float;
  req_shippingCharges : option float
}.

(** [isInt({ min: 1, max: 99 })] on a number. *)
Definition isInt_1_99 (q : float) : bool :=
  existsb (fun n => (q =? Z_to_float (Z.of_nat n))%float) (seq 1 99).

(** [isLength({ min, max })] on a member that must be there; strings
    are taken to be trimmed. *)
Definition lengthBetween (lo hi : nat) (s : option string) : bool :=
  match s with
  | Some s => (lo <=? String.length s)%nat && (String.length s <=? hi)%nat
  | None => false
  end.

(** An optional member: missing, or not empty (its format is taken to
    be the one asked for). *)
Definition optionalFilled (s : option string) : bool :=
  match s with
  | Some s => negb (bool_decide (s = ""))
  | None => true
  end.

(** [validateOrderCreation] ([middleware/validators.js]): a non-empty
    cart, quantities from 1 to 99, an address with street, city, state
    and zipcode, a non-empty payment method, a finite non-negative
    total price; [userInfo] and its members are optional.  Nothing is
    asked of [discountAmount], [shippingCharges] or the country. *)
Definition validateOrderCreation (req : CreateOrderRequest) : bool :=
  negb (bool_decide (cartItems req = []))
  && forallb (fun item => isInt_1_99 (ci_quantity item)) (cartItems req)
  && match req_shippingAddress req with
     | Some a => lengthBetween 5 100 (street a) && lengthBetween 2 50 (city a)
                 && lengthBetween 2 50 (state a) && lengthBetween 5 10 (zipcode a)
     | None => false
     end
  && negb (bool_decide (req_paymentMethod req = ""))
  && (0 <=? req_totalPrice req)%float && (req_totalPrice req <? infinity)%float
  && match userInfo req with
     | Some c => match c_name c with
                 | Some n => lengthBetween 2 50 (Some n)
                 | None => true
                 end
                 && optionalFilled (c_email c) && optionalFilled (c_phone c)
     | None => true
     end.

(** What [razorpay.orders.create] resolves to. *)
Record RazorpayOrder := mkRazorpayOrder {
  ro_id : string;
  ro_amount : Z;
  ro_currency : string
}.

(** What [phonePeService.createPaymentOrder] resolves to. *)
Record PhonePeOrder := mkPhonePeOrder {
  po_orderId : string;
  po_paymentUrl : string;
  po_merchantOrderId : string
}.

(** Outcome of [Promise.race] between the provider call and the
    15-second timer: the call resolved, the call rejected, or the timer
    fired first. *)
Inductive Race (A : Type) :=
| Resolved (a : A)
| Rejected (e : JsError)
| TimedOut.
Arguments Resolved {A} a.
Arguments Rejected {A} e.
Arguments TimedOut {A}.

Definition raceOutcome {A} (r : Race A) : Res A :=
  match r with
  | Resolved a => Ok a
  | Rejected e => Throw e
  | TimedOut => Throw (mkError "PhonePe_TIMEOUT" None None)
  end.

(** Everything outside the database that one create-order call reads. *)
Record Env := mkEnv {
  today : string;                          (* the date as YYYYMMDD *)
  now : Z;                                 (* [new Date()] in ms *)
  userRecord : option Customer;            (* [User.findById(userId)] *)
  razorpayCreate : Res RazorpayOrder;
  phonePeRace : Race PhonePeOrder
}.

(** [s.split("-").pop()] *)
Fixpoint last_segment (s acc : string) : string :=
  match s with
  | EmptyString => acc
  | String "-" rest => last_segment rest ""
  | String c rest => last_segment rest (acc +:+ String c EmptyString)
  end.

(** First document of [Order.findOne({}, {}, { sort: { createdAt: -1 } })]. *)
Definition lastOrder (l : list Order) : option Order :=
  foldl (fun best o =>
           match best with
           | None => Some o
           | Some b => if createdAt b <? createdAt o then Some o else Some b
           end) None l.

Definition generateOrderId (today : string) : M string :=
  fun w =>
    let lastOrderNumber :=
      match lastOrder (orders w) with
      | Some o => parseInt (last_segment (orderId o) "")
      | None => 0%float
      end in
    (Ok ("ORD-" +:+ today +:+ "-" +:+ Number_toString (lastOrderNumber + 1)%float), w).

(** [$regex: `^(phonepe|razorpay)_${baseIdempotencyKey}$`] for a base
    key made of characters that stand for themselves in a regular
    expression. *)
Definition matchesGatewayKey (baseIdempotencyKey key : string) : bool :=
  bool_decide (key = "phonepe_" +:+ baseIdempotencyKey)
  || bool_decide (key = "razorpay_" +:+ baseIdempotencyKey).

Definition isPendingFor (baseIdempotencyKey : string) (o : Order) : bool :=
  matchesGatewayKey baseIdempotencyKey (idempotencyKey o)
  && bool_decide (paymentStatus o = PS_Pending)
  && bool_decide (orderStatus o = OS_Pending).

Fixpoint cancelEach (pendingOrders : list Order) : M unit :=
  match pendingOrders with
  | [] => ret tt
  | pendingOrder :: rest =>
      restoreStock (orderItems pendingOrder) ;;
      Order_update (_id pendingOrder) (set_status OS_Canceled PS_Failed) ;;
      cancelEach rest
  end.

(** The clean-up block at the start of the handler; its errors are
    swallowed. *)
Definition cancelPendingOrders (baseIdempotencyKey : string) : M unit :=
  try_catch
    (pendingOrders <- Order_find (isPendingFor baseIdempotencyKey) ;;
     cancelEach pendingOrders)
    (fun _ => ret tt).

Definition isGatewayMethod (method : string) : bool :=
  bool_decide (method = "razorpay") || bool_decide (method = "phonepe").

(** The loop that builds [orderItems] and compares [product.stock]
    with the quantity. *)
Fixpoint prepareOrderItems (method : string) (cart : list CartItem)
         (items : list OrderItem) : M (Response + list OrderItem) :=
  match cart with
  | [] => ret (inr items)
  | item :: rest =>
      found <- Product_findById (ci_productId item) ;;
      match found with
      | None =>
          abortTransaction ;;
          ret (inl (Json 404 [("message", VStr ("Product with ID " +:+ ci_productId item +:+ " not found."))]))
      | Some product =>
          if (num (stock product) <? ci_quantity item)%float then
            abortTransaction ;;
            ret (inl (Json 400 [("message",
                                 VStr ("Insufficient stock for "
                                         +:+ prod_name (doc_fields product) +:+ "."))]))
          else
            let orderItem :=
              mkItem (ci_productId item) (prod_name (doc_fields product))
                     (prod_price (doc_fields product)) (ci_quantity item)
                     (prod_price (doc_fields product) * ci_quantity item)%float in
            if isGatewayMethod method then
              prepareOrderItems method rest (items ++ [orderItem])
            else
              Product_save (ci_productId item)
                           (set_stock (num (stock product) - ci_quantity item)%float product) ;;
              prepareOrderItems method rest (items ++ [orderItem])
      end
  end.

(** The loop "Deduct stock AFTER PhonePe success". *)
Fixpoint deductStock (items : list OrderItem) : M unit :=
  match items with
  | [] => ret tt
  | item :: rest =>
      found <- Product_findById (productId item) ;;
      match found with
      | Some product =>
          Product_save (productId item)
                       (set_stock (num (stock product) - quantity item)%float product)
      | None => ret tt
      end ;;
      deductStock rest
  end.

(** [orderData] / [cancelledOrderData] with the customer fields attached. *)
Definition orderData (req : CreateOrderRequest) (userDetails : option Customer)
           (userFriendlyOrderId idemKey method : string) (items : list OrderItem)
           (total : float) (os : OrderStatus) (ps : PaymentStatus)
           (txn mtxn : option string) : Order :=
  let asUser := truthy (req_userId req) && bool_decide (is_Some userDetails) in
  {| _id := 0%nat;
     orderId := userFriendlyOrderId;
     idempotencyKey := idemKey;
     paymentMethod := method;
     orderItems := items;
     finalTotal := Some total;
     paymentStatus := ps;
     orderStatus := os;
     transactionId := txn;
     merchantTransactionId := mtxn;
     phonePePaymentData := None;
     isRegisteredUser := truthy (req_userId req);
     userEmail := if asUser then userDetails ≫= c_email else None;
     guestEmail := if asUser then None else userInfo req ≫= c_email;
     refundDetails := None;
     partialRefunds := [];
     totalRefunded := 0;
     createdAt := 0;
     userId := req_userId req;
     userName := if asUser then userDetails ≫= c_name else None;
     userPhone := if asUser then userDetails ≫= c_phone else None;
     guestName := if asUser then None else userInfo req ≫= c_name;
     guestPhone := if asUser then None else userInfo req ≫= c_phone;
     shippingAddress := req_shippingAddress req;
     totalPrice := Some (req_totalPrice req);
     discountAmount := req_discountAmount req;
     shippingCharges := req_shippingCharges req |}.

(** [tempOrderData], the bundle handed to the client. *)
Definition tempOrderData (userFriendlyOrderId idemKey method : string) (total : float) : Val :=
  VObj [("paymentMethod", VStr method); ("finalTotal", VNum total);
        ("orderId", VStr userFriendlyOrderId); ("idempotencyKey", VStr idemKey)].

Definition includes (needle hay : string) : bool :=
  bool_decide (is_Some (String.index 0 needle hay)).

(** The razorpay branch: create the provider order, persist nothing. *)
Definition razorpayBranch (env : Env) (userFriendlyOrderId idemKey : string)
           (total : float) : M Response :=
  razorpayOrder <- gateway "razorpay.orders.create"
                     [("amount", VNum (Math_round (total * 100)));
                      ("receipt", VStr userFriendlyOrderId)]
                     (razorpayCreate env) ;;
  commitTransaction ;;
  auditLogger "payment" "RAZORPAY_ORDER_CREATED"
              [("orderId", VStr userFriendlyOrderId);
               ("razorpayOrderId", VStr (ro_id razorpayOrder));
               ("idempotencyKey", VStr idemKey)] ;;
  ret (Json 200
         [("success", VBool true);
          ("razorpayOrderId", VStr (ro_id razorpayOrder));
          ("amount", VNum (Z_to_float (ro_amount razorpayOrder)));
          ("currency", VStr (ro_currency razorpayOrder));
          ("orderId", VStr userFriendlyOrderId);
          ("orderData", tempOrderData userFriendlyOrderId idemKey "razorpay" total)]).

(** The [catch] block of the PhonePe branch. *)
Definition phonePeFailure (env : Env) (req : CreateOrderRequest)
           (userDetails : option Customer) (userFriendlyOrderId idemKey : string)
           (items : list OrderItem) (total : float) (error : JsError) : M Response :=
  auditLogger "error" "PHONEPE_ORDER_CREATION_FAILED"
              [("orderId", VStr userFriendlyOrderId);
               ("error", VStr (message error));
               ("idempotencyKey", VStr idemKey)] ;;
  abortIfInTransaction ;;
  handled <-
    (if bool_decide (message error = "PhonePe_TIMEOUT") then
       try_catch
         (Order_insert (now env)
            (orderData req userDetails userFriendlyOrderId idemKey "phonepe" items total
                       OS_Canceled PS_Failed None None) ;;
          ret (Some (Json 200
                 [("success", VBool false);
                  ("phonepeTimeout", VBool true);
                  ("orderId", VStr userFriendlyOrderId);
                  ("message", VStr "PhonePe payment timed out. Order has been cancelled.");
                  ("redirectTo",
                    VStr ("/store/order-confirmation.html?error=phonepe_timeout&orderId="
                            +:+ userFriendlyOrderId))])))
         (fun _ => ret None)
     else ret None) ;;
  match handled with
  | Some response => ret response
  | None =>
      let userMessage :=
        if includes "timeout" (message error)
           || bool_decide (message error = "PhonePe_TIMEOUT")
        then "PhonePe service timeout. Please try again with a different payment method."
        else if includes "network" (message error) || includes "connect" (message error)
        then "Network connection issue. Please check your internet and try again."
        else if includes "duplicate" (message error)
                || bool_decide (code error = Some "11000")
        then "Order already exists. Please refresh and check your orders."
        else "Unable to create PhonePe payment. Please try again." in
      ret (Json 500
             [("success", VBool false);
              ("message", VStr userMessage);
              ("errorType", VStr "phonepe_error");
              ("canRetry", VBool (negb (includes "duplicate" (message error))))])
  end.

(** The PhonePe branch: duplicate check, provider intent, then stock
    deduction and the Pending order row. *)
Definition phonePeBranch (env : Env) (req : CreateOrderRequest)
           (userDetails : option Customer) (userFriendlyOrderId idemKey : string)
           (items : list OrderItem) (total : float) : M Response :=
  existing <- Order_findOne
                (fun o => bool_decide (orderId o = userFriendlyOrderId)
                          || bool_decide (idempotencyKey o = idemKey)) ;;
  match existing with
  | Some existingOrder =>
      abortTransaction ;;
      let paymentUrl :=
        if truthy (transactionId existingOrder)
        then VStr ("#existing-" +:+ orderId existingOrder) else VNull in
      ret (Json 200
             [("success", VBool true);
              ("message", VStr "Order already processed");
              ("orderId", VStr (orderId existingOrder));
              ("phonePeTransactionId", optStr_of (transactionId existingOrder));
              ("paymentUrl", paymentUrl);
              ("amount", VNum (Math_round (num (finalTotal existingOrder) * 100)));
              ("orderData", VNull);
              ("redirectUrl", paymentUrl)])
  | None =>
      try_catch
        (phonePeResult <- gateway "phonePeService.createPaymentOrder"
                            [("amount", VNum (Math_round (total * 100)));
                             ("orderId", VStr userFriendlyOrderId)]
                            (raceOutcome (phonePeRace env)) ;;
         deductStock items ;;
         Order_insert (now env)
           (orderData req userDetails userFriendlyOrderId idemKey "phonepe" items total
                      OS_Pending PS_Pending
                      (Some (po_orderId phonePeResult))
                      (Some (po_merchantOrderId phonePeResult))) ;;
         commitTransaction ;;
         auditLogger "payment" "PHONEPE_ORDER_CREATED"
                     [("orderId", VStr userFriendlyOrderId);
                      ("phonePeTransactionId", VStr (po_orderId phonePeResult));
                      ("idempotencyKey", VStr idemKey)] ;;
         notifySeller userFriendlyOrderId ;;
         ret (Json 200
                [("success", VBool true);
                 ("phonePeTransactionId", VStr (po_orderId phonePeResult));
                 ("paymentUrl", VStr (po_paymentUrl phonePeResult));
                 ("orderId", VStr userFriendlyOrderId);
                 ("amount", VNum (Math_round (total * 100)));
                 ("orderData", tempOrderData userFriendlyOrderId idemKey "phonepe" total);
                 ("redirectUrl", VStr (po_paymentUrl phonePeResult))]))
        (phonePeFailure env req userDetails userFriendlyOrderId idemKey items total)
  end.

(** Any other payment method: the order row is saved at once. *)
Definition otherBranch (env : Env) (req : CreateOrderRequest)
           (userDetails : option Customer) (userFriendlyOrderId idemKey method : string)
           (items : list OrderItem) (total : float) : M Response :=
  Order_insert (now env)
    (orderData req userDetails userFriendlyOrderId idemKey method items total
               OS_Pending PS_Pending None None) ;;
  commitTransaction ;;
  auditLogger "info" "ORDER_CREATED_SUCCESSFULLY"
              [("orderId", VStr userFriendlyOrderId);
               ("paymentMethod", VStr method);
               ("idempotencyKey", VStr idemKey)] ;;
  notifySeller userFriendlyOrderId ;;
  ret (Json 201 [("message", VStr "Order created successfully");
                 ("orderId", VStr userFriendlyOrderId)]).

(** The [try] block that runs inside the transaction. *)
Definition createOrderBody (env : Env) (req : CreateOrderRequest)
           (idemKey : string) : M Response :=
  let method := req_paymentMethod req in
  if bool_decide (cartItems req = []) then
    ret (Json 400 [("message", VStr "Cart is empty.")])
  else if negb (bool_decide (is_Some (req_shippingAddress req)))
          || bool_decide (method = "") then
    ret (Json 422 [("message", VStr "Shipping address and payment method are required.")])
  else
    let total := (req_totalPrice req - num (req_discountAmount req)
                  + num (req_shippingCharges req))%float in
    userFriendlyOrderId <- generateOrderId (today env) ;;
    auditLogger "info" "ORDER_CREATION_STARTED"
                [("orderId", VStr userFriendlyOrderId);
                 ("idempotencyKey", VStr idemKey);
                 ("paymentMethod", VStr method);
                 ("totalAmount", VNum total)] ;;
    let userDetails := if truthy (req_userId req) then userRecord env else None in
    prepared <- prepareOrderItems method (cartItems req) [] ;;
    match prepared with
    | inl response => ret response
    | inr items =>
        if bool_decide (method = "razorpay") then
          razorpayBranch env userFriendlyOrderId idemKey total
        else if bool_decide (method = "phonepe") then
          phonePeBranch env req userDetails userFriendlyOrderId idemKey items total
        else
          otherBranch env req userDetails userFriendlyOrderId idemKey method items total
    end.

(** The duplicate check and everything after it. *)
Definition afterCleanup (env : Env) (req : CreateOrderRequest)
           (idemKey : string) : M Response :=
  existing <- Order_findOne (fun o => bool_decide (idempotencyKey o = idemKey)) ;;
  match existing with
  | Some existingOrder =>
      auditLogger "warn" "DUPLICATE_ORDER_ATTEMPT"
                  [("orderId", VStr (orderId existingOrder));
                   ("idempotencyKey", VStr idemKey);
                   ("existingStatus", VStr (OrderStatus_to_string (orderStatus existingOrder)))] ;;
      ret (Json 409
             [("message", VStr "Order already exists with this idempotency key.");
              ("orderId", VStr (orderId existingOrder));
              ("status", VStr (OrderStatus_to_string (orderStatus existingOrder)))])
  | None =>
      startTransaction ;;
      try_catch (createOrderBody env req idemKey)
                (fun error => abortIfInTransaction ;; throw error)
  end.

(** [POST /create-order].  A thrown result goes to the error-handler
    middleware. *)
Definition create_order (env : Env) (req : CreateOrderRequest) : M Response :=
  if negb (validateOrderCreation req) then
    ret (Json 400 [("message", VStr "Validation failed")])
  else if negb (truthy (x_idempotency_key req)) then
    ret (Json 400 [("message", VStr "Idempotency key is required to prevent duplicate orders.")])
  else
    let baseIdempotencyKey := default "" (x_idempotency_key req) in
    let idemKey := req_paymentMethod req +:+ "_" +:+ baseIdempotencyKey in
    cancelPendingOrders baseIdempotencyKey ;;
    afterCleanup env req idemKey.

End OrderRoutes.


(** ** Order routes: payment confirmation *)

Module Confirmation.

Import PhonePeService.

(** [order.isRegisteredUser ? order.userEmail : order.guestEmail] *)
Definition customerEmail (order : Order) : option string :=
  if isRegisteredUser order then userEmail order else guestEmail order.

(** The block that sends the customer confirmation e-mail; a failure
    of the mailer is swallowed. *)
Definition sendCheckoutSuccessEmail (order : Order) : M unit :=
  if truthy (customerEmail order)
  then emit (EEmail (default "" (customerEmail order)) (orderId order))
  else ret tt.

Definition confirmationPage (query : string) : Response :=
  Redirect ("/store/order-confirmation.html?" +:+ query).

(** [GET /phonepe-return/:orderId]; [queryTransactionId] is
    [req.query.transactionId], [statusCheck] the provider's answers to
    the status request. *)
Definition phonepe_return (statusCheck : nat -> Res StatusResponse)
           (reqOrderId : string) (queryTransactionId : option string) : M Response :=
  try_catch
    (found <- Order_findOne (fun o => bool_decide (orderId o = reqOrderId)) ;;
     match found with
     | None => ret (confirmationPage ("error=order_not_found&orderId=" +:+ reqOrderId))
     | Some order =>
         if bool_decide (orderStatus order = OS_Canceled)
            && bool_decide (paymentStatus order = PS_Failed) then
           ret (confirmationPage ("error=order_cancelled&orderId=" +:+ reqOrderId))
         else
           let actualTransactionId :=
             js_or (merchantTransactionId order)
                   (js_or queryTransactionId (transactionId order)) in
           if negb (truthy actualTransactionId) then
             ret (confirmationPage ("error=no_transaction_id&orderId=" +:+ reqOrderId))
           else
             try_catch
               (result <- checkPaymentStatus statusCheck (default "" actualTransactionId) ;;
                if success result then
                  (if negb (bool_decide (paymentStatus order = PS_Paid)) then
                     Order_update (_id order)
                       (fun o => set_phonePePaymentData (Some (fullResponse result))
                                   (set_transactionId actualTransactionId
                                      (set_status OS_Processing PS_Paid o))) ;;
                     sendCheckoutSuccessEmail order
                   else ret tt) ;;
                  ret (confirmationPage ("orderId=" +:+ reqOrderId +:+ "&status=success"))
                else
                  ret (confirmationPage ("error=payment_failed&orderId=" +:+ reqOrderId)))
               (fun _ =>
                  ret (confirmationPage ("error=verification_failed&orderId=" +:+ reqOrderId)))
     end)
    (fun error =>
       auditLogger "error" "PHONEPE_RETURN_HANDLER_ERROR"
                   [("orderId", VStr reqOrderId); ("error", VStr (message error))] ;;
       ret (confirmationPage ("error=system_error&orderId=" +:+ reqOrderId))).

Definition typeError : JsError :=
  mkError "Cannot read properties of undefined" None None.

(** [SyntaxError] of [JSON.parse]. *)
Definition syntaxError : JsError := mkError "Unexpected token in JSON" None None.

Section Webhooks.
(** [crypto.createHash('sha256').update(s).digest('hex')] *)
Variable sha256_hex : string -> string.
(** [crypto.createHmac('sha256', key).update(s).digest('hex')] *)
Variable hmac_sha256_hex : string -> string -> string.
(** [JSON.parse(Buffer.from(s, 'base64').toString('utf-8'))] *)
Variable parseBase64Json : string -> option json.
(** [phonePeService.clientSecret] and [RAZORPAY_WEBHOOK_SECRET] *)
Variable clientSecret : string.
Variable RAZORPAY_WEBHOOK_SECRET : option string.

(** The string the PhonePe webhook handler passes as [responseBody]. *)
Definition phonepe_signed_message (req : WebhookRequest) : string :=
  JSON_stringify (body req).

(** [POST /phonepe-webhook] *)
Definition phonepe_webhook (req : WebhookRequest) : M Response :=
  try_catch
    (let xVerifyHeader := header "x-verify" req in
     let responseBody := phonepe_signed_message req in
     let isValid := verifyWebhookSignature sha256_hex clientSecret xVerifyHeader responseBody in
     if negb isValid then
       auditLogger "security" "PHONEPE_WEBHOOK_SIGNATURE_FAILED" [] ;;
       ret (Json 400 [("success", VBool false);
                      ("message", VStr "Invalid webhook signature.")])
     else
       webhookData <-
         match as_string (field "response" (body req)) with
         | Some response =>
             if bool_decide (response = "") then ret (body req)
             else match parseBase64Json response with
                  | Some decoded => ret decoded
                  | None => throw syntaxError
                  end
         | None => ret (body req)
         end ;;
       let data := field "data" webhookData in
       let txnId := as_string (at_path ["merchantTransactionId"] data) in
       let paymentState := as_string (at_path ["state"] data) in
       let webhookCode := as_string (field "code" webhookData) in
       if negb (truthy txnId) then
         ret (Json 400 [("success", VBool false);
                        ("message", VStr "Missing transaction ID.")])
       else
         auditLogger "payment" "PHONEPE_WEBHOOK_RECEIVED"
                     [("transactionId", optStr_of txnId)] ;;
         found <- Order_findOne (fun o => bool_decide (transactionId o = txnId)) ;;
         match found with
         | None => ret (Json 404 [("success", VBool false);
                                  ("message", VStr "Order not found.")])
         | Some order =>
             (if bool_decide (paymentState = Some "COMPLETED")
                 && bool_decide (webhookCode = Some "PAYMENT_SUCCESS") then
                Order_update (_id order)
                  (fun o => set_phonePePaymentData (Some (JSON_stringify webhookData))
                              (set_status OS_Processing PS_Paid o)) ;;
                sendCheckoutSuccessEmail order ;;
                notifySeller (orderId order) ;;
                auditLogger "payment" "PHONEPE_WEBHOOK_SUCCESS"
                            [("orderId", VStr (orderId order))]
              else
                Order_update (_id order)
                  (fun o => set_phonePePaymentData (Some (JSON_stringify webhookData))
                              (set_status OS_Canceled PS_Failed o)) ;;
                auditLogger "payment" "PHONEPE_WEBHOOK_FAILURE"
                            [("orderId", VStr (orderId order))]) ;;
             ret (Json 200 [("success", VBool true)])
         end)
    (fun error =>
       auditLogger "error" "PHONEPE_WEBHOOK_ERROR" [("error", VStr (message error))] ;;
       ret (Json 500 [("success", VBool false)])).

(** [payload.payment.entity]; reading through a missing member throws. *)
Definition paymentEntity (payload : option json) : M json :=
  match at_path ["payment"; "entity"] payload with
  | Some entity => ret entity
  | None => throw typeError
  end.

(** [handlePaymentCaptured(payload)] of the order routes. *)
Definition handlePaymentCaptured (payload : option json) : M unit :=
  entity <- paymentEntity payload ;;
  let payment_id := as_string (field "id" entity) in
  let notedOrderId := as_string (at_path ["notes"; "orderId"] (Some entity)) in
  if negb (truthy notedOrderId) then ret tt
  else
    found <- Order_findOne (fun o => bool_decide (Some (orderId o) = notedOrderId)) ;;
    match found with
    | Some order =>
        if negb (bool_decide (paymentStatus order = PS_Paid)) then
          Order_update (_id order)
            (fun o => set_transactionId payment_id
                        (set_status OS_Processing PS_Paid o)) ;;
          auditLogger "payment" "RAZORPAY_PAYMENT_CAPTURED_WEBHOOK"
                      [("orderId", VStr (orderId order))] ;;
          notifySeller (orderId order)
        else ret tt
    | None => ret tt
    end.

(** [handlePaymentFailed(payload)] of the order routes. *)
Definition handlePaymentFailed (payload : option json) : M unit :=
  entity <- paymentEntity payload ;;
  let notedOrderId := as_string (at_path ["notes"; "orderId"] (Some entity)) in
  if negb (truthy notedOrderId) then ret tt
  else
    found <- Order_findOne (fun o => bool_decide (Some (orderId o) = notedOrderId)) ;;
    match found with
    | Some order =>
        if negb (bool_decide (paymentStatus order = PS_Paid)) then
          Order_update (_id order) (set_status OS_Canceled PS_Failed) ;;
          restoreStock (orderItems order) ;;
          auditLogger "payment" "RAZORPAY_PAYMENT_FAILED_WEBHOOK"
                      [("orderId", VStr (orderId order))]
        else ret tt
    | None => ret tt
    end.

(** [handleRefundProcessed(payload)] of the order routes.  The
    amount of the notification is taken to be a number of paise,
    [null] or missing: [null / 100] is 0 and [undefined / 100] is
    [NaN], which the save of the order refuses. *)
Definition handleRefundProcessed (payload : option json) : M unit :=
  match at_path ["refund"; "entity"] payload with
  | None => throw typeError
  | Some entity =>
      let paymentId := as_string (field "payment_id" entity) in
      found <- Order_findOne (fun o => bool_decide (transactionId o = paymentId)) ;;
      match found with
      | Some order =>
          let amount := match field "amount" entity with
                        | Some (JNum n) => (Z_to_float n / 100)%float
                        | Some JNull => 0%float
                        | _ => nan
                        end in
          Order_save (_id order)
            (fun o => set_refundDetails
                        (Some (mkRefund (default "" (as_string (field "id" entity))) amount
                                        (default "" (as_string (field "status" entity)))
                                        "Webhook processed refund" ""))
                        (set_status OS_Canceled PS_Refunded o)) ;;
          restoreStock (orderItems order) ;;
          auditLogger "payment" "RAZORPAY_REFUND_PROCESSED_WEBHOOK"
                      [("orderId", VStr (orderId order))]
      | None => ret tt
      end
  end.

(** The string both Razorpay webhook handlers feed to the HMAC. *)
Definition razorpay_signed_message (req : WebhookRequest) : string :=
  JSON_stringify (body req).

Definition dispatch (captured failed refunded : option json -> M unit)
           (req : WebhookRequest) : M unit :=
  let event := as_string (field "event" (body req)) in
  let payload := field "payload" (body req) in
  if bool_decide (event = Some "payment.captured") then captured payload
  else if bool_decide (event = Some "payment.failed") then failed payload
  else if bool_decide (event = Some "refund.processed") then refunded payload
  else ret tt.

(** [POST /razorpay-webhook] of the order routes. *)
Definition razorpay_webhook (req : WebhookRequest) : M Response :=
  try_catch
    (if negb (truthy RAZORPAY_WEBHOOK_SECRET) then
       auditLogger "error" "RAZORPAY_WEBHOOK_SECRET_MISSING" [] ;;
       ret (Json 500 [("status", VStr "Webhook secret not configured")])
     else
       let digest := hmac_sha256_hex (default "" RAZORPAY_WEBHOOK_SECRET)
                                     (razorpay_signed_message req) in
       if negb (bool_decide (Some digest = header "x-razorpay-signature" req)) then
         auditLogger "security" "RAZORPAY_WEBHOOK_SIGNATURE_FAILED" [] ;;
         ret (Json 400 [("status", VStr "Signature mismatch")])
       else
         auditLogger "payment" "RAZORPAY_WEBHOOK_RECEIVED"
                     [("event", optStr_of (as_string (field "event" (body req))))] ;;
         dispatch handlePaymentCaptured handlePaymentFailed handleRefundProcessed req ;;
         ret (Json 200 [("status", VStr "ok")]))
    (fun error =>
       auditLogger "error" "RAZORPAY_WEBHOOK_ERROR" [("error", VStr (message error))] ;;
       ret (Json 500 [("status", VStr "error"); ("message", VStr (message error))])).

End Webhooks.

End Confirmation.


(** ** [webhooks/razorpayWebhook.js] *)

Module RazorpayWebhook.

Import Confirmation.

Section Handler.
Variable hmac_sha256_hex : string -> string -> string.
(** [process.env.RAZORPAY_WEBHOOK_SECRET], taken to be set. *)
Variable secret : string.

(** [payload.payment.entity.notes.orderId]; a missing member on the
    way throws. *)
Definition notedOrderId (payload : option json) : M (json * option string) :=
  match at_path ["payment"; "entity"] payload with
  | Some entity =>
      match field "notes" entity with
      | Some notes => ret (entity, as_string (field "orderId" notes))
      | None => throw typeError
      end
  | None => throw typeError
  end.

Definition handlePaymentCaptured (payload : option json) : M unit :=
  read <- notedOrderId payload ;;
  let payment_id := as_string (field "id" (fst read)) in
  found <- Order_findOne (fun o => bool_decide (Some (orderId o) = snd read)) ;;
  match found with
  | Some order =>
      if negb (bool_decide (paymentStatus order = PS_Paid)) then
        Order_update (_id order)
          (fun o => set_transactionId payment_id (set_status OS_Processing PS_Paid o)) ;;
        auditLogger "payment" "RAZORPAY_PAYMENT_CAPTURED_WEBHOOK"
                    [("orderId", VStr (orderId order))] ;;
        notifySeller (orderId order)
      else ret tt
  | None => ret tt
  end.

Definition handlePaymentFailed (payload : option json) : M unit :=
  read <- notedOrderId payload ;;
  found <- Order_findOne (fun o => bool_decide (Some (orderId o) = snd read)) ;;
  match found with
  | Some order =>
      if negb (bool_decide (paymentStatus order = PS_Paid)) then
        Order_update (_id order) (set_status OS_Canceled PS_Failed) ;;
        auditLogger "payment" "RAZORPAY_PAYMENT_FAILED_WEBHOOK"
                    [("orderId", VStr (orderId order))]
      else ret tt
  | None => ret tt
  end.

Definition handleRefundProcessed (payload : option json) : M unit :=
  match at_path ["refund"; "entity"] payload with
  | None => throw typeError
  | Some entity =>
      let paymentId := as_string (field "payment_id" entity) in
      found <- Order_findOne (fun o => bool_decide (transactionId o = paymentId)) ;;
      match found with
      | Some order =>
          Order_update (_id order) (set_status OS_Canceled PS_Refunded) ;;
          auditLogger "payment" "RAZORPAY_REFUND_PROCESSED_WEBHOOK"
                      [("orderId", VStr (orderId order))]
      | None => ret tt
      end
  end.

(** [handleRazorpayWebhook(req, res)] *)
Definition handleRazorpayWebhook (req : WebhookRequest) : M Response :=
  let digest := hmac_sha256_hex secret (razorpay_signed_message req) in
  if negb (bool_decide (Some digest = header "x-razorpay-signature" req)) then
    auditLogger "security" "RAZORPAY_WEBHOOK_SIGNATURE_FAILED" [] ;;
    ret (Json 400 [("status", VStr "Signature mismatch")])
  else
    auditLogger "payment" "RAZORPAY_WEBHOOK_RECEIVED"
                [("event", optStr_of (as_string (field "event" (body req))))] ;;
    try_catch
      (dispatch handlePaymentCaptured handlePaymentFailed handleRefundProcessed req ;;
       ret (Json 200 [("status", VStr "ok")]))
      (fun error =>
         ret (Json 500 [("status", VStr "error"); ("message", VStr (message error))])).
End Handler.

End RazorpayWebhook.


(** ** Vocabulary of the statements *)

(** The database part of the world. *)
Definition sameStore (w w' : World) : Prop :=
  products w' = products w /\ orders w' = orders w.

(** The [product.save()] calls of a stock loop over [items], of the
    items selected by [keep]: one for each item whose product exists. *)
Definition savesOf (keep : OrderItem -> bool) (items : list OrderItem)
           (m : gmap string Product) : list Event :=
  flat_map (fun item =>
              if keep item && bool_decide (is_Some (m !! productId item))
              then [EProductSave (productId item)] else []) items.

Definition allItems (_ : OrderItem) : bool := true.

(** The [product.save()] calls of a loop that restores stock. *)
Definition restoreEvents (items : list OrderItem) (m : gmap string Product) : list Event :=
  savesOf allItems items m.

(** The audit-log entries of a trace. *)
Definition isAudit (e : Event) : bool :=
  match e with EAudit _ _ _ => true | _ => false end.

Definition audits (t : list Event) : list Event :=
  List.filter isAudit t.

(** Events that touch no order row, no provider and no customer. *)
Definition isStockSave (e : Event) : bool :=
  match e with EProductSave _ => true | _ => false end.

(** *** Auto-cancel sweep *)

Module SweepSpec.
Import AutoCancel.

(** Items of order [id] whose product operation does not fail. *)
Definition keepItem (F : Faults) (id : nat) (item : OrderItem) : bool :=
  negb (product_fails F id (productId item)).

(** The audit entry that records the outcome for one order. *)
Definition outcomeEvent (F : Faults) (o : Order) : Event :=
  if update_fails F (_id o)
  then EAudit "error" "AUTO_CANCEL_ORDER_FAILED"
              [("orderId", VStr (orderId o)); ("error", VStr (message dbError))]
  else EAudit "warn" "ORDER_AUTO_CANCELLED_BY_SERVICE"
              [("orderId", VStr (orderId o));
               ("paymentMethod", VStr (paymentMethod o))].

Definition cancelledOf (F : Faults) (sel : list Order) : list Order :=
  List.filter (fun o => negb (update_fails F (_id o))) sel.

Definition failedOf (F : Faults) (sel : list Order) : list Order :=
  List.filter (fun o => update_fails F (_id o)) sel.

Definition summaryEvent (F : Faults) (sel : list Order) : Event :=
  EAudit "info" "AUTO_CANCEL_SUMMARY"
         [("totalFound", VNum (Z_to_float (Z.of_nat (length sel))));
          ("cancelled", VNum (Z_to_float (Z.of_nat (length (cancelledOf F sel)))));
          ("errors", VNum (Z_to_float (Z.of_nat (length (failedOf F sel)))))].

(** The orders a sweep selects. *)
Definition selected (cfg : Config) (now : Z) (w : World) : list Order :=
  filter (fun o => isStale cfg now o = true) (orders w).

Definition logsSummary (w : World) : Prop :=
  exists data, In (EAudit "info" "AUTO_CANCEL_SUMMARY" data) (trace w).
End SweepSpec.

(** *** Sample data for the concrete runs *)

Module Sample.

Definition apple : Product := mkProduct "Apple" 100.
Definition pear : Product := mkProduct "Pear" 50.

Definition catalogue : gmap string Product :=
  <["p1" := apple]> (<["p2" := pear]> ∅).

Definition twoApples : OrderItem := mkItem "p1" "Apple" 100 2 200.
Definition onePear : OrderItem := mkItem "p2" "Pear" 50 1 50.
(** An item whose product was deleted from the catalogue. *)
Definition oneGone : OrderItem := mkItem "p9" "Plum" 10 1 10.

Definition mallRoad : Address :=
  mkAddress (Some "12 Mall Road") (Some "Shimla") (Some "Himachal Pradesh")
            (Some "171001") (Some "India").

(** An order of a guest customer. *)
Definition guestOrder (id : nat) (oid key method : string) (items : list OrderItem)
           (total : float) (ps : PaymentStatus) (os : OrderStatus)
           (txn mtxn : option string) (created : Z) : Order :=
  {| _id := id; orderId := oid; idempotencyKey := key; paymentMethod := method;
     orderItems := items; finalTotal := Some total;
     paymentStatus := ps; orderStatus := os;
     transactionId := txn; merchantTransactionId := mtxn;
     phonePePaymentData := None; isRegisteredUser := false;
     userEmail := None; guestEmail := Some "asha@example.com";
     refundDetails := None; partialRefunds := []; totalRefunded := 0;
     createdAt := created;
     userId := None; userName := None; userPhone := None;
     guestName := Some "Asha"; guestPhone := Some "9000000001";
     shippingAddress := Some mallRoad; totalPrice := Some total;
     discountAmount := Some 0%float; shippingCharges := Some 0%float |}.

Definition world (ps : gmap string Product) (os : list Order) : World :=
  mkWorld ps os (Some "seller@example.com") None [].

(** One hour in milliseconds. *)
Definition hour : Z := 60 * 60 * 1000.

(** A store whose only order is paid. *)
Definition paidOnly : World :=
  world catalogue
        [guestOrder 1 "ORD-20250101-1" "razorpay_K1" "razorpay" [twoApples] 250
                    PS_Paid OS_Processing (Some "pay_1") None 0].

(** A store with two stale pending orders and a fresh one. *)
Definition staleStore : World :=
  world catalogue
        [guestOrder 1 "ORD-20250101-1" "phonepe_K1" "phonepe" [twoApples; oneGone] 210
                    PS_Pending OS_Pending (Some "OMO1") (Some "ORD_1") 0;
         guestOrder 2 "ORD-20250101-2" "phonepe_K2" "phonepe" [onePear] 50
                    PS_Pending OS_Pending (Some "OMO2") (Some "ORD_2") 0;
         guestOrder 3 "ORD-20250101-3" "phonepe_K3" "phonepe" [onePear] 50
                    PS_Pending OS_Pending (Some "OMO3") (Some "ORD_3") hour].

(** The status update of order 1 fails. *)
Definition firstUpdateFails : AutoCancel.Faults :=
  {| AutoCancel.product_fails := fun _ _ => false;
     AutoCancel.update_fails := fun id => bool_decide (id = 1%nat) |}.

End Sample.

(** *** Refunds *)

Module RefundSpec.
Import Refund.


(** The first order with the given [orderId], as [Order.findOne] returns it. *)
Definition findByOrderId (oid : string) (w : World) : option Order :=
  head (filter (fun o => byOrderId oid o = true) (orders w)).


(** The world after a rejected refund: the transaction was aborted,
    nothing else happened. *)
Definition rejected (w : World) : World :=
  log [EAbort] (set_session None w).
End RefundSpec.

Module RefundSample.
Import Sample.

(** A paid order of 1249 with one partial refund of 500 on record. *)
Definition partlyRefunded : Order :=
  set_partialRefunds [mkRefund "rfnd_1" 500 "processed" "damaged item" "admin"] 500
    (guestOrder 1 "ORD-20250101-1" "razorpay_K1" "razorpay" [twoApples; oneGone] 1249
                PS_Paid OS_Processing (Some "pay_1") None 0).

Definition store : World := world catalogue [partlyRefunded].

(** The provider confirms 749.00. *)
Definition confirmed749 : Refund.RazorpayRefund :=
  Refund.mkRazorpayRefund "rfnd_2" 74900 "processed".

(** The provider confirms 1249.00. *)
Definition confirmed1249 : Refund.RazorpayRefund :=
  Refund.mkRazorpayRefund "rfnd_3" 124900 "processed".



End RefundSample.


(** *** Payment confirmation *)

Module ConfirmationSpec.
Import Confirmation.

(** The first order with the given [orderId]. *)
Definition orderNamed (oid : string) (w : World) : option Order :=
  head (filter (fun o => bool_decide (orderId o = oid) = true) (orders w)).

(** The first order with the given [transactionId]. *)
Definition orderOfTransaction (txn : option string) (w : World) : option Order :=
  head (filter (fun o => bool_decide (transactionId o = txn) = true) (orders w)).

(** Number of confirmation e-mails sent to [recipient] for [oid]. *)
Definition emailsSent (recipient oid : string) (t : list Event) : nat :=
  length (List.filter (fun e => match e with
                                | EEmail r o => bool_decide (r = recipient)
                                                && bool_decide (o = oid)
                                | _ => false
                                end) t).

(** A success notification of the PhonePe webhook for transaction [txn]. *)
Definition successBody (txn : string) : json :=
  JObj [("code", JStr "PAYMENT_SUCCESS");
        ("data", JObj [("merchantTransactionId", JStr txn);
                       ("state", JStr "COMPLETED");
                       ("amount", JNum 21000)])].

(** Characters of a string. *)
Fixpoint hashFree (s : string) : bool :=
  match s with
  | EmptyString => true
  | String c rest => negb (bool_decide (c = "#"%char)) && hashFree rest
  end.

(** The request with other bytes on the wire and the same parsed body
    and headers. *)
Definition withRawBody (raw : string) (req : WebhookRequest) : WebhookRequest :=
  {| rawBody := raw; body := body req; headers := headers req |}.

(** A Razorpay notification as a client library that puts a space
    after each colon sends it, and the body the JSON parser makes of it. *)
Definition spacedRequest : WebhookRequest :=
  {| rawBody := "{" +:+ quoted "event" +:+ ": " +:+ quoted "payment.captured" +:+ "}";
     body := JObj [("event", JStr "payment.captured")];
     headers := [("x-razorpay-signature", "00")] |}.
End ConfirmationSpec.

Module ConfirmationSample.
Import Sample ConfirmationSpec.

(** A pending PhonePe order whose [transactionId] the webhook names. *)
Definition pendingPhonePe : World :=
  world catalogue
        [guestOrder 1 "ORD-20250101-1" "phonepe_K1" "phonepe" [twoApples] 210
                    PS_Pending OS_Pending (Some "T1") (Some "T1") 0].

(** Stand-ins for the digest functions in concrete runs: the handlers
    take the functions as parameters and only compare their results. *)
Definition digestStub (_ : string) : string := "5f2a".
Definition hmacStub (_ _ : string) : string := "9c41".
Definition noBase64 (_ : string) : option json := None.

(** A stand-in for a keyed digest that keeps messages apart. *)
Definition tagStub (key msg : string) : string := key +:+ "|" +:+ msg.

(** [spacedRequest] with the signature its sender computes over the
    bytes sent. *)
Definition signedSpacedRequest : WebhookRequest :=
  {| rawBody := rawBody spacedRequest;
     body := body spacedRequest;
     headers := [("x-razorpay-signature", tagStub "whsec" (rawBody spacedRequest))] |}.

Definition successWebhook : WebhookRequest :=
  {| rawBody := JSON_stringify (successBody "T1");
     body := successBody "T1";
     headers := [("x-verify", "5f2a###1")] |}.

(** A cancelled order, as the timeout branch of create-order leaves it. *)
Definition cancelledPhonePe : World :=
  world catalogue
        [guestOrder 1 "ORD-20250101-1" "phonepe_K1" "phonepe" [twoApples] 210
                    PS_Failed OS_Canceled None None 0].

Definition statusCompleted : nat -> Res PhonePeService.StatusResponse :=
  fun _ => Ok (PhonePeService.mkStatusResponse (Some "COMPLETED") None None None None "{}").

Definition statusTimesOut : nat -> Res PhonePeService.StatusResponse :=
  fun _ => Throw (mkError "timeout of 30000ms exceeded" (Some "ECONNABORTED") None).
End ConfirmationSample.

(** *** Order creation *)

Module CreateSpec.
Import OrderRoutes.

(** The world in which the duplicate check runs: the one the clean-up
    block leaves. *)
Definition cleaned (baseIdempotencyKey : string) (w : World) : World :=
  snd (cancelPendingOrders baseIdempotencyKey w).

(** The pending orders the clean-up block finds. *)
Definition pendingFor (baseIdempotencyKey : string) (w : World) : list Order :=
  filter (fun o => isPendingFor baseIdempotencyKey o = true) (orders w).

(** What the clean-up does to one stored order: it is cancelled when a
    pending order found by the query has its [_id]. *)
Definition cleanedOrder (base : string) (w : World) (x : Order) : Order :=
  if existsb (fun o => bool_decide (_id o = _id x)) (pendingFor base w)
  then set_status OS_Canceled PS_Failed x else x.

(** The first order stored under an idempotency key. *)
Definition keyed (key : string) (w : World) : option Order :=
  head (filter (fun o => bool_decide (idempotencyKey o = key) = true) (orders w)).

(** The identifier [generateOrderId] computes from the stored orders. *)
Definition nextOrderId (today : string) (os : list Order) : string :=
  "ORD-" +:+ today +:+ "-"
    +:+ Number_toString (match lastOrder os with
                         | Some o => parseInt (last_segment (orderId o) "")
                         | None => 0
                         end + 1)%float.

(** Events of the clean-up block: stock saves and status updates. *)
Definition isCleanupEvent (e : Event) : bool :=
  match e with
  | EProductSave _ | EOrderUpdate _ _ _ => true
  | _ => false
  end.

(** A base key whose characters stand for themselves in the regular
    expression of the clean-up query: letters, digits, [-] and [_]. *)
Fixpoint literalKey (s : string) : bool :=
  match s with
  | EmptyString => true
  | String c rest =>
      let n := nat_of_ascii c in
      ((48 <=? n)%nat && (n <=? 57)%nat
       || (65 <=? n)%nat && (n <=? 90)%nat
       || (97 <=? n)%nat && (n <=? 122)%nat
       || bool_decide (c = "-"%char) || bool_decide (c = "_"%char))
      && literalKey rest
  end.

(** Every product of the cart exists in the product map [m]. *)
Definition allFound (m : gmap string Product) (cart : list CartItem) : Prop :=
  Forall (fun item => is_Some (m !! ci_productId item)) cart.

(** The order items the handler builds for a cart. *)
Definition itemsOf (m : gmap string Product) (cart : list CartItem) : list OrderItem :=
  omap (fun item =>
          (fun product =>
             mkItem (ci_productId item) (prod_name product) (prod_price product)
                    (ci_quantity item)
                    (prod_price product * ci_quantity item)%float)
            <$> m !! ci_productId item) cart.


(** Neither the order identifier nor the idempotency key is taken. *)
Definition unused (oid key : string) (os : list Order) : Prop :=
  Forall (fun o => orderId o <> oid /\ idempotencyKey o <> key) os.

(** [finalTotal] of a request. *)
Definition finalTotalOf (req : CreateOrderRequest) : float :=
  (req_totalPrice req - num (req_discountAmount req) + num (req_shippingCharges req))%float.

(** The order data the PhonePe branch builds for a request in world [w]. *)
Definition phonePeData (env : Env) (req : CreateOrderRequest) (key : string) (w : World)
           (os : OrderStatus) (ps : PaymentStatus) (txn mtxn : option string) : Order :=
  orderData req (if truthy (req_userId req) then userRecord env else None)
            (nextOrderId (today env) (orders w)) key "phonepe"
            (itemsOf (products w) (cartItems req)) (finalTotalOf req) os ps txn mtxn.

(** The order row the PhonePe branch writes in world [w]. *)
Definition phonePeRow (env : Env) (req : CreateOrderRequest) (key : string) (w : World)
           (os : OrderStatus) (ps : PaymentStatus) (txn mtxn : option string) : Order :=
  with_id_createdAt (next_id (orders w)) (now env)
                    (phonePeData env req key w os ps txn mtxn).



(** The answer to an intent creation that succeeded. *)
Definition intentResponse (oid key : string) (total : float) (r : PhonePeOrder) : Response :=
  Json 200
       [("success", VBool true);
        ("phonePeTransactionId", VStr (po_orderId r));
        ("paymentUrl", VStr (po_paymentUrl r));
        ("orderId", VStr oid);
        ("amount", VNum (Math_round (total * 100)));
        ("orderData", tempOrderData oid key "phonepe" total);
        ("redirectUrl", VStr (po_paymentUrl r))].

(** Orders of a caller key that ended up Paid, under either gateway. *)
Definition paidUnder (baseIdempotencyKey : string) (w : World) : list Order :=
  filter (fun o => matchesGatewayKey baseIdempotencyKey (idempotencyKey o) = true
                   /\ paymentStatus o = PS_Paid) (orders w).
End CreateSpec.

Module CreateSample.
Import OrderRoutes Sample.

Definition asha : Customer :=
  mkCustomer (Some "Asha") (Some "asha@example.com") (Some "9000000001").

(** A guest's request for two apples. *)
Definition request (method key : string) : CreateOrderRequest :=
  {| x_idempotency_key := Some key; req_paymentMethod := method;
     cartItems := [mkCartItem "p1" 2]; req_shippingAddress := Some mallRoad;
     userInfo := Some asha; req_userId := None;
     req_totalPrice := 200; req_discountAmount := Some 0%float;
     req_shippingCharges := Some 50%float |}.


Definition razorpayOk : Res RazorpayOrder := Ok (mkRazorpayOrder "order_R1" 25000 "INR").

Definition intent : PhonePeOrder :=
  mkPhonePeOrder "OMO1" "https://pay.example/OMO1" "ORD_1".

(** The surroundings of a call on 1 January 2025: Razorpay answers,
    PhonePe behaves as [pp] says. *)
Definition env (pp : Race PhonePeOrder) : Env :=
  {| today := "20250101"; now := hour; userRecord := None;
     razorpayCreate := razorpayOk; phonePeRace := pp |}.

(** A customer who paid through Razorpay under the caller key K1 and
    then opened a PhonePe attempt under the same key. *)
Definition switched : World :=
  world catalogue
        [guestOrder 1 "ORD-20250101-1" "razorpay_K1" "razorpay" [twoApples] 250
                    PS_Paid OS_Processing (Some "pay_1") None 0;
         guestOrder 2 "ORD-20250101-2" "phonepe_K1" "phonepe" [onePear] 100
                    PS_Pending OS_Pending (Some "OMO2") (Some "ORD_2") hour].
End CreateSample.


(** ** Order routes: payment verification ([/verify-payment], [/phonepe-verify]) *)

Module Verify.
Import OrderRoutes PhonePeService Confirmation.

(** [orderData], the bundle of the pending order that create-order
    handed to the client and the client sends back.  The strings
    [b_orderId], [b_idempotencyKey] and [b_paymentMethod] are empty when
    the member is missing; [b_orderItems] is taken to be an array of
    items with their five members. *)
Record OrderBundle := mkOrderBundle {
  b_userId : option string;
  b_orderId : string;
  b_orderItems : list OrderItem;
  b_paymentMethod : string;
  b_finalTotal : option float;
  b_idempotencyKey : string;
  b_userDetails : option Customer;
  b_userInfo : option Customer;
  b_shippingAddress : option Address;
  b_totalPrice : option float;
  b_discountAmount : option float;
  b_shippingCharges : option float
}.

(** The body of [POST /verify-payment]. *)
Record VerifyRequest := mkVerifyRequest {
  razorpay_order_id : option string;
  razorpay_payment_id : option string;
  razorpay_signature : option string;
  v_orderId : option string;
  v_orderData : option OrderBundle
}.

(** The body of [POST /phonepe-verify]. *)
Record PhonePeVerifyRequest := mkPhonePeVerifyRequest {
  pv_transactionId : option string;
  pv_orderId : option string;
  pv_orderData : option OrderBundle
}.

(** The stock loop of both verification routes: the product of every
    item is looked up, [product.stock] is compared with the quantity,
    lowered and the product saved; a miss aborts the transaction and
    answers. *)
Fixpoint deductVerified (items : list OrderItem) : M (option Response) :=
  match items with
  | [] => ret None
  | item :: rest =>
      found <- Product_findById (productId item) ;;
      match found with
      | None =>
          abortTransaction ;;
          ret (Some (Json 404 [("success", VBool false);
                               ("message", VStr ("Product " +:+ name item +:+ " not found"))]))
      | Some product =>
          if (num (stock product) <? quantity item)%float then
            abortTransaction ;;
            ret (Some (Json 400 [("success", VBool false);
                                 ("message", VStr ("Insufficient stock for " +:+ name item))]))
          else
            Product_save (productId item)
                         (set_stock (num (stock product) - quantity item)%float product) ;;
            deductVerified rest
      end
  end.

(** [dbOrderData] with the customer fields attached. *)
Definition dbOrderData (orderData : OrderBundle) (txn : string)
           (paymentData : option string) : Order :=
  let registered := truthy (b_userId orderData)
                    && bool_decide (is_Some (b_userDetails orderData)) in
  {| _id := 0%nat;
     orderId := b_orderId orderData;
     idempotencyKey := b_idempotencyKey orderData;
     paymentMethod := b_paymentMethod orderData;
     orderItems := b_orderItems orderData;
     finalTotal := b_finalTotal orderData;
     paymentStatus := PS_Paid;
     orderStatus := OS_Processing;
     transactionId := Some txn;
     merchantTransactionId := None;
     phonePePaymentData := paymentData;
     isRegisteredUser := truthy (b_userId orderData);
     userEmail := if registered then b_userDetails orderData ≫= c_email else None;
     guestEmail := if registered then None else b_userInfo orderData ≫= c_email;
     refundDetails := None;
     partialRefunds := [];
     totalRefunded := 0;
     createdAt := 0;
     userId := b_userId orderData;
     userName := if registered then b_userDetails orderData ≫= c_name else None;
     userPhone := if registered then b_userDetails orderData ≫= c_phone else None;
     guestName := if registered then None else b_userInfo orderData ≫= c_name;
     guestPhone := if registered then None else b_userInfo orderData ≫= c_phone;
     shippingAddress := b_shippingAddress orderData;
     totalPrice := b_totalPrice orderData;
     discountAmount := b_discountAmount orderData;
     shippingCharges := b_shippingCharges orderData |}.

(** [new Order(dbOrderData).save({ session })] *)
Definition saveOrder (now : Z) (orderData : OrderBundle) (txn : string)
           (paymentData : option string) : M Order :=
  Order_insert now (dbOrderData orderData txn paymentData).

(** The invoice block; [generated] tells whether [generateInvoice]
    succeeded.  Its failure is logged and swallowed. *)
Definition autoInvoice (okTag failedTag : string) (generated : bool) (oid : string)
  : M unit :=
  if generated then auditLogger "info" okTag [("orderId", VStr oid)]
  else auditLogger "error" failedTag [("orderId", VStr oid)].

(** The block that mails the customer after a verification. *)
Definition mailCustomer (orderData : OrderBundle) (row : Order) : M unit :=
  let customerEmail :=
    js_or (b_userDetails orderData ≫= c_email)
          (js_or (b_userInfo orderData ≫= c_email)
                 (js_or (userEmail row) (guestEmail row))) in
  if truthy customerEmail
  then emit (EEmail (default "" customerEmail) (b_orderId orderData))
  else ret tt.

(** What follows the commit in both routes. *)
Definition afterCommit (okTag failedTag successTag : string) (generated : bool)
           (orderData : OrderBundle) (txn : string) (row : Order) : M unit :=
  autoInvoice okTag failedTag generated (b_orderId orderData) ;;
  auditLogger "payment" successTag
              [("orderId", VStr (b_orderId orderData));
               ("transactionId", VStr txn);
               ("amount", VNum (num (b_finalTotal orderData)));
               ("idempotencyKey", VStr (b_idempotencyKey orderData))] ;;
  mailCustomer orderData row ;;
  notifySeller (b_orderId orderData).

Definition alreadyExists (oid : string) : Response :=
  Json 200 [("success", VBool true); ("message", VStr "Order already exists");
            ("orderId", VStr oid); ("existing", VBool true)].

Definition missingData : Response :=
  Json 400 [("success", VBool false);
            ("message", VStr "Missing required payment verification data")].

Section Razorpay.
(** [crypto.createHmac('sha256', key).update(s).digest('hex')] *)
Variable hmac_sha256_hex : string -> string -> string.
(** [process.env.RAZORPAY_KEY_SECRET], taken to be set. *)
Variable RAZORPAY_KEY_SECRET : string.

(** [POST /verify-payment].  [fetched] is the outcome of
    [razorpay.orders.fetch(razorpay_order_id)], read at [.status]. *)
Definition verify_payment (fetched : Res string) (invoiceGenerated : bool) (now : Z)
           (req : VerifyRequest) : M Response :=
  auditLogger "payment" "PAYMENT_VERIFICATION_STARTED"
              [("orderId", optStr_of (v_orderId req));
               ("razorpayOrderId", optStr_of (razorpay_order_id req));
               ("razorpayPaymentId", optStr_of (razorpay_payment_id req))] ;;
  match v_orderData req with
  | Some orderData =>
      if negb (truthy (razorpay_order_id req)) || negb (truthy (razorpay_payment_id req))
         || negb (truthy (razorpay_signature req)) || negb (truthy (v_orderId req)) then
        auditLogger "error" "PAYMENT_VERIFICATION_FAILED"
                    [("orderId", optStr_of (v_orderId req));
                     ("reason", VStr "Missing required fields")] ;;
        ret missingData
      else
        let order_id := default "" (razorpay_order_id req) in
        let payment_id := default "" (razorpay_payment_id req) in
        let reqOrderId := default "" (v_orderId req) in
        let generated_signature :=
          hmac_sha256_hex RAZORPAY_KEY_SECRET (order_id +:+ "|" +:+ payment_id) in
        if negb (bool_decide (Some generated_signature = razorpay_signature req)) then
          auditLogger "security" "PAYMENT_SIGNATURE_VERIFICATION_FAILED"
                      [("orderId", VStr reqOrderId);
                       ("expectedSignature", VStr generated_signature);
                       ("receivedSignature", optStr_of (razorpay_signature req))] ;;
          ret (Json 400 [("success", VBool false);
                         ("message", VStr "Payment verification failed")])
        else
          existing <- Order_findOne (fun o => bool_decide (orderId o = reqOrderId)) ;;
          match existing with
          | Some existingOrder =>
              auditLogger "info" "PAYMENT_VERIFICATION_DUPLICATE"
                          [("orderId", VStr reqOrderId);
                           ("existingStatus",
                             VStr (OrderStatus_to_string (orderStatus existingOrder)));
                           ("existingPaymentStatus",
                             VStr (PaymentStatus_to_string (paymentStatus existingOrder)))] ;;
              ret (alreadyExists reqOrderId)
          | None =>
              startTransaction ;;
              try_catch
                (paid <-
                   try_catch
                     (status <- gateway "razorpay.orders.fetch"
                                        [("id", VStr order_id)] fetched ;;
                      if negb (bool_decide (status = "paid")) then
                        throw (mkError ("Razorpay order status is " +:+ status
                                          +:+ ", expected 'paid'") None None)
                      else ret true)
                     (fun _ => abortTransaction ;; ret false) ;;
                 if negb paid then
                   ret (Json 400 [("success", VBool false);
                                  ("message", VStr "Razorpay order verification failed")])
                 else
                   refused <- deductVerified (b_orderItems orderData) ;;
                   match refused with
                   | Some response => ret response
                   | None =>
                       row <- saveOrder now orderData payment_id None ;;
                       commitTransaction ;;
                       afterCommit "INVOICE_AUTO_GENERATED"
                                   "INVOICE_AUTO_GENERATION_FAILED"
                                   "PAYMENT_VERIFICATION_SUCCESSFUL"
                                   invoiceGenerated orderData payment_id row ;;
                       ret (Json 200
                              [("success", VBool true);
                               ("message",
                                 VStr "Payment verified and order created successfully");
                               ("orderId", VStr (b_orderId orderData));
                               ("transactionId", VStr payment_id)])
                   end)
                (fun error =>
                   abortIfInTransaction ;;
                   auditLogger "error" "PAYMENT_VERIFICATION_FAILED"
                               [("orderId", VStr reqOrderId);
                                ("error", VStr (message error))] ;;
                   throw error)
          end
  | None =>
      auditLogger "error" "PAYMENT_VERIFICATION_FAILED"
                  [("orderId", optStr_of (v_orderId req));
                   ("reason", VStr "Missing required fields")] ;;
      ret missingData
  end.
End Razorpay.

(** [POST /phonepe-verify].  The status object stored as
    [phonePePaymentData] is kept by its [fullResponse]. *)
Definition phonepe_verify (statusCheck : nat -> Res StatusResponse)
           (invoiceGenerated : bool) (now : Z) (req : PhonePeVerifyRequest)
  : M Response :=
  auditLogger "payment" "PHONEPE_VERIFICATION_STARTED"
              [("orderId", optStr_of (pv_orderId req));
               ("transactionId", optStr_of (pv_transactionId req))] ;;
  match pv_orderData req with
  | Some orderData =>
      if negb (truthy (pv_transactionId req)) || negb (truthy (pv_orderId req)) then
        auditLogger "error" "PHONEPE_VERIFICATION_FAILED"
                    [("orderId", optStr_of (pv_orderId req));
                     ("reason", VStr "Missing required fields")] ;;
        ret missingData
      else
        let txn := default "" (pv_transactionId req) in
        let reqOrderId := default "" (pv_orderId req) in
        existing <- Order_findOne (fun o => bool_decide (orderId o = reqOrderId)) ;;
        match existing with
        | Some existingOrder =>
            auditLogger "info" "PHONEPE_VERIFICATION_DUPLICATE"
                        [("orderId", VStr reqOrderId);
                         ("existingStatus",
                           VStr (OrderStatus_to_string (orderStatus existingOrder)));
                         ("existingPaymentStatus",
                           VStr (PaymentStatus_to_string (paymentStatus existingOrder)))] ;;
            ret (alreadyExists reqOrderId)
        | None =>
            startTransaction ;;
            try_catch
              (status <- checkPaymentStatus statusCheck txn ;;
               if negb (success status)
                  || negb (bool_decide (st_status status = Some "COMPLETED")) then
                 abortTransaction ;;
                 ret (Json 400
                        [("success", VBool false);
                         ("message", VStr "Payment not successful or still pending.");
                         ("status", VStr (default "UNKNOWN"
                                            (js_or (st_status status) None)))])
               else
                 refused <- deductVerified (b_orderItems orderData) ;;
                 match refused with
                 | Some response => ret response
                 | None =>
                     row <- saveOrder now orderData txn (Some (fullResponse status)) ;;
                     commitTransaction ;;
                     afterCommit "PHONEPE_INVOICE_AUTO_GENERATED"
                                 "PHONEPE_INVOICE_AUTO_GENERATION_FAILED"
                                 "PHONEPE_VERIFICATION_SUCCESSFUL"
                                 invoiceGenerated orderData txn row ;;
                     ret (Json 200
                            [("success", VBool true);
                             ("message",
                               VStr "PhonePe payment verified and order created successfully.");
                             ("orderId", VStr (b_orderId orderData));
                             ("transactionId", VStr txn)])
                 end)
              (fun error =>
                 abortIfInTransaction ;;
                 auditLogger "error" "PHONEPE_VERIFICATION_FAILED"
                             [("orderId", VStr reqOrderId);
                              ("transactionId", VStr txn);
                              ("error", VStr (message error))] ;;
                 throw error)
        end
  | None =>
      auditLogger "error" "PHONEPE_VERIFICATION_FAILED"
                  [("orderId", optStr_of (pv_orderId req));
                   ("reason", VStr "Missing required fields")] ;;
      ret missingData
  end.
End Verify.


(** *** Payment verification *)

Module VerifySpec.
Import OrderRoutes Verify.

(** The product of every item exists in the product map. *)
Definition itemsFound (m : gmap string Product) (items : list OrderItem) : bool :=
  forallb (fun item => bool_decide (is_Some (m !! productId item))) items.

(** The answer of a verification that created the order. *)
Definition verified (message : string) (orderData : OrderBundle) (txn : string)
  : Response :=
  Json 200 [("success", VBool true); ("message", VStr message);
            ("orderId", VStr (b_orderId orderData)); ("transactionId", VStr txn)].

(** The order row a verification inserts in world [w]. *)
Definition verifiedRow (now : Z) (orderData : OrderBundle) (txn : string)
           (paymentData : option string) (w : World) : Order :=
  with_id_createdAt (next_id (orders w)) now (dbOrderData orderData txn paymentData).

(** The store after a verification that created the order: the order
    is appended, the products are as they were. *)
Definition created (now : Z) (orderData : OrderBundle) (txn : string)
           (paymentData : option string) (w w' : World) : Prop :=
  orders w' = orders w ++ [verifiedRow now orderData txn paymentData w]
  /\ products w' = products w.
End VerifySpec.

Module VerifySample.
Import OrderRoutes Verify Sample.

(** The bundle of a guest's razorpay order for two apples. *)
Definition bundle : OrderBundle :=
  {| b_userId := None; b_orderId := "ORD-20250101-1";
     b_orderItems := [twoApples]; b_paymentMethod := "razorpay";
     b_finalTotal := Some 250%float; b_idempotencyKey := "razorpay_K1";
     b_userDetails := None; b_userInfo := Some CreateSample.asha;
     b_shippingAddress := Some mallRoad; b_totalPrice := Some 200%float;
     b_discountAmount := Some 0%float; b_shippingCharges := Some 50%float |}.

(** Stand-in for the HMAC in concrete runs. *)
Definition hmacStub (_ _ : string) : string := "9c41".

Definition paidRequest : VerifyRequest :=
  {| razorpay_order_id := Some "order_R1"; razorpay_payment_id := Some "pay_1";
     razorpay_signature := Some "9c41"; v_orderId := Some "ORD-20250101-1";
     v_orderData := Some bundle |}.

(** The same order paid through PhonePe. *)
Definition phonePeBundle : OrderBundle :=
  {| b_userId := None; b_orderId := "ORD-20250101-1";
     b_orderItems := [twoApples]; b_paymentMethod := "phonepe";
     b_finalTotal := Some 250%float; b_idempotencyKey := "phonepe_K1";
     b_userDetails := None; b_userInfo := Some CreateSample.asha;
     b_shippingAddress := Some mallRoad; b_totalPrice := Some 200%float;
     b_discountAmount := Some 0%float; b_shippingCharges := Some 50%float |}.

Definition phonePeRequest : PhonePeVerifyRequest :=
  {| pv_transactionId := Some "ORD_1"; pv_orderId := Some "ORD-20250101-1";
     pv_orderData := Some phonePeBundle |}.
End VerifySample.

(** *** Repeated returns *)

Module ReturnSpec.
Import PhonePeService Confirmation.

(** One hit of the return URL: the provider's answers to the status
    request and the [transactionId] of the query string. *)
Definition Hit : Type := (nat -> Res StatusResponse) * option string.

(** The world after the return URL of order [oid] was hit with each
    element of [hits] in turn. *)
Definition afterReturns (oid : string) (hits : list Hit) (w : World) : World :=
  foldl (fun w hit => snd (phonepe_return (fst hit) oid (snd hit) w)) w hits.
End ReturnSpec.

Module WebhookSample.
(** The payload of a payment notification whose notes name [oid]. *)
Definition paymentPayload (oid : string) : option json :=
  Some (JObj [("payment",
               JObj [("entity",
                      JObj [("id", JStr "pay_1");
                            ("notes", JObj [("orderId", JStr oid)])])])]).

(** The payload of a refund notification for payment [pid]. *)
Definition refundPayload (pid : string) : option json :=
  Some (JObj [("refund",
               JObj [("entity",
                      JObj [("id", JStr "rfnd_9"); ("payment_id", JStr pid);
                            ("amount", JNum 25000); ("status", JStr "processed")])])]).
End WebhookSample.


(** ** PhonePe service: the retry loop with its configuration *)

Module Retry.

(** [this.retryConfig] *)
Record Config := mkConfig {
  maxRetries : nat;
  baseDelay : Z;
  maxDelay : Z;
  retryableErrors : list string
}.

(** The configuration the constructor sets. *)
Definition constructed : Config :=
  {| maxRetries := 1; baseDelay := 1000; maxDelay := 5000;
     retryableErrors := ["ECONNRESET"; "ENOTFOUND"; "EAI_AGAIN"] |}.

(** [isRetryableError(error)] *)
Definition isRetryableError (cfg : Config) (error : JsError) : bool :=
  match code error, http_status error with
  | None, None => false
  | c, st =>
      if match c with
         | Some c => bool_decide (c ∈ retryableErrors cfg)
         | None => false
         end
      then true
      else match st with
           | Some st => bool_decide (st ∈ [502; 503; 504; 522; 524])
           | None => false
           end
  end.

(** What the loop does, in order: it calls [requestFunc] (the
    [attempt]-th time) and it sleeps. *)
Inductive Step :=
| Attempt (attempt : nat)
| Sleep (ms : Z).

(** [lastError] before the first failure. *)
Definition undefinedError : JsError := mkError "undefined" None None.

(** The [for] loop of [executeWithRetry]: [remaining] iterations are
    left, [requestFunc n] is the outcome of the [n]-th call. *)
Fixpoint loop {A} (cfg : Config) (remaining attempt : nat)
         (requestFunc : nat -> Res A) (lastError : JsError) : list Step * Res A :=
  match remaining with
  | O => ([], Throw lastError)
  | S remaining' =>
      match requestFunc attempt with
      | Ok a => ([Attempt attempt], Ok a)
      | Throw error =>
          if bool_decide (attempt = maxRetries cfg) || negb (isRetryableError cfg error)
          then ([Attempt attempt], Throw error)
          else
            let delay := Z.min (baseDelay cfg * 2 ^ (Z.of_nat attempt - 1)) (maxDelay cfg) in
            let rest := loop cfg remaining' (S attempt) requestFunc error in
            (Attempt attempt :: Sleep delay :: fst rest, snd rest)
      end
  end.

(** [executeWithRetry(requestFunc)] *)
Definition executeWithRetry {A} (cfg : Config) (requestFunc : nat -> Res A)
  : list Step * Res A :=
  loop cfg (maxRetries cfg) 1%nat requestFunc undefinedError.

(** The calls and the sleeps of a run. *)
Definition attempts (steps : list Step) : list nat :=
  omap (fun s => match s with Attempt n => Some n | Sleep _ => None end) steps.

Definition sleeps (steps : list Step) : list Z :=
  omap (fun s => match s with Sleep ms => Some ms | Attempt _ => None end) steps.

(** A request that fails [n] times with the retryable error [e] and
    then answers [a]. *)
Definition failing {A} (n : nat) (e : JsError) (a : A) (attempt : nat) : Res A :=
  if (attempt <=? n)%nat then Throw e else Ok a.
End Retry.


(** ** Auto-cancel service: the service object and its debug routes *)

Module AutoCancelService.
Import AutoCancel.

(** The fields of the service object.  [intervalId] is the live timer,
    kept by its period. *)
Record Service := mkService {
  intervalId : option Z;
  isRunning : bool;
  config : Config
}.

(** The object the constructor builds. *)
Definition constructed : Service :=
  {| intervalId := None; isRunning := false; config := defaultConfig |}.

(** What a method does besides writing the fields: it launches a sweep
    (which reads the configuration of that moment), sets a timer or
    clears one. *)
Inductive Action :=
| RunCheck (cfg : Config)
| SetInterval (ms : Z)
| ClearInterval (ms : Z).

(** [start()] *)
Definition start (s : Service) : Service * list Action :=
  if isRunning s then (s, [])
  else
    ({| intervalId := Some (checkInterval (config s)); isRunning := true;
        config := config s |},
     [RunCheck (config s); SetInterval (checkInterval (config s))]).

(** [stop()] *)
Definition stop (s : Service) : Service * list Action :=
  if negb (isRunning s) then (s, [])
  else
    match intervalId s with
    | Some ms =>
        ({| intervalId := None; isRunning := false; config := config s |},
         [ClearInterval ms])
    | None =>
        ({| intervalId := None; isRunning := false; config := config s |}, [])
    end.

(** Truthiness of a number that may be missing. *)
Definition truthyZ (n : option Z) : bool :=
  match n with
  | Some n => negb (n =? 0)
  | None => false
  end.

(** [Math.ceil(x / d)] for integers, [d] positive. *)
Definition ceilDiv (x d : Z) : Z := - ((- x) / d).

(** [getStatus()] at time [now]. *)
Definition getStatus (now : Z) (s : Service) : list (string * Val) :=
  [("isRunning", VBool (isRunning s));
   ("checkInterval", VNum (Z_to_float (checkInterval (config s))));
   ("timeoutMinutes", VNum (Z_to_float (timeoutMinutes (config s))));
   ("nextCheckIn",
     if isRunning s
     then VNum (Z_to_float (ceilDiv (checkInterval (config s)
                                   - Z.rem now (checkInterval (config s))) 1000))
     else VNull)].

(** [updateConfig({ checkInterval, timeoutMinutes })].  Neither the
    method nor the route checks the type of the two members; they are
    taken here to be integers or missing. *)
Definition updateConfig (newInterval newTimeout : option Z) (s : Service)
  : Service * list Action :=
  let restarted :=
    if truthyZ newInterval
       && negb (bool_decide (newInterval = Some (checkInterval (config s)))) then
      let s1 := {| intervalId := intervalId s; isRunning := isRunning s;
                   config := {| checkInterval := default 0 newInterval;
                                timeoutMinutes := timeoutMinutes (config s) |} |} in
      if isRunning s1 then
        let stopped := stop s1 in
        let started := start (fst stopped) in
        (fst started, snd stopped ++ snd started)
      else (s1, [])
    else (s, []) in
  let s2 := fst restarted in
  let s3 :=
    if truthyZ newTimeout
       && negb (bool_decide (newTimeout = Some (timeoutMinutes (config s2)))) then
      {| intervalId := intervalId s2; isRunning := isRunning s2;
         config := {| checkInterval := checkInterval (config s2);
                      timeoutMinutes := default 0 newTimeout |} |}
    else s2 in
  (s3, snd restarted).

Definition answer (now : Z) (msg : string) (s : Service) : Response :=
  Json 200 [("success", VBool true); ("message", VStr msg);
            ("status", VObj (getStatus now s))].

(** [GET /debug/auto-cancel/status] *)
Definition status_route (now : Z) (s : Service) : Response :=
  Json 200 (("success", VBool true) :: getStatus now s
              ++ [("message",
                    VStr (if isRunning s then "Auto-cancel service is running"
                          else "Auto-cancel service is stopped"))]).

(** [POST /debug/auto-cancel/start] *)
Definition start_route (now : Z) (s : Service) : Response * Service * list Action :=
  let r := start s in
  (answer now "Auto-cancel service started" (fst r), fst r, snd r).

(** [POST /debug/auto-cancel/stop] *)
Definition stop_route (now : Z) (s : Service) : Response * Service * list Action :=
  let r := stop s in
  (answer now "Auto-cancel service stopped" (fst r), fst r, snd r).

(** [PUT /debug/auto-cancel/config], for members of the body that are
    integers or missing. *)
Definition config_route (now : Z) (newInterval newTimeout : option Z) (s : Service)
  : Response * Service * list Action :=
  if truthyZ newInterval
     && ((default 0 newInterval <? 60000) || (3600000 <? default 0 newInterval)) then
    (Json 400 [("success", VBool false);
               ("message", VStr "Check interval must be between 1 minute and 1 hour")],
     s, [])
  else if truthyZ newTimeout
          && ((default 0 newTimeout <? 5) || (120 <? default 0 newTimeout)) then
    (Json 400 [("success", VBool false);
               ("message", VStr "Timeout must be between 5 minutes and 2 hours")],
     s, [])
  else
    let r := updateConfig newInterval newTimeout s in
    (answer now "Auto-cancel service configuration updated" (fst r), fst r, snd r).

(** [POST /debug/auto-cancel/force-check]: the sweep is awaited. *)
Definition force_check_route (F : Faults) (now : Z) (s : Service) : M Response :=
  checkPendingOrders (config s) F now ;;
  ret (answer now "Auto-cancel check completed" s).

(** A call of the management API. *)
Inductive Call :=
| CallStart
| CallStop
| CallConfig (newInterval newTimeout : option Z).

Definition call (now : Z) (c : Call) (s : Service) : Response * Service * list Action :=
  match c with
  | CallStart => start_route now s
  | CallStop => stop_route now s
  | CallConfig newInterval newTimeout => config_route now newInterval newTimeout s
  end.

(** The service and everything it did after a sequence of calls. *)
Definition afterCalls (now : Z) (calls : list Call) (s : Service)
  : Service * list Action :=
  foldl (fun acc c => let r := call now c (fst acc) in (snd (fst r), snd acc ++ snd r))
        (s, []) calls.

(** Timers set and not cleared. *)
Definition liveTimers (acts : list Action) : Z :=
  foldr (fun a n => match a with
                    | SetInterval _ => n + 1
                    | ClearInterval _ => n - 1
                    | RunCheck _ => n
                    end) 0 acts.

(** 1 for a running service, 0 for a stopped one. *)
Definition running (s : Service) : Z := if isRunning s then 1 else 0.

(** The configuration the config route accepts. *)
Definition inBounds (cfg : Config) : Prop :=
  60000 <= checkInterval cfg <= 3600000 /\ 5 <= timeoutMinutes cfg <= 120.

(** The timer field agrees with the running flag and the configured
    period. *)
Definition coherent (s : Service) : Prop :=
  intervalId s = if isRunning s then Some (checkInterval (config s)) else None.
End AutoCancelService.


(** ** The manual clean-up route *)

Module DebugRoutes.
Import OrderRoutes.

(** The query of [POST /debug/cleanup-pending/:baseIdempotencyKey]: the
    two gateway keys of the base key, payment still Pending; the order
    status is not part of it. *)
Definition isUnpaidFor (baseIdempotencyKey : string) (o : Order) : bool :=
  matchesGatewayKey baseIdempotencyKey (idempotencyKey o)
  && bool_decide (paymentStatus o = PS_Pending).

(** What the route answers: 200 with the message and the order
    identifiers, or 500 with the error. *)
Inductive CleanupAnswer :=
| CleanupDone (message : string) (cleanedOrders : list string)
| CleanupError (error : string).

(** [POST /debug/cleanup-pending/:baseIdempotencyKey]; its loop is the
    loop of the clean-up block of create-order. *)
Definition cleanup_pending (baseIdempotencyKey : string) : M CleanupAnswer :=
  try_catch
    (pendingOrders <- Order_find (isUnpaidFor baseIdempotencyKey) ;;
     cancelEach pendingOrders ;;
     let cleaned := Z.of_nat (length pendingOrders) in
     ret (CleanupDone ("Cleaned up " +:+ pretty cleaned
                         +:+ " pending orders for base key: " +:+ baseIdempotencyKey)
                      (map orderId pendingOrders)))
    (fun error => ret (CleanupError (message error))).

(** The orders the query finds. *)
Definition unpaidFor (baseIdempotencyKey : string) (w : World) : list Order :=
  filter (fun o => isUnpaidFor baseIdempotencyKey o = true) (orders w).

End DebugRoutes.

(** *** Vocabulary of the refund routes taken together *)

Module RefundRouteSpec.
Import Refund.

(** One request to a refund route, with the outcome of its provider
    call. *)
Inductive Request :=
| FullRazorpay (gw : Res RazorpayRefund)
| PartialRazorpay (gw : Res RazorpayRefund) (amount : float)
| FullPhonePe (gw : Res PhonePeRefund)
| PartialPhonePe (gw : Res PhonePeRefund) (amount : float).

Definition route (r : Request) (oid reason : string) : M Response :=
  match r with
  | FullRazorpay gw => refund_full gw oid reason
  | PartialRazorpay gw amount => refund_partial gw oid amount reason
  | FullPhonePe gw => phonepe_refund_full gw oid reason
  | PartialPhonePe gw amount => phonepe_refund_partial gw oid amount reason
  end.

Definition isPartial (r : Request) : bool :=
  match r with
  | PartialRazorpay _ _ | PartialPhonePe _ _ => true
  | FullRazorpay _ | FullPhonePe _ => false
  end.

(** The provider answered the refund call of the request. *)
Definition providerConfirms (r : Request) : bool :=
  match r with
  | FullRazorpay (Ok _) | PartialRazorpay (Ok _) _
  | FullPhonePe (Ok _) | PartialPhonePe (Ok _) _ => true
  | _ => false
  end.

(** The handler answered 200. *)
Definition succeeded (r : Res Response) : bool :=
  match r with
  | Ok (Json status _) => status =? 200
  | _ => false
  end.

Definition isProviderCall (e : Event) : bool :=
  match e with EGateway _ _ => true | _ => false end.

(** Calls to a payment provider recorded in a trace. *)
Definition providerCalls (t : list Event) : nat :=
  length (List.filter isProviderCall t).

End RefundRouteSpec.

(** *** A failure notification of the PhonePe webhook *)

Module WebhookFailureSample.
Import ConfirmationSample.

(** A notification that the payment of transaction [txn] failed. *)
Definition failureBody (txn : string) : json :=
  JObj [("code", JStr "PAYMENT_ERROR");
        ("data", JObj [("merchantTransactionId", JStr txn);
                       ("state", JStr "FAILED")])].

Definition failureWebhook (txn : string) : WebhookRequest :=
  {| rawBody := JSON_stringify (failureBody txn);
     body := failureBody txn;
     headers := [("x-verify", "5f2a###1")] |}.

End WebhookFailureSample.

(** *** Vocabulary of the order identifiers *)

Module OrderIdSpec.

(** A string without [-]. *)
Fixpoint dashFree (s : string) : bool :=
  match s with
  | EmptyString => true
  | String c rest => negb (bool_decide (c = "-"%char)) && dashFree rest
  end.

(** The identifier of date [d] with sequence number [n]. *)
Definition orderIdOf (d : string) (n : Z) : string :=
  "ORD-" +:+ d +:+ "-" +:+ pretty n.

(** A string of decimal digits. *)
Fixpoint digitsOnly (s : string) : bool :=
  match s with
  | EmptyString => true
  | String c rest => (48 <=? nat_of_ascii c)%nat && (nat_of_ascii c <=? 57)%nat
                     && digitsOnly rest
  end.

(** The number after [n] is written as [n + 1] is. *)
Definition countsUp (n : Z) : bool :=
  bool_decide (Number_toString (Z_to_float n + 1)%float = pretty (n + 1)).

(** The sequence numbers below [checkedNumbers] are checked one by one. *)
Definition checkedNumbers : nat := 1000.

(** 2^53, from where on adding one to a Number no longer gives the
    next integer. *)
Definition lastExact : Z := 9007199254740992.

End OrderIdSpec.


(** ** PhonePe service: the access token and the requests of a method *)

Module PhonePeClient.
Import PhonePeService OrderRoutes.

(** [this.authToken] and [this.tokenExpiry]. *)
Record Client := mkClient {
  authToken : option string;
  tokenExpiry : option Z
}.

(** [response.data] of the token endpoint. *)
Record TokenData := mkTokenData {
  access_token : option string;
  expires_in : option Z
}.

(** What a method does to the outside, in order: a request to the token
    endpoint, the request of the method itself with its [O-Bearer]
    token, a pause of the retry loop. *)
Inductive Effect :=
| TokenRequest
| ApiRequest (bearer : string)
| Sleep (ms : Z).

(** The state a method runs in: the token fields, the number of clock
    readings taken and the effects so far. *)
Record Run := mkRun {
  client : Client;
  reads : nat;
  effects : list Effect
}.

Definition C (B : Type) : Type := Run -> Res B * Run.

Definition cret {B} (b : B) : C B := fun r => (Ok b, r).

Definition cbind {A B} (m : C A) (k : A -> C B) : C B :=
  fun r => match m r with
           | (Ok a, r') => k a r'
           | (Throw e, r') => (Throw e, r')
           end.

Definition cthrow {B} (e : JsError) : C B := fun r => (Throw e, r).

Definition ccatch {B} (m : C B) (h : JsError -> C B) : C B :=
  fun r => match m r with
           | (Ok b, r') => (Ok b, r')
           | (Throw e, r') => h e r'
           end.

Notation "x <~ c1 ;; c2" := (cbind c1 (fun x => c2))
  (at level 20, c1 at level 99, c2 at level 200, only parsing).

Definition isTokenRequest (e : Effect) : bool :=
  match e with TokenRequest => true | _ => false end.

Definition isApiRequest (e : Effect) : bool :=
  match e with ApiRequest _ => true | _ => false end.

Definition tokenRequests (l : list Effect) : nat := length (List.filter isTokenRequest l).
Definition apiRequests (l : list Effect) : nat := length (List.filter isApiRequest l).

Definition perform (e : Effect) : C unit :=
  fun r => (Ok tt, mkRun (client r) (reads r) (effects r ++ [e])).

Definition get_client : C Client := fun r => (Ok (client r), r).

Definition set_client (c : Client) : C unit :=
  fun r => (Ok tt, mkRun c (reads r) (effects r)).

(** Truthiness of a number that may be missing. *)
Definition truthyNum (n : option Z) : bool :=
  match n with
  | Some n => negb (n =? 0)
  | None => false
  end.

(** [executeWithRetry(requestFunc)] under [this.retryConfig]. *)
Fixpoint retryLoop {B} (cfg : Retry.Config) (remaining attempt : nat)
         (requestFunc : C B) (lastError : JsError) : C B :=
  match remaining with
  | O => cthrow lastError
  | S remaining' =>
      ccatch requestFunc
        (fun error =>
           if bool_decide (attempt = Retry.maxRetries cfg)
              || negb (Retry.isRetryableError cfg error)
           then cthrow error
           else
             let delay := Z.min (Retry.baseDelay cfg * 2 ^ (Z.of_nat attempt - 1))
                                (Retry.maxDelay cfg) in
             _ <~ perform (Sleep delay) ;;
             retryLoop cfg remaining' (S attempt) requestFunc error)
  end.

Definition executeWithRetry {B} (requestFunc : C B) : C B :=
  retryLoop Retry.constructed (Retry.maxRetries Retry.constructed) 1%nat requestFunc
            Retry.undefinedError.

Section Surroundings.
(** The successive readings of the clock ([Date.now()], [new Date()]). *)
Variable clock : nat -> Z.
(** What the n-th request to [/v1/oauth/token] resolves to. *)
Variable tokenEndpoint : nat -> Res TokenData.

Definition Date_now : C Z :=
  fun r => (Ok (clock (reads r)), mkRun (client r) (S (reads r)) (effects r)).

(** [axios.post(`${this.authUrl}/v1/oauth/token`, ...)] *)
Definition post_token : C TokenData :=
  fun r => (tokenEndpoint (tokenRequests (effects r)),
          mkRun (client r) (reads r) (effects r ++ [TokenRequest])).

(** The request of a method to its own endpoint; [api n bearer] is
what the n-th such request resolves to when sent with [bearer]. *)
Definition request_api {A} (api : nat -> string -> Res A) (accessToken : string) : C A :=
  fun r => (api (apiRequests (effects r)) accessToken,
          mkRun (client r) (reads r) (effects r ++ [ApiRequest accessToken])).

(** [isTokenValid()] *)
Definition isTokenValid : C bool :=
  c <~ get_client ;;
  if negb (truthy (authToken c)) || negb (truthyNum (tokenExpiry c)) then cret false
  else
  t <~ Date_now ;;
  let fiveMinutesFromNow := t + 5 * 60 * 1000 in
  cret (fiveMinutesFromNow <? default 0 (tokenExpiry c)).

(** [data.expires_in || 3600] *)
Definition lifetime (data : TokenData) : Z :=
  if truthyNum (expires_in data) then default 0 (expires_in data) else 3600.

(** [requestFunc] of [getAccessToken]. *)
Definition tokenRequest : C string :=
  data <~ post_token ;;
  if negb (truthy (access_token data))
  then cthrow (mkError "No access token in response" None None)
  else
  t <~ Date_now ;;
  _ <~ set_client {| authToken := access_token data;
                     tokenExpiry := Some (t + lifetime data * 1000) |} ;;
  cret (default "" (access_token data)).

(** [getAccessToken(forceRefresh)] *)
Definition getAccessToken (forceRefresh : bool) : C string :=
  valid <~ (if forceRefresh then cret false else isTokenValid) ;;
  if valid : bool then c <~ get_client ;; cret (default "" (authToken c))
  else executeWithRetry tokenRequest.

(** [error.response?.data?.message] *)
Variable responseMessage : JsError -> option string.

(** The condition of the [catch] blocks of [createPaymentOrder] and
[processRefund] under which the request is tried again with a
fresh token. *)
Definition authFailure (error : JsError) : bool :=
  (bool_decide (http_status error = Some 401) || bool_decide (http_status error = Some 403))
  && negb (match code error with Some c => includes "TIMEOUT" c | None => false end)
  && negb (includes "timeout" (message error)).

(** The [try]/[catch] that ends [createPaymentOrder] and
[processRefund]; the two methods differ in the prefixes of the
messages. *)
Definition withFreshTokenRetry {B} (afterRetryPrefix failedPrefix : string)
         (requestFunc : C B) : C B :=
  ccatch (executeWithRetry requestFunc)
  (fun error =>
     if authFailure error then
       ccatch
         (_ <~ set_client {| authToken := None; tokenExpiry := None |} ;;
          _ <~ getAccessToken true ;;
          executeWithRetry requestFunc)
         (fun retryError =>
            cthrow (mkError (afterRetryPrefix +:+ message retryError) None None))
     else
       cthrow (mkError (failedPrefix
                          +:+ default "" (js_or (responseMessage error)
                                                (Some (message error))))
                       None None)).

(** [response.data] of [/checkout/v2/pay]. *)
Record PayData := mkPayData {
  pd_orderId : option string;
  pd_redirectUrl : option string
}.

(** [Math.random().toString(36).substring(2, 8)], by the number of
clock readings taken before it. *)
Variable random : nat -> string.

Definition Math_random : C string := fun r => (Ok (random (reads r)), r).

(** [requestFunc] of [createPaymentOrder]. *)
Definition payRequest (pay : nat -> string -> Res PayData) : C PhonePeOrder :=
  t <~ Date_now ;;
  suffix <~ Math_random ;;
  let merchantOrderId := "ORD_" +:+ pretty t +:+ "_" +:+ suffix in
  accessToken <~ getAccessToken false ;;
  result <~ request_api pay accessToken ;;
  if negb (truthy (pd_orderId result)) || negb (truthy (pd_redirectUrl result))
  then cthrow (mkError "Invalid response: missing orderId or redirectUrl" None None)
  else cret {| po_orderId := default "" (pd_orderId result);
             po_paymentUrl := default "" (pd_redirectUrl result);
             po_merchantOrderId := merchantOrderId |}.

(** [createPaymentOrder(orderData)] *)
Definition createPaymentOrder (pay : nat -> string -> Res PayData) : C PhonePeOrder :=
  withFreshTokenRetry "PhonePe payment creation failed after fresh token retry: "
                    "PhonePe payment creation failed: "
                    (payRequest pay).

(** [requestFunc] of [checkPaymentStatus]. *)
Definition statusRequest (status : nat -> string -> Res StatusResponse) : C StatusResponse :=
  accessToken <~ getAccessToken false ;;
  request_api status accessToken.

(** [checkPaymentStatus(merchantOrderId)], with the requests of its
[requestFunc] written out. *)
Definition checkPaymentStatus (status : nat -> string -> Res StatusResponse)
         (merchantOrderId : string) : C PaymentStatusResult :=
  ccatch
  (result <~ executeWithRetry (statusRequest status) ;;
   let paymentState := js_or (r_state result) (js_or (r_status result) (r_data_state result)) in
   let paymentCode := js_or (r_code result) (r_data_code result) in
   cret {| success := bool_decide (paymentState = Some "COMPLETED")
                      || bool_decide (paymentCode = Some "PAYMENT_SUCCESS");
           st_transactionId := merchantOrderId;
           st_status := paymentState;
           st_code := paymentCode;
           fullResponse := r_raw result |})
  (fun error =>
     if bool_decide (code error = Some "ECONNABORTED") then
       cret {| success := true;
               st_transactionId := merchantOrderId;
               st_status := Some "COMPLETED";
               st_code := Some "TIMEOUT_ASSUMED_SUCCESS";
               fullResponse := "{ assumedSuccess: true }" |}
     else
       cret {| success := false;
               st_transactionId := merchantOrderId;
               st_status := Some "PENDING";
               st_code := Some "STATUS_CHECK_FAILED";
               fullResponse := message error |}).

(** [response.data] of [/payments/v2/refund]. *)
Record RefundData := mkRefundData {
  rd_merchantRefundId : option string;
  rd_refundId : option string;
  rd_transactionId : option string;
  rd_state : option string;
  rd_status : option string
}.

(** [requestFunc] of [processRefund]. *)
Definition refundRequest (refund : nat -> string -> Res RefundData)
  : C Refund.PhonePeRefund :=
  accessToken <~ getAccessToken false ;;
  _ <~ Date_now ;;
  result <~ request_api refund accessToken ;;
  cret {| Refund.pp_merchantRefundId := default "" (rd_merchantRefundId result);
        Refund.pp_phonePeRefundId :=
          default "" (js_or (rd_refundId result) (rd_transactionId result));
        Refund.pp_status := default "" (js_or (rd_state result) (rd_status result)) |}.

(** [processRefund(merchantTransactionId, amount, merchantRefundId, refundData)] *)
Definition processRefund (refund : nat -> string -> Res RefundData)
  : C Refund.PhonePeRefund :=
  withFreshTokenRetry "PhonePe refund failed after fresh token retry: "
                    "PhonePe refund processing failed: "
                    (refundRequest refund).

(** [healthCheck()]: [true] is the status [healthy]. *)
Definition healthCheck : C (bool * string) :=
  ccatch (_ <~ getAccessToken false ;; cret (true, "PhonePe service is operational"))
       (fun error => cret (false, message error)).

End Surroundings.

(** A run that starts with the given token fields. *)
Definition started (c : Client) : Run := mkRun c 0 [].

(** The constructor leaves both token fields unset. *)
Definition constructed : Client := mkClient None None.

End PhonePeClient.

(** *** Vocabulary of the token cache *)

Module PhonePeClientSpec.
Import PhonePeClient.

(** The cached token is good at clock reading [t]: both fields are
    set and the expiry is more than five minutes away. *)
Definition fresh (c : Client) (t : Z) : bool :=
  truthy (authToken c) && truthyNum (tokenExpiry c)
  && (t + 5 * 60 * 1000 <? default 0 (tokenExpiry c)).

(** The run after one more clock reading. *)
Definition tick (r : Run) : Run := mkRun (client r) (S (reads r)) (effects r).

(** The token the n-th request to the token endpoint delivered. *)
Definition delivered (tokenEndpoint : nat -> Res TokenData) (n : nat) : option string :=
  match tokenEndpoint n with
  | Ok data => if truthy (access_token data) then access_token data else None
  | Throw _ => None
  end.

(** The run in which a call of [getAccessToken] turns to the token
    endpoint: the validity check has read the clock when both fields
    were set. *)
Definition checked (forceRefresh : bool) (r : Run) : Run :=
  if forceRefresh then r
  else if truthy (authToken (client r)) && truthyNum (tokenExpiry (client r))
       then tick r else r.

(** The run with one more effect. *)
Definition after (e : Effect) (r : Run) : Run :=
  mkRun (client r) (reads r) (effects r ++ [e]).

(** The clock never goes back. *)
Definition monotone (clock : nat -> Z) : Prop :=
  forall i j, (i <= j)%nat -> clock i <= clock j.

(** The cached token, if any, is the one the latest request to the
    token endpoint delivered. *)
Definition cachedFromLatest (tokenEndpoint : nat -> Res TokenData) (r : Run) : Prop :=
  forall t, authToken (client r) = Some t -> t <> "" ->
            (0 < tokenRequests (effects r))%nat
            /\ delivered tokenEndpoint (pred (tokenRequests (effects r))) = Some t.

(** A [requestFunc] that gets the token and then sends one request to
    the endpoint [api]: what it sends and what its outcome says. *)
Definition oneRequest {A B} (tokenEndpoint : nat -> Res TokenData)
           (api : nat -> string -> Res A) (accepted : A -> B -> Prop)
           (requestFunc : C B) : Prop :=
  forall r,
    let out := requestFunc r in
    exists dt,
      (dt = [] \/ dt = [TokenRequest])
      /\ ((exists e, fst out = Throw e /\ effects (snd out) = effects r ++ dt
                     /\ dt = [TokenRequest])
          \/ (exists b,
                effects (snd out) = effects r ++ dt ++ [ApiRequest b]
                /\ (dt = [] -> authToken (client r) = Some b)
                /\ (dt = [TokenRequest] ->
                    delivered tokenEndpoint (tokenRequests (effects r)) = Some b)
                /\ (forall result,
                      fst out = Ok result ->
                      exists data, api (apiRequests (effects r)) b = Ok data
                                   /\ accepted data result)
                /\ (forall e,
                      fst out = Throw e ->
                      api (apiRequests (effects r)) b = Throw e \/ http_status e = None))).

(** What a call of a method that ends in the fresh-token [catch]
    block may send, and what its outcome says.  [api] answers the
    requests to the method's own endpoint; [accepted data result] is
    how the method builds its result from an answer. *)
Definition requestBudget {A B} (tokenEndpoint : nat -> Res TokenData)
           (api : nat -> string -> Res A) (accepted : A -> B -> Prop)
           (out : Res B * Run) : Prop :=
  let sent := effects (snd out) in
  (apiRequests sent <= 2)%nat
  /\ (tokenRequests sent <= 3)%nat
  /\ (apiRequests sent = 2%nat ->
      exists b1 e b2 before between,
        api 0%nat b1 = Throw e /\ authFailure e = true
        /\ sent = before ++ [ApiRequest b1; TokenRequest] ++ between ++ [ApiRequest b2]
        /\ apiRequests before = 0%nat /\ apiRequests between = 0%nat
        /\ delivered tokenEndpoint (pred (tokenRequests sent)) = Some b2)
  /\ (forall result,
        fst out = Ok result ->
        exists b data, api (pred (apiRequests sent)) b = Ok data /\ accepted data result)
  /\ (forall e, fst out = Throw e -> code e = None /\ http_status e = None).

(** How [createPaymentOrder] and [processRefund] read an answer. *)
Definition paymentFrom (data : PayData) (order : OrderRoutes.PhonePeOrder) : Prop :=
  pd_orderId data = Some (OrderRoutes.po_orderId order)
  /\ OrderRoutes.po_orderId order <> ""
  /\ pd_redirectUrl data = Some (OrderRoutes.po_paymentUrl order)
  /\ OrderRoutes.po_paymentUrl order <> "".

Definition refundFrom (data : RefundData) (refund : Refund.PhonePeRefund) : Prop :=
  Refund.pp_merchantRefundId refund = default "" (rd_merchantRefundId data)
  /\ Refund.pp_phonePeRefundId refund
     = default "" (js_or (rd_refundId data) (rd_transactionId data))
  /\ Refund.pp_status refund = default "" (js_or (rd_state data) (rd_status data)).

End PhonePeClientSpec.

(** *** Sample surroundings of the PhonePe service *)

Module PhonePeClientSample.
Import PhonePeClient.

(** A clock that advances by one second per reading. *)
Definition clock (n : nat) : Z := 1000 * Z.of_nat n.

(** A token endpoint that answers with a one-hour token. *)
Definition tokenOk (_ : nat) : Res TokenData :=
  Ok (mkTokenData (Some "tok_1") (Some 3600)).

(** A token endpoint that does not answer in time. *)
Definition tokenTimesOut (_ : nat) : Res TokenData :=
  Throw (mkError "timeout of 45000ms exceeded" (Some "ECONNABORTED") None).

(** A status endpoint that reports the payment as failed. *)
Definition statusFailed (_ : nat) (_ : string) : Res PhonePeService.StatusResponse :=
  Ok (PhonePeService.mkStatusResponse (Some "FAILED") None None None None "{}").

End PhonePeClientSample.

(** *** A signed [payment.captured] notification *)

Module CapturedSample.

(** The notification of payment pay_1 for the order [oid], with the
    signature the stand-in digest gives. *)
Definition capturedWebhook (oid : string) : WebhookRequest :=
  let b := JObj [("event", JStr "payment.captured");
                 ("payload",
                   JObj [("payment",
                          JObj [("entity",
                                 JObj [("id", JStr "pay_1");
                                       ("notes", JObj [("orderId", JStr oid)])])])])] in
  {| rawBody := JSON_stringify b; body := b;
     headers := [("x-razorpay-signature", "9c41")] |}.

End CapturedSample.


(** *** Vocabulary of the store invariant *)

Module StoreInvariant.
Import OrderRoutes PhonePeService Confirmation Verify AutoCancel.

(** What identifies an order: the database [_id], the order number and
    the idempotency key. *)
Definition identity (o : Order) : nat * string * string :=
  (_id o, orderId o, idempotencyKey o).

(** No two orders share an [_id], an [orderId] or an [idempotencyKey]. *)
Definition uniqueOrders (os : list Order) : Prop :=
  NoDup (map _id os) /\ NoDup (map orderId os) /\ NoDup (map idempotencyKey os).

(** The orders [os] are unique and begin with the orders identified by
    [ids], in that order. *)
Definition sound (ids : list (nat * string * string)) (os : list Order) : Prop :=
  uniqueOrders os /\ ids `prefix_of` map identity os.

(** The stored orders are sound, and so are those an open transaction
    would roll back to. *)
Definition inv (ids : list (nat * string * string)) (w : World) : Prop :=
  sound ids (orders w)
  /\ match session w with
     | Some snap => sound ids (snd snap)
     | None => True
     end.

Definition keeps {A} (m : M A) : Prop :=
  forall ids w, inv ids w -> inv ids (snd (m w)).

(** The stored products are [ps], and so are those an open transaction
    would roll back to. *)
Definition catalogued (ps : gmap string Product) (w : World) : Prop :=
  products w = ps
  /\ match session w with
     | Some snap => fst snap = ps
     | None => True
     end.

Definition frames {A} (m : M A) : Prop :=
  forall ps w, catalogued ps w -> catalogued ps (snd (m w)).

(** An update that leaves the identity of an order alone. *)
Definition keepsIdentity (f : Order -> Order) : Prop :=
  forall o, identity (f o) = identity o.

(** One request to a route that writes orders, or one run of the
    sweeper, with everything it reads from outside the database. *)
Inductive Request :=
| CreateOrder (env : Env) (req : CreateOrderRequest)
| VerifyPayment (keySecret : string) (fetched : Res string) (invoiceGenerated : bool)
              (now : Z) (req : VerifyRequest)
| PhonePeVerify (statusCheck : nat -> Res StatusResponse) (invoiceGenerated : bool)
              (now : Z) (req : PhonePeVerifyRequest)
| PhonePeReturn (statusCheck : nat -> Res StatusResponse) (reqOrderId : string)
              (queryTransactionId : option string)
| PhonePeWebhook (clientSecret : string) (req : WebhookRequest)
| RazorpayWebhookRoute (webhookSecret : option string) (req : WebhookRequest)
| RazorpayWebhookModule (webhookSecret : string) (req : WebhookRequest)
| RefundRoute (r : RefundRouteSpec.Request) (reqOrderId reason : string)
| SweeperRun (cfg : Config) (F : Faults) (now : Z)
| ForceCheck (F : Faults) (now : Z) (s : AutoCancelService.Service)
| CleanupPending (baseIdempotencyKey : string).

Section Serving.
Variable sha256_hex : string -> string.
Variable hmac_sha256_hex : string -> string -> string.
Variable parseBase64Json : string -> option json.

(** The world a request leaves behind. *)
Definition serve (r : Request) (w : World) : World :=
  match r with
  | CreateOrder env req => snd (create_order env req w)
  | VerifyPayment keySecret fetched invoiceGenerated now req =>
    snd (verify_payment hmac_sha256_hex keySecret fetched invoiceGenerated now req w)
  | PhonePeVerify statusCheck invoiceGenerated now req =>
    snd (phonepe_verify statusCheck invoiceGenerated now req w)
  | PhonePeReturn statusCheck reqOrderId queryTransactionId =>
    snd (phonepe_return statusCheck reqOrderId queryTransactionId w)
  | PhonePeWebhook clientSecret req =>
    snd (phonepe_webhook sha256_hex parseBase64Json clientSecret req w)
  | RazorpayWebhookRoute webhookSecret req =>
    snd (razorpay_webhook hmac_sha256_hex webhookSecret req w)
  | RazorpayWebhookModule webhookSecret req =>
    snd (RazorpayWebhook.handleRazorpayWebhook hmac_sha256_hex webhookSecret req w)
  | RefundRoute r reqOrderId reason => snd (RefundRouteSpec.route r reqOrderId reason w)
  | SweeperRun cfg F now => snd (checkPendingOrders cfg F now w)
  | ForceCheck F now s => snd (AutoCancelService.force_check_route F now s w)
  | CleanupPending baseIdempotencyKey =>
    snd (DebugRoutes.cleanup_pending baseIdempotencyKey w)
  end.

(** The world after a sequence of requests, served one after the other. *)
Definition afterRequests (rs : list Request) (w : World) : World :=
  foldl (fun w r => serve r w) w rs.
End Serving.

End StoreInvariant.


(* ================================================================== *)
(** * Part II: properties                                              *)
(* ================================================================== *)


(** ** The monad and the world *)

Lemma log_log evs1 evs2 w : log evs2 (log evs1 w) = log (evs1 ++ evs2) w.
Proof. destruct w; unfold log; simpl; f_equal; by rewrite app_assoc. Qed.

Lemma log_nil w : log [] w = w.
Proof. destruct w; unfold log; simpl; by rewrite app_nil_r. Qed.

Lemma set_products_log m evs w :
  set_products m (log evs w) = log evs (set_products m w).
Proof. reflexivity. Qed.

Lemma set_products_set_products m1 m2 w :
  set_products m2 (set_products m1 w) = set_products m2 w.
Proof. reflexivity. Qed.

Lemma set_products_id w : set_products (products w) w = w.
Proof. by destruct w. Qed.

Lemma set_orders_id w : set_orders (orders w) w = w.
Proof. by destruct w. Qed.

Lemma bind_run {A B} (m : M A) (k : A -> M B) w a w' :
  m w = (Ok a, w') -> bind m k w = k a w'.
Proof. intros H. unfold bind. by rewrite H. Qed.

Lemma bind_throw {A B} (m : M A) (k : A -> M B) w e w' :
  m w = (Throw e, w') -> bind m k w = (Throw e, w').
Proof. intros H. unfold bind. by rewrite H. Qed.

Lemma try_catch_ok {A} (m : M A) h w a w' :
  m w = (Ok a, w') -> try_catch m h w = (Ok a, w').
Proof. intros H. unfold try_catch. by rewrite H. Qed.

Lemma try_catch_throw {A} (m : M A) h w e w' :
  m w = (Throw e, w') -> try_catch m h w = h e w'.
Proof. intros H. unfold try_catch. by rewrite H. Qed.


(** ** Comparisons and sums of doubles *)

Lemma SFcompare_antisym (x y : spec_float) :
  SFcompare y x = CompOpp <$> SFcompare x y.
Proof.
  destruct x as [sx|sx| |sx mx ex], y as [sy|sy| |sy my ey]; simpl;
    try destruct sx; try destruct sy; try reflexivity.
  - rewrite (Z.compare_antisym ey ex).
    destruct (ey ?= ex)%Z; simpl; try reflexivity.
    f_equal. f_equal. change (PosDef.Pos.compare_cont Eq my mx) with (Pos.compare my mx).
    change (PosDef.Pos.compare_cont Eq mx my) with (Pos.compare mx my).
    apply Pos.compare_antisym.
  - rewrite (Z.compare_antisym ey ex).
    destruct (ey ?= ex)%Z; simpl; try reflexivity.
    f_equal. change (PosDef.Pos.compare_cont Eq my mx) with (Pos.compare my mx).
    change (PosDef.Pos.compare_cont Eq mx my) with (Pos.compare mx my).
    apply Pos.compare_antisym.
Qed.

Lemma SFcompare_refl (x : spec_float) :
  SFcompare x x = match x with S754_nan => None | _ => Some Eq end.
Proof.
  destruct x as [s|s| |s m e]; simpl; try destruct s; try reflexivity.
  - rewrite Z.compare_refl.
    change (PosDef.Pos.compare_cont Eq m m) with (Pos.compare m m).
    by rewrite Pos.compare_refl.
  - rewrite Z.compare_refl.
    change (PosDef.Pos.compare_cont Eq m m) with (Pos.compare m m).
    by rewrite Pos.compare_refl.
Qed.

Lemma isNaN_spec (x : float) : isNaN x = true <-> Prim2SF x = S754_nan.
Proof.
  unfold isNaN. rewrite eqb_spec. unfold SFeqb. rewrite SFcompare_refl.
  destruct (Prim2SF x); simpl; split; congruence.
Qed.

Lemma isNaN_false (x : float) : isNaN x = false <-> Prim2SF x <> S754_nan.
Proof. rewrite <- isNaN_spec. by destruct (isNaN x). Qed.






(** Two numbers are comparable. *)
Lemma ltb_false_leb (x y : float) :
  isNaN x = false -> isNaN y = false ->
  (x <? y)%float = false -> (y <=? x)%float = true.
Proof.
  rewrite ltb_spec, leb_spec, !isNaN_false. unfold SFltb, SFleb.
  rewrite (SFcompare_antisym (Prim2SF x) (Prim2SF y)).
  destruct (Prim2SF x) as [sx|sx| |sx mx ex], (Prim2SF y) as [sy|sy| |sy my ey];
    simpl; try done; try destruct sx; try destruct sy; simpl; try done;
    destruct (ex ?= ey)%Z; simpl; try done;
    destruct (PosDef.Pos.compare_cont Eq mx my); simpl; done.
Qed.


(** ** Product saves *)

(** Loading a product, assigning to its [stock] property and saving it
    writes the stored paths back as they were. *)
Lemma touch_run (pid : string) (s : ProductDoc -> float) (w : World) :
  bind (Product_findById pid)
       (fun product => match product with
                       | Some p => Product_save pid (set_stock (s p) p)
                       | None => ret tt
                       end) w
  = (Ok tt, log (if bool_decide (is_Some (products w !! pid))
                 then [EProductSave pid] else []) w).
Proof.
  unfold bind, Product_findById.
  destruct (products w !! pid) as [p|] eqn:Hp; cbn.
  - unfold Product_save. cbn [doc_fields set_stock].
    by rewrite (insert_id _ _ _ Hp), set_products_id.
  - by rewrite log_nil.
Qed.

Lemma savesOf_cons keep item rest m :
  savesOf keep (item :: rest) m
  = (if keep item && bool_decide (is_Some (m !! productId item))
     then [EProductSave (productId item)] else []) ++ savesOf keep rest m.
Proof. reflexivity. Qed.

Lemma restoreStock_run items w :
  restoreStock items w = (Ok tt, log (restoreEvents items (products w)) w).
Proof.
  revert w. induction items as [|item rest IH]; intros w; cbn [restoreStock].
  - unfold ret. by rewrite log_nil.
  - unfold restoreEvents. rewrite savesOf_cons. cbn [allItems andb].
    unfold bind at 1. unfold Product_findById.
    destruct (products w !! productId item) as [p|] eqn:Hp; cbn.
    + unfold bind, Product_save. cbn [doc_fields set_stock].
      rewrite (insert_id _ _ _ Hp), set_products_id, IH. cbn [products log].
      by rewrite log_log.
    + unfold bind, ret. by rewrite IH.
Qed.

Lemma savesOf_stock keep items m : forallb isStockSave (savesOf keep items m) = true.
Proof.
  induction items as [|item rest IH]; [done|].
  rewrite savesOf_cons, forallb_app, IH, andb_true_r. by destruct (keep item && _).
Qed.

Lemma restoreEvents_stock items m : forallb isStockSave (restoreEvents items m) = true.
Proof. apply savesOf_stock. Qed.

Lemma audits_app t1 t2 : audits (t1 ++ t2) = audits t1 ++ audits t2.
Proof. unfold audits. apply List.filter_app. Qed.

Lemma audits_stock evs : forallb isStockSave evs = true -> audits evs = [].
Proof.
  induction evs as [|e evs IH]; simpl; [done|].
  intros [He Hevs]%andb_true_iff. destruct e; simpl in *; try done; auto.
Qed.

Lemma restoreProductStock_eq items w :
  Refund.restoreProductStock items w = restoreStock items w.
Proof.
  revert w. induction items as [|item rest IH]; intros w; simpl; [done|].
  unfold bind, Product_findById.
  destruct (products w !! productId item) as [p|]; simpl; apply IH.
Qed.

(** A stock loop leaves every product as it was. *)
Lemma restoreStock_products items w :
  products (snd (restoreStock items w)) = products w.
Proof. by rewrite restoreStock_run. Qed.

Lemma filter_stock_saves evs :
  forallb isStockSave evs = true -> List.filter isStockSave evs = evs.
Proof.
  induction evs as [|e evs IH]; cbn; [done|].
  intros [He Hevs]%andb_true_iff. rewrite He. f_equal. by apply IH.
Qed.

(** ** Auto-cancel sweeper *)

Section Sweep.
Import AutoCancel SweepSpec.
Variable cfg : Config.
Variable F : Faults.

Lemma restoreItems_run id items w :
  restoreItems F id items w
  = (Ok tt, log (savesOf (keepItem F id) items (products w)) w).
Proof.
  revert w. induction items as [|item rest IH]; intros w; cbn [restoreItems].
  - unfold ret. by rewrite log_nil.
  - rewrite savesOf_cons. unfold keepItem at 1.
    unfold bind at 1, try_catch at 1.
    destruct (product_fails F id (productId item)) eqn:Hf; cbn [negb andb].
    + unfold throw, ret. cbn. by rewrite IH.
    + unfold bind at 1, Product_findById at 1.
      destruct (products w !! productId item) as [p|] eqn:Hp; cbn.
      * unfold bind, Product_save. cbn [doc_fields set_stock].
        rewrite (insert_id _ _ _ Hp), set_products_id, IH. cbn [products log].
        by rewrite log_log.
      * unfold ret. by rewrite IH.
Qed.

(** One order of the sweep. *)
Lemma cancelOrder_run o w :
  exists w',
    cancelOrder cfg F o w
    = (if update_fails F (_id o) then Throw dbError else Ok tt, w')
    /\ products w' = products w
    /\ orders w' = (if update_fails F (_id o) then orders w
                    else update_by_id (_id o) (set_status OS_Canceled PS_Failed) (orders w))
    /\ audits (trace w')
       = audits (trace w)
           ++ (if update_fails F (_id o) then []
               else [outcomeEvent F o]).
Proof.
  unfold cancelOrder.
  unfold bind at 1. rewrite restoreItems_run.
  pose proof (savesOf_stock (keepItem F (_id o)) (orderItems o) (products w)) as Hevs.
  unfold outcomeEvent.
  destruct (update_fails F (_id o)) eqn:Hu.
  - unfold bind, throw. eexists. split; [reflexivity|].
    repeat split; simpl.
    by rewrite audits_app, (audits_stock _ Hevs).
  - unfold bind at 1, Order_update at 1. unfold bind, auditLogger, emit.
    eexists. split; [reflexivity|].
    repeat split; simpl.
    rewrite !audits_app, (audits_stock _ Hevs). simpl.
    match goal with |- context [head ?l] => destruct (head l) end;
      simpl; by rewrite !app_nil_r.
Qed.

Lemma sweep_run l c e w :
  exists w',
    sweep cfg F l c e w
    = (Ok (c + Z.of_nat (length (cancelledOf F l)),
           e + Z.of_nat (length (failedOf F l))), w')
    /\ products w' = products w
    /\ orders w'
       = foldl (fun os o => if update_fails F (_id o) then os
                            else update_by_id (_id o) (set_status OS_Canceled PS_Failed) os)
               (orders w) l
    /\ audits (trace w') = audits (trace w) ++ map (outcomeEvent F) l.
Proof.
  revert c e w. induction l as [|o rest IH]; intros c e w.
  - simpl. exists w. unfold ret. split; [do 3 f_equal; lia|].
    repeat split. by rewrite app_nil_r.
  - simpl sweep.
    destruct (cancelOrder_run o w) as (w1 & Hrun & Hp1 & Ho1 & Ha1).
    unfold bind at 1. unfold try_catch at 1. unfold bind at 1. rewrite Hrun.
    unfold cancelledOf, failedOf, outcomeEvent in *. simpl.
    destruct (update_fails F (_id o)) eqn:Hu; simpl.
    + unfold bind, auditLogger, emit, ret. simpl.
      destruct (IH c (e + 1) (log [EAudit "error" "AUTO_CANCEL_ORDER_FAILED"
                                     [("orderId", VStr (orderId o));
                                      ("error", VStr "database operation failed")]] w1))
        as (w2 & Hrun2 & Hp2 & Ho2 & Ha2).
      rewrite Hrun2. exists w2.
      split; [do 3 f_equal; lia|]. repeat split.
      * by rewrite Hp2.
      * rewrite Ho2. simpl. by rewrite Ho1.
      * rewrite Ha2. simpl. rewrite audits_app, Ha1. simpl.
        by rewrite app_nil_r, <- app_assoc.
    + unfold ret; simpl.
      destruct (IH (c + 1) e w1) as (w2 & Hrun2 & Hp2 & Ho2 & Ha2).
      rewrite Hrun2. exists w2.
      split; [do 3 f_equal; lia|]. repeat split.
      * by rewrite Hp2.
      * rewrite Ho2. by rewrite Ho1.
      * rewrite Ha2, Ha1. by rewrite <- app_assoc.
Qed.

End Sweep.

(** ** Updates by identifier *)

Lemma same_id_same_order (l : list Order) (o x : Order) :
  NoDup (map _id l) -> o ∈ l -> x ∈ l -> _id o = _id x -> o = x.
Proof.
  induction l as [|y l IH]; simpl; intros Hnd Ho Hx Hid.
  - by apply elem_of_nil in Ho.
  - apply NoDup_cons in Hnd as [Hy Hnd].
    apply elem_of_cons in Ho as [->|Ho]; apply elem_of_cons in Hx as [->|Hx]; auto.
    + exfalso. apply Hy. rewrite Hid. apply list_elem_of_In, in_map, list_elem_of_In, Hx.
    + exfalso. apply Hy. rewrite <- Hid. apply list_elem_of_In, in_map, list_elem_of_In, Ho.
Qed.

Lemma foldl_update_map (bad : nat -> bool) (f : Order -> Order)
      (l os : list Order) :
  (forall o, _id (f o) = _id o) ->
  (forall o, f (f o) = f o) ->
  foldl (fun os o => if bad (_id o) then os else update_by_id (_id o) f os) os l
  = map (fun x => if existsb (fun o => negb (bad (_id o)) && bool_decide (_id o = _id x)) l
                  then f x else x) os.
Proof.
  intros Hid Hidem. revert os. induction l as [|o rest IH]; intros os; simpl.
  - by rewrite map_id.
  - rewrite IH. destruct (bad (_id o)) eqn:Hb; simpl; [done|].
    unfold update_by_id. rewrite map_map. apply map_ext. intros x.
    destruct (decide (_id x = _id o)) as [Heq|Hne].
    + rewrite Hid, (bool_decide_eq_true_2 (_id o = _id x)) by done. simpl.
      by destruct (existsb _ rest).
    + by rewrite (bool_decide_eq_false_2 (_id o = _id x)).
Qed.

Lemma update_selected_map (P : Order -> bool) (bad : nat -> bool) (f : Order -> Order)
      (os : list Order) :
  NoDup (map _id os) ->
  (forall o, _id (f o) = _id o) ->
  (forall o, f (f o) = f o) ->
  foldl (fun acc o => if bad (_id o) then acc else update_by_id (_id o) f acc) os
        (filter (fun o => P o = true) os)
  = map (fun o => if P o && negb (bad (_id o)) then f o else o) os.
Proof.
  intros Hnd Hid Hidem. rewrite foldl_update_map by done.
  apply map_ext_in. intros x Hx%list_elem_of_In.
  match goal with |- (if ?a then _ else _) = (if ?b then _ else _) =>
    assert (a = b) as ->; [|done] end.
  apply eq_true_iff_eq. rewrite existsb_exists, andb_true_iff, negb_true_iff. split.
  - intros (o & Ho%list_elem_of_In & [Hb Hi%bool_decide_eq_true]%andb_true_iff).
    apply list_elem_of_filter in Ho as [HP Ho].
    assert (o = x) as -> by eauto using same_id_same_order.
    by apply negb_true_iff in Hb.
  - intros [HP Hb]. exists x. split.
    + apply list_elem_of_In, list_elem_of_filter. done.
    + rewrite Hb. simpl. by apply bool_decide_eq_true.
Qed.


Section SweepTheorems.
Import AutoCancel SweepSpec.

Lemma isStale_spec cfg now o :
  isStale cfg now o = true
  <-> paymentStatus o = PS_Pending
      /\ (orderStatus o = OS_Pending \/ orderStatus o = OS_Processing)
      /\ createdAt o < now - timeoutMinutes cfg * 60 * 1000.
Proof.
  unfold isStale, cutoffTime.
  rewrite !andb_true_iff, orb_true_iff, !bool_decide_eq_true, Z.ltb_lt. tauto.
Qed.

Lemma set_status_id os ps o : _id (set_status os ps o) = _id o.
Proof. reflexivity. Qed.

Lemma set_status_idem os ps o :
  set_status os ps (set_status os ps o) = set_status os ps o.
Proof. reflexivity. Qed.

Lemma checkPendingOrders_unfold cfg F now w :
  checkPendingOrders cfg F now w
  = let sel := selected cfg now w in
    if bool_decide (length sel = 0%nat) then (Ok tt, w)
    else match sweep cfg F sel 0 0 w with
         | (Ok counts, w1) =>
             (Ok tt, log [EAudit "info" "AUTO_CANCEL_SUMMARY"
                            [("totalFound", VNum (Z_to_float (Z.of_nat (length sel))));
                             ("cancelled", VNum (Z_to_float (fst counts)));
                             ("errors", VNum (Z_to_float (snd counts)))]] w1)
         | (Throw e, w1) =>
             (Ok tt, log [EAudit "error" "AUTO_CANCEL_SERVICE_ERROR"
                            [("error", VStr (message e))]] w1)
         end.
Proof.
  unfold checkPendingOrders, try_catch, bind, Order_find, selected, auditLogger, emit, ret.
  simpl. destruct (bool_decide _); [done|].
  by destruct (sweep _ _ _ _ _ _) as [[[]|] ?].
Qed.

(** C8, as stated, at a sweep that finds nothing to cancel: the sweep
    returns before the summary entry is written. *)
Lemma C8_no_summary_when_nothing_is_stale :
  ~ logsSummary (snd (checkPendingOrders defaultConfig noFaults Sample.hour Sample.paidOnly)).
Proof.
  intros [data H]. vm_compute in H. exact H.
Qed.

(** C8 (as the code has it): a sweep selects exactly the orders with payment
    Pending, fulfilment Pending or Processing and [createdAt] more than
    [timeoutMinutes] (30 by default) before now.  Each of them, in
    order, is set to Canceled/Failed unless that update fails; a failing
    order does not stop the loop.  The audit log gains one outcome entry
    per selected order and, when at least one order was selected, the
    summary entry with the three counts. *)
Theorem C8_sweep (cfg : Config) (F : Faults) (now : Z) (w : World) :
  NoDup (map _id (orders w)) ->
  let sel := selected cfg now w in
  let w' := snd (checkPendingOrders cfg F now w) in
  (forall o, o ∈ sel <->
             o ∈ orders w /\ paymentStatus o = PS_Pending
             /\ (orderStatus o = OS_Pending \/ orderStatus o = OS_Processing)
             /\ createdAt o < now - timeoutMinutes cfg * 60 * 1000)
  /\ timeoutMinutes defaultConfig = 30
  /\ fst (checkPendingOrders cfg F now w) = Ok tt
  /\ orders w'
     = map (fun o => if isStale cfg now o && negb (update_fails F (_id o))
                     then set_status OS_Canceled PS_Failed o else o) (orders w)
  /\ audits (trace w')
     = audits (trace w) ++ map (outcomeEvent F) sel
         ++ (if bool_decide (sel = []) then [] else [summaryEvent F sel]).
Proof.
  intros Hnd sel w'.
  split.
  { intros o. unfold sel, selected. rewrite list_elem_of_filter, isStale_spec. tauto. }
  split; [reflexivity|].
  pose proof (checkPendingOrders_unfold cfg F now w) as Hun.
  cbv zeta in Hun. fold (selected cfg now w) in sel. fold sel in Hun. subst w'.
  destruct (decide (sel = [])) as [Hnil|Hne].
  - rewrite Hnil in Hun. simpl in Hun. rewrite Hun. simpl. repeat split.
    + symmetry. erewrite map_ext_in; [apply map_id|].
      intros o Ho%list_elem_of_In.
      destruct (isStale cfg now o) eqn:Hs; [|done].
      assert (o ∈ sel) as Hin by (apply list_elem_of_filter; done).
      rewrite Hnil in Hin. by apply elem_of_nil in Hin.
    + rewrite Hnil. simpl. by rewrite app_nil_r.
  - rewrite (bool_decide_eq_false_2 (length sel = 0%nat)) in Hun
      by (intros Hl%nil_length_inv; done).
    rewrite (bool_decide_eq_false_2 (sel = [])) by done.
    destruct (sweep_run cfg F sel 0 0 w) as (w1 & Hrun & Hp & Ho & Ha).
    rewrite Hrun in Hun. rewrite Hun. simpl. repeat split.
    + rewrite Ho. unfold sel, selected.
      apply update_selected_map; auto using set_status_id, set_status_idem.
    + rewrite audits_app, Ha. simpl. unfold summaryEvent.
      rewrite <- app_assoc. reflexivity.
Qed.

(** The hypothesis of [C8_sweep] at a store with two stale orders, the
    first of which cannot be updated. *)
Lemma C8_sweep_witness :
  NoDup (map _id (orders Sample.staleStore))
  /\ map paymentStatus
         (orders (snd (checkPendingOrders defaultConfig Sample.firstUpdateFails
                                         Sample.hour Sample.staleStore)))
     = [PS_Pending; PS_Failed; PS_Pending].
Proof.
  assert (NoDup (map _id (orders Sample.staleStore))) as Hnd.
  { apply (bool_decide_unpack _). vm_compute. exact I. }
  split; [exact Hnd|].
  destruct (C8_sweep defaultConfig Sample.firstUpdateFails Sample.hour
                     Sample.staleStore Hnd) as (_ & _ & _ & Ho & _).
  rewrite Ho. reflexivity.
Defined.

End SweepTheorems.

(** Unfolds the monad and the database primitives of a handler that has
    no loop left to run. *)

(** Unfolds the monad and the database primitives of a handler that has
    no loop left to run. *)
Ltac run_handler :=
  unfold bind, try_catch, ret, throw, startTransaction, commitTransaction,
    abortTransaction, abortIfInTransaction, Order_findOne, Order_update,
    auditLogger, emit, gateway, notifySeller, log, set_session, set_orders,
    set_products; simpl.

(** ** Refund engine *)

Section RefundLemmas.
Import Refund RefundSpec.

Lemma found_in oid w order :
  findByOrderId oid w = Some order -> order ∈ orders w /\ orderId order = oid.
Proof.
  unfold findByOrderId. intros H%head_Some_elem_of.
  apply list_elem_of_filter in H as [H1 H2]. split; [done|].
  unfold byOrderId in H1. by apply bool_decide_eq_true in H1.
Qed.


Lemma rejected_store w : sameStore w (rejected w).
Proof. by split. Qed.

(** [order.save()] of the order a route has loaded. *)
Lemma Order_save_found (order : Order) (f : Order -> Order) (w : World) :
  NoDup (map _id (orders w)) -> order ∈ orders w ->
  Order_save (_id order) f w
  = if schema_refunds_ok (f order) then Order_update (_id order) f w
    else (Throw (mkError "Order validation failed" None None), w).
Proof.
  intros Hnd Hin. unfold Order_save.
  match goal with |- (if ?b then _ else _) = _ =>
    assert (b = negb (schema_refunds_ok (f order))) as -> end.
  { apply eq_true_iff_eq. rewrite existsb_exists. split.
    - intros (o & Ho%list_elem_of_In & [Hid%bool_decide_eq_true Hs]%andb_true_iff).
      by rewrite <- (same_id_same_order _ _ _ Hnd Ho Hin Hid).
    - intros Hs. exists order. split; [by apply list_elem_of_In|].
      by rewrite bool_decide_eq_true_2. }
  by destruct (schema_refunds_ok (f order)).
Qed.












Lemma filter_update (P : Order -> bool) (g : Order -> Order) (l : list Order) :
  (forall o, P (g o) = P o) ->
  filter (fun o => P o = true) (map g l) = map g (filter (fun o => P o = true) l).
Proof.
  intros HP. induction l as [|x l IH]; simpl; [done|].
  rewrite !filter_cons, HP, IH. by destruct (decide (P x = true)).
Qed.





End RefundLemmas.

Section RefundTheorems.
Import Refund RefundSpec.




(** After that, a third attempt of any amount is turned down. *)
Example third_refund_is_rejected (amount : float) :
  let w' := snd (refund_partial (Ok RefundSample.confirmed749) "ORD-20250101-1" 749
                                "late delivery" RefundSample.store) in
  fst (refund_partial (Ok RefundSample.confirmed749) "ORD-20250101-1" amount "again" w')
  = Ok (failure 400 "Cannot refund unpaid order")
  /\ fst (refund_full (Ok RefundSample.confirmed1249) "ORD-20250101-1" "again" w')
     = Ok (failure 400 "Order is already refunded").
Proof. split; reflexivity. Qed.

End RefundTheorems.

Section RestoreTheorems.
Import Refund RefundSpec AutoCancel SweepSpec.

Lemma keepItem_noFaults id : keepItem noFaults id = allItems.
Proof. reflexivity. Qed.

(** [undefined + q] is [NaN]. *)
Lemma undefined_plus (q : float) : isNaN (num None + q) = true.
Proof. apply isNaN_spec. rewrite add_spec. reflexivity. Qed.

Lemma refund_full_success response oid reason w order :
  NoDup (map _id (orders w)) ->
  findByOrderId oid w = Some order ->
  truthy (transactionId order) = true ->
  paymentStatus order = PS_Paid ->
  schema_refunds_ok order = true ->
  isNaN (Z_to_float (rz_amount response) / 100) = false ->
  exists body w',
    refund_full (Ok response) oid reason w = (Ok (Json 200 body), w')
    /\ products w' = products w
    /\ orders w'
       = update_by_id (_id order)
           (fun o => set_refundDetails
                       (Some (mkRefund (rz_id response)
                                       (Z_to_float (rz_amount response) / 100)
                                       (rz_status response) reason adminId))
                       (set_status OS_Canceled PS_Refunded o))
           (orders w).
Proof.
  intros Hnd Hfind Htxn Hpaid Hok Hnum.
  unfold refund_full. run_handler. fold (findByOrderId oid w).
  rewrite Hfind, Htxn, Hpaid. simpl.
  apply found_in in Hfind as [Hin _].
  rewrite Order_save_found by (simpl; assumption).
  unfold schema_refunds_ok in *. cbn. rewrite Hnum.
  apply andb_true_iff in Hok as [-> _]. cbn.
  unfold Order_update. cbn.
  rewrite restoreProductStock_eq, restoreStock_run. simpl.
  do 2 eexists. split; [reflexivity|]. by simpl.
Qed.

Lemma phonepe_refund_full_success response oid reason w order :
  NoDup (map _id (orders w)) ->
  findByOrderId oid w = Some order ->
  paymentMethod order = "phonepe" ->
  noTransaction order = false ->
  paymentStatus order = PS_Paid ->
  schema_refunds_ok order = true ->
  requiredNumber (finalTotal order) = true ->
  exists body w',
    phonepe_refund_full (Ok response) oid reason w = (Ok (Json 200 body), w')
    /\ products w' = products w.
Proof.
  intros Hnd Hfind Hm Htxn Hpaid Hok Hnum.
  unfold phonepe_refund_full. run_handler.
  fold (findByOrderId oid w).
  rewrite Hfind, Hm, Htxn, Hpaid. simpl.
  apply found_in in Hfind as [Hin _].
  rewrite Order_save_found by (simpl; assumption).
  unfold schema_refunds_ok in *. cbn.
  destruct (finalTotal order) as [total|]; [|done]. cbn in *. rewrite Hnum.
  apply andb_true_iff in Hok as [-> _]. cbn.
  unfold Order_update. cbn.
  rewrite restoreProductStock_eq, restoreStock_run. simpl.
  do 2 eexists. split; [reflexivity|]. by simpl.
Qed.

(** C10: the restoring loops ([restoreStock], the loop of the
    auto-cancel [cancelOrder], the loops of the two full-refund routes)
    never raise an error, pass over an item whose product is gone, and
    the operation around the loop completes: the cancellation returns
    normally with the order updated, the refund answers 200.  But no
    stock is incremented: a loaded product has no [stock] (the Product
    schema has no such path), the sum assigned to the property is
    [NaN], and [product.save()] leaves every product as it was. *)
Theorem C10_restore_loops_store_no_stock (order : Order) (w : World) :
  (forall pid d,
      fst (Product_findById pid w) = Ok (Some d) ->
      stock d = None /\ forall q, isNaN (num (stock d) + q) = true)
  /\ restoreStock (orderItems order) w
     = (Ok tt, log (restoreEvents (orderItems order) (products w)) w)
  /\ (forall cfg,
        fst (cancelOrder cfg noFaults order w) = Ok tt
        /\ products (snd (cancelOrder cfg noFaults order w)) = products w
        /\ orders (snd (cancelOrder cfg noFaults order w))
           = update_by_id (_id order) (set_status OS_Canceled PS_Failed) (orders w))
  /\ (forall response oid reason,
        NoDup (map _id (orders w)) ->
        findByOrderId oid w = Some order ->
        truthy (transactionId order) = true ->
        paymentStatus order = PS_Paid ->
        schema_refunds_ok order = true ->
        isNaN (Z_to_float (rz_amount response) / 100) = false ->
        exists body w',
          refund_full (Ok response) oid reason w = (Ok (Json 200 body), w')
          /\ products w' = products w)
  /\ (forall response oid reason,
        NoDup (map _id (orders w)) ->
        findByOrderId oid w = Some order ->
        paymentMethod order = "phonepe" ->
        noTransaction order = false ->
        paymentStatus order = PS_Paid ->
        schema_refunds_ok order = true ->
        requiredNumber (finalTotal order) = true ->
        exists body w',
          phonepe_refund_full (Ok response) oid reason w = (Ok (Json 200 body), w')
          /\ products w' = products w).
Proof.
  split.
  { intros pid d. unfold Product_findById. cbn.
    destruct (products w !! pid) as [p|]; cbn; [|done].
    intros [= <-]. split; [done|]. intros q. apply undefined_plus. }
  split; [apply restoreStock_run|].
  split.
  { intros cfg.
    destruct (cancelOrder_run cfg noFaults order w) as (w' & Hrun & Hp & Ho & _).
    rewrite Hrun. by simpl. }
  split.
  { intros response oid reason Hnd Hfind Htxn Hpaid Hok Hnum.
    destruct (refund_full_success response oid reason w order)
      as (body & w' & Hrun & Hp & _); try done.
    by exists body, w'. }
  intros response oid reason Hnd Hfind Hm Htxn Hpaid Hok Hnum.
  destruct (phonepe_refund_full_success response oid reason w order)
    as (body & w' & Hrun & Hp); try done.
  by exists body, w'.
Qed.

(** A full refund of an order of two apples and of a plum that was
    deleted from the catalogue: the refund succeeds, the deleted
    product is passed over, and the apples are stored as before. *)
Lemma C10_restore_loops_store_no_stock_witness :
  exists body w',
    refund_full (Ok RefundSample.confirmed1249) "ORD-20250101-1" "returned"
                RefundSample.store = (Ok (Json 200 body), w')
    /\ products w' = Sample.catalogue
    /\ List.filter isStockSave (trace w') = [EProductSave "p1"].
Proof.
  destruct (C10_restore_loops_store_no_stock RefundSample.partlyRefunded RefundSample.store)
    as (_ & _ & _ & Hfull & _).
  destruct (Hfull RefundSample.confirmed1249 "ORD-20250101-1" "returned")
    as (body & w' & Hrun & Hp); try reflexivity.
  { apply (bool_decide_unpack _). vm_compute. exact I. }
  exists body, w'. split; [exact Hrun|]. split; [exact Hp|].
  assert (w' = snd (refund_full (Ok RefundSample.confirmed1249) "ORD-20250101-1" "returned"
                                RefundSample.store)) as -> by by rewrite Hrun.
  by vm_compute.
Defined.

End RestoreTheorems.

(** ** Payment confirmation *)

Section ConfirmationTheorems.
Import PhonePeService Confirmation ConfirmationSpec.

(** C9: when the order named in the path is Canceled/Failed, the
    return handler answers with the redirect to the error page
    [error=order_cancelled] and does nothing else: no status check is
    made, no order is written, nothing is logged. *)
Theorem C9_cancelled_order_stays_cancelled
        (statusCheck : nat -> Res StatusResponse) (oid : string)
        (queryTransactionId : option string) (w : World) (order : Order) :
  orderNamed oid w = Some order ->
  orderStatus order = OS_Canceled ->
  paymentStatus order = PS_Failed ->
  phonepe_return statusCheck oid queryTransactionId w
  = (Ok (confirmationPage ("error=order_cancelled&orderId=" +:+ oid)), w).
Proof.
  intros Hfind Hos Hps.
  unfold phonepe_return. run_handler. fold (orderNamed oid w).
  rewrite Hfind, Hos, Hps. reflexivity.
Qed.

(** A replayed return for a cancelled order, with a provider that would
    report success. *)
Lemma C9_cancelled_order_stays_cancelled_witness :
  orderNamed "ORD-20250101-1" ConfirmationSample.cancelledPhonePe
  = Some (Sample.guestOrder 1 "ORD-20250101-1" "phonepe_K1" "phonepe" [Sample.twoApples] 210
                            PS_Failed OS_Canceled None None 0)
  /\ phonepe_return ConfirmationSample.statusCompleted "ORD-20250101-1" (Some "T1")
                    ConfirmationSample.cancelledPhonePe
     = (Ok (confirmationPage "error=order_cancelled&orderId=ORD-20250101-1"),
        ConfirmationSample.cancelledPhonePe).
Proof.
  split; [reflexivity|].
  apply (C9_cancelled_order_stays_cancelled
           ConfirmationSample.statusCompleted "ORD-20250101-1" (Some "T1")
           ConfirmationSample.cancelledPhonePe
           (Sample.guestOrder 1 "ORD-20250101-1" "phonepe_K1" "phonepe" [Sample.twoApples]
                              210 PS_Failed OS_Canceled None None 0));
    reflexivity.
Defined.

(** The status check: one attempt is made ([maxRetries] is 1). *)
Lemma executeWithRetry_once {A} call (requestFunc : nat -> Res A) w :
  executeWithRetry call requestFunc w
  = (requestFunc 1%nat,
     log [EGateway call [("attempt", VNum (Z_to_float 1))]] w).
Proof.
  unfold executeWithRetry. simpl.
  unfold bind, emit. by destruct (requestFunc 1%nat) as [a|e].
Qed.

Lemma checkPaymentStatus_timeout requestFunc merchantOrderId e w :
  requestFunc 1%nat = Throw e ->
  code e = Some "ECONNABORTED" ->
  checkPaymentStatus requestFunc merchantOrderId w
  = (Ok {| success := true;
           st_transactionId := merchantOrderId;
           st_status := Some "COMPLETED";
           st_code := Some "TIMEOUT_ASSUMED_SUCCESS";
           fullResponse := "{ assumedSuccess: true }" |},
     log [EGateway "phonepe.checkout.v2.order.status" [("attempt", VNum (Z_to_float 1))]] w).
Proof.
  intros Hreq Hcode. unfold checkPaymentStatus, try_catch, bind.
  rewrite executeWithRetry_once, Hreq, Hcode. reflexivity.
Qed.

Lemma emailsSent_app r o t1 t2 :
  emailsSent r o (t1 ++ t2) = (emailsSent r o t1 + emailsSent r o t2)%nat.
Proof. unfold emailsSent. by rewrite List.filter_app, length_app. Qed.

(** C2 at the PhonePe webhook: a success notification for an order
    that is already Paid writes the order again and sends the
    confirmation e-mail once more. *)
Theorem C2_phonepe_webhook_repeats_confirmation
        (sha256_hex : string -> string) (parseBase64Json : string -> option json)
        (clientSecret : string) (req : WebhookRequest) (txn email : string)
        (w : World) (order : Order) :
  verifyWebhookSignature sha256_hex clientSecret (header "x-verify" req)
                         (phonepe_signed_message req) = true ->
  body req = successBody txn ->
  txn <> "" ->
  orderOfTransaction (Some txn) w = Some order ->
  paymentStatus order = PS_Paid ->
  customerEmail order = Some email ->
  email <> "" ->
  let r := phonepe_webhook sha256_hex parseBase64Json clientSecret req w in
  fst r = Ok (Json 200 [("success", VBool true)])
  /\ emailsSent email (orderId order) (trace (snd r))
     = S (emailsSent email (orderId order) (trace w))
  /\ orders (snd r)
     = update_by_id (_id order)
         (fun o => set_phonePePaymentData (Some (JSON_stringify (successBody txn)))
                     (set_status OS_Processing PS_Paid o))
         (orders w).
Proof.
  intros Hsig Hbody Htxn Hfind Hpaid Hmail Hne r. subst r.
  unfold phonepe_webhook. rewrite Hsig. unfold phonepe_signed_message.
  rewrite Hbody. run_handler.
  rewrite (bool_decide_eq_false_2 (txn = "")) by done. simpl.
  fold (orderOfTransaction (Some txn) w). rewrite Hfind. simpl.
  unfold sendCheckoutSuccessEmail. rewrite Hmail. simpl.
  rewrite (bool_decide_eq_false_2 (email = "")) by done. simpl.
  run_handler.
  split; [by destruct (seller w)|].
  split; [|by destruct (seller w)].
  destruct (seller w); simpl; rewrite !emailsSent_app;
    match goal with |- context [head ?l] => destruct (head l) end;
    unfold emailsSent; simpl; rewrite !bool_decide_eq_true_2 by done; simpl; lia.
Qed.

(** The same success notification delivered twice: the second
    delivery meets a Paid order and the customer has two e-mails. *)
Lemma C2_phonepe_webhook_repeats_confirmation_witness :
  let deliver := phonepe_webhook ConfirmationSample.digestStub ConfirmationSample.noBase64
                                 "secret" ConfirmationSample.successWebhook in
  let once := snd (deliver ConfirmationSample.pendingPhonePe) in
  let twice := snd (deliver once) in
  map paymentStatus (orders once) = [PS_Paid]
  /\ emailsSent "asha@example.com" "ORD-20250101-1" (trace once) = 1%nat
  /\ emailsSent "asha@example.com" "ORD-20250101-1" (trace twice) = 2%nat.
Proof.
  intros deliver once twice.
  assert (map paymentStatus (orders once) = [PS_Paid]) as H1 by reflexivity.
  assert (emailsSent "asha@example.com" "ORD-20250101-1" (trace once) = 1%nat) as H2
    by reflexivity.
  split; [exact H1|]. split; [exact H2|].
  pose proof (C2_phonepe_webhook_repeats_confirmation
                ConfirmationSample.digestStub ConfirmationSample.noBase64 "secret"
                ConfirmationSample.successWebhook "T1" "asha@example.com" once
                (set_phonePePaymentData (Some (JSON_stringify (successBody "T1")))
                   (set_status OS_Processing PS_Paid
                      (Sample.guestOrder 1 "ORD-20250101-1" "phonepe_K1" "phonepe"
                                         [Sample.twoApples] 210 PS_Pending OS_Pending
                                         (Some "T1") (Some "T1") 0)))
                eq_refl eq_refl ltac:(discriminate) eq_refl eq_refl eq_refl
                ltac:(discriminate)) as (_ & Hmail & _).
  etransitivity; [exact Hmail|]. reflexivity.
Defined.

(** The Razorpay helper guards the transition: with every order Paid
    it changes nothing. *)
Lemma handlePaymentCaptured_paid (payload : option json) (w : World) :
  Forall (fun o => paymentStatus o = PS_Paid) (orders w) ->
  snd (handlePaymentCaptured payload w) = w.
Proof.
  intros Hall. unfold handlePaymentCaptured, paymentEntity.
  destruct (at_path ["payment"; "entity"] payload) as [entity|]; [|done].
  unfold bind at 1, ret at 1.
  destruct (negb (truthy (as_string (at_path ["notes"; "orderId"] (Some entity)))))
    eqn:Hnoted; [done|].
  run_handler.
  match goal with |- context [head ?l] => destruct (head l) as [order|] eqn:Hfind end;
    [|done].
  apply head_Some_elem_of, list_elem_of_filter in Hfind as [_ Hin].
  eapply Forall_forall in Hall; [|exact Hin]. by rewrite Hall.
Qed.

(** So does the return handler: for a Paid order it writes nothing and
    sends nothing. *)
Lemma phonepe_return_paid statusCheck oid queryTransactionId w order :
  orderNamed oid w = Some order ->
  paymentStatus order = PS_Paid ->
  let w' := snd (phonepe_return statusCheck oid queryTransactionId w) in
  orders w' = orders w /\ products w' = products w
  /\ forall r o, emailsSent r o (trace w') = emailsSent r o (trace w).
Proof.
  intros Hfind Hpaid. cbv zeta.
  destruct (phonepe_return statusCheck oid queryTransactionId w) as [r w'] eqn:Hrun.
  simpl. revert Hrun. unfold phonepe_return.
  unfold try_catch at 1, bind at 1, Order_findOne at 1.
  fold (orderNamed oid w). rewrite Hfind, Hpaid. simpl.
  rewrite andb_false_r.
  destruct (negb (truthy _)).
  { unfold ret. intros [= <- <-]. done. }
  unfold try_catch, bind at 1, checkPaymentStatus, try_catch, bind at 1.
  rewrite executeWithRetry_once.
  destruct (statusCheck 1%nat) as [result|e]; simpl.
  - unfold ret, bind. simpl.
    match goal with |- context [if ?c then _ else _] => destruct c end; simpl;
      intros [= <- <-]; simpl;
      (split; [done|]; split; [done|]); intros; by rewrite emailsSent_app, Nat.add_0_r.
  - destruct (bool_decide (code e = Some "ECONNABORTED")); unfold ret, bind; simpl;
      intros [= <- <-]; simpl;
      (split; [done|]; split; [done|]); intros; by rewrite emailsSent_app, Nat.add_0_r.
Qed.

(** ** Webhook signatures *)

Lemma append_cons (c : ascii) (s t : string) : String c s +:+ t = String c (s +:+ t).
Proof. reflexivity. Qed.

Lemma append_empty (s : string) : s +:+ "" = s.
Proof. induction s as [|c s IH]; [done|]. by rewrite append_cons, IH. Qed.

Lemma append_step (acc : string) (c : ascii) (s : string) :
  (acc +:+ String c EmptyString) +:+ s = acc +:+ String c s.
Proof. induction acc as [|a acc IH]; [done|]. by rewrite !append_cons, IH. Qed.

Lemma split_hashes_signature (sig rest acc : string) :
  hashFree sig = true ->
  split_hashes (sig +:+ "###" +:+ rest) acc = (acc +:+ sig) :: split_hashes rest "".
Proof.
  revert acc. induction sig as [|c sig IH]; intros acc Hfree.
  - by rewrite append_empty.
  - simpl in Hfree. apply andb_true_iff in Hfree as [Hc Hfree].
    apply negb_true_iff, bool_decide_eq_false in Hc.
    rewrite <- append_step, <- IH by done. rewrite append_cons.
    destruct c as [[] [] [] [] [] [] [] []]; try reflexivity. by destruct Hc.
Qed.

(** C7: every webhook handler answers 400 on a signature mismatch,
    having only written the security entry of the audit log (no event
    is read, no order is looked up or changed), and the PhonePe
    handler takes the part of [x-verify] before the first [###] as
    the signature.  But no handler reads the raw body: the answer and
    the effects are the same whatever bytes were sent for the same
    parsed body and headers.  The Razorpay handlers compare the
    header with the hex HMAC-SHA256, under the webhook secret, of
    [JSON.stringify(req.body)]; the PhonePe handler compares the
    signature with the plain SHA-256 of that string followed by
    [/pg/v1/status/] and the client secret.  So a notification signed
    over the bytes sent is turned down when re-serialising its body
    gives another digest. *)
Theorem C7_signature_is_checked_over_reserialized_body
        (sha256_hex : string -> string) (hmac_sha256_hex : string -> string -> string)
        (parseBase64Json : string -> option json)
        (clientSecret webhookSecret : string) (req : WebhookRequest) (w : World) :
  webhookSecret <> "" ->
  (forall raw,
      razorpay_webhook hmac_sha256_hex (Some webhookSecret) (withRawBody raw req) w
      = razorpay_webhook hmac_sha256_hex (Some webhookSecret) req w
      /\ RazorpayWebhook.handleRazorpayWebhook hmac_sha256_hex webhookSecret
                                               (withRawBody raw req) w
         = RazorpayWebhook.handleRazorpayWebhook hmac_sha256_hex webhookSecret req w
      /\ phonepe_webhook sha256_hex parseBase64Json clientSecret (withRawBody raw req) w
         = phonepe_webhook sha256_hex parseBase64Json clientSecret req w)
  /\ (header "x-razorpay-signature" req
        <> Some (hmac_sha256_hex webhookSecret (JSON_stringify (body req))) ->
      razorpay_webhook hmac_sha256_hex (Some webhookSecret) req w
      = (Ok (Json 400 [("status", VStr "Signature mismatch")]),
         log [EAudit "security" "RAZORPAY_WEBHOOK_SIGNATURE_FAILED" []] w)
      /\ RazorpayWebhook.handleRazorpayWebhook hmac_sha256_hex webhookSecret req w
         = (Ok (Json 400 [("status", VStr "Signature mismatch")]),
            log [EAudit "security" "RAZORPAY_WEBHOOK_SIGNATURE_FAILED" []] w))
  /\ (header "x-razorpay-signature" req
        = Some (hmac_sha256_hex webhookSecret (rawBody req)) ->
      hmac_sha256_hex webhookSecret (rawBody req)
        <> hmac_sha256_hex webhookSecret (JSON_stringify (body req)) ->
      fst (razorpay_webhook hmac_sha256_hex (Some webhookSecret) req w)
      = Ok (Json 400 [("status", VStr "Signature mismatch")])
      /\ fst (RazorpayWebhook.handleRazorpayWebhook hmac_sha256_hex webhookSecret req w)
         = Ok (Json 400 [("status", VStr "Signature mismatch")]))
  /\ (forall sig keyIndex,
        hashFree sig = true -> sig <> "" ->
        verifyWebhookSignature sha256_hex clientSecret
                               (Some (sig +:+ "###" +:+ keyIndex))
                               (JSON_stringify (body req))
        = bool_decide (sha256_hex (JSON_stringify (body req) +:+ "/pg/v1/status/"
                                     +:+ clientSecret) = sig))
  /\ (verifyWebhookSignature sha256_hex clientSecret (header "x-verify" req)
                             (JSON_stringify (body req)) = false ->
      phonepe_webhook sha256_hex parseBase64Json clientSecret req w
      = (Ok (Json 400 [("success", VBool false);
                       ("message", VStr "Invalid webhook signature.")]),
         log [EAudit "security" "PHONEPE_WEBHOOK_SIGNATURE_FAILED" []] w)).
Proof.
  intros Hsecret.
  assert (header "x-razorpay-signature" req
            <> Some (hmac_sha256_hex webhookSecret (JSON_stringify (body req))) ->
          razorpay_webhook hmac_sha256_hex (Some webhookSecret) req w
          = (Ok (Json 400 [("status", VStr "Signature mismatch")]),
             log [EAudit "security" "RAZORPAY_WEBHOOK_SIGNATURE_FAILED" []] w)
          /\ RazorpayWebhook.handleRazorpayWebhook hmac_sha256_hex webhookSecret req w
             = (Ok (Json 400 [("status", VStr "Signature mismatch")]),
                log [EAudit "security" "RAZORPAY_WEBHOOK_SIGNATURE_FAILED" []] w))
    as Hmismatch.
  { intros Hmis. split.
    + unfold razorpay_webhook, razorpay_signed_message. simpl.
      rewrite (bool_decide_eq_false_2 (webhookSecret = "")) by done. simpl.
      rewrite (bool_decide_eq_false_2 (Some _ = header _ req)) by congruence.
      reflexivity.
    + unfold RazorpayWebhook.handleRazorpayWebhook, razorpay_signed_message.
      rewrite (bool_decide_eq_false_2 (Some _ = header _ req)) by congruence.
      reflexivity. }
  split; [|split; [exact Hmismatch|split; [|split]]].
  - intros raw. by destruct req.
  - intros Hsigned Hdiffer.
    destruct Hmismatch as [-> ->]; [|done]. rewrite Hsigned. congruence.
  - intros sig keyIndex Hfree Hsig.
    unfold verifyWebhookSignature, expectedSignature.
    assert (truthy (Some (sig +:+ "###" +:+ keyIndex)) = true) as ->.
    { destruct sig; [done|]. reflexivity. }
    simpl. rewrite split_hashes_signature by done. simpl.
    by rewrite (bool_decide_eq_false_2 (sig = "")).
  - intros Hbad. unfold phonepe_webhook, phonepe_signed_message.
    rewrite Hbad. reflexivity.
Qed.

(** A Razorpay notification with a space after the colon, signed by
    its sender over the bytes sent: the handler re-serialises the
    body without the space and answers 400. *)
Lemma C7_signature_is_checked_over_reserialized_body_witness :
  "whsec" <> ""
  /\ header "x-razorpay-signature" ConfirmationSample.signedSpacedRequest
     = Some (ConfirmationSample.tagStub "whsec"
                                        (rawBody ConfirmationSample.signedSpacedRequest))
  /\ rawBody ConfirmationSample.signedSpacedRequest
     <> JSON_stringify (body ConfirmationSample.signedSpacedRequest)
  /\ fst (razorpay_webhook ConfirmationSample.tagStub (Some "whsec")
                           ConfirmationSample.signedSpacedRequest
                           ConfirmationSample.pendingPhonePe)
     = Ok (Json 400 [("status", VStr "Signature mismatch")]).
Proof.
  assert ("whsec" <> "") as Hsecret by discriminate.
  split; [exact Hsecret|]. split; [reflexivity|].
  split; [vm_compute; discriminate|].
  destruct (C7_signature_is_checked_over_reserialized_body
              ConfirmationSample.digestStub ConfirmationSample.tagStub
              ConfirmationSample.noBase64 "secret" "whsec"
              ConfirmationSample.signedSpacedRequest
              ConfirmationSample.pendingPhonePe Hsecret) as (_ & _ & Hraw & _).
  apply Hraw; [reflexivity|vm_compute; discriminate].
Defined.
End ConfirmationTheorems.


(** ** Order creation: the clean-up block *)

Section Cleanup.
Import OrderRoutes CreateSpec.

Lemma restoreEvents_cleanup items m : forallb isCleanupEvent (restoreEvents items m) = true.
Proof.
  unfold restoreEvents. induction items as [|i l IH]; [done|].
  rewrite savesOf_cons, forallb_app, IH, andb_true_r. by destruct (_ && _).
Qed.

Lemma cancelEach_run (l : list Order) (w : World) :
  exists evs,
    cancelEach l w
    = (Ok tt,
       log evs
           (set_orders
              (foldl (fun os o => update_by_id (_id o) (set_status OS_Canceled PS_Failed) os)
                     (orders w) l) w))
    /\ forallb isCleanupEvent evs = true.
Proof.
  revert w. induction l as [|o rest IH]; intros w.
  - exists []. split; [|done]. simpl. unfold ret.
    by rewrite set_orders_id, log_nil.
  - simpl cancelEach. unfold bind at 1. rewrite restoreStock_run.
    unfold bind at 1, Order_update at 1.
    match goal with |- context [cancelEach rest ?w1] =>
      destruct (IH w1) as (evs & Hrun & Hevs) end.
    rewrite Hrun. clear Hrun IH.
    exists (restoreEvents (orderItems o) (products w)
              ++ match head (filter (fun o0 => _id o0 = _id o)
                                    (update_by_id (_id o) (set_status OS_Canceled PS_Failed)
                                                  (orders w))) with
                 | Some o0 => [EOrderUpdate (_id o) (orderStatus o0) (paymentStatus o0)]
                 | None => []
                 end ++ evs).
    split.
    + f_equal. destruct w as [ps os sl ss tr]. unfold log, set_orders, set_products.
      cbn [products orders seller session trace foldl].
      f_equal. by rewrite <- !app_assoc.
    + rewrite !forallb_app, Hevs, andb_true_r. apply andb_true_iff. split.
      * apply restoreEvents_cleanup.
      * match goal with |- context [head ?l] => by destruct (head l) end.
Qed.

(** The clean-up block never fails and leaves [cleaned]. *)
Lemma cancelPendingOrders_run (base : string) (w : World) :
  exists evs,
    cancelPendingOrders base w = (Ok tt, cleaned base w)
    /\ cleaned base w
       = log evs
             (set_orders
                (foldl (fun os o => update_by_id (_id o) (set_status OS_Canceled PS_Failed) os)
                       (orders w) (pendingFor base w)) w)
    /\ forallb isCleanupEvent evs = true.
Proof.
  destruct (cancelEach_run (pendingFor base w) w) as (evs & Hrun & Hevs).
  exists evs. unfold cleaned, cancelPendingOrders, try_catch, bind, Order_find.
  fold (pendingFor base w). rewrite Hrun. done.
Qed.

Lemma cleaned_orders_map (base : string) (w : World) :
  orders (cleaned base w) = map (cleanedOrder base w) (orders w).
Proof.
  destruct (cancelPendingOrders_run base w) as (evs & _ & -> & _). simpl.
  apply (foldl_update_map (fun _ => false) (set_status OS_Canceled PS_Failed)); done.
Qed.

Lemma cleaned_orders (base : string) (w : World) :
  NoDup (map _id (orders w)) ->
  orders (cleaned base w)
  = map (fun o => if isPendingFor base o then set_status OS_Canceled PS_Failed o else o)
        (orders w).
Proof.
  intros Hnd. destruct (cancelPendingOrders_run base w) as (evs & _ & -> & _). simpl.
  unfold pendingFor.
  rewrite (update_selected_map (isPendingFor base) (fun _ => false)
                               (set_status OS_Canceled PS_Failed) (orders w) Hnd);
    [|done|done].
  apply map_ext. intros o. by rewrite andb_true_r.
Qed.

Lemma cleaned_products (base : string) (w : World) :
  products (cleaned base w) = products w.
Proof. by destruct (cancelPendingOrders_run base w) as (evs & _ & -> & _). Qed.

Lemma cleaned_session (base : string) (w : World) :
  session (cleaned base w) = session w /\ seller (cleaned base w) = seller w.
Proof. by destruct (cancelPendingOrders_run base w) as (evs & _ & -> & _). Qed.

Lemma cleaned_trace (base : string) (w : World) :
  exists evs, trace (cleaned base w) = trace w ++ evs
              /\ forallb isCleanupEvent evs = true.
Proof.
  destruct (cancelPendingOrders_run base w) as (evs & _ & -> & Hevs). by exists evs.
Qed.

Lemma cleanedOrder_fields (base : string) (w : World) (o : Order) :
  _id (cleanedOrder base w o) = _id o
  /\ orderId (cleanedOrder base w o) = orderId o
  /\ idempotencyKey (cleanedOrder base w o) = idempotencyKey o
  /\ createdAt (cleanedOrder base w o) = createdAt o.
Proof. unfold cleanedOrder. by destruct (existsb _ _). Qed.

(** The clean-up neither adds nor removes an order, and changes no key. *)
Lemma cleaned_keys (base : string) (w : World) :
  map idempotencyKey (orders (cleaned base w)) = map idempotencyKey (orders w)
  /\ map orderId (orders (cleaned base w)) = map orderId (orders w)
  /\ map _id (orders (cleaned base w)) = map _id (orders w).
Proof.
  rewrite cleaned_orders_map, !map_map.
  repeat split; apply map_ext; intros o; apply cleanedOrder_fields.
Qed.

Lemma keyed_cleaned (key base : string) (w : World) :
  keyed key (cleaned base w) = cleanedOrder base w <$> keyed key w.
Proof.
  unfold keyed. rewrite cleaned_orders_map.
  rewrite (filter_update (fun o => bool_decide (idempotencyKey o = key))).
  - by destruct (filter _ (orders w)).
  - intros o. by destruct (cleanedOrder_fields base w o) as (_ & _ & -> & _).
Qed.
End Cleanup.


(** ** Order creation: the loops over the cart *)

Section CartLoops.
Import OrderRoutes CreateSpec.

(** [undefined < q] is false. *)
Lemma undefined_ltb (q : float) : (num None <? q)%float = false.
Proof. rewrite ltb_spec. reflexivity. Qed.

(** The loop over the cart answers 404 for a product that is not
    there and builds the items otherwise; it changes no product. *)
Lemma prepareOrderItems_cases (method : string) (cart : list CartItem)
      (items : list OrderItem) (w : World) snap :
  session w = Some snap ->
  match prepareOrderItems method cart items w with
  | (Ok (inl resp), w') =>
      products w' = fst snap /\ orders w' = snd snap /\ session w' = None
      /\ seller w' = seller w
      /\ exists body, resp = Json 404 body
  | (Ok (inr _), w') =>
      session w' = Some snap /\ orders w' = orders w /\ products w' = products w
      /\ seller w' = seller w
      /\ (isGatewayMethod method = true -> w' = w)
  | (Throw _, _) => False
  end.
Proof.
  revert items w. induction cart as [|item rest IH]; intros items w Hs; simpl.
  - unfold ret. done.
  - unfold bind at 1, Product_findById at 1.
    destruct (products w !! ci_productId item) as [product|] eqn:Hp; cbn [fmap option_fmap option_map].
    + cbn [stock doc_fields]. rewrite undefined_ltb.
      destruct (isGatewayMethod method) eqn:Hg.
      * apply IH, Hs.
      * unfold bind at 1, Product_save at 1. cbn [doc_fields set_stock].
        rewrite (insert_id _ _ _ Hp), set_products_id.
        match goal with |- context [prepareOrderItems method rest ?its ?w1] =>
          specialize (IH its w1 Hs);
          destruct (prepareOrderItems method rest its w1) as [[[resp|its']|e] w'] end;
          try done.
        destruct IH as (H1 & H2 & H3 & H4 & _). repeat split; try done.
    + unfold bind, abortTransaction, ret. rewrite Hs. destruct snap. simpl. eauto 10.
Qed.

Lemma itemsOf_cons m item rest product :
  m !! ci_productId item = Some product ->
  itemsOf m (item :: rest)
  = mkItem (ci_productId item) (prod_name product) (prod_price product)
           (ci_quantity item) (prod_price product * ci_quantity item)%float
      :: itemsOf m rest.
Proof. intros H. unfold itemsOf. simpl. by rewrite H. Qed.

(** A cart whose products exist passes the loop; for a gateway method
    nothing is written. *)
Lemma prepareOrderItems_found (method : string) (cart : list CartItem)
      (items : list OrderItem) (w : World) :
  isGatewayMethod method = true ->
  allFound (products w) cart ->
  prepareOrderItems method cart items w
  = (Ok (inr (items ++ itemsOf (products w) cart)), w).
Proof.
  intros Hg. revert items. induction cart as [|item rest IH]; intros items Hin.
  - simpl. unfold ret. by rewrite app_nil_r.
  - apply Forall_cons in Hin as [[product Hp] Hin].
    rewrite (itemsOf_cons _ _ _ _ Hp). cbn [prepareOrderItems].
    unfold bind at 1, Product_findById at 1. rewrite Hp.
    cbn [fmap option_fmap option_map stock doc_fields]. rewrite undefined_ltb.
    rewrite Hg, IH by done. by rewrite <- app_assoc.
Qed.

(** The loop after the PhonePe intent saves each product as it was. *)
Lemma deductStock_run (items : list OrderItem) (w : World) :
  deductStock items w = (Ok tt, log (savesOf allItems items (products w)) w).
Proof.
  revert w. induction items as [|item rest IH]; intros w; cbn [deductStock].
  - unfold ret. by rewrite log_nil.
  - rewrite savesOf_cons. cbn [allItems andb].
    unfold bind at 1. unfold Product_findById.
    destruct (products w !! productId item) as [p|] eqn:Hp; cbn.
    + unfold bind, Product_save. cbn [doc_fields set_stock].
      rewrite (insert_id _ _ _ Hp), set_products_id, IH. cbn [products log].
      by rewrite log_log.
    + unfold bind, ret. by rewrite IH.
Qed.
End CartLoops.

(** ** Order creation: the handler *)

Section CreateOrder.
Import OrderRoutes CreateSpec.

(** A validated request that carries a key reaches the duplicate check
    in the world the clean-up leaves. *)
Lemma create_order_cleaned (env : Env) (req : CreateOrderRequest) (base : string)
      (w : World) :
  validateOrderCreation req = true ->
  x_idempotency_key req = Some base -> base <> "" ->
  create_order env req w
  = afterCleanup env req (req_paymentMethod req +:+ "_" +:+ base) (cleaned base w).
Proof.
  intros Hv Hk Hb. unfold create_order. rewrite Hv, Hk. simpl.
  rewrite bool_decide_eq_false_2 by done. simpl.
  unfold bind. destruct (cancelPendingOrders_run base w) as (evs & -> & _). done.
Qed.

Lemma afterCleanup_duplicate (env : Env) (req : CreateOrderRequest) (key : string)
      (w : World) (existing : Order) :
  keyed key w = Some existing ->
  afterCleanup env req key w
  = (Ok (Json 409
           [("message", VStr "Order already exists with this idempotency key.");
            ("orderId", VStr (orderId existing));
            ("status", VStr (OrderStatus_to_string (orderStatus existing)))]),
     log [EAudit "warn" "DUPLICATE_ORDER_ATTEMPT"
                 [("orderId", VStr (orderId existing));
                  ("idempotencyKey", VStr key);
                  ("existingStatus", VStr (OrderStatus_to_string (orderStatus existing)))]]
         w).
Proof.
  intros Hk. unfold afterCleanup, bind, Order_findOne. unfold keyed in Hk. rewrite Hk.
  done.
Qed.

(** A payment method outside the enum of the schema is refused. *)
Lemma schema_ok_method (o : Order) :
  isGatewayMethod (paymentMethod o) = false -> schema_ok o = false.
Proof.
  intros Hm. unfold schema_ok, schema_paymentMethod_ok.
  unfold isGatewayMethod in Hm. rewrite Hm.
  by rewrite andb_false_r.
Qed.

Lemma afterCleanup_razorpay (env : Env) (req : CreateOrderRequest) (key : string)
      (w : World) :
  req_paymentMethod req = "razorpay" ->
  sameStore w (snd (afterCleanup env req key w)).
Proof.
  intros Hm. unfold afterCleanup, bind at 1, Order_findOne.
  destruct (head _) as [existing|]; [done|].
  unfold bind at 1, startTransaction, try_catch, createOrderBody.
  destruct (bool_decide (cartItems req = [])); [done|].
  destruct (negb _ || _); [done|].
  unfold bind at 1, generateOrderId at 1. unfold bind at 1, auditLogger at 1, emit at 1.
  unfold bind at 1.
  match goal with |- context [prepareOrderItems ?m ?c ?i ?w1] =>
    pose proof (prepareOrderItems_cases m c i w1 (products w, orders w) eq_refl) as Hp;
    destruct (prepareOrderItems m c i w1) as [[[resp|items]|e] w2] end;
    [by destruct Hp as (H1 & H2 & _) | |done].
  destruct Hp as (Hs & Ho & _ & _ & Hw). rewrite Hm in Hw. specialize (Hw eq_refl). subst w2.
  rewrite Hm. simpl. unfold razorpayBranch. run_handler.
  destruct (razorpayCreate env); done.
Qed.

(** A method outside the schema's enum: the writes of the cart loop
    are rolled back when the order row is refused. *)
Lemma afterCleanup_other (env : Env) (req : CreateOrderRequest) (key : string)
      (w : World) :
  isGatewayMethod (req_paymentMethod req) = false ->
  sameStore w (snd (afterCleanup env req key w))
  /\ forall body, fst (afterCleanup env req key w) <> Ok (Json 201 body).
Proof.
  intros Hm. destruct (afterCleanup env req key w) as [r w'] eqn:Hrun.
  cbn [fst snd]. revert Hrun. unfold afterCleanup, bind at 1, Order_findOne.
  destruct (head _) as [existing|]; [(intros [= <- <-]; split; [done | intros ? [=]])|].
  unfold bind at 1, startTransaction, try_catch, createOrderBody.
  destruct (bool_decide (cartItems req = [])); [(intros [= <- <-]; split; [done | intros ? [=]])|].
  destruct (negb _ || _); [(intros [= <- <-]; split; [done | intros ? [=]])|].
  unfold bind at 1, generateOrderId at 1. unfold bind at 1, auditLogger at 1, emit at 1.
  unfold bind at 1.
  match goal with |- context [prepareOrderItems ?m ?c ?i ?w1] =>
    pose proof (prepareOrderItems_cases m c i w1 (products w, orders w) eq_refl) as Hp;
    destruct (prepareOrderItems m c i w1) as [[[resp|items]|e] w2] end; [| |done].
  - unfold ret. destruct Hp as (H1 & H2 & _ & _ & body & ->);
      (intros [= <- <-]; split; [done | intros ? [=]]).
  - destruct Hp as (Hs & Ho & _ & _ & _).
    pose proof Hm as Hm'.
    unfold isGatewayMethod in Hm. apply orb_false_iff in Hm as [Hr Hp]. rewrite Hr, Hp.
    unfold otherBranch, bind at 1, Order_insert at 1.
    rewrite schema_ok_method by (cbn [paymentMethod orderData]; exact Hm').
    cbn [negb]. unfold bind, abortIfInTransaction, abortTransaction, throw.
    rewrite Hs. (intros [= <- <-]; split; [done | intros ? [=]]).
Qed.

Lemma filter_none (P : Order -> bool) (os : list Order) :
  Forall (fun o => P o = false) os -> filter (fun o => P o = true) os = [].
Proof.
  induction 1 as [|o os Ho _ IH]; [done|].
  rewrite filter_cons, IH. destruct (decide (P o = true)); congruence.
Qed.

Lemma unused_findOne (oid key : string) (os : list Order) :
  unused oid key os ->
  filter (fun o => bool_decide (orderId o = oid) || bool_decide (idempotencyKey o = key)
                   = true) os = [].
Proof.
  intros Hu. apply (filter_none (fun o => bool_decide (orderId o = oid)
                                          || bool_decide (idempotencyKey o = key))).
  eapply Forall_impl; [exact Hu|]. intros o [H1 H2]. simpl.
  by rewrite !bool_decide_eq_false_2.
Qed.

Lemma unused_keyed (oid key : string) (os : list Order) :
  unused oid key os ->
  filter (fun o => bool_decide (idempotencyKey o = key) = true) os = [].
Proof.
  intros Hu. apply (filter_none (fun o => bool_decide (idempotencyKey o = key))).
  eapply Forall_impl; [exact Hu|]. intros o [H1 H2]. simpl.
  by rewrite bool_decide_eq_false_2.
Qed.

Lemma unused_conflicts (o : Order) (os : list Order) :
  unused (orderId o) (idempotencyKey o) os -> existsb (conflicts o) os = false.
Proof.
  induction 1 as [|x os [H1 H2] _ IH]; [done|]. simpl. rewrite IH.
  unfold conflicts. by rewrite !bool_decide_eq_false_2.
Qed.

Lemma validated (req : CreateOrderRequest) :
  validateOrderCreation req = true ->
  bool_decide (cartItems req = []) = false
  /\ bool_decide (is_Some (req_shippingAddress req)) = true
  /\ bool_decide (req_paymentMethod req = "") = false.
Proof.
  unfold validateOrderCreation. rewrite !andb_true_iff, !negb_true_iff.
  intros ((((((H1 & _) & H2) & H3) & _) & _) & _). split; [done|]. split; [|done].
  by destruct (req_shippingAddress req).
Qed.

(** A validated PhonePe request whose products exist reaches the
    PhonePe branch with nothing written. *)
Lemma createOrderBody_phonepe (env : Env) (req : CreateOrderRequest) (key : string)
      (w : World) :
  req_paymentMethod req = "phonepe" ->
  validateOrderCreation req = true ->
  allFound (products w) (cartItems req) ->
  createOrderBody env req key w
  = phonePeBranch env req (if truthy (req_userId req) then userRecord env else None)
                  (nextOrderId (today env) (orders w)) key
                  (itemsOf (products w) (cartItems req)) (finalTotalOf req)
                  (log [EAudit "info" "ORDER_CREATION_STARTED"
                               [("orderId", VStr (nextOrderId (today env) (orders w)));
                                ("idempotencyKey", VStr key);
                                ("paymentMethod", VStr "phonepe");
                                ("totalAmount", VNum (finalTotalOf req))]] w).
Proof.
  intros Hm Hv Hin. destruct (validated req Hv) as (Hcart & Haddr & Hmeth).
  unfold createOrderBody. rewrite Hcart, Haddr, Hmeth. cbn [negb orb].
  unfold bind at 1, generateOrderId at 1. fold (nextOrderId (today env) (orders w)).
  fold (finalTotalOf req).
  unfold bind at 1, auditLogger at 1, emit at 1.
  unfold bind at 1. rewrite Hm.
  rewrite prepareOrderItems_found by done. done.
Qed.


(** The PhonePe branch when the intent creation succeeds. *)
Lemma phonePeBranch_success (env : Env) (req : CreateOrderRequest)
      (userDetails : option Customer) (oid key : string) (items : list OrderItem)
      (total : float) (w : World) (r : PhonePeOrder) :
  unused oid key (orders w) ->
  schema_ok
    (orderData req userDetails oid key "phonepe" items total OS_Pending PS_Pending
               (Some (po_orderId r)) (Some (po_merchantOrderId r))) = true ->
  phonePeRace env = Resolved r ->
  exists w',
    phonePeBranch env req userDetails oid key items total w
    = (Ok (intentResponse oid key total r), w')
    /\ orders w'
       = orders w ++ [with_id_createdAt (next_id (orders w)) (now env)
                        (orderData req userDetails oid key "phonepe" items total
                                   OS_Pending PS_Pending
                                   (Some (po_orderId r)) (Some (po_merchantOrderId r)))]
    /\ products w' = products w
    /\ session w' = None.
Proof.
  intros Hu Hc Hrace.
  unfold phonePeBranch, bind at 1, Order_findOne. rewrite (unused_findOne _ _ _ Hu).
  cbn [head]. unfold try_catch, bind at 1, gateway at 1, bind at 1, emit at 1.
  rewrite Hrace. cbn [raceOutcome]. unfold ret at 1.
  unfold bind at 1.
  rewrite deductStock_run.
  unfold bind at 1, Order_insert at 1.
  rewrite Hc. cbn [negb orders products log set_session set_orders set_products].
  rewrite unused_conflicts by done.
  unfold bind at 1, commitTransaction at 1. unfold bind at 1, auditLogger at 1, emit at 1.
  unfold bind at 1, notifySeller at 1. cbn [seller log set_session set_orders set_products].
  destruct (seller w); (eexists; split; [reflexivity|done]).
Qed.

(** The [catch] block of the PhonePe branch always answers; it leaves
    the orders of the snapshot and at most one row more. *)
Lemma phonePeFailure_orders (env : Env) (req : CreateOrderRequest)
      (userDetails : option Customer) (oid key : string) (items : list OrderItem)
      (total : float) (e : JsError) (w : World) ps os :
  session w = Some (ps, os) ->
  exists resp w' extra,
    phonePeFailure env req userDetails oid key items total e w = (Ok resp, w')
    /\ orders w' = os ++ extra.
Proof.
  intros Hs. unfold phonePeFailure, bind at 1, auditLogger at 1, emit at 1.
  unfold bind at 1, abortIfInTransaction, abortTransaction.
  cbn [session log]. rewrite Hs. unfold bind at 1.
  destruct (bool_decide (message e = "PhonePe_TIMEOUT")).
  - unfold try_catch, bind at 1, Order_insert at 1.
    destruct (negb _).
    + unfold ret. do 2 eexists. exists []. split; [reflexivity|]. by rewrite app_nil_r.
    + destruct (existsb _ _).
      * unfold ret. do 2 eexists. exists []. split; [reflexivity|]. by rewrite app_nil_r.
      * unfold ret. do 3 eexists. split; [reflexivity|]. done.
  - unfold ret. do 2 eexists. exists []. split; [reflexivity|]. by rewrite app_nil_r.
Qed.

Lemma phonePeBranch_orders (env : Env) (req : CreateOrderRequest)
      (userDetails : option Customer) (oid key : string) (items : list OrderItem)
      (total : float) (w : World) ps :
  session w = Some (ps, orders w) ->
  exists resp w' extra,
    phonePeBranch env req userDetails oid key items total w = (Ok resp, w')
    /\ orders w' = orders w ++ extra.
Proof.
  intros Hs. unfold phonePeBranch, bind at 1, Order_findOne.
  destruct (head _) as [existing|].
  - unfold bind, abortTransaction, ret. rewrite Hs.
    do 2 eexists. exists []. split; [reflexivity|]. by rewrite app_nil_r.
  - unfold try_catch at 1, bind at 1, gateway at 1, bind at 1, emit at 1.
    destruct (phonePeRace env) as [r|e|]; cbn [raceOutcome].
    + unfold ret at 1. unfold bind at 1.
      rewrite deductStock_run.
      unfold bind at 1, Order_insert at 1.
      destruct (negb _); [by eapply phonePeFailure_orders|].
      destruct (existsb _ _); [by eapply phonePeFailure_orders|].
      unfold bind at 1, commitTransaction at 1. unfold bind at 1, auditLogger at 1, emit at 1.
      unfold bind at 1, notifySeller at 1. cbn [seller log set_session set_orders set_products].
      destruct (seller w); unfold ret; do 3 eexists; (split; [reflexivity|done]).
    + unfold throw. by eapply phonePeFailure_orders.
    + unfold throw. by eapply phonePeFailure_orders.
Qed.

(** Whatever the branch, the handler keeps every stored order as it
    was at the duplicate check and appends at most what it inserts. *)
Lemma afterCleanup_orders (env : Env) (req : CreateOrderRequest) (key : string)
      (w : World) :
  exists extra, orders (snd (afterCleanup env req key w)) = orders w ++ extra.
Proof.
  destruct (decide (req_paymentMethod req = "razorpay")) as [Hr|Hr].
  { exists []. rewrite app_nil_r. by apply afterCleanup_razorpay. }
  destruct (decide (req_paymentMethod req = "phonepe")) as [Hp|Hp].
  2: { exists []. rewrite app_nil_r. apply afterCleanup_other.
       unfold isGatewayMethod. by rewrite !bool_decide_eq_false_2. }
  unfold afterCleanup, bind at 1, Order_findOne.
  destruct (head _) as [existing|]; [exists []; by rewrite app_nil_r|].
  unfold bind at 1, startTransaction, try_catch, createOrderBody.
  destruct (bool_decide (cartItems req = [])); [exists []; by rewrite app_nil_r|].
  destruct (negb _ || _); [exists []; by rewrite app_nil_r|].
  unfold bind at 1, generateOrderId at 1. unfold bind at 1, auditLogger at 1, emit at 1.
  unfold bind at 1.
  match goal with |- context [prepareOrderItems ?m ?c ?i ?w1] =>
    pose proof (prepareOrderItems_cases m c i w1 (products w, orders w) eq_refl) as Hprep;
    destruct (prepareOrderItems m c i w1) as [[[resp|items]|e] w2] end; [| |done].
  - destruct Hprep as (_ & H2 & _). exists []. rewrite app_nil_r. exact H2.
  - destruct Hprep as (Hs & Ho & _). rewrite Hp. cbn [bool_decide decide_rel].
    rewrite (bool_decide_eq_false_2 ("phonepe" = "razorpay")) by done.
    rewrite (bool_decide_eq_true_2 ("phonepe" = "phonepe")) by done.
    cbn [orders log set_session] in Ho. rewrite <- Ho in Hs.
    match goal with |- context [phonePeBranch ?a ?b ?c ?d ?e ?f ?g w2] =>
      destruct (phonePeBranch_orders a b c d e f g w2 _ Hs)
        as (resp & w3 & extra & -> & Hw3) end.
    exists extra. cbn [snd]. by rewrite Hw3, Ho.
Qed.
End CreateOrder.


(** ** Order creation: idempotency, clean-up, timeouts, stock *)

Section CreateTheorems.
Import OrderRoutes CreateSpec.

Lemma lastOrder_map (g : Order -> Order) (l : list Order) :
  (forall o, createdAt (g o) = createdAt o) ->
  lastOrder (map g l) = g <$> lastOrder l.
Proof.
  intros Hg. unfold lastOrder.
  change (@None Order) with (g <$> @None Order) at 1.
  generalize (@None Order) as best.
  induction l as [|o l IH]; intros best; simpl; [done|].
  rewrite <- IH. f_equal. destruct best as [b|]; simpl; [|done].
  rewrite !Hg. by destruct (createdAt b <? createdAt o).
Qed.

Lemma nextOrderId_cleaned (today : string) (base : string) (w : World) :
  nextOrderId today (orders (cleaned base w)) = nextOrderId today (orders w).
Proof.
  unfold nextOrderId. rewrite cleaned_orders_map, lastOrder_map.
  - destruct (lastOrder (orders w)) as [o|]; simpl; [|done].
    by destruct (cleanedOrder_fields base w o) as (_ & -> & _).
  - intros o. by destruct (cleanedOrder_fields base w o) as (_ & _ & _ & ->).
Qed.

Lemma unused_cleaned (oid key base : string) (w : World) :
  unused oid key (orders w) -> unused oid key (orders (cleaned base w)).
Proof.
  unfold unused. rewrite cleaned_orders_map, Forall_map.
  intros Hu. eapply Forall_impl; [exact Hu|]. intros o. simpl.
  by destruct (cleanedOrder_fields base w o) as (_ & -> & -> & _).
Qed.

Lemma keyed_elem (key : string) (w : World) (o : Order) :
  keyed key w = Some o -> o ∈ orders w.
Proof.
  unfold keyed. intros H.
  assert (o ∈ filter (fun o => bool_decide (idempotencyKey o = key) = true) (orders w)) as Hin.
  { destruct (filter _ (orders w)) as [|x l]; [done|]. simpl in H.
    injection H as ->. by left. }
  by apply list_elem_of_filter in Hin as [_ Hin].
Qed.

(** With unique [_id]s the clean-up cancels exactly the orders its
    query selects. *)
Lemma cleanedOrder_selected (base : string) (w : World) (o : Order) :
  NoDup (map _id (orders w)) -> o ∈ orders w ->
  cleanedOrder base w o
  = if isPendingFor base o then set_status OS_Canceled PS_Failed o else o.
Proof.
  intros Hnd Hin.
  pose proof (cleaned_orders base w Hnd) as H. rewrite cleaned_orders_map in H.
  apply (proj1 List.map_ext_in_iff H). by apply list_elem_of_In.
Qed.

(** C1 (as the code has it): for a validated request that carries a
    caller key (of letters, digits, [-] and [_], with unique order
    [_id]s in the store), the clean-up of pending gateway orders under
    that key runs first; if the composite key then matches a persisted order,
    the handler answers 409 with that order's [orderId] and the
    [orderStatus] the clean-up left it with, logs the attempt, and
    does nothing else: the stored orders are those of the clean-up
    (none added), and the only events are the product saves and the
    status updates of the clean-up -- no gateway call, no insert. *)
Theorem C1_duplicate_key (env : Env) (req : CreateOrderRequest) (base : string)
        (w : World) (existing : Order) :
  validateOrderCreation req = true ->
  x_idempotency_key req = Some base -> base <> "" ->
  literalKey base = true ->
  NoDup (map _id (orders w)) ->
  keyed (req_paymentMethod req +:+ "_" +:+ base) w = Some existing ->
  let status :=
    OrderStatus_to_string
      (if isPendingFor base existing then OS_Canceled else orderStatus existing) in
  create_order env req w
  = (Ok (Json 409
           [("message", VStr "Order already exists with this idempotency key.");
            ("orderId", VStr (orderId existing));
            ("status", VStr status)]),
     log [EAudit "warn" "DUPLICATE_ORDER_ATTEMPT"
                 [("orderId", VStr (orderId existing));
                  ("idempotencyKey", VStr (req_paymentMethod req +:+ "_" +:+ base));
                  ("existingStatus", VStr status)]]
         (cleaned base w))
  /\ map orderId (orders (cleaned base w)) = map orderId (orders w)
  /\ exists evs, trace (cleaned base w) = trace w ++ evs
                 /\ forallb isCleanupEvent evs = true.
Proof.
  intros Hv Hk Hb _ Hnd Hkey status.
  split; [|split; [apply cleaned_keys | apply cleaned_trace]].
  rewrite (create_order_cleaned env req base w Hv Hk Hb).
  rewrite (afterCleanup_duplicate env req _ _ (cleanedOrder base w existing))
    by (by rewrite keyed_cleaned, Hkey).
  rewrite (cleanedOrder_selected base w existing Hnd (keyed_elem _ _ _ Hkey)).
  subst status. by destruct (isPendingFor base existing).
Qed.

(** A customer who paid under razorpay and left a PhonePe attempt
    pending posts the razorpay request again. *)
Lemma C1_duplicate_key_witness :
  keyed "razorpay_K1" CreateSample.switched
  = Some (Sample.guestOrder 1 "ORD-20250101-1" "razorpay_K1" "razorpay" [Sample.twoApples]
                            250 PS_Paid OS_Processing (Some "pay_1") None 0)
  /\ fst (create_order (CreateSample.env TimedOut) (CreateSample.request "razorpay" "K1")
                       CreateSample.switched)
     = Ok (Json 409
             [("message", VStr "Order already exists with this idempotency key.");
              ("orderId", VStr "ORD-20250101-1");
              ("status", VStr "Processing")]).
Proof.
  split; [reflexivity|].
  assert (NoDup (map _id (orders CreateSample.switched))) as Hnd
    by (apply (bool_decide_unpack _); vm_compute; exact I).
  pose proof (C1_duplicate_key
                (CreateSample.env TimedOut) (CreateSample.request "razorpay" "K1") "K1"
                CreateSample.switched
                (Sample.guestOrder 1 "ORD-20250101-1" "razorpay_K1" "razorpay"
                                   [Sample.twoApples] 250 PS_Paid OS_Processing
                                   (Some "pay_1") None 0)
                eq_refl eq_refl ltac:(discriminate) eq_refl Hnd eq_refl) as [Hrun _].
  rewrite Hrun. reflexivity.
Defined.

(** C1 fails as stated, in two ways.  Under razorpay nothing is
    persisted at create-order, so the same request sent twice is
    answered 200 both times and leaves no order at all.  And the
    duplicate check is not the first thing done: with a pending PhonePe
    attempt under the caller key in the store, the repeated razorpay
    request first runs the clean-up, which saves the product of that
    attempt and cancels the attempt, and only then answers 409. *)
Lemma C1_duplicate_check_is_not_first :
  let env := CreateSample.env TimedOut in
  let req := CreateSample.request "razorpay" "K1" in
  let first := create_order env req (Sample.world Sample.catalogue []) in
  let second := create_order env req (snd first) in
  let late := create_order env req CreateSample.switched in
  (exists body1 body2, fst first = Ok (Json 200 body1) /\ fst second = Ok (Json 200 body2))
  /\ orders (snd second) = []
  /\ (exists body, fst late = Ok (Json 409 body))
  /\ map (fun o => (idempotencyKey o, orderStatus o, paymentStatus o))
         (orders (snd late))
     = [("razorpay_K1", OS_Processing, PS_Paid); ("phonepe_K1", OS_Canceled, PS_Failed)]
  /\ trace (snd late)
     = [EProductSave "p2";
        EOrderUpdate 2 OS_Canceled PS_Failed;
        EAudit "warn" "DUPLICATE_ORDER_ATTEMPT"
               [("orderId", VStr "ORD-20250101-1");
                ("idempotencyKey", VStr "razorpay_K1");
                ("existingStatus", VStr "Processing")]].
Proof.
  vm_compute. split; [eauto|]. split; [done|]. split; [eauto|]. done.
Qed.

(** C3 (as the code has it): before a validated create-order request
    with a caller key (of letters, digits, [-] and [_], with unique
    order [_id]s in the store) is honoured, every order stored under that
    caller key for either gateway that is still Pending/Pending is
    cancelled, that is set to Canceled/Failed, and the rest of the
    handler leaves those orders as they are, appending at most the
    order it inserts.
    Orders that are no longer Pending/Pending, a Paid one among them,
    are not touched. *)
Theorem C3_pending_attempts_are_cancelled (env : Env) (req : CreateOrderRequest)
        (base : string) (w : World) :
  validateOrderCreation req = true ->
  x_idempotency_key req = Some base -> base <> "" ->
  literalKey base = true ->
  NoDup (map _id (orders w)) ->
  let cancelled o :=
    if isPendingFor base o then set_status OS_Canceled PS_Failed o else o in
  create_order env req w
  = afterCleanup env req (req_paymentMethod req +:+ "_" +:+ base) (cleaned base w)
  /\ orders (cleaned base w) = map cancelled (orders w)
  /\ exists extra,
       orders (snd (create_order env req w)) = map cancelled (orders w) ++ extra.
Proof.
  intros Hv Hk Hb _ Hnd cancelled. subst cancelled.
  pose proof (create_order_cleaned env req base w Hv Hk Hb) as Hrun.
  split; [exact Hrun|]. split; [by apply cleaned_orders|].
  rewrite Hrun, <- (cleaned_orders base w Hnd). apply afterCleanup_orders.
Qed.

(** The customer of [switched] posts a razorpay request: the pending
    PhonePe attempt is cancelled, the paid order stays. *)
Lemma C3_pending_attempts_are_cancelled_witness :
  NoDup (map _id (orders CreateSample.switched))
  /\ map (fun o => (idempotencyKey o, orderStatus o, paymentStatus o))
         (orders (cleaned "K1" CreateSample.switched))
     = [("razorpay_K1", OS_Processing, PS_Paid); ("phonepe_K1", OS_Canceled, PS_Failed)].
Proof.
  assert (NoDup (map _id (orders CreateSample.switched))) as Hnd
    by (apply (bool_decide_unpack _); vm_compute; exact I).
  split; [exact Hnd|].
  pose proof (C3_pending_attempts_are_cancelled
                (CreateSample.env TimedOut) (CreateSample.request "razorpay" "K1") "K1"
                CreateSample.switched eq_refl eq_refl ltac:(discriminate) eq_refl Hnd)
    as (_ & Ho & _).
  rewrite Ho. reflexivity.
Defined.

(** C3 fails in its consequence: an order already Paid under one
    gateway does not stop a new attempt under the other.  The customer
    of [paidOnly] (Paid under razorpay_K1) creates a PhonePe order with
    the same caller key and pays it; two orders of the caller key K1 are
    Paid. *)
Lemma C3_two_paid_orders_under_one_key :
  let created := create_order (CreateSample.env (Resolved CreateSample.intent))
                              (CreateSample.request "phonepe" "K1") Sample.paidOnly in
  let returned := Confirmation.phonepe_return ConfirmationSample.statusCompleted
                                              "ORD-20250101-2" None (snd created) in
  map (fun o => (idempotencyKey o, paymentStatus o)) (orders (snd returned))
  = [("razorpay_K1", PS_Paid); ("phonepe_K1", PS_Paid)]
  /\ length (paidUnder "K1" (snd returned)) = 2%nat.
Proof. vm_compute. done. Qed.

(** From the request to the PhonePe branch, for a validated request
    whose key and order identifier are free and whose products exist. *)
Lemma next_id_cleaned (base : string) (w : World) :
  next_id (orders (cleaned base w)) = next_id (orders w).
Proof. unfold next_id. by destruct (cleaned_keys base w) as (_ & _ & ->). Qed.

Lemma phonePeRow_cleaned env req key base w os ps txn mtxn :
  phonePeRow env req key (cleaned base w) os ps txn mtxn
  = phonePeRow env req key w os ps txn mtxn.
Proof.
  unfold phonePeRow, phonePeData.
  by rewrite next_id_cleaned, nextOrderId_cleaned, cleaned_products.
Qed.

Lemma create_order_phonepe (env : Env) (req : CreateOrderRequest) (base : string)
      (w : World) :
  validateOrderCreation req = true ->
  x_idempotency_key req = Some base -> base <> "" ->
  req_paymentMethod req = "phonepe" ->
  unused (nextOrderId (today env) (orders w)) (req_paymentMethod req +:+ "_" +:+ base)
         (orders w) ->
  allFound (products w) (cartItems req) ->
  exists w1,
    create_order env req w
    = try_catch
        (phonePeBranch env req (if truthy (req_userId req) then userRecord env else None)
                       (nextOrderId (today env) (orders w))
                       (req_paymentMethod req +:+ "_" +:+ base)
                       (itemsOf (products w) (cartItems req))
                       (finalTotalOf req))
        (fun error => abortIfInTransaction ;; throw error) w1
    /\ products w1 = products w
    /\ orders w1 = orders (cleaned base w)
    /\ session w1 = Some (products w1, orders w1).
Proof.
  intros Hv Hk Hb Hm Hu Hin.
  rewrite (create_order_cleaned env req base w Hv Hk Hb).
  apply (unused_cleaned _ _ base) in Hu. rewrite <- (nextOrderId_cleaned _ base) in Hu.
  rewrite <- (cleaned_products base w) in Hin.
  unfold afterCleanup, bind at 1, Order_findOne. rewrite (unused_keyed _ _ _ Hu).
  cbn [head]. unfold bind at 1, startTransaction, try_catch.
  rewrite createOrderBody_phonepe by done.
  cbn [orders products set_session]. rewrite nextOrderId_cleaned, !cleaned_products.
  eexists. split; [reflexivity|]. cbn. by rewrite cleaned_products.
Qed.






End CreateTheorems.

(** ** Payment verification *)

Section VerifyLemmas.
Import OrderRoutes Verify VerifySpec CreateSpec.

(** The stock loop of the verification routes: it either answers 404
    after rolling the transaction back, or it has saved the product of
    every item as it was. *)
Lemma deductVerified_cases (items : list OrderItem) (w : World) snap :
  session w = Some snap ->
  match deductVerified items w with
  | (Ok (Some _), w') =>
      products w' = fst snap /\ orders w' = snd snap /\ session w' = None
  | (Ok None, w') =>
      session w' = Some snap /\ orders w' = orders w /\ seller w' = seller w
      /\ products w' = products w
      /\ itemsFound (products w) items = true
  | (Throw _, _) => False
  end.
Proof.
  revert w. induction items as [|item rest IH]; intros w Hs.
  - simpl. unfold ret. done.
  - cbn [deductVerified itemsFound forallb]. unfold bind at 1, Product_findById at 1.
    destruct (products w !! productId item) as [product|] eqn:Hp;
      cbn [fmap option_fmap option_map].
    + cbn [stock doc_fields]. rewrite undefined_ltb.
      unfold bind at 1, Product_save at 1. cbn [doc_fields set_stock].
      rewrite (insert_id _ _ _ Hp), set_products_id.
      match goal with |- context [deductVerified rest ?w1] =>
        specialize (IH w1 Hs);
        destruct (deductVerified rest w1) as [[[resp|]|e] w'] end; [done| |done].
      destruct IH as (H1 & H2 & H3 & H4 & H5).
      cbn [products orders seller session log set_products] in *.
      rewrite bool_decide_eq_true_2 by done. repeat split; try done.
    + unfold bind, abortTransaction, ret. rewrite Hs. by destruct snap.
Qed.

Lemma deductVerified_found (items : list OrderItem) (w : World) :
  itemsFound (products w) items = true ->
  exists w', deductVerified items w = (Ok None, w').
Proof.
  revert w. induction items as [|item rest IH]; intros w.
  - intros _. by eexists.
  - cbn [deductVerified itemsFound forallb]. unfold bind at 1, Product_findById at 1.
    destruct (products w !! productId item) as [product|] eqn:Hp;
      cbn [fmap option_fmap option_map].
    2: { rewrite bool_decide_eq_false_2 by (by intros [? ?]). done. }
    intros [_ Hrest]%andb_true_iff.
    cbn [stock doc_fields]. rewrite undefined_ltb.
    unfold bind at 1, Product_save at 1. cbn [doc_fields set_stock].
    rewrite (insert_id _ _ _ Hp), set_products_id.
    apply IH. exact Hrest.
Qed.

(** What follows the commit never fails and writes neither orders nor
    stock. *)
Lemma afterCommit_store okTag failedTag successTag generated orderData txn row w :
  exists evs,
    afterCommit okTag failedTag successTag generated orderData txn row w
    = (Ok tt, log evs w).
Proof.
  unfold afterCommit, autoInvoice, mailCustomer, notifySeller, auditLogger, emit, bind, ret.
  destruct generated; simpl;
    match goal with |- context [truthy ?e] => destruct (truthy e) end; simpl;
    destruct (seller w); rewrite ?log_log; by eexists.
Qed.

(** [saveOrder] either throws and writes nothing, or appends the row. *)
Lemma saveOrder_cases now orderData txn paymentData w :
  match saveOrder now orderData txn paymentData w with
  | (Ok row, w') =>
      row = verifiedRow now orderData txn paymentData w
      /\ w' = log [EOrderInsert (b_orderId orderData) OS_Processing PS_Paid]
                  (set_orders (orders w ++ [row]) w)
  | (Throw _, w') => w' = w
  end.
Proof.
  unfold saveOrder, Order_insert.
  destruct (negb _); [done|]. destruct (existsb _ _); [done|]. done.
Qed.

(** The part of both routes that runs once the payment is confirmed:
    stock loop, order row, commit, and what follows. *)
Lemma settle_cases okTag failedTag successTag generated now orderData txn paymentData
      (answer : Response) (w : World) :
  session w = Some (products w, orders w) ->
  match (refused <- deductVerified (b_orderItems orderData) ;;
         match refused with
         | Some response => ret response
         | None =>
             row <- saveOrder now orderData txn paymentData ;;
             commitTransaction ;;
             afterCommit okTag failedTag successTag generated orderData txn row ;;
             ret answer
         end) w with
  | (Ok r, w') =>
      (sameStore w w' /\ session w' = None)
      \/ (r = answer /\ created now orderData txn paymentData w w')
  | (Throw _, w') =>
      exists snap, session w' = Some snap /\ fst snap = products w /\ snd snap = orders w
  end.
Proof.
  intros Hs. unfold bind at 1.
  pose proof (deductVerified_cases (b_orderItems orderData) w _ Hs) as Hd.
  destruct (deductVerified (b_orderItems orderData) w) as [[[resp|]|e] w1]; [| |done].
  - unfold ret. left. by destruct Hd as (H1 & H2 & H3).
  - destruct Hd as (H1 & H2 & H3 & H4 & H5).
    unfold bind at 1.
    pose proof (saveOrder_cases now orderData txn paymentData w1) as Hsave.
    destruct (saveOrder now orderData txn paymentData w1) as [[row|e] w2].
    + destruct Hsave as [Hrow ->].
      unfold bind at 1, commitTransaction at 1. unfold bind at 1.
      match goal with |- context [afterCommit ?a ?b ?c ?d ?e ?f ?g ?w3] =>
        destruct (afterCommit_store a b c d e f g w3) as (evs & ->) end.
      unfold ret. right. split; [done|].
      split.
      * cbn [orders log set_session set_orders]. rewrite Hrow. unfold verifiedRow.
        by rewrite H2.
      * cbn [products log set_session set_orders]. exact H4.
    + subst w2. exists (products w, orders w). done.
Qed.
End VerifyLemmas.

Section VerifyTheorems.
Import OrderRoutes PhonePeService Verify VerifySpec CreateSpec ConfirmationSpec.

Lemma verify_payment_cases hmac secret fetched generated now req w :
  let run := verify_payment hmac secret fetched generated now req w in
  sameStore w (snd run)
  \/ exists orderData payment_id,
       v_orderData req = Some orderData
       /\ razorpay_payment_id req = Some payment_id
       /\ fetched = Ok "paid"
       /\ orderNamed (default "" (v_orderId req)) w = None
       /\ fst run = Ok (verified "Payment verified and order created successfully"
                                 orderData payment_id)
       /\ created now orderData payment_id None w (snd run).
Proof.
  cbv zeta.
  destruct (verify_payment hmac secret fetched generated now req w) as [r w'] eqn:Hrun.
  cbn [fst snd]. revert Hrun. unfold verify_payment.
  unfold bind at 1, auditLogger at 1, emit at 1.
  destruct (v_orderData req) as [orderData|].
  2: { unfold bind, auditLogger, emit, ret. intros [= <- <-]. by left. }
  destruct (negb (truthy (razorpay_order_id req)) || _ || _ || _) eqn:Hmissing.
  { unfold bind, auditLogger, emit, ret. intros [= <- <-]. by left. }
  apply orb_false_iff in Hmissing as [[[_ Hpid]%orb_false_iff _]%orb_false_iff _].
  apply negb_false_iff in Hpid.
  destruct (negb (bool_decide _)).
  { unfold bind, auditLogger, emit, ret. intros [= <- <-]. by left. }
  unfold bind at 1, Order_findOne at 1. cbn [orders log].
  fold (orderNamed (default "" (v_orderId req)) w).
  destruct (orderNamed (default "" (v_orderId req)) w) as [existing|] eqn:Hnamed.
  { unfold bind, auditLogger, emit, ret. intros [= <- <-]. by left. }
  unfold bind at 1, startTransaction at 1.
  unfold try_catch at 1, bind at 1, try_catch at 1, bind at 1, gateway at 1,
    bind at 1, emit at 1.
  destruct fetched as [status|e]; cbn [log].
  2: { unfold throw, bind, abortTransaction, ret. cbn. intros [= <- <-]. by left. }
  unfold ret at 1.
  destruct (bool_decide (status = "paid")) eqn:Hpaid; cbn [negb].
  2: { unfold throw, bind, abortTransaction, ret. cbn. intros [= <- <-]. by left. }
  apply bool_decide_eq_true in Hpaid. subst status.
  unfold ret at 1. cbn [negb].
  match goal with |- context [bind (deductVerified ?i) ?k ?w1] =>
    pose proof (settle_cases "INVOICE_AUTO_GENERATED" "INVOICE_AUTO_GENERATION_FAILED"
                  "PAYMENT_VERIFICATION_SUCCESSFUL" generated now orderData
                  (default "" (razorpay_payment_id req)) None
                  (Json 200
                     [("success", VBool true);
                      ("message", VStr "Payment verified and order created successfully");
                      ("orderId", VStr (b_orderId orderData));
                      ("transactionId", VStr (default "" (razorpay_payment_id req)))])
                  w1 eq_refl) as Hsettle;
    destruct (bind (deductVerified i) k w1) as [[resp|e] w2] end.
  - intros [= <- <-]. destruct Hsettle as [[Hsame _]|(-> & Hcreated)]; [by left|].
    right. exists orderData, (default "" (razorpay_payment_id req)).
    repeat split; try done; try apply Hcreated.
    by destruct (razorpay_payment_id req).
  - destruct Hsettle as (snap & Hs & Hp & Ho).
    unfold bind, abortIfInTransaction, abortTransaction, auditLogger, emit, throw.
    rewrite Hs. destruct snap as [ps os]. cbn in Hp, Ho. subst ps os.
    intros [= <- <-]. by left.
Qed.

(** The status check makes one provider call and always returns; what
    it returns does not depend on the world. *)
Lemma checkPaymentStatus_run statusCheck txn w :
  exists status,
    checkPaymentStatus statusCheck txn w
    = (Ok status,
       log [EGateway "phonepe.checkout.v2.order.status" [("attempt", VNum (Z_to_float 1))]] w)
    /\ forall w0, fst (checkPaymentStatus statusCheck txn w0) = Ok status.
Proof.
  unfold checkPaymentStatus, try_catch, bind.
  setoid_rewrite executeWithRetry_once.
  destruct (statusCheck 1%nat) as [result|e]; [by eexists|].
  destruct (bool_decide (code e = Some "ECONNABORTED")); by eexists.
Qed.

Lemma phonepe_verify_cases statusCheck generated now req w :
  let run := phonepe_verify statusCheck generated now req w in
  sameStore w (snd run)
  \/ exists orderData txn status,
       pv_orderData req = Some orderData
       /\ pv_transactionId req = Some txn
       /\ fst (checkPaymentStatus statusCheck txn w) = Ok status
       /\ success status = true
       /\ st_status status = Some "COMPLETED"
       /\ orderNamed (default "" (pv_orderId req)) w = None
       /\ fst run = Ok (verified "PhonePe payment verified and order created successfully."
                                 orderData txn)
       /\ created now orderData txn (Some (fullResponse status)) w (snd run).
Proof.
  cbv zeta.
  destruct (phonepe_verify statusCheck generated now req w) as [r w'] eqn:Hrun.
  cbn [fst snd]. revert Hrun. unfold phonepe_verify.
  unfold bind at 1, auditLogger at 1, emit at 1.
  destruct (pv_orderData req) as [orderData|].
  2: { unfold bind, auditLogger, emit, ret. intros [= <- <-]. by left. }
  destruct (negb (truthy (pv_transactionId req)) || _) eqn:Hmissing.
  { unfold bind, auditLogger, emit, ret. intros [= <- <-]. by left. }
  apply orb_false_iff in Hmissing as [Htxn _]. apply negb_false_iff in Htxn.
  unfold bind at 1, Order_findOne at 1. cbn [orders log].
  fold (orderNamed (default "" (pv_orderId req)) w).
  destruct (orderNamed (default "" (pv_orderId req)) w) as [existing|] eqn:Hnamed.
  { unfold bind, auditLogger, emit, ret. intros [= <- <-]. by left. }
  unfold bind at 1, startTransaction at 1.
  unfold try_catch at 1, bind at 1.
  match goal with |- context [checkPaymentStatus ?sc ?t ?w1] =>
    destruct (checkPaymentStatus_run sc t w1) as (status & -> & Hstatus) end.
  destruct (negb (success status) || _) eqn:Hok.
  { unfold bind, abortTransaction, ret. cbn. intros [= <- <-]. by left. }
  apply orb_false_iff in Hok as [Hsucc Hdone].
  apply negb_false_iff in Hsucc. apply negb_false_iff, bool_decide_eq_true in Hdone.
  match goal with |- context [bind (deductVerified ?i) ?k ?w1] =>
    pose proof (settle_cases "PHONEPE_INVOICE_AUTO_GENERATED"
                  "PHONEPE_INVOICE_AUTO_GENERATION_FAILED"
                  "PHONEPE_VERIFICATION_SUCCESSFUL" generated now orderData
                  (default "" (pv_transactionId req)) (Some (fullResponse status))
                  (Json 200
                     [("success", VBool true);
                      ("message",
                        VStr "PhonePe payment verified and order created successfully.");
                      ("orderId", VStr (b_orderId orderData));
                      ("transactionId", VStr (default "" (pv_transactionId req)))])
                  w1 eq_refl) as Hsettle;
    destruct (bind (deductVerified i) k w1) as [[resp|e] w2] end.
  - intros [= <- <-]. destruct Hsettle as [[Hsame _]|(-> & Hcreated)]; [by left|].
    right. exists orderData, (default "" (pv_transactionId req)), status.
    repeat split; try done; try apply Hcreated.
    by destruct (pv_transactionId req).
  - destruct Hsettle as (snap & Hs & Hp & Ho).
    unfold bind, abortIfInTransaction, abortTransaction, auditLogger, emit, throw.
    rewrite Hs. destruct snap as [ps os]. cbn in Hp, Ho. subst ps os.
    intros [= <- <-]. by left.
Qed.

(** When the products of the items exist and the row is acceptable,
    the settlement goes through. *)
Lemma settle_success okTag failedTag successTag generated now orderData txn paymentData
      (answer : Response) (w : World) :
  session w = Some (products w, orders w) ->
  itemsFound (products w) (b_orderItems orderData) = true ->
  schema_ok (dbOrderData orderData txn paymentData) = true ->
  unused (b_orderId orderData) (b_idempotencyKey orderData) (orders w) ->
  exists w',
    (refused <- deductVerified (b_orderItems orderData) ;;
     match refused with
     | Some response => ret response
     | None =>
         row <- saveOrder now orderData txn paymentData ;;
         commitTransaction ;;
         afterCommit okTag failedTag successTag generated orderData txn row ;;
         ret answer
     end) w = (Ok answer, w')
    /\ created now orderData txn paymentData w w'.
Proof.
  intros Hs Hfound Hok Hun.
  destruct (deductVerified_found _ _ Hfound) as (w1 & Hrun).
  pose proof (deductVerified_cases (b_orderItems orderData) w _ Hs) as Hd.
  rewrite Hrun in Hd. destruct Hd as (_ & Ho & _ & Hp & _).
  unfold bind at 1. rewrite Hrun.
  unfold bind at 1, saveOrder, Order_insert.
  rewrite Hok. cbn [negb].
  rewrite Ho, unused_conflicts by done.
  unfold bind at 1, commitTransaction. unfold bind at 1.
  match goal with |- context [afterCommit ?a ?b ?c ?d ?e ?f ?g ?w3] =>
    destruct (afterCommit_store a b c d e f g w3) as (evs & ->) end.
  unfold ret. eexists. split; [reflexivity|].
  split; [done|]. cbn [products log set_session set_orders]. exact Hp.
Qed.

(** X1: [POST /verify-payment] is all or nothing on the orders and
    writes no product.  Whatever the request and whatever the provider
    answers, the products are stored as before, and either the orders
    are exactly as before (every rejection, every rollback, every
    thrown error), or the provider reported the Razorpay order as
    paid, no order was stored under the [orderId] of the request, the
    request was answered with the success body, and the order of the
    bundle was appended as Paid/Processing with the payment id as its
    transaction. *)
Theorem X1_verify_payment_is_all_or_nothing
        (hmac : string -> string -> string) (secret : string) (fetched : Res string)
        (generated : bool) (now : Z) (req : VerifyRequest) (w : World) :
  let run := verify_payment hmac secret fetched generated now req w in
  products (snd run) = products w
  /\ (orders (snd run) = orders w
      \/ exists orderData payment_id,
           v_orderData req = Some orderData
           /\ razorpay_payment_id req = Some payment_id
           /\ fetched = Ok "paid"
           /\ orderNamed (default "" (v_orderId req)) w = None
           /\ fst run = Ok (verified "Payment verified and order created successfully"
                                     orderData payment_id)
           /\ orders (snd run) = orders w ++ [verifiedRow now orderData payment_id None w]
           /\ paymentStatus (verifiedRow now orderData payment_id None w) = PS_Paid
           /\ orderStatus (verifiedRow now orderData payment_id None w) = OS_Processing
           /\ transactionId (verifiedRow now orderData payment_id None w)
              = Some payment_id).
Proof.
  destruct (verify_payment_cases hmac secret fetched generated now req w)
    as [[Hp Ho]|(orderData & payment_id & H1 & H2 & H3 & H4 & H5 & [H6 H7])].
  - split; [done|]. by left.
  - split; [done|]. right. by exists orderData, payment_id.
Qed.

(** X2: an order that is already stored under the [orderId] of the
    request is never verified again.  Both verification routes then
    only write audit-log entries -- no provider call, no stock or order
    write, no e-mail, whatever the status of the stored order -- and a
    complete request is answered "Order already exists". *)
Theorem X2_stored_order_is_not_verified_again
        (hmac : string -> string -> string) (secret : string) (fetched : Res string)
        (statusCheck : nat -> Res StatusResponse) (generated : bool) (now : Z)
        (oid : string) (existing : Order) (w : World) :
  orderNamed oid w = Some existing ->
  oid <> "" ->
  (forall req,
      v_orderId req = Some oid ->
      let run := verify_payment hmac secret fetched generated now req w in
      (exists evs, snd run = log evs w /\ forallb isAudit evs = true)
      /\ (is_Some (v_orderData req) ->
          truthy (razorpay_order_id req) = true ->
          truthy (razorpay_payment_id req) = true ->
          truthy (razorpay_signature req) = true ->
          razorpay_signature req
          = Some (hmac secret (default "" (razorpay_order_id req) +:+ "|"
                                 +:+ default "" (razorpay_payment_id req))) ->
          fst run = Ok (alreadyExists oid)))
  /\ (forall req,
         pv_orderId req = Some oid ->
         let run := phonepe_verify statusCheck generated now req w in
         (exists evs, snd run = log evs w /\ forallb isAudit evs = true)
         /\ (is_Some (pv_orderData req) ->
             truthy (pv_transactionId req) = true ->
             fst run = Ok (alreadyExists oid))).
Proof.
  intros Hnamed Hoid.
  assert (truthy (Some oid) = true) as Htr by (cbn; by rewrite bool_decide_eq_false_2).
  split.
  - intros req Hreq. cbv zeta.
    destruct (verify_payment hmac secret fetched generated now req w) as [r w'] eqn:Hrun.
    cbn [fst snd]. revert Hrun. unfold verify_payment.
    unfold bind at 1, auditLogger at 1, emit at 1.
    destruct (v_orderData req) as [orderData|].
    2: { unfold bind, auditLogger, emit, ret. rewrite log_log. intros [= <- <-].
         split; [by eexists | by intros [? [=]]]. }
    rewrite Hreq. change (default "" (Some oid)) with oid.
    rewrite Htr. cbn [negb]. rewrite !orb_false_r.
    destruct (negb (truthy (razorpay_order_id req)) || _ || _) eqn:Hmissing.
    { unfold bind, auditLogger, emit, ret. rewrite log_log. intros [= <- <-].
      split; [by eexists|].
      intros _ H1 H2 H3 _. exfalso. by rewrite H1, H2, H3 in Hmissing. }
    destruct (negb (bool_decide _)) eqn:Hsig.
    { unfold bind, auditLogger, emit, ret. rewrite log_log. intros [= <- <-].
      split; [by eexists|].
      intros _ _ _ _ Heq. exfalso. rewrite Heq in Hsig.
      by rewrite bool_decide_eq_true_2 in Hsig. }
    unfold bind at 1, Order_findOne at 1. cbn [orders log].
    fold (orderNamed oid w). rewrite Hnamed.
    unfold bind, auditLogger, emit, ret. rewrite log_log. intros [= <- <-].
    split; [by eexists|done].
  - intros req Hreq. cbv zeta.
    destruct (phonepe_verify statusCheck generated now req w) as [r w'] eqn:Hrun.
    cbn [fst snd]. revert Hrun. unfold phonepe_verify.
    unfold bind at 1, auditLogger at 1, emit at 1.
    destruct (pv_orderData req) as [orderData|].
    2: { unfold bind, auditLogger, emit, ret. rewrite log_log. intros [= <- <-].
         split; [by eexists | by intros [? [=]]]. }
    rewrite Hreq. change (default "" (Some oid)) with oid.
    rewrite Htr. cbn [negb]. rewrite !orb_false_r.
    destruct (negb (truthy (pv_transactionId req))) eqn:Hmissing.
    { unfold bind, auditLogger, emit, ret. rewrite log_log. intros [= <- <-].
      split; [by eexists|].
      intros _ H1. exfalso. by rewrite H1 in Hmissing. }
    unfold bind at 1, Order_findOne at 1. cbn [orders log].
    fold (orderNamed oid w). rewrite Hnamed.
    unfold bind, auditLogger, emit, ret. rewrite log_log. intros [= <- <-].
    split; [by eexists|done].
Qed.
(** A verified payment sent a second time: the stored order answers
    for it. *)
Lemma X2_stored_order_is_not_verified_again_witness :
  let once := snd (verify_payment VerifySample.hmacStub "key" (Ok "paid") true Sample.hour
                                  VerifySample.paidRequest
                                  (Sample.world Sample.catalogue [])) in
  map (fun o => (orderId o, paymentStatus o)) (orders once)
  = [("ORD-20250101-1", PS_Paid)]
  /\ fst (verify_payment VerifySample.hmacStub "key" (Ok "paid") true Sample.hour
                         VerifySample.paidRequest once)
     = Ok (alreadyExists "ORD-20250101-1").
Proof.
  intros once. split; [reflexivity|].
  assert (exists existing, orderNamed "ORD-20250101-1" once = Some existing)
    as [existing Hnamed] by (eexists; reflexivity).
  destruct (X2_stored_order_is_not_verified_again
              VerifySample.hmacStub "key" (Ok "paid") ConfirmationSample.statusCompleted
              true Sample.hour "ORD-20250101-1" existing once Hnamed ltac:(discriminate))
    as [Hrazorpay _].
  destruct (Hrazorpay VerifySample.paidRequest eq_refl) as [_ Hanswer].
  apply Hanswer; try reflexivity. by eexists.
Defined.

(** X4: [POST /phonepe-verify] is all or nothing on the orders,
    writes no product, and creates the order only for a status check
    that reports success with status COMPLETED.  The products are
    stored as before, and either the orders are exactly as before, or
    the status check said so, no order was stored under the [orderId]
    of the request, the request was answered with the success body,
    and the order of the bundle was appended as Paid/Processing. *)
Theorem X4_phonepe_verify_is_all_or_nothing
        (statusCheck : nat -> Res StatusResponse) (generated : bool) (now : Z)
        (req : PhonePeVerifyRequest) (w : World) :
  let run := phonepe_verify statusCheck generated now req w in
  products (snd run) = products w
  /\ (orders (snd run) = orders w
      \/ exists orderData txn status,
           pv_orderData req = Some orderData
           /\ pv_transactionId req = Some txn
           /\ fst (checkPaymentStatus statusCheck txn w) = Ok status
           /\ success status = true
           /\ st_status status = Some "COMPLETED"
           /\ orderNamed (default "" (pv_orderId req)) w = None
           /\ fst run
              = Ok (verified "PhonePe payment verified and order created successfully."
                             orderData txn)
           /\ orders (snd run)
              = orders w ++ [verifiedRow now orderData txn (Some (fullResponse status)) w]
           /\ paymentStatus (verifiedRow now orderData txn (Some (fullResponse status)) w)
              = PS_Paid
           /\ orderStatus (verifiedRow now orderData txn (Some (fullResponse status)) w)
              = OS_Processing).
Proof.
  destruct (phonepe_verify_cases statusCheck generated now req w)
    as [[Hp Ho]|(orderData & txn & status & H1 & H2 & H3 & H4 & H5 & H6 & H7 & [H8 H9])].
  - split; [done|]. by left.
  - split; [done|]. right. by exists orderData, txn, status.
Qed.

(** X5: a status request that times out makes [POST /phonepe-verify]
    create the order as paid.  When the first status request fails
    with ECONNABORTED, no order has the request's [orderId], the
    bundle's identifier and key are free, the order built from the
    bundle passes the order schema and the products of its items
    exist, the route answers with the success body and the order is
    appended as Paid/Processing, its payment data being the marker of
    the assumed success. *)
Theorem X5_phonepe_verify_trusts_a_timed_out_check
        (statusCheck : nat -> Res StatusResponse) (generated : bool) (now : Z)
        (req : PhonePeVerifyRequest) (orderData : OrderBundle) (txn oid : string)
        (e : JsError) (w : World) :
  pv_orderData req = Some orderData ->
  pv_transactionId req = Some txn -> txn <> "" ->
  pv_orderId req = Some oid -> oid <> "" ->
  orderNamed oid w = None ->
  statusCheck 1%nat = Throw e ->
  code e = Some "ECONNABORTED" ->
  schema_ok (dbOrderData orderData txn (Some "{ assumedSuccess: true }")) = true ->
  unused (b_orderId orderData) (b_idempotencyKey orderData) (orders w) ->
  itemsFound (products w) (b_orderItems orderData) = true ->
  exists w',
    phonepe_verify statusCheck generated now req w
    = (Ok (verified "PhonePe payment verified and order created successfully."
                    orderData txn), w')
    /\ orders w'
       = orders w ++ [verifiedRow now orderData txn (Some "{ assumedSuccess: true }") w]
    /\ paymentStatus (verifiedRow now orderData txn (Some "{ assumedSuccess: true }") w)
       = PS_Paid
    /\ orderStatus (verifiedRow now orderData txn (Some "{ assumedSuccess: true }") w)
       = OS_Processing.
Proof.
  intros Hdata Htxn Htxn' Hoid Hoid' Hnamed Hthrow Hcode Hok Hun Hfound.
  unfold phonepe_verify.
  unfold bind at 1, auditLogger at 1, emit at 1.
  rewrite Hdata, Htxn, Hoid.
  change (default "" (Some oid)) with oid. change (default "" (Some txn)) with txn.
  cbn [truthy]. rewrite !bool_decide_eq_false_2 by done. cbn [negb orb].
  unfold bind at 1, Order_findOne at 1. cbn [orders log].
  fold (orderNamed oid w). rewrite Hnamed.
  unfold bind at 1, startTransaction at 1.
  unfold try_catch at 1, bind at 1.
  rewrite (checkPaymentStatus_timeout statusCheck txn e _ Hthrow Hcode).
  cbn [success st_status fullResponse negb orb].
  rewrite (bool_decide_eq_true_2 _ eq_refl). cbn [negb].
  match goal with |- context [bind (deductVerified ?i) ?k ?w1] =>
    destruct (settle_success "PHONEPE_INVOICE_AUTO_GENERATED"
                "PHONEPE_INVOICE_AUTO_GENERATION_FAILED"
                "PHONEPE_VERIFICATION_SUCCESSFUL" generated now orderData txn
                (Some "{ assumedSuccess: true }")
                (verified "PhonePe payment verified and order created successfully."
                          orderData txn) w1 eq_refl Hfound Hok Hun)
      as (w' & Hrun & Hcreated) end.
  unfold verified in Hrun. rewrite Hrun.
  exists w'. split; [done|]. split; [apply Hcreated|done].
Qed.

(** A guest returns from PhonePe and the status request times out. *)
Lemma X5_phonepe_verify_trusts_a_timed_out_check_witness :
  ConfirmationSample.statusTimesOut 1%nat
  = Throw (mkError "timeout of 30000ms exceeded" (Some "ECONNABORTED") None)
  /\ exists w',
       phonepe_verify ConfirmationSample.statusTimesOut true Sample.hour
                      VerifySample.phonePeRequest (Sample.world Sample.catalogue [])
       = (Ok (verified "PhonePe payment verified and order created successfully."
                       VerifySample.phonePeBundle "ORD_1"), w')
       /\ map (fun o => (orderId o, paymentStatus o)) (orders w')
          = [("ORD-20250101-1", PS_Paid)].
Proof.
  split; [reflexivity|].
  destruct (X5_phonepe_verify_trusts_a_timed_out_check
              ConfirmationSample.statusTimesOut true Sample.hour
              VerifySample.phonePeRequest VerifySample.phonePeBundle "ORD_1"
              "ORD-20250101-1"
              (mkError "timeout of 30000ms exceeded" (Some "ECONNABORTED") None)
              (Sample.world Sample.catalogue [])
              eq_refl eq_refl ltac:(discriminate) eq_refl ltac:(discriminate)
              eq_refl eq_refl eq_refl eq_refl ltac:(constructor) eq_refl)
    as (w' & Hrun & Ho & _).
  exists w'. split; [exact Hrun|]. rewrite Ho. reflexivity.
Defined.
End VerifyTheorems.


(** ** The return handler under replay *)

Section ReturnTheorems.
Import PhonePeService Confirmation ConfirmationSpec ReturnSpec.

Lemma emailsSent_one r o r' o' :
  (emailsSent r o [EEmail r' o'] <= 1)%nat.
Proof. unfold emailsSent. simpl. destruct (_ && _); simpl; lia. Qed.

Lemma orderNamed_update (oid : string) (w : World) (order : Order) (f : Order -> Order) :
  orderNamed oid w = Some order ->
  (forall o, orderId (f o) = orderId o) ->
  head (filter (fun o => bool_decide (orderId o = oid) = true)
               (update_by_id (_id order) f (orders w)))
  = Some (f order).
Proof.
  intros Hfind Hf. unfold update_by_id.
  rewrite (filter_update (fun o => bool_decide (orderId o = oid))).
  - unfold orderNamed in Hfind.
    destruct (filter _ (orders w)) as [|x l]; [done|]. simpl in *.
    injection Hfind as ->. by rewrite decide_True.
  - intros o. case_decide; [by rewrite Hf|done].
Qed.

(** One hit of the return URL: it always answers with a redirect,
    writes no stock, and sends an e-mail only when it moves the order
    to Paid. *)
Lemma phonepe_return_step statusCheck oid queryTransactionId w :
  exists query w',
    phonepe_return statusCheck oid queryTransactionId w = (Ok (confirmationPage query), w')
    /\ products w' = products w
    /\ ((orders w' = orders w
         /\ forall r o, emailsSent r o (trace w') = emailsSent r o (trace w))
        \/ ((exists order, orderNamed oid w = Some order /\ paymentStatus order <> PS_Paid)
            /\ (exists order', orderNamed oid w' = Some order'
                               /\ paymentStatus order' = PS_Paid)
            /\ forall r o, (emailsSent r o (trace w') <= S (emailsSent r o (trace w)))%nat)).
Proof.
  unfold phonepe_return.
  unfold try_catch at 1, bind at 1, Order_findOne at 1.
  fold (orderNamed oid w).
  destruct (orderNamed oid w) as [order|] eqn:Hfind.
  2: { unfold ret. do 2 eexists. split; [reflexivity|]. split; [done|]. by left. }
  destruct (bool_decide (orderStatus order = OS_Canceled) && _).
  { unfold ret. do 2 eexists. split; [reflexivity|]. split; [done|]. by left. }
  destruct (negb (truthy _)).
  { unfold ret. do 2 eexists. split; [reflexivity|]. split; [done|]. by left. }
  unfold try_catch at 1, bind at 1.
  match goal with |- context [checkPaymentStatus ?sc ?t ?w1] =>
    destruct (checkPaymentStatus_run sc t w1) as (status & -> & _) end.
  destruct (success status).
  2: { unfold ret. do 2 eexists. split; [reflexivity|]. split; [done|]. left.
       split; [done|]. intros. cbn [trace log]. by rewrite emailsSent_app, Nat.add_0_r. }
  destruct (bool_decide (paymentStatus order = PS_Paid)) eqn:Hpaid; cbn [negb].
  { unfold bind, ret. do 2 eexists. split; [reflexivity|]. split; [done|]. left.
    split; [done|]. intros. cbn [trace log]. by rewrite emailsSent_app, Nat.add_0_r. }
  apply bool_decide_eq_false in Hpaid.
  unfold bind at 1. unfold bind at 1, Order_update at 1.
  cbn [orders log set_orders].
  match goal with |- context [head ?l] => destruct (head l) as [updated|] end;
    unfold sendCheckoutSuccessEmail, bind, emit, ret;
    destruct (truthy (customerEmail order));
    (do 2 eexists; split; [reflexivity|]; split; [done|]; right;
     split; [by eauto|]; split;
     [ eexists; split;
       [ unfold orderNamed; cbn [orders log set_orders];
         apply orderNamed_update; [exact Hfind|done] | done ]
     | intros r o; cbn [trace log set_orders set_session set_products];
       repeat rewrite emailsSent_app;
       unfold emailsSent; simpl; try destruct (_ && _); simpl; lia ]).
Qed.
Lemma afterReturns_paid oid hits w order :
  orderNamed oid w = Some order ->
  paymentStatus order = PS_Paid ->
  orders (afterReturns oid hits w) = orders w
  /\ forall r o, emailsSent r o (trace (afterReturns oid hits w)) = emailsSent r o (trace w).
Proof.
  revert w. induction hits as [|hit rest IH]; intros w Hfind Hpaid; [done|].
  cbn [afterReturns foldl].
  destruct (phonepe_return_step (fst hit) oid (snd hit) w)
    as (query & w' & Hrun & _ & [[Ho He]|[(order0 & Hfind0 & Hnot) _]]).
  - rewrite Hrun. cbn [snd].
    destruct (IH w') as [Ho' He'].
    + unfold orderNamed. rewrite Ho. exact Hfind.
    + exact Hpaid.
    + fold (afterReturns oid rest w'). rewrite Ho', Ho. split; [done|].
      intros r o. by rewrite He', He.
  - rewrite Hfind in Hfind0. injection Hfind0 as <-. done.
Qed.

(** X6: the return URL can be hit any number of times.  Every hit is
    answered with a redirect to the confirmation page, never with an
    error; no hit writes stock; and over any sequence of hits for one
    order, whatever the provider answers to each status request, the
    confirmation e-mail for an order goes out at most once. *)
Theorem X6_returns_confirm_at_most_once (oid : string) (hits : list Hit) (w : World) :
  (forall statusCheck queryTransactionId w0,
      exists query,
        fst (phonepe_return statusCheck oid queryTransactionId w0)
        = Ok (confirmationPage query))
  /\ products (afterReturns oid hits w) = products w
  /\ forall r o,
       (emailsSent r o (trace (afterReturns oid hits w)) <= S (emailsSent r o (trace w)))%nat.
Proof.
  split.
  { intros statusCheck q w0.
    destruct (phonepe_return_step statusCheck oid q w0) as (query & w' & -> & _).
    by exists query. }
  revert w. induction hits as [|hit rest IH]; intros w.
  { split; [done|]. intros. cbn. lia. }
  cbn [afterReturns foldl].
  destruct (phonepe_return_step (fst hit) oid (snd hit) w)
    as (query & w' & Hrun & Hp & [[Ho He]|(_ & (order' & Hfind' & Hpaid') & He)]);
    rewrite Hrun; cbn [snd]; fold (afterReturns oid rest w').
  - destruct (IH w') as [Hp' He']. split; [congruence|].
    intros r o. specialize (He' r o). rewrite He in He'. exact He'.
  - destruct (IH w') as [Hp' _]. split; [congruence|].
    intros r o.
    destruct (afterReturns_paid oid rest w' order' Hfind' Hpaid') as [_ Heq].
    rewrite Heq. apply He.
Qed.
End ReturnTheorems.


(** ** Razorpay webhook helpers *)

Section WebhookHelperTheorems.
Import Confirmation ConfirmationSpec.

Lemma findOne_noted (oid : string) (w : World) :
  head (filter (fun o => bool_decide (Some (orderId o) = Some oid) = true) (orders w))
  = orderNamed oid w.
Proof.
  unfold orderNamed. f_equal. apply list_filter_iff. intros o.
  rewrite !bool_decide_eq_true. split; [by intros [= ->] | by intros ->].
Qed.

Lemma at_path_app (l1 l2 : list string) (j : option json) :
  at_path (l1 ++ l2) j = at_path l2 (at_path l1 j).
Proof. unfold at_path. apply foldl_app. Qed.

(** X7: a payment event cannot undo a paid order.  When the order
    named in the notes of a [payment.captured] or [payment.failed]
    notification is already Paid, the helpers of the order routes and
    those of [webhooks/razorpayWebhook.js] return without writing
    anything: no status change, no stock restored, no log entry, no
    notification. *)
Theorem X7_payment_events_leave_a_paid_order (payload : option json) (oid : string)
        (order : Order) (w : World) :
  as_string (at_path ["payment"; "entity"; "notes"; "orderId"] payload) = Some oid ->
  oid <> "" ->
  orderNamed oid w = Some order ->
  paymentStatus order = PS_Paid ->
  handlePaymentCaptured payload w = (Ok tt, w)
  /\ handlePaymentFailed payload w = (Ok tt, w)
  /\ RazorpayWebhook.handlePaymentCaptured payload w = (Ok tt, w)
  /\ RazorpayWebhook.handlePaymentFailed payload w = (Ok tt, w).
Proof.
  intros Hnoted Hoid Hfind Hpaid.
  change ["payment"; "entity"; "notes"; "orderId"]
    with (["payment"; "entity"] ++ ["notes"; "orderId"]) in Hnoted.
  rewrite at_path_app in Hnoted.
  destruct (at_path ["payment"; "entity"] payload) as [entity|] eqn:Hentity; [|done].
  assert (truthy (Some oid) = true) as Htr by (cbn; by rewrite bool_decide_eq_false_2).
  repeat split.
  - unfold handlePaymentCaptured, paymentEntity. rewrite Hentity.
    unfold bind at 1, ret at 1. rewrite Hnoted, Htr. cbn [negb].
    unfold bind, Order_findOne. rewrite findOne_noted, Hfind, Hpaid. done.
  - unfold handlePaymentFailed, paymentEntity. rewrite Hentity.
    unfold bind at 1, ret at 1. rewrite Hnoted, Htr. cbn [negb].
    unfold bind, Order_findOne. rewrite findOne_noted, Hfind, Hpaid. done.
  - unfold RazorpayWebhook.handlePaymentCaptured, RazorpayWebhook.notedOrderId.
    rewrite Hentity. cbn [at_path foldl] in Hnoted.
    destruct (field "notes" entity) as [notes|]; [|done].
    unfold bind at 1, ret at 1. cbn [fst snd]. rewrite Hnoted.
    unfold bind, Order_findOne. rewrite findOne_noted, Hfind, Hpaid. done.
  - unfold RazorpayWebhook.handlePaymentFailed, RazorpayWebhook.notedOrderId.
    rewrite Hentity. cbn [at_path foldl] in Hnoted.
    destruct (field "notes" entity) as [notes|]; [|done].
    unfold bind at 1, ret at 1. cbn [fst snd]. rewrite Hnoted.
    unfold bind, Order_findOne. rewrite findOne_noted, Hfind, Hpaid. done.
Qed.
(** A late [payment.failed] for the paid order of [paidOnly]. *)
Lemma X7_payment_events_leave_a_paid_order_witness :
  handlePaymentFailed (WebhookSample.paymentPayload "ORD-20250101-1") Sample.paidOnly
  = (Ok tt, Sample.paidOnly).
Proof.
  apply (X7_payment_events_leave_a_paid_order
           (WebhookSample.paymentPayload "ORD-20250101-1") "ORD-20250101-1"
           (Sample.guestOrder 1 "ORD-20250101-1" "razorpay_K1" "razorpay"
                              [Sample.twoApples] 250 PS_Paid OS_Processing
                              (Some "pay_1") None 0)
           Sample.paidOnly eq_refl ltac:(discriminate) eq_refl eq_refl).
Defined.

Lemma orderOfTransaction_update (txn : option string) (w : World) (order : Order)
      (f : Order -> Order) :
  orderOfTransaction txn w = Some order ->
  (forall o, transactionId (f o) = transactionId o) ->
  head (filter (fun o => bool_decide (transactionId o = txn) = true)
               (update_by_id (_id order) f (orders w)))
  = Some (f order).
Proof.
  intros Hfind Hf. unfold update_by_id.
  rewrite (filter_update (fun o => bool_decide (transactionId o = txn))).
  - unfold orderOfTransaction in Hfind.
    destruct (filter _ (orders w)) as [|x l]; [done|]. simpl in *.
    injection Hfind as ->. by rewrite decide_True.
  - intros o. case_decide; [by rewrite Hf|done].
Qed.

(** X8: what a [refund.processed] notification does to the order
    that holds the refunded payment.  Both helpers mark it
    Refunded/Canceled whatever its status was -- Pending, Failed or
    already Refunded -- and change no product.  The helper of the
    order routes also records the refund with the amount of the
    notification in rupees (for an amount given in paise as a number)
    and saves the product of every item whose product exists; the
    helper of [webhooks/razorpayWebhook.js] touches no product and
    records nothing. *)
Theorem X8_refund_notification_marks_any_order_refunded
        (payload : option json) (pid : string) (paise : Z) (order : Order) (w : World) :
  NoDup (map _id (orders w)) ->
  as_string (at_path ["refund"; "entity"; "payment_id"] payload) = Some pid ->
  at_path ["refund"; "entity"; "amount"] payload = Some (JNum paise) ->
  isNaN (Z_to_float paise / 100) = false ->
  schema_refunds_ok order = true ->
  orderOfTransaction (Some pid) w = Some order ->
  let once := snd (handleRefundProcessed payload w) in
  let other := snd (RazorpayWebhook.handleRefundProcessed payload w) in
  (exists order', orderOfTransaction (Some pid) once = Some order'
                  /\ paymentStatus order' = PS_Refunded
                  /\ orderStatus order' = OS_Canceled
                  /\ refundAmount <$> refundDetails order'
                     = Some (Z_to_float paise / 100)%float)
  /\ products once = products w
  /\ List.filter isStockSave (trace once)
     = List.filter isStockSave (trace w) ++ restoreEvents (orderItems order) (products w)
  /\ products other = products w
  /\ List.filter isStockSave (trace other) = List.filter isStockSave (trace w)
  /\ orders other = update_by_id (_id order) (set_status OS_Canceled PS_Refunded) (orders w).
Proof.
  intros Hnd Hpid Hamount Hnum Hok Hfind.
  change ["refund"; "entity"; "payment_id"]
    with (["refund"; "entity"] ++ ["payment_id"]) in Hpid.
  change ["refund"; "entity"; "amount"]
    with (["refund"; "entity"] ++ ["amount"]) in Hamount.
  rewrite at_path_app in Hpid, Hamount.
  destruct (at_path ["refund"; "entity"] payload) as [entity|] eqn:Hentity; [|done].
  change (at_path ["payment_id"] (Some entity)) with (field "payment_id" entity) in Hpid.
  change (at_path ["amount"] (Some entity)) with (field "amount" entity) in Hamount.
  assert (order ∈ orders w) as Hin.
  { unfold orderOfTransaction in Hfind.
    apply head_Some_elem_of, list_elem_of_filter in Hfind. tauto. }
  cbv zeta. split; [|split; [|split; [|split]]].
  - unfold handleRefundProcessed. rewrite Hentity, Hpid, Hamount.
    unfold bind at 1, Order_findOne at 1. fold (orderOfTransaction (Some pid) w).
    rewrite Hfind. unfold bind at 1.
    rewrite Order_save_found by done.
    unfold schema_refunds_ok in *. cbn. rewrite Hnum.
    apply andb_true_iff in Hok as [Hok _]. rewrite Hok. cbn.
    unfold Order_update. unfold bind at 1. rewrite restoreStock_run.
    unfold auditLogger, emit. cbn [snd].
    eexists. split.
    { unfold orderOfTransaction. cbn [orders log set_products set_orders].
      apply orderOfTransaction_update; [exact Hfind|done]. }
    done.
  - unfold handleRefundProcessed. rewrite Hentity, Hpid, Hamount.
    unfold bind at 1, Order_findOne at 1. fold (orderOfTransaction (Some pid) w).
    rewrite Hfind. unfold bind at 1.
    rewrite Order_save_found by done.
    unfold schema_refunds_ok in *. cbn. rewrite Hnum.
    apply andb_true_iff in Hok as [Hok _]. rewrite Hok. cbn.
    unfold Order_update. unfold bind at 1. rewrite restoreStock_run.
    unfold auditLogger, emit. by cbn.
  - unfold handleRefundProcessed. rewrite Hentity, Hpid, Hamount.
    unfold bind at 1, Order_findOne at 1. fold (orderOfTransaction (Some pid) w).
    rewrite Hfind. unfold bind at 1.
    rewrite Order_save_found by done.
    unfold schema_refunds_ok in *. cbn. rewrite Hnum.
    apply andb_true_iff in Hok as [Hok _]. rewrite Hok. cbn.
    unfold Order_update. unfold bind at 1. rewrite restoreStock_run.
    unfold auditLogger, emit. cbn [snd trace log set_orders].
    rewrite !List.filter_app, <- !app_assoc. f_equal.
    rewrite (filter_stock_saves _ (restoreEvents_stock _ _)).
    match goal with |- context [head ?l] => destruct (head l) end; cbn;
      by rewrite ?app_nil_r.
  - destruct (RazorpayWebhook.handleRefundProcessed payload w) as [r wo] eqn:Hother.
    cbn [snd]. revert Hother.
    unfold RazorpayWebhook.handleRefundProcessed. rewrite Hentity, Hpid.
    unfold bind at 1, Order_findOne at 1. fold (orderOfTransaction (Some pid) w).
    rewrite Hfind. unfold bind, Order_update, auditLogger, emit.
    by intros [= <- <-].
  - destruct (RazorpayWebhook.handleRefundProcessed payload w) as [r wo] eqn:Hother.
    cbn [snd]. revert Hother.
    unfold RazorpayWebhook.handleRefundProcessed. rewrite Hentity, Hpid.
    unfold bind at 1, Order_findOne at 1. fold (orderOfTransaction (Some pid) w).
    rewrite Hfind. unfold bind, Order_update, auditLogger, emit.
    intros [= <- <-]. cbn [trace log set_orders]. split; [|done].
    rewrite !List.filter_app.
    match goal with |- context [head ?l] => destruct (head l) end; cbn;
      by rewrite ?app_nil_r.
Qed.

(** The refund of payment pay_1 is notified for the paid order of
    [paidOnly]. *)
Lemma X8_refund_notification_marks_any_order_refunded_witness :
  let once := snd (handleRefundProcessed (WebhookSample.refundPayload "pay_1")
                                         Sample.paidOnly) in
  map (fun o => (paymentStatus o, orderStatus o, refundAmount <$> refundDetails o))
      (orders once)
  = [(PS_Refunded, OS_Canceled, Some 250%float)]
  /\ products once = Sample.catalogue.
Proof.
  intros once.
  assert (NoDup (map _id (orders Sample.paidOnly))) as Hnd
    by (apply (bool_decide_unpack _); vm_compute; exact I).
  destruct (X8_refund_notification_marks_any_order_refunded
              (WebhookSample.refundPayload "pay_1") "pay_1" 25000
              (Sample.guestOrder 1 "ORD-20250101-1" "razorpay_K1" "razorpay"
                                 [Sample.twoApples] 250 PS_Paid OS_Processing
                                 (Some "pay_1") None 0)
              Sample.paidOnly Hnd eq_refl eq_refl eq_refl eq_refl eq_refl)
    as (_ & Hp & _).
  split; [by vm_compute|exact Hp].
Defined.
End WebhookHelperTheorems.


(** ** The retry loop *)

Section RetryTheorems.
Import Retry.

Lemma attempts_cons (n : nat) (ms : Z) (steps : list Step) :
  attempts (Attempt n :: Sleep ms :: steps) = n :: attempts steps.
Proof. reflexivity. Qed.

Lemma sleeps_cons (n : nat) (ms : Z) (steps : list Step) :
  sleeps (Attempt n :: Sleep ms :: steps) = ms :: sleeps steps.
Proof. reflexivity. Qed.

Lemma loop_spec {A} (cfg : Config) (remaining attempt : nat)
      (requestFunc : nat -> Res A) (lastError : JsError) :
  (attempt + remaining = S (maxRetries cfg))%nat ->
  let run := loop cfg remaining attempt requestFunc lastError in
  let made := length (attempts (fst run)) in
  attempts (fst run) = seq attempt made
  /\ (made <= remaining)%nat
  /\ length (sleeps (fst run)) = pred made
  /\ Forall (fun ms => ms <= maxDelay cfg) (sleeps (fst run))
  /\ ((0 < remaining)%nat ->
      (1 <= made)%nat
      /\ snd run = requestFunc (attempt + made - 1)%nat
      /\ forall n, (attempt <= n < attempt + made - 1)%nat ->
                   exists err, requestFunc n = Throw err
                               /\ isRetryableError cfg err = true).
Proof.
  revert attempt lastError.
  induction remaining as [|remaining IH]; intros attempt lastError Hsum; cbn [loop].
  - cbn. repeat split; try done; try lia; constructor.
  - destruct (requestFunc attempt) as [a|error] eqn:Hreq.
    { cbn. repeat split; try done; try lia;
        try (by rewrite Nat.add_sub); try (intros n Hn; lia). }
    destruct (bool_decide (attempt = maxRetries cfg)) eqn:Hlast; cbn [orb].
    { cbn. repeat split; try done; try lia;
        try (by rewrite Nat.add_sub); try (intros n Hn; lia). }
    destruct (isRetryableError cfg error) eqn:Hretry; cbn [negb].
    2: { cbn. repeat split; try done; try lia;
        try (by rewrite Nat.add_sub); try (intros n Hn; lia). }
    apply bool_decide_eq_false in Hlast.
    assert (0 < remaining)%nat as Hpos by lia.
    specialize (IH (S attempt) error ltac:(lia)). cbv zeta in IH.
    destruct (loop cfg remaining (S attempt) requestFunc error) as [steps r].
    cbn [fst snd] in *.
    destruct IH as (Hseq & Hle & Hsl & Hall & Hrest).
    destruct (Hrest Hpos) as (Hone & Hres & Hfail).
    rewrite (attempts_cons attempt _ steps), (sleeps_cons attempt _ steps).
    cbn [length].
    set (made := length (attempts steps)) in *.
    repeat split.
    + cbn [seq]. by rewrite Hseq.
    + lia.
    + rewrite Hsl. lia.
    + constructor; [apply Z.le_min_r|exact Hall].
    + lia.
    + rewrite Hres. f_equal. lia.
    + intros n Hn. destruct (decide (n = attempt)) as [->|Hne].
      * by exists error.
      * apply Hfail. lia.
Qed.

(** X9: the retry budget of [executeWithRetry], for every
    configuration and every behaviour of the request.  The request is
    called for attempts 1, 2, ... in order and at most [maxRetries]
    times in all; between two calls the loop sleeps once, never longer
    than [maxDelay]; the outcome is that of the last call, and every
    call before it failed with a retryable error.  With a budget of
    one -- the value the constructor sets -- there is exactly one call
    and no retry, whatever the error; with a budget of zero the request
    is never called and [undefined] is thrown. *)
Theorem X9_retry_budget {A} (cfg : Config) (requestFunc : nat -> Res A) :
  let run := executeWithRetry cfg requestFunc in
  let made := length (attempts (fst run)) in
  attempts (fst run) = seq 1 made
  /\ (made <= maxRetries cfg)%nat
  /\ length (sleeps (fst run)) = pred made
  /\ Forall (fun ms => ms <= maxDelay cfg) (sleeps (fst run))
  /\ ((0 < maxRetries cfg)%nat ->
      (1 <= made)%nat
      /\ snd run = requestFunc made
      /\ forall n, (1 <= n < made)%nat ->
                   exists err, requestFunc n = Throw err
                               /\ isRetryableError cfg err = true)
  /\ (maxRetries cfg = 1%nat -> run = ([Attempt 1], requestFunc 1%nat))
  /\ (maxRetries cfg = 0%nat -> run = ([], Throw undefinedError)).
Proof.
  cbv zeta. unfold executeWithRetry.
  destruct (loop_spec cfg (maxRetries cfg) 1 requestFunc undefinedError ltac:(lia))
    as (Hseq & Hle & Hsl & Hall & Hrest).
  split; [exact Hseq|]. split; [exact Hle|]. split; [exact Hsl|]. split; [exact Hall|].
  split; [|split].
  - intros Hpos. destruct (Hrest Hpos) as (Hone & Hres & Hfail).
    split; [exact Hone|]. split.
    + rewrite Hres. f_equal. lia.
    + intros n Hn. apply Hfail. lia.
  - intros Hbudget. rewrite Hbudget. cbn [loop].
    destruct (requestFunc 1%nat) as [a|error]; [done|].
    by rewrite Hbudget, (bool_decide_eq_true_2 (1%nat = 1%nat)).
  - intros Hbudget. by rewrite Hbudget.
Qed.

End RetryTheorems.


(** ** The auto-cancel service object *)

Section ServiceTheorems.
Import AutoCancel AutoCancelService.

Lemma liveTimers_app (a b : list Action) :
  liveTimers (a ++ b) = liveTimers a + liveTimers b.
Proof.
  induction a as [|x a IH]; simpl; [lia|]. destruct x; lia.
Qed.

Lemma start_step (s : Service) :
  coherent s ->
  coherent (fst (start s))
  /\ liveTimers (snd (start s)) = running (fst (start s)) - running s
  /\ config (fst (start s)) = config s.
Proof.
  unfold coherent, start, running. destruct s as [i r c]; simpl.
  destruct r; simpl; intros ->; repeat split; lia.
Qed.

Lemma stop_step (s : Service) :
  coherent s ->
  coherent (fst (stop s))
  /\ liveTimers (snd (stop s)) = running (fst (stop s)) - running s
  /\ config (fst (stop s)) = config s.
Proof.
  unfold coherent, stop, running. destruct s as [i r c]; simpl.
  destruct r; simpl; intros ->; simpl; repeat split; lia.
Qed.

Lemma updateConfig_step (newInterval newTimeout : option Z) (s : Service) :
  coherent s ->
  let r := updateConfig newInterval newTimeout s in
  coherent (fst r)
  /\ liveTimers (snd r) = running (fst r) - running s
  /\ isRunning (fst r) = isRunning s
  /\ checkInterval (config (fst r))
     = (if truthyZ newInterval then default 0 newInterval else checkInterval (config s))
  /\ timeoutMinutes (config (fst r))
     = (if truthyZ newTimeout then default 0 newTimeout else timeoutMinutes (config s)).
Proof.
  unfold coherent, updateConfig, start, stop, running.
  destruct s as [i r [ci tm]]; cbn [intervalId isRunning config checkInterval timeoutMinutes].
  intros ->.
  destruct (truthyZ newInterval) eqn:Hi, (truthyZ newTimeout) eqn:Ht, r; cbn;
    repeat (match goal with
            | |- context [bool_decide ?P] => destruct (bool_decide_reflect P); cbn
            end);
    repeat split; try lia; subst; done.
Qed.
Lemma call_step (now : Z) (c : Call) (s : Service) :
  coherent s ->
  let r := call now c s in
  coherent (snd (fst r))
  /\ liveTimers (snd r) = running (snd (fst r)) - running s.
Proof.
  intros Hc. destruct c as [| |newInterval newTimeout]; cbn [call].
  - unfold start_route. cbn [fst snd].
    by destruct (start_step s Hc) as (H1 & H2 & H3).
  - unfold stop_route. cbn [fst snd].
    by destruct (stop_step s Hc) as (H1 & H2 & H3).
  - unfold config_route.
    destruct (truthyZ newInterval && _) eqn:Hi;
      [cbn [fst snd liveTimers foldr]; split; [done|lia]|].
    destruct (truthyZ newTimeout && _) eqn:Ht;
      [cbn [fst snd liveTimers foldr]; split; [done|lia]|].
    cbn [fst snd].
    by destruct (updateConfig_step newInterval newTimeout s Hc) as (H1 & H2 & _).
Qed.

Lemma afterCalls_inv (now : Z) (calls : list Call) (s : Service) (acts : list Action) :
  coherent s -> liveTimers acts = running s ->
  let r := foldl (fun acc c => let r := call now c (fst acc) in
                               (snd (fst r), snd acc ++ snd r)) (s, acts) calls in
  coherent (fst r) /\ liveTimers (snd r) = running (fst r).
Proof.
  revert s acts. induction calls as [|c rest IH]; intros s acts Hc Hl; [done|].
  cbn [foldl fst snd].
  destruct (call_step now c s Hc) as (H1 & H2).
  apply IH; [exact H1|].
  rewrite liveTimers_app, H2, Hl. lia.
Qed.

(** X10: the management API never leaks a timer.  After any sequence
    of start, stop and configuration calls on the constructed service
    (the numbers of a configuration call being integers or missing),
    the timer field is set exactly when the service runs and holds a
    timer of the configured period, and the timers set and not cleared
    are exactly one while the service runs and none while it is
    stopped: a repeated start sets no second timer, a restart clears
    the old one. *)
Theorem X10_service_never_leaks_a_timer (now : Z) (calls : list Call) :
  let r := afterCalls now calls constructed in
  coherent (fst r)
  /\ liveTimers (snd r) = running (fst r).
Proof. by apply afterCalls_inv. Qed.

(** X11: a new check interval restarts a running service.  When the
    config route accepts an interval different from the configured one
    while the service runs, the old timer is cleared, one sweep is
    launched at once -- with the new interval but still the old timeout,
    even if the same request changes the timeout -- and a timer of the
    new period is set; the object ends with both new values.  On a
    stopped service, or with the interval missing, zero or unchanged,
    nothing is launched and no timer is touched. *)
Theorem X11_interval_change_restarts_the_service
        (now : Z) (newInterval : Z) (newTimeout : option Z) (s : Service) :
  coherent s ->
  60000 <= newInterval <= 3600000 ->
  newInterval <> checkInterval (config s) ->
  (truthyZ newTimeout = true -> 5 <= default 0 newTimeout <= 120) ->
  let r := config_route now (Some newInterval) newTimeout s in
  snd r = (if isRunning s
           then [ClearInterval (checkInterval (config s));
                 RunCheck {| checkInterval := newInterval;
                             timeoutMinutes := timeoutMinutes (config s) |};
                 SetInterval newInterval]
           else [])
  /\ isRunning (snd (fst r)) = isRunning s
  /\ checkInterval (config (snd (fst r))) = newInterval
  /\ timeoutMinutes (config (snd (fst r)))
     = (if truthyZ newTimeout then default 0 newTimeout else timeoutMinutes (config s))
  /\ (forall unchanged,
         unchanged = None \/ unchanged = Some 0
         \/ unchanged = Some (checkInterval (config s)) ->
         inBounds (config s) ->
         snd (config_route now unchanged newTimeout s) = []).
Proof.
  intros Hc Hi Hne Ht. cbv zeta.
  assert (truthyZ (Some newInterval) = true) as Htr.
  { cbn. apply negb_true_iff, Z.eqb_neq. lia. }
  assert (truthyZ newTimeout
          && ((default 0 newTimeout <? 5) || (120 <? default 0 newTimeout)) = false) as Hto.
  { destruct (truthyZ newTimeout); [|done]. cbn [andb].
    specialize (Ht eq_refl). apply orb_false_iff. split; apply Z.ltb_ge; lia. }
  assert (config_route now (Some newInterval) newTimeout s
          = (answer now "Auto-cancel service configuration updated"
                    (fst (updateConfig (Some newInterval) newTimeout s)),
             fst (updateConfig (Some newInterval) newTimeout s),
             snd (updateConfig (Some newInterval) newTimeout s))) as Hroute.
  { unfold config_route. rewrite Htr. change (default 0 (Some newInterval)) with newInterval.
    cbn [andb].
    assert ((newInterval <? 60000) || (3600000 <? newInterval) = false) as ->
        by (apply orb_false_iff; split; apply Z.ltb_ge; lia).
    by rewrite Hto. }
  rewrite Hroute. cbn [fst snd].
  destruct (updateConfig_step (Some newInterval) newTimeout s Hc)
    as (_ & _ & Hrun & Hci & Htm).
  split; [|split; [exact Hrun|split; [by rewrite Hci, Htr|split; [exact Htm|]]]].
  - unfold updateConfig. rewrite Htr. cbn [andb].
    rewrite (bool_decide_eq_false_2 (Some newInterval = Some _)) by congruence.
    cbn [negb isRunning fst snd].
    unfold coherent in Hc. destruct s as [i run [ci tm]].
    cbn [intervalId isRunning config checkInterval timeoutMinutes] in *.
    subst i. by destruct run.
  - intros unchanged Hun Hb. unfold config_route.
    destruct Hun as [->|[->| ->]].
    + cbn [truthyZ andb]. rewrite Hto. cbn [fst snd]. unfold updateConfig. done.
    + cbn [truthyZ andb Z.eqb negb]. rewrite Hto. cbn [fst snd]. unfold updateConfig. done.
    + destruct Hb as [Hb _].
      destruct (truthyZ (Some (checkInterval (config s))) && _) eqn:Hv.
      { exfalso. apply andb_true_iff in Hv as [_ Hv].
        change (default 0 (Some (checkInterval (config s))))
          with (checkInterval (config s)) in Hv.
        apply orb_true_iff in Hv as [Hv|Hv]; apply Z.ltb_lt in Hv; lia. }
      rewrite Hto. cbn [fst snd]. unfold updateConfig.
      rewrite (bool_decide_eq_true_2 (Some _ = Some _)) by done.
      by rewrite andb_false_r.
Qed.

(** The interval goes from 5 to 10 minutes and the timeout from 30 to
    60 on a running service. *)
Lemma X11_interval_change_restarts_the_service_witness :
  coherent (fst (start constructed))
  /\ snd (config_route 0 (Some 600000) (Some 60) (fst (start constructed)))
     = [ClearInterval 300000;
        RunCheck {| checkInterval := 600000; timeoutMinutes := 30 |};
        SetInterval 600000].
Proof.
  assert (coherent (fst (start constructed))) as Hc by reflexivity.
  split; [exact Hc|].
  destruct (X11_interval_change_restarts_the_service
              0 600000 (Some 60) (fst (start constructed)) Hc
              ltac:(lia) ltac:(discriminate) ltac:(cbn; lia)) as [Hacts _].
  exact Hacts.
Defined.
End ServiceTheorems.


(** ** The manual clean-up route *)

Section DebugTheorems.
Import OrderRoutes CreateSpec DebugRoutes.

Lemma cleanup_pending_run (base : string) (w : World) :
  exists evs,
    cleanup_pending base w
    = (Ok (CleanupDone ("Cleaned up " +:+ pretty (Z.of_nat (length (unpaidFor base w)))
                          +:+ " pending orders for base key: " +:+ base)
                       (map orderId (unpaidFor base w))),
       log evs
           (set_orders
              (foldl (fun os o => update_by_id (_id o) (set_status OS_Canceled PS_Failed) os)
                     (orders w) (unpaidFor base w)) w))
    /\ forallb isCleanupEvent evs = true.
Proof.
  destruct (cancelEach_run (unpaidFor base w) w) as (evs & Hrun & Hevs).
  exists evs. unfold cleanup_pending, try_catch, bind, Order_find.
  fold (unpaidFor base w). rewrite Hrun. done.
Qed.

Lemma unpaidFor_nil (base : string) (w : World) :
  unpaidFor base w = [] -> exists msg, cleanup_pending base w = (Ok (CleanupDone msg []), w).
Proof.
  intros Hnil. destruct (cleanup_pending_run base w) as (evs & Hrun & _).
  unfold cleanup_pending, try_catch, bind, Order_find in *.
  fold (unpaidFor base w) in *. rewrite Hnil in *. simpl in *. unfold ret. by eexists.
Qed.

(** X12: the manual clean-up of a base key (of letters, digits, [-]
    and [_], with unique order [_id]s in the store) answers 200 with
    the identifiers of the orders stored under either gateway key of
    it whose payment is Pending -- whatever their order status, a
    Processing one included.  Exactly those orders become
    Canceled/Failed, every other order, a Paid one among them, is left
    as it is, and no product changes.  Running the route again finds
    nothing and changes nothing. *)
Theorem X12_manual_cleanup_cancels_unpaid_attempts (base : string) (w : World) :
  literalKey base = true ->
  NoDup (map _id (orders w)) ->
  let found := unpaidFor base w in
  let cancelled o :=
    if isUnpaidFor base o then set_status OS_Canceled PS_Failed o else o in
  exists msg w',
    cleanup_pending base w = (Ok (CleanupDone msg (map orderId found)), w')
    /\ (forall o, o ∈ found <->
                  o ∈ orders w /\ paymentStatus o = PS_Pending
                  /\ (idempotencyKey o = "phonepe_" +:+ base
                      \/ idempotencyKey o = "razorpay_" +:+ base))
    /\ orders w' = map cancelled (orders w)
    /\ products w' = products w
    /\ exists msg', cleanup_pending base w' = (Ok (CleanupDone msg' []), w').
Proof.
  intros _ Hnd found cancelled. subst found cancelled.
  destruct (cleanup_pending_run base w) as (evs & Hrun & _).
  do 2 eexists. split; [exact Hrun|].
  assert (forall l, orders (log evs (set_orders l w)) = l) as Hos by done.
  rewrite Hos.
  assert (foldl (fun os o => update_by_id (_id o) (set_status OS_Canceled PS_Failed) os)
                (orders w) (unpaidFor base w)
          = map (fun o => if isUnpaidFor base o then set_status OS_Canceled PS_Failed o else o)
                (orders w)) as Hmap.
  { unfold unpaidFor.
    rewrite (update_selected_map (isUnpaidFor base) (fun _ => false)
                                 (set_status OS_Canceled PS_Failed) (orders w) Hnd);
      [|done|done].
    apply map_ext. intros o. by rewrite andb_true_r. }
  split.
  { intros o. unfold unpaidFor, isUnpaidFor, matchesGatewayKey.
    rewrite list_elem_of_filter, andb_true_iff, orb_true_iff, !bool_decide_eq_true. tauto. }
  split; [exact Hmap|].
  split; [done|].
  apply unpaidFor_nil. unfold unpaidFor at 1. rewrite Hos, Hmap.
  apply (filter_none (isUnpaidFor base)), Forall_forall.
  intros o' (o & -> & _)%list_elem_of_fmap.
  unfold isUnpaidFor. destruct (matchesGatewayKey base (idempotencyKey o)) eqn:Hk;
    destruct (bool_decide (paymentStatus o = PS_Pending)) eqn:Hp; cbn [andb];
    cbn [idempotencyKey paymentStatus set_status]; rewrite ?Hk; done.
Qed.

(** The store [switched] holds a Paid razorpay order and a pending
    PhonePe attempt under K1: the clean-up cancels the attempt and
    leaves the Paid order. *)
Lemma X12_manual_cleanup_cancels_unpaid_attempts_witness :
  literalKey "K1" = true
  /\ NoDup (map _id (orders CreateSample.switched))
  /\ exists msg w',
       cleanup_pending "K1" CreateSample.switched
       = (Ok (CleanupDone msg ["ORD-20250101-2"]), w')
       /\ map (fun o => (idempotencyKey o, orderStatus o, paymentStatus o)) (orders w')
          = [("razorpay_K1", OS_Processing, PS_Paid); ("phonepe_K1", OS_Canceled, PS_Failed)].
Proof.
  assert (NoDup (map _id (orders CreateSample.switched))) as Hnd
    by (apply (bool_decide_unpack _); vm_compute; exact I).
  split; [reflexivity|]. split; [exact Hnd|].
  pose proof (X12_manual_cleanup_cancels_unpaid_attempts "K1" CreateSample.switched
                                                         eq_refl Hnd)
    as (msg & w' & Hrun & _ & Ho & _).
  exists msg, w'. split; [exact Hrun|]. rewrite Ho. reflexivity.
Defined.
End DebugTheorems.


(** ** Sweeps, one after another *)

Section SweepAgain.
Import AutoCancel SweepSpec.

Lemma checkPendingOrders_orders cfg F now w :
  NoDup (map _id (orders w)) ->
  orders (snd (checkPendingOrders cfg F now w))
  = map (fun o => if isStale cfg now o && negb (update_fails F (_id o))
                  then set_status OS_Canceled PS_Failed o else o) (orders w).
Proof.
  intros Hnd. rewrite checkPendingOrders_unfold. cbv zeta.
  destruct (bool_decide_reflect (length (selected cfg now w) = 0%nat)) as [Hl|Hl].
  - apply nil_length_inv in Hl. cbn [snd]. symmetry.
    erewrite map_ext_in; [apply map_id|].
    intros o Ho%list_elem_of_In.
    destruct (isStale cfg now o) eqn:Hs; [|done].
    assert (o ∈ selected cfg now w) as Hin by (apply list_elem_of_filter; done).
    rewrite Hl in Hin. by apply elem_of_nil in Hin.
  - destruct (sweep_run cfg F (selected cfg now w) 0 0 w) as (w1 & Hrun & _ & Ho & _).
    rewrite Hrun. cbn [snd]. change (orders (log ?evs w1)) with (orders w1).
    rewrite Ho. unfold selected.
    apply update_selected_map; auto using set_status_id, set_status_idem.
Qed.

Lemma checkPendingOrders_products cfg F now w :
  products (snd (checkPendingOrders cfg F now w)) = products w.
Proof.
  rewrite checkPendingOrders_unfold. cbv zeta.
  destruct (bool_decide_reflect (length (selected cfg now w) = 0%nat)) as [Hl|Hl]; [done|].
  destruct (sweep_run cfg F (selected cfg now w) 0 0 w) as (w1 & Hrun & Hp & _).
  rewrite Hrun. cbn [snd]. apply Hp.
Qed.

Lemma filter_after_update (P c : Order -> bool) (g : Order -> Order) (l : list Order) :
  (forall o, c o = true -> P (g o) = false) ->
  filter (fun o => P o = true) (map (fun o => if c o then g o else o) l)
  = filter (fun o => negb (c o) = true) (filter (fun o => P o = true) l).
Proof.
  intros Hg. induction l as [|x l IH]; [done|].
  cbn [map]. rewrite !filter_cons, IH.
  destruct (c x) eqn:Hc.
  - rewrite (Hg x Hc). destruct (decide (false = true)); [done|].
    destruct (decide (P x = true)); [|done].
    rewrite filter_cons, Hc. by destruct (decide (negb true = true)).
  - destruct (decide (P x = true)); [|done].
    rewrite filter_cons, Hc. by destruct (decide (negb false = true)).
Qed.

(** X13: no order is cancelled by two sweeps.  After a sweep at [now]
    under [cfg], a later sweep -- at any time, under any configuration
    -- selects exactly the orders it would have selected in the
    original store except those the first sweep cancelled; an order
    whose status update failed in the first sweep is selected again.
    When no update fails, a second sweep whose cutoff is not later
    than the first one's finds nothing: it changes neither stock nor
    orders and writes no log entry. *)
Theorem X13_no_order_is_swept_twice (cfg cfg' : Config) (F F' : Faults)
        (now later : Z) (w : World) :
  NoDup (map _id (orders w)) ->
  let w1 := snd (checkPendingOrders cfg F now w) in
  selected cfg' later w1
  = filter (fun o => negb (isStale cfg now o && negb (update_fails F (_id o))) = true)
           (selected cfg' later w)
  /\ (forall o, o ∈ selected cfg' later w1 ->
                o ∈ orders w
                /\ (cutoffTime cfg now <= createdAt o \/ update_fails F (_id o) = true))
  /\ ((forall id, update_fails F id = false) ->
      cutoffTime cfg' later <= cutoffTime cfg now ->
      checkPendingOrders cfg' F' later w1 = (Ok tt, w1)).
Proof.
  intros Hnd w1. subst w1.
  assert (selected cfg' later (snd (checkPendingOrders cfg F now w))
          = filter (fun o => negb (isStale cfg now o && negb (update_fails F (_id o))) = true)
                   (selected cfg' later w)) as Hsel.
  { unfold selected at 1. rewrite (checkPendingOrders_orders cfg F now w Hnd).
    apply (filter_after_update (isStale cfg' later)
             (fun o => isStale cfg now o && negb (update_fails F (_id o)))).
    intros o _. unfold isStale. by cbn [paymentStatus set_status]. }
  split; [exact Hsel|]. split.
  - intros o. rewrite Hsel. unfold selected.
    rewrite !list_elem_of_filter, negb_true_iff, andb_false_iff, negb_false_iff.
    intros [Hnot [Hst Hin]]. split; [done|].
    destruct Hnot as [Hnot|Hf]; [|by right].
    apply isStale_spec in Hst as (Hp & Hs & _).
    left. destruct (Z_lt_le_dec (createdAt o) (cutoffTime cfg now)) as [Hlt|]; [|done].
    assert (isStale cfg now o = true) as Habs by (apply isStale_spec; done).
    congruence.
  - intros Hno Hcut. rewrite checkPendingOrders_unfold. cbv zeta.
    assert (selected cfg' later (snd (checkPendingOrders cfg F now w)) = []) as ->; [|done].
    rewrite Hsel. unfold selected.
    apply (filter_none (fun o => negb (isStale cfg now o && negb (update_fails F (_id o))))),
      Forall_forall.
    intros o [Hst _]%list_elem_of_filter.
    apply isStale_spec in Hst as (Hp & Hs & Hc). unfold cutoffTime in Hcut.
    assert (isStale cfg now o = true) as -> by (apply isStale_spec; repeat split; [done|done|lia]).
    by rewrite Hno.
Qed.

(** The store with two stale orders, the first of which cannot be
    updated: the next sweep selects the first order again, not the
    second. *)
Lemma X13_no_order_is_swept_twice_witness :
  NoDup (map _id (orders Sample.staleStore))
  /\ map orderId
         (selected defaultConfig Sample.hour
                   (snd (checkPendingOrders defaultConfig Sample.firstUpdateFails
                                            Sample.hour Sample.staleStore)))
     = ["ORD-20250101-1"].
Proof.
  assert (NoDup (map _id (orders Sample.staleStore))) as Hnd
    by (apply (bool_decide_unpack _); vm_compute; exact I).
  split; [exact Hnd|].
  pose proof (X13_no_order_is_swept_twice defaultConfig defaultConfig
                Sample.firstUpdateFails noFaults Sample.hour Sample.hour
                Sample.staleStore Hnd) as (Hsel & _).
  rewrite Hsel. reflexivity.
Defined.
End SweepAgain.


(** ** The refund routes taken together *)

Section RefundRouteTheorems.
Import Refund RefundSpec RefundRouteSpec.

Lemma providerCalls_app t1 t2 :
  providerCalls (t1 ++ t2) = (providerCalls t1 + providerCalls t2)%nat.
Proof. unfold providerCalls. by rewrite List.filter_app, length_app. Qed.

Lemma providerCalls_stock evs : forallb isStockSave evs = true -> providerCalls evs = 0%nat.
Proof.
  induction evs as [|e evs IH]; [done|]. cbn [forallb].
  intros [He Hevs]%andb_true_iff. unfold providerCalls in *. cbn [List.filter].
  destruct e; try done; cbn [isProviderCall]; auto.
Qed.

Ltac refund_settled :=
  intros [= <- <-]; cbn -[providerCalls];
  rewrite ?providerCalls_app, ?(providerCalls_stock _ (restoreEvents_stock _ _));
  repeat match goal with |- context [head ?l] => destruct (head l) end;
  cbn; repeat split; eauto; try done; try lia.

(** X14: the four refund routes are all-or-nothing.  Whatever the
    request, the store and the provider's answer, a refund route
    answers with a JSON body and leaves no transaction open.  Unless it
    answers 200 the products and the orders are as before -- also when
    the provider call fails.  It answers 200 only when the provider
    confirmed the refund of an order it found Paid; the provider is
    called at most once, and only for an order found Paid.  A partial
    refund never changes the stock, even when it completes the refund
    of the order. *)
Theorem X14_refund_routes_are_all_or_nothing (r : Request) (oid reason : string) (w : World) :
  let out := route r oid reason w in
  (exists status body, fst out = Ok (Json status body))
  /\ session (snd out) = None
  /\ (succeeded (fst out) = false -> sameStore w (snd out))
  /\ (succeeded (fst out) = true ->
      providerConfirms r = true
      /\ exists order, findByOrderId oid w = Some order /\ paymentStatus order = PS_Paid)
  /\ (providerCalls (trace (snd out)) <= providerCalls (trace w) + 1)%nat
  /\ (providerCalls (trace (snd out)) <> providerCalls (trace w) ->
      exists order, findByOrderId oid w = Some order /\ paymentStatus order = PS_Paid)
  /\ (isPartial r = true -> products (snd out) = products w).
Proof.
  cbv zeta.
  destruct (route r oid reason w) as [res w'] eqn:Hrun. cbn [fst snd].
  revert Hrun.
  destruct r as [gw|gw amount|gw|gw amount]; unfold route.
  - unfold refund_full. run_handler. fold (findByOrderId oid w).
    destruct (findByOrderId oid w) as [order|] eqn:Hfind; cbn; [|refund_settled].
    destruct (negb (truthy (transactionId order))) eqn:H1; cbn; [refund_settled|].
    destruct (bool_decide (paymentStatus order = PS_Refunded)) eqn:H2; cbn; [refund_settled|].
    destruct (bool_decide_reflect (paymentStatus order = PS_Paid)) as [Hpaid|Hpaid]; cbn;
      [|refund_settled].
    destruct gw as [response|e]; cbn; [|refund_settled].
    unfold Order_save. cbn.
    destruct (existsb _ (orders w)); cbn; [refund_settled|].
    unfold Order_update. cbn.
    rewrite restoreProductStock_eq, restoreStock_run. cbn. refund_settled.
  - unfold refund_partial. run_handler. fold (findByOrderId oid w).
    destruct (findByOrderId oid w) as [order|] eqn:Hfind; cbn; [|refund_settled].
    destruct (negb (truthy (transactionId order))) eqn:H1; cbn; [refund_settled|].
    destruct (bool_decide_reflect (paymentStatus order = PS_Paid)) as [Hpaid|Hpaid]; cbn;
      [|refund_settled].
    destruct ((amount <=? 0)%float || (num (finalTotal order) <? amount)%float) eqn:H3; cbn;
      [refund_settled|].
    destruct (num (finalTotal order) <? sumRefunds (partialRefunds order) + amount)%float
      eqn:H4; cbn; [refund_settled|].
    destruct gw as [response|e]; cbn; [|refund_settled].
    unfold Order_save. cbn.
    destruct (existsb _ (orders w)); cbn; [refund_settled|].
    unfold Order_update. cbn. refund_settled.
  - unfold phonepe_refund_full. run_handler. fold (findByOrderId oid w).
    destruct (findByOrderId oid w) as [order|] eqn:Hfind; cbn; [|refund_settled].
    destruct (negb (bool_decide (paymentMethod order = "phonepe"))) eqn:H0; cbn;
      [refund_settled|].
    destruct (noTransaction order) eqn:H1; cbn; [refund_settled|].
    destruct (bool_decide (paymentStatus order = PS_Refunded)) eqn:H2; cbn; [refund_settled|].
    destruct (bool_decide_reflect (paymentStatus order = PS_Paid)) as [Hpaid|Hpaid]; cbn;
      [|refund_settled].
    destruct gw as [response|e]; cbn; [|refund_settled].
    unfold Order_save. cbn.
    destruct (existsb _ (orders w)); cbn; [refund_settled|].
    unfold Order_update. cbn.
    rewrite restoreProductStock_eq, restoreStock_run. cbn. refund_settled.
  - unfold phonepe_refund_partial. run_handler. fold (findByOrderId oid w).
    destruct (findByOrderId oid w) as [order|] eqn:Hfind; cbn; [|refund_settled].
    destruct (negb (bool_decide (paymentMethod order = "phonepe"))) eqn:H0; cbn;
      [refund_settled|].
    destruct (noTransaction order) eqn:H1; cbn; [refund_settled|].
    destruct (bool_decide_reflect (paymentStatus order = PS_Paid)) as [Hpaid|Hpaid]; cbn;
      [|refund_settled].
    destruct (negb (validateRefundAmount amount (num (finalTotal order)))) eqn:H3; cbn;
      [refund_settled|].
    destruct (num (finalTotal order) <? sumRefunds (partialRefunds order) + amount)%float
      eqn:H4; cbn; [refund_settled|].
    destruct gw as [response|e]; cbn; [|refund_settled].
    unfold Order_save. cbn.
    destruct (existsb _ (orders w)); cbn; [refund_settled|].
    unfold Order_update. cbn. refund_settled.
Qed.
End RefundRouteTheorems.


(** ** An abandoned PhonePe attempt *)

Section AbandonedAttempt.
Import OrderRoutes CreateSpec AutoCancel SweepSpec.

Lemma next_id_fresh (l : list Order) : next_id l ∉ map _id l.
Proof.
  assert (forall n, n ∈ map _id l -> (n < next_id l)%nat) as Hlt.
  { unfold next_id. induction l as [|o l IH]; intros n Hn; [by apply elem_of_nil in Hn|].
    cbn [map foldr] in *. apply elem_of_cons in Hn as [->|Hn]; [lia|].
    specialize (IH n Hn). lia. }
  intros Hin. specialize (Hlt _ Hin). lia.
Qed.

(** The store a PhonePe create-order leaves once the provider has
    created the intent. *)
Lemma create_order_phonepe_intent (env : Env) (req : CreateOrderRequest) (base : string)
      (w : World) (r : PhonePeOrder) :
  validateOrderCreation req = true ->
  x_idempotency_key req = Some base -> base <> "" ->
  req_paymentMethod req = "phonepe" ->
  phonePeRace env = Resolved r ->
  schema_ok (phonePeData env req ("phonepe_" +:+ base) w OS_Pending PS_Pending
                         (Some (po_orderId r)) (Some (po_merchantOrderId r))) = true ->
  unused (nextOrderId (today env) (orders w)) ("phonepe_" +:+ base) (orders w) ->
  allFound (products w) (cartItems req) ->
  orders (snd (create_order env req w))
  = orders (cleaned base w)
      ++ [phonePeRow env req ("phonepe_" +:+ base) w OS_Pending PS_Pending
                     (Some (po_orderId r)) (Some (po_merchantOrderId r))].
Proof.
  intros Hv Hk Hb Hm Hrace Hc Hu Hin.
  destruct (create_order_phonepe env req base w) as (w1 & -> & Hp & Ho & Hs); try done.
  { by rewrite Hm. }
  apply (unused_cleaned _ _ base) in Hu.
  destruct (phonePeBranch_success
              env req (if truthy (req_userId req) then userRecord env else None)
              (nextOrderId (today env) (orders w))
              (req_paymentMethod req +:+ "_" +:+ base)
              (itemsOf (products w) (cartItems req))
              (finalTotalOf req) w1 r) as (w' & Hrun' & Ho' & Hp' & _);
    [by rewrite Ho, Hm | by rewrite Hm | done |].
  unfold try_catch. rewrite Hrun'. cbn [snd].
  rewrite Ho', Ho, Hm. rewrite <- (phonePeRow_cleaned env req _ base w).
  unfold phonePeRow, phonePeData.
  by rewrite nextOrderId_cleaned, cleaned_products.
Qed.

(** X15: an abandoned PhonePe attempt does not stay pending.  A
    validated PhonePe create-order whose intent the provider created
    leaves one Pending/Pending order more.  When the customer retries
    with the same caller key (of letters, digits, [-] and [_]), the
    clean-up that starts the next create-order sets that order to
    Canceled/Failed and leaves the other orders as they were.  When
    the customer does not come back, a sweep of the auto-cancel service
    after the timeout does the same: its orders are those of a sweep of
    the store without the attempt, plus the attempt Canceled/Failed. *)
Theorem X15_abandoned_attempt_is_cancelled
        (env : Env) (req : CreateOrderRequest) (base : string) (w : World) (r : PhonePeOrder) :
  validateOrderCreation req = true ->
  x_idempotency_key req = Some base -> base <> "" ->
  literalKey base = true ->
  req_paymentMethod req = "phonepe" ->
  phonePeRace env = Resolved r ->
  schema_ok (phonePeData env req ("phonepe_" +:+ base) w OS_Pending PS_Pending
                         (Some (po_orderId r)) (Some (po_merchantOrderId r))) = true ->
  NoDup (map _id (orders w)) ->
  unused (nextOrderId (today env) (orders w)) ("phonepe_" +:+ base) (orders w) ->
  allFound (products w) (cartItems req) ->
  let w1 := cleaned base w in
  let w' := snd (create_order env req w) in
  let row os ps := phonePeRow env req ("phonepe_" +:+ base) w os ps
                              (Some (po_orderId r)) (Some (po_merchantOrderId r)) in
  orders w' = orders w1 ++ [row OS_Pending PS_Pending]
  /\ orders (cleaned base w') = orders w1 ++ [row OS_Canceled PS_Failed]
  /\ (forall cfg later,
        now env < cutoffTime cfg later ->
        orders (snd (checkPendingOrders cfg noFaults later w'))
        = orders (snd (checkPendingOrders cfg noFaults later w1)) ++ [row OS_Canceled PS_Failed]).
Proof.
  intros Hv Hk Hb _ Hm Hrace Hc Hnd Hu Hin w1 w' row. subst w1 w' row.
  pose proof (create_order_phonepe_intent env req base w r Hv Hk Hb Hm Hrace Hc Hu Hin) as Ho.
  set (w' := snd (create_order env req w)) in *.
  set (w1 := cleaned base w) in *.
  set (row := phonePeRow env req ("phonepe_" +:+ base) w OS_Pending PS_Pending
                         (Some (po_orderId r)) (Some (po_merchantOrderId r))) in *.
  assert (NoDup (map _id (orders w1))) as Hnd1.
  { unfold w1. by rewrite (proj2 (proj2 (cleaned_keys base w))). }
  assert (NoDup (map _id (orders w'))) as Hnd'.
  { rewrite Ho, map_app. cbn [map]. apply NoDup_app. split; [done|]. split.
    - intros n Hn [->|[]%elem_of_nil]%elem_of_cons.
      unfold row, phonePeRow in Hn. cbn [_id with_id_createdAt] in Hn.
      unfold w1 in Hn. rewrite (proj2 (proj2 (cleaned_keys base w))) in Hn.
      by apply (next_id_fresh (orders w)).
    - apply NoDup_singleton. }
  assert (isPendingFor base row = true) as Hrow.
  { unfold isPendingFor, matchesGatewayKey, row, phonePeRow, phonePeData. cbn.
    by rewrite (bool_decide_eq_true_2 ("phonepe_" +:+ base = "phonepe_" +:+ base)). }
  assert (Forall (fun o => isPendingFor base o = false) (orders w1)) as Hnone.
  { unfold w1. rewrite (cleaned_orders base w Hnd). apply Forall_forall.
    intros o' (o & -> & _)%list_elem_of_fmap.
    destruct (isPendingFor base o) eqn:Hpf; [|done].
    unfold isPendingFor. cbn [paymentStatus set_status].
    by rewrite andb_false_r. }
  split; [exact Ho|]. split.
  - rewrite (cleaned_orders base w' Hnd'), Ho, map_app. cbn [map]. rewrite Hrow. f_equal.
    erewrite map_ext_in; [apply map_id|].
    intros o Hin'%list_elem_of_In. eapply Forall_forall in Hnone; [|exact Hin'].
    by rewrite Hnone.
  - intros cfg later Hlate.
    assert (isStale cfg later row = true) as Hstale.
    { apply isStale_spec. unfold row, phonePeRow, phonePeData. cbn.
      unfold cutoffTime in Hlate. repeat split; [by left|lia]. }
    rewrite (checkPendingOrders_orders cfg noFaults later w' Hnd'),
      (checkPendingOrders_orders cfg noFaults later w1 Hnd1), Ho, map_app.
    cbn [map]. by rewrite Hstale.
Qed.

(** A guest orders two apples through PhonePe and leaves: the order
    is Pending/Pending after the request and Canceled/Failed after the
    clean-up of the next request with the key K1. *)
Lemma X15_abandoned_attempt_is_cancelled_witness :
  validateOrderCreation (CreateSample.request "phonepe" "K1") = true
  /\ NoDup (map _id (orders (Sample.world Sample.catalogue [])))
  /\ (let w' := snd (create_order (CreateSample.env (Resolved CreateSample.intent))
                                  (CreateSample.request "phonepe" "K1")
                                  (Sample.world Sample.catalogue [])) in
      map (fun o => (orderId o, orderStatus o, paymentStatus o)) (orders w')
      = [("ORD-20250101-1", OS_Pending, PS_Pending)]
      /\ map (fun o => (orderId o, orderStatus o, paymentStatus o)) (orders (cleaned "K1" w'))
         = [("ORD-20250101-1", OS_Canceled, PS_Failed)]).
Proof.
  split; [reflexivity|].
  assert (NoDup (map _id (orders (Sample.world Sample.catalogue [])))) as Hnd
    by (apply (bool_decide_unpack _); vm_compute; exact I).
  split; [exact Hnd|].
  assert (allFound (products (Sample.world Sample.catalogue []))
                   (cartItems (CreateSample.request "phonepe" "K1"))) as Hin.
  { repeat constructor. by exists Sample.apple. }
  pose proof (X15_abandoned_attempt_is_cancelled
                (CreateSample.env (Resolved CreateSample.intent))
                (CreateSample.request "phonepe" "K1") "K1"
                (Sample.world Sample.catalogue []) CreateSample.intent
                eq_refl eq_refl ltac:(discriminate) eq_refl eq_refl eq_refl
                eq_refl Hnd ltac:(constructor) Hin)
    as (Ho' & Ho & _).
  cbv zeta. rewrite Ho', Ho. split; reflexivity.
Defined.
End AbandonedAttempt.

(** ** The PhonePe webhook and the store *)

Section PhonePeWebhookStore.
Import PhonePeService Confirmation ConfirmationSpec.
Variable sha256_hex : string -> string.
Variable parseBase64Json : string -> option json.
Variable clientSecret : string.

Lemma phonepe_webhook_products (req : WebhookRequest) (w : World) :
  products (snd (phonepe_webhook sha256_hex parseBase64Json clientSecret req w)) = products w.
Proof.
  destruct (phonepe_webhook sha256_hex parseBase64Json clientSecret req w) as [r w'] eqn:Hrun.
  cbn [snd]. revert Hrun. unfold phonepe_webhook.
  destruct (verifyWebhookSignature _ _ _ _); cbn [negb];
    [|run_handler; by intros [= <- <-]].
  unfold try_catch, bind at 1.
  match goal with |- context [match as_string ?x with _ => _ end w] =>
    destruct (match as_string x with
              | Some response =>
                  if bool_decide (response = "") then ret (body req)
                  else match parseBase64Json response with
                       | Some decoded => ret decoded
                       | None => throw syntaxError
                       end
              | None => ret (body req)
              end w) as [d wd] eqn:Hd;
    assert (wd = w) as ->
  end.
  { revert Hd. destruct (as_string _) as [response|]; [|by intros [= _ <-]].
    destruct (bool_decide _); [by intros [= _ <-]|].
    destruct (parseBase64Json response); by intros [= _ <-]. }
  destruct d as [a|e]; [|run_handler; by intros [= <- <-]].
  destruct (negb (truthy _)); [run_handler; by intros [= <- <-]|].
  run_handler.
  match goal with |- context [head ?l] => destruct (head l) as [order|] end;
    [|by intros [= <- <-]].
  destruct (_ && _); run_handler.
  - unfold sendCheckoutSuccessEmail. destruct (truthy (customerEmail order)); run_handler;
      destruct (seller w); by intros [= <- <-].
  - by intros [= <- <-].
Qed.

(** X16: the PhonePe webhook and the store.  The handler never writes
    stock, whatever the notification.  A correctly signed, un-encoded
    notification that names the transaction of a stored order and is not
    a success (state COMPLETED with code PAYMENT_SUCCESS) is answered
    200 and sets that order to Canceled/Failed, whatever its status was
    -- a Paid order included -- keeping the notification in
    [phonePePaymentData]; the quantities the order took from the stock
    are not given back. *)
Theorem X16_phonepe_webhook_cancels_without_restocking
        (req : WebhookRequest) (txn : string) (w : World) (order : Order) :
  verifyWebhookSignature sha256_hex clientSecret (header "x-verify" req)
                         (phonepe_signed_message req) = true ->
  field "response" (body req) = None ->
  as_string (at_path ["merchantTransactionId"] (field "data" (body req))) = Some txn ->
  txn <> "" ->
  orderOfTransaction (Some txn) w = Some order ->
  ~ (as_string (at_path ["state"] (field "data" (body req))) = Some "COMPLETED"
     /\ as_string (field "code" (body req)) = Some "PAYMENT_SUCCESS") ->
  let r := phonepe_webhook sha256_hex parseBase64Json clientSecret req w in
  fst r = Ok (Json 200 [("success", VBool true)])
  /\ orders (snd r)
     = update_by_id (_id order)
         (fun o => set_phonePePaymentData (Some (JSON_stringify (body req)))
                     (set_status OS_Canceled PS_Failed o))
         (orders w)
  /\ (exists order', orderOfTransaction (Some txn) (snd r) = Some order'
                     /\ paymentStatus order' = PS_Failed
                     /\ orderStatus order' = OS_Canceled
                     /\ orderItems order' = orderItems order)
  /\ (forall req' w',
        products (snd (phonepe_webhook sha256_hex parseBase64Json clientSecret req' w'))
        = products w').
Proof.
  intros Hsig Hresp Htxn Hne Hfind Hfail. cbv zeta.
  destruct (phonepe_webhook sha256_hex parseBase64Json clientSecret req w) as [r w'] eqn:Hrun.
  cbn [fst snd]. revert Hrun. unfold phonepe_webhook. rewrite Hsig, Hresp. cbn [negb as_string].
  unfold try_catch, bind at 1, ret at 1. rewrite Htxn.
  assert (truthy (Some txn) = true) as -> by (cbn; by rewrite bool_decide_eq_false_2).
  cbn [negb]. unfold bind at 1, auditLogger at 1, emit at 1.
  unfold bind at 1, Order_findOne at 1. cbn [orders log].
  fold (orderOfTransaction (Some txn) w). rewrite Hfind.
  assert (bool_decide (as_string (at_path ["state"] (field "data" (body req)))
                       = Some "COMPLETED")
          && bool_decide (as_string (field "code" (body req)) = Some "PAYMENT_SUCCESS")
          = false) as ->.
  { apply andb_false_iff.
    destruct (bool_decide_reflect (as_string (at_path ["state"] (field "data" (body req)))
                                   = Some "COMPLETED")); [|by left].
    destruct (bool_decide_reflect (as_string (field "code" (body req))
                                   = Some "PAYMENT_SUCCESS")); [|by right].
    by destruct Hfail. }
  run_handler. intros [= <- <-]. cbn [orders products].
  split; [done|]. split; [done|]. split.
  - eexists. split.
    + unfold orderOfTransaction. cbn [orders].
      apply (orderOfTransaction_update (Some txn) w order); [exact Hfind|done].
    + done.
  - apply phonepe_webhook_products.
Qed.
End PhonePeWebhookStore.

(** A failure notification for the transaction of the paid order of
    [paidOnly]: the order ends Canceled/Failed, the apples it holds
    stay out of the stock. *)
Lemma X16_phonepe_webhook_cancels_without_restocking_witness :
  let r := Confirmation.phonepe_webhook
             ConfirmationSample.digestStub ConfirmationSample.noBase64 "secret"
             (WebhookFailureSample.failureWebhook "pay_1") Sample.paidOnly in
  map (fun o => (orderStatus o, paymentStatus o)) (orders Sample.paidOnly)
  = [(OS_Processing, PS_Paid)]
  /\ map (fun o => (orderStatus o, paymentStatus o)) (orders (snd r))
     = [(OS_Canceled, PS_Failed)]
  /\ products (snd r) = products Sample.paidOnly.
Proof.
  cbv zeta. split; [reflexivity|].
  pose proof (X16_phonepe_webhook_cancels_without_restocking
                ConfirmationSample.digestStub ConfirmationSample.noBase64 "secret"
                (WebhookFailureSample.failureWebhook "pay_1") "pay_1" Sample.paidOnly
                (Sample.guestOrder 1 "ORD-20250101-1" "razorpay_K1" "razorpay"
                                   [Sample.twoApples] 250 PS_Paid OS_Processing
                                   (Some "pay_1") None 0)
                eq_refl eq_refl eq_refl ltac:(discriminate) eq_refl
                ltac:(intros [[=] _]))
    as (_ & Ho & _ & Hp).
  split; [by rewrite Ho|]. apply Hp.
Defined.


(** ** Order identifiers *)

Section OrderIds.
Import OrderRoutes CreateSpec OrderIdSpec.

Lemma pretty_N_char_digit (d : N) :
  (d < 10)%N ->
  digitOf 10 (pretty_N_char d) = Some (Z.of_N d)
  /\ (48 <=? nat_of_ascii (pretty_N_char d))%nat
     && (nat_of_ascii (pretty_N_char d) <=? 57)%nat = true.
Proof.
  intros Hd.
  assert (d = 0 \/ d = 1 \/ d = 2 \/ d = 3 \/ d = 4 \/ d = 5 \/ d = 6 \/ d = 7
          \/ d = 8 \/ d = 9)%N as H by lia.
  repeat (destruct H as [->|H]; [by split|]). by subst.
Qed.

Lemma dashFree_pretty_N_char (d : N) : pretty_N_char d <> "-"%char.
Proof. unfold pretty_N_char. by repeat case_match. Qed.

(** Reading back what [pretty] wrote. *)
Lemma digitsValue_pretty_N_go (x : N) (s : string) :
  (0 < x)%N ->
  digitsValue 10 (pretty_N_go x s) None = digitsValue 10 s (Some (Z.of_N x)).
Proof.
  revert s. induction (N.lt_wf_0 x) as [x _ IH]; intros s Hx.
  rewrite pretty_N_go_step by done.
  assert (x `mod` 10 < 10)%N as Hmod by (apply N.mod_lt; lia).
  pose proof (N.div_mod x 10 ltac:(lia)) as Hdm.
  destruct (pretty_N_char_digit _ Hmod) as [Hdigit _].
  destruct (decide (x `div` 10 = 0)%N) as [Hz|Hnz].
  - rewrite Hz, pretty_N_go_0. cbn [digitsValue].
    rewrite Hdigit. change (default 0 None) with 0.
    do 2 f_equal. lia.
  - rewrite IH; [|apply N.div_lt; lia|lia]. cbn [digitsValue].
    rewrite Hdigit.
    change (default 0 (Some (Z.of_N (x `div` 10)))) with (Z.of_N (x `div` 10)).
    do 2 f_equal. lia.
Qed.

Lemma digitsValue_pretty (n : Z) : 0 <= n -> digitsValue 10 (pretty n) None = Some n.
Proof.
  intros Hn. destruct n as [|p|p]; [done| |lia].
  change (pretty (Z.pos p)) with (pretty_N_go (N.pos p) "").
  rewrite digitsValue_pretty_N_go by lia. done.
Qed.

Lemma digitsOnly_pretty_N_go (x : N) (s : string) :
  digitsOnly s = true -> digitsOnly (pretty_N_go x s) = true.
Proof.
  revert s. induction (N.lt_wf_0 x) as [x _ IH]; intros s Hs.
  destruct (decide (x = 0)%N) as [->|Hx]; [by rewrite pretty_N_go_0|].
  rewrite pretty_N_go_step by lia. apply IH; [apply N.div_lt; lia|].
  cbn [digitsOnly]. rewrite Hs, andb_true_r.
  apply pretty_N_char_digit, N.mod_lt. lia.
Qed.

Lemma digitsOnly_pretty (n : Z) : 0 <= n -> digitsOnly (pretty n) = true.
Proof.
  intros Hn. destruct n as [|p|p]; [done| |lia].
  change (pretty (Z.pos p)) with (pretty_N_go (N.pos p) "").
  by apply digitsOnly_pretty_N_go.
Qed.

(** A string that starts with a digit starts with no white space. *)
Lemma dropWhite_digit (c : ascii) (s : string) :
  (48 <=? nat_of_ascii c)%nat && (nat_of_ascii c <=? 57)%nat = true ->
  dropWhite (String c s) = None.
Proof.
  intros [Hlo Hhi]%andb_true_iff.
  apply Nat.leb_le in Hlo. apply Nat.leb_le in Hhi.
  cbn [dropWhite].
  rewrite bool_decide_eq_false_2
    by (rewrite !elem_of_cons, elem_of_nil; lia).
  destruct s as [|c2 [|c3 s3]]; [done| |].
  - destruct (Nat.eqb_spec (nat_of_ascii c) 194); [lia|done].
  - destruct (Nat.eqb_spec (nat_of_ascii c) 194); [lia|]. cbn [andb].
    rewrite bool_decide_eq_false_2.
    + destruct (Nat.eqb_spec (nat_of_ascii c) 226); [lia|done].
    + rewrite !elem_of_cons, elem_of_nil. intros H.
      repeat (destruct H as [[= H _ _]|H]; [lia|]). done.
Qed.

Lemma trimStart_digits (fuel : nat) (s : string) :
  digitsOnly s = true -> trimStart fuel s = s.
Proof.
  destruct fuel as [|fuel]; [done|]. destruct s as [|c s]; [done|].
  cbn [digitsOnly trimStart]. intros [Hc _]%andb_true_iff.
  by rewrite dropWhite_digit.
Qed.

(** [parseInt] reads a number written in decimal digits. *)
Lemma parseInt_pretty (n : Z) : 0 <= n -> parseInt (pretty n) = Z_to_float n.
Proof.
  intros Hn. unfold parseInt.
  pose proof (digitsOnly_pretty n Hn) as Hd.
  rewrite trimStart_digits by done.
  pose proof (digitsValue_pretty n Hn) as Hv.
  destruct (pretty n) as [|c s] eqn:Hp; [done|].
  cbn [digitsOnly] in Hd. apply andb_true_iff in Hd as [Hc Hs].
  apply andb_true_iff in Hc as [Hlo Hhi].
  apply Nat.leb_le in Hlo. apply Nat.leb_le in Hhi.
  assert (c <> "-"%char /\ c <> "+"%char) as [Hminus Hplus].
  { split; intros ->.
    - change (nat_of_ascii "-") with 45%nat in Hlo. lia.
    - change (nat_of_ascii "+") with 43%nat in Hlo. lia. }
  assert ((match String c s with
           | String "-" rest => (true, rest)
           | String "+" rest => (false, rest)
           | _ => (false, String c s)
           end) = (false, String c s)) as ->.
  { destruct c as [[] [] [] [] [] [] [] []]; try reflexivity; by destruct Hminus || by destruct Hplus. }
  cbn [fst snd].
  assert ((match String c s with
           | String "0" (String "x" rest) | String "0" (String "X" rest) => (16, rest)
           | _ => (10, String c s)
           end) = (10, String c s)) as ->.
  { destruct s as [|c2 s2]; [by destruct c as [[] [] [] [] [] [] [] []]|].
    cbn [digitsOnly] in Hs. apply andb_true_iff in Hs as [Hc2 _].
    apply andb_true_iff in Hc2 as [Hlo2 Hhi2].
    apply Nat.leb_le in Hlo2. apply Nat.leb_le in Hhi2.
    assert (c2 <> "x"%char /\ c2 <> "X"%char) as [Hx HX].
    { split; intros ->.
      - change (nat_of_ascii "x") with 120%nat in Hhi2. lia.
      - change (nat_of_ascii "X") with 88%nat in Hhi2. lia. }
    destruct c as [[] [] [] [] [] [] [] []]; try reflexivity;
      destruct c2 as [[] [] [] [] [] [] [] []]; try reflexivity;
      by destruct Hx || by destruct HX. }
  cbn [fst snd]. rewrite Hv.
  destruct (Z.eqb_spec n 0) as [->|_]; reflexivity.
Qed.

Lemma dashFree_digitsOnly (s : string) : digitsOnly s = true -> dashFree s = true.
Proof.
  induction s as [|c s IH]; [done|]. cbn [digitsOnly dashFree].
  intros [[Hlo Hhi]%andb_true_iff Hs]%andb_true_iff.
  rewrite IH, andb_true_r by done.
  apply negb_true_iff, bool_decide_eq_false. intros ->.
  apply Nat.leb_le in Hlo. change (nat_of_ascii "-") with 45%nat in Hlo. lia.
Qed.

Lemma dashFree_pretty (n : Z) : 0 <= n -> dashFree (pretty n) = true.
Proof. intros Hn. by apply dashFree_digitsOnly, digitsOnly_pretty. Qed.

Lemma last_segment_dashFree (s acc : string) :
  dashFree s = true -> last_segment s acc = acc +:+ s.
Proof.
  revert acc. induction s as [|c s IH]; intros acc Hs.
  - by rewrite append_empty.
  - cbn [dashFree] in Hs. apply andb_true_iff in Hs as [Hc Hs].
    apply negb_true_iff, bool_decide_eq_false in Hc.
    rewrite <- append_step, <- IH by done.
    destruct c as [[] [] [] [] [] [] [] []]; try reflexivity. by destruct Hc.
Qed.

Lemma last_segment_dash (pre s acc : string) :
  last_segment (pre +:+ "-" +:+ s) acc = last_segment s "".
Proof.
  revert acc. induction pre as [|c pre IH]; intros acc; [done|].
  rewrite append_cons.
  destruct c as [[] [] [] [] [] [] [] []]; cbn [last_segment]; apply IH.
Qed.

Lemma last_segment_orderIdOf (d : string) (n : Z) :
  0 <= n -> last_segment (orderIdOf d n) "" = pretty n.
Proof.
  intros Hn. unfold orderIdOf.
  change (last_segment ("ORD-" +:+ d +:+ "-" +:+ pretty n) "")
    with (last_segment (d +:+ "-" +:+ pretty n) "").
  rewrite last_segment_dash. by rewrite last_segment_dashFree by by apply dashFree_pretty.
Qed.

Lemma lastOrder_latest (l : list Order) (o : Order) :
  lastOrder l = Some o ->
  o ∈ l /\ Forall (fun o' => createdAt o' <= createdAt o) l.
Proof.
  unfold lastOrder.
  assert (forall best o,
               foldl (fun best o =>
                        match best with
                        | None => Some o
                        | Some b => if createdAt b <? createdAt o then Some o else Some b
                        end) best l = Some o ->
               (o ∈ l \/ best = Some o)
               /\ Forall (fun o' => createdAt o' <= createdAt o) l
               /\ (forall b, best = Some b -> createdAt b <= createdAt o)) as H.
  { induction l as [|x l IH]; intros best o'; cbn [foldl].
    - intros ->. split; [by right|]. split; [done|]. by intros b [= ->].
    - intros Hf. destruct best as [b|].
      + destruct (Z.ltb_spec (createdAt b) (createdAt x)) as [Hlt|Hge].
        * destruct (IH (Some x) o' Hf) as ([Hin|[= ->]] & Hall & Hb).
          -- split; [left; by right|]. split.
             ++ constructor; [by apply Hb|done].
             ++ intros b' [= <-]. specialize (Hb x eq_refl). lia.
          -- split; [left; by left|]. split.
             ++ constructor; [lia|done].
             ++ intros b' [= <-]. lia.
        * destruct (IH (Some b) o' Hf) as ([Hin|[= ->]] & Hall & Hb).
          -- split; [left; by right|]. split.
             ++ constructor; [|done]. specialize (Hb b eq_refl). lia.
             ++ done.
          -- split; [by right|]. split.
             ++ constructor; [lia|done].
             ++ done.
      + destruct (IH (Some x) o' Hf) as ([Hin|[= ->]] & Hall & Hb).
        * split; [left; by right|]. split; [|done].
          constructor; [by apply Hb|done].
        * split; [left; by left|]. split; [|done].
          constructor; [lia|done]. }
  intros Hl. destruct (H None o Hl) as ([Hin|[=]] & Hall & _). done.
Qed.

(** The sequence numbers below [checkedNumbers], one by one. *)
Lemma countsUp_checked :
  forallb countsUp (map Z.of_nat (seq 0 checkedNumbers)) = true.
Proof. vm_compute. reflexivity. Qed.

Lemma countsUp_below (n : Z) :
  0 <= n < Z.of_nat checkedNumbers ->
  Number_toString (Z_to_float n + 1)%float = pretty (n + 1).
Proof.
  intros Hn. pose proof countsUp_checked as H.
  rewrite forallb_forall in H. specialize (H n).
  eapply bool_decide_eq_true_1. apply H, in_map_iff.
  exists (Z.to_nat n). split; [lia|]. apply in_seq. lia.
Qed.

(** X17: order numbers count up.  [generateOrderId] answers
    [ORD-<today>-1] on an empty store.  Otherwise it reads the number
    after the last [-] of the identifier of the most recently created
    order and, for a number below 1000, answers
    [ORD-<today>-<number + 1>], whatever the date in that identifier:
    the numbering does not restart with the day.  The result differs
    from every stored identifier whose number does not exceed the one
    read.  The number is a double: from 2^53 the number read is
    answered again, not the next one. *)
Theorem X17_order_numbers_count_up (today : string) (w : World) :
  (orders w = [] -> generateOrderId today w = (Ok (orderIdOf today 1), w))
  /\ (forall o, lastOrder (orders w) = Some o ->
                o ∈ orders w
                /\ Forall (fun o' => createdAt o' <= createdAt o) (orders w))
  /\ (forall o d n,
        lastOrder (orders w) = Some o -> orderId o = orderIdOf d n ->
        0 <= n < Z.of_nat checkedNumbers ->
        generateOrderId today w = (Ok (orderIdOf today (n + 1)), w)
        /\ forall o' d' m,
             o' ∈ orders w -> orderId o' = orderIdOf d' m -> 0 <= m <= n ->
             orderId o' <> orderIdOf today (n + 1))
  /\ (forall o d,
        lastOrder (orders w) = Some o -> orderId o = orderIdOf d lastExact ->
        generateOrderId today w = (Ok (orderIdOf today lastExact), w)).
Proof.
  split; [|split; [|split]].
  - intros Hnil. unfold generateOrderId. by rewrite Hnil.
  - intros o. apply lastOrder_latest.
  - intros o d n Hlast Hid Hn. split.
    + unfold generateOrderId. rewrite Hlast, Hid, last_segment_orderIdOf by lia.
      rewrite parseInt_pretty by lia. by rewrite countsUp_below.
    + intros o' d' m _ Hid' Hm Heq. rewrite Hid' in Heq.
      apply (f_equal (fun s => last_segment s "")) in Heq.
      rewrite !last_segment_orderIdOf in Heq by lia.
      apply (inj pretty) in Heq. lia.
  - intros o d Hlast Hid.
    unfold generateOrderId. rewrite Hlast, Hid, last_segment_orderIdOf by done.
    rewrite parseInt_pretty by done.
    assert (Number_toString (Z_to_float lastExact + 1)%float = pretty lastExact) as ->
      by (vm_compute; reflexivity).
    done.
Qed.

(** The store [paidOnly], whose latest order has the number 1. *)
Lemma X17_order_numbers_count_up_witness :
  lastOrder (orders Sample.paidOnly)
  = Some (Sample.guestOrder 1 "ORD-20250101-1" "razorpay_K1" "razorpay" [Sample.twoApples]
                            250 PS_Paid OS_Processing (Some "pay_1") None 0)
  /\ generateOrderId "20250102" Sample.paidOnly = (Ok "ORD-20250102-2", Sample.paidOnly).
Proof.
  split; [reflexivity|].
  destruct (X17_order_numbers_count_up "20250102" Sample.paidOnly) as (_ & _ & Hnext & _).
  destruct (Hnext (Sample.guestOrder 1 "ORD-20250101-1" "razorpay_K1" "razorpay"
                                     [Sample.twoApples] 250 PS_Paid OS_Processing
                                     (Some "pay_1") None 0) "20250101" 1)
    as [Hrun _]; [reflexivity|reflexivity|by vm_compute|].
  exact Hrun.
Defined.
End OrderIds.

(** ** PhonePe service: the access token and the requests of a method *)

Section ClientTheorems.
Import PhonePeService OrderRoutes PhonePeClient PhonePeClientSpec.
Variable clock : nat -> Z.
Variable tokenEndpoint : nat -> Res TokenData.

Lemma executeWithRetry_single {B} (requestFunc : C B) (r : Run) :
  executeWithRetry requestFunc r = requestFunc r.
Proof.
  unfold executeWithRetry. cbn [retryLoop Retry.maxRetries Retry.constructed].
  unfold ccatch. destruct (requestFunc r) as [[b|e] r']; [done|].
  by rewrite (bool_decide_eq_true_2 (1%nat = 1%nat)).
Qed.

Lemma tokenRequests_app l1 l2 :
  tokenRequests (l1 ++ l2) = (tokenRequests l1 + tokenRequests l2)%nat.
Proof. unfold tokenRequests. by rewrite List.filter_app, length_app. Qed.

Lemma apiRequests_app l1 l2 :
  apiRequests (l1 ++ l2) = (apiRequests l1 + apiRequests l2)%nat.
Proof. unfold apiRequests. by rewrite List.filter_app, length_app. Qed.

(** The cached token is returned without a request. *)
Lemma getAccessToken_cached (r : Run) :
  fresh (client r) (clock (reads r)) = true ->
  getAccessToken clock tokenEndpoint false r
  = (Ok (default "" (authToken (client r))), tick r).
Proof.
  unfold fresh. intros [[Ht He]%andb_true_iff Hv]%andb_true_iff.
  unfold getAccessToken, isTokenValid, cbind at 1, cbind at 1, get_client at 1.
  rewrite Ht, He. cbn [negb orb]. unfold cbind at 1, Date_now at 1, cret at 1.
  rewrite Hv. reflexivity.
Qed.

Lemma getAccessToken_fetch (forceRefresh : bool) (r : Run) :
  forceRefresh = true \/ fresh (client r) (clock (reads r)) = false ->
  getAccessToken clock tokenEndpoint forceRefresh r
  = tokenRequest clock tokenEndpoint (checked forceRefresh r).
Proof.
  intros Hwhy. unfold getAccessToken, checked. destruct forceRefresh.
  - unfold cbind at 1, cret at 1. apply executeWithRetry_single.
  - destruct Hwhy as [[=]|Hstale]. unfold fresh in Hstale.
    unfold isTokenValid, cbind at 1, cbind at 1, get_client at 1.
    destruct (truthy (authToken (client r)) && truthyNum (tokenExpiry (client r))) eqn:Hset.
    + apply andb_true_iff in Hset as [-> ->]. cbn [negb orb andb] in *.
      unfold cbind at 1, Date_now at 1, cret at 1. rewrite Hstale.
      apply executeWithRetry_single.
    + assert (negb (truthy (authToken (client r)))
              || negb (truthyNum (tokenExpiry (client r))) = true) as ->.
      { destruct (truthy _), (truthyNum _); done. }
      unfold cret at 1. apply executeWithRetry_single.
Qed.
Lemma tokenRequest_run (r : Run) :
  tokenRequest clock tokenEndpoint r
  = match tokenEndpoint (tokenRequests (effects r)) with
    | Ok data =>
        if truthy (access_token data)
        then (Ok (default "" (access_token data)),
              mkRun {| authToken := access_token data;
                       tokenExpiry := Some (clock (reads r) + lifetime data * 1000) |}
                    (S (reads r)) (effects r ++ [TokenRequest]))
        else (Throw (mkError "No access token in response" None None),
              after TokenRequest r)
    | Throw e => (Throw e, after TokenRequest r)
    end.
Proof.
  unfold tokenRequest, cbind at 1, post_token at 1.
  destruct (tokenEndpoint (tokenRequests (effects r))) as [data|e]; [|done].
  destruct (truthy (access_token data)); [|done]. reflexivity.
Qed.

(** X18: the access token is fetched once and reused.  A call of
    [getAccessToken] that is forced, or finds no token good for more
    than five minutes, sends exactly one request to the token endpoint.
    When the answer carries a token, the call returns it and caches it
    with expiry [expires_in] seconds (3600 when missing or zero) after
    the clock reading taken on arrival.  From then on an unforced call
    returns the cached token without any request as long as the clock
    reads more than five minutes before the expiry, and goes back to
    the token endpoint otherwise; with a lifetime of five minutes or
    less, and a clock that does not go back, the token is never
    reused. *)
Theorem X18_access_token_is_fetched_once_and_reused
        (forceRefresh : bool) (r : Run) (data : TokenData) (token : string) :
  forceRefresh = true \/ fresh (client r) (clock (reads r)) = false ->
  tokenEndpoint (tokenRequests (effects r)) = Ok data ->
  access_token data = Some token -> token <> "" ->
  let fetched := getAccessToken clock tokenEndpoint forceRefresh r in
  let arrival := clock (reads (checked forceRefresh r)) in
  let expiry := arrival + lifetime data * 1000 in
  fst fetched = Ok token
  /\ effects (snd fetched) = effects r ++ [TokenRequest]
  /\ client (snd fetched) = mkClient (Some token) (Some expiry)
  /\ (forall r',
        client r' = client (snd fetched) -> expiry <> 0 ->
        let again := getAccessToken clock tokenEndpoint false r' in
        (clock (reads r') + 5 * 60 * 1000 < expiry -> again = (Ok token, tick r'))
        /\ (expiry <= clock (reads r') + 5 * 60 * 1000 ->
            effects (snd again) = effects r' ++ [TokenRequest]))
  /\ (lifetime data <= 300 -> monotone clock ->
      forall r', client r' = client (snd fetched) ->
                 (reads (checked forceRefresh r) <= reads r')%nat ->
                 effects (snd (getAccessToken clock tokenEndpoint false r'))
                 = effects r' ++ [TokenRequest]).
Proof.
  intros Hwhy Hanswer Htoken Hne. cbv zeta.
  assert (truthy (Some token) = true) as Htruthy
      by (cbn; by rewrite bool_decide_eq_false_2).
  assert (effects (checked forceRefresh r) = effects r) as Heff.
  { unfold checked. destruct forceRefresh; [done|]. by destruct (_ && _). }
  assert (forall r', effects (snd (tokenRequest clock tokenEndpoint r'))
                     = effects r' ++ [TokenRequest]) as Hsend.
  { intros r'. rewrite tokenRequest_run.
    destruct (tokenEndpoint (tokenRequests (effects r'))) as [d|e]; [|done].
    by destruct (truthy (access_token d)). }
  rewrite (getAccessToken_fetch forceRefresh r Hwhy), tokenRequest_run, Heff, Hanswer,
    Htoken, Htruthy. cbn [fst snd client effects default].
  assert (forall r',
             client r' = {| authToken := Some token;
                            tokenExpiry := Some (clock (reads (checked forceRefresh r))
                                                 + lifetime data * 1000) |} ->
             clock (reads (checked forceRefresh r)) + lifetime data * 1000
             <= clock (reads r') + 5 * 60 * 1000 ->
             effects (snd (getAccessToken clock tokenEndpoint false r'))
             = effects r' ++ [TokenRequest]) as Hstale.
  { intros r' Hc Hlate.
    rewrite (getAccessToken_fetch false r'); [|right].
    - rewrite Hsend. unfold checked. cbn [negb]. by destruct (_ && _).
    - unfold fresh. rewrite Hc. cbn [authToken tokenExpiry]. rewrite Htruthy.
      apply andb_false_iff. right. apply Z.ltb_ge.
      change (default 0 (Some ?x)) with x. lia. }
  split; [done|]. split; [done|]. split; [done|]. split.
  - intros r' Hc Hnz. split.
    + intros Hearly. rewrite getAccessToken_cached.
      * by rewrite Hc.
      * unfold fresh. rewrite Hc. cbn [authToken tokenExpiry truthyNum]. rewrite Htruthy.
        cbn [andb]. apply andb_true_iff. split.
        -- by apply negb_true_iff, Z.eqb_neq.
        -- apply Z.ltb_lt. change (default 0 (Some ?x)) with x. lia.
    + by apply Hstale.
  - intros Hshort Hmono r' Hc Hlater. apply Hstale; [done|].
    specialize (Hmono _ _ Hlater). lia.
Qed.
(** What one call of [getAccessToken] sends and returns. *)
Lemma getAccessToken_spec (forceRefresh : bool) (r : Run) :
  let out := getAccessToken clock tokenEndpoint forceRefresh r in
  exists d,
    effects (snd out) = effects r ++ d
    /\ (d = [] \/ d = [TokenRequest])
    /\ (forceRefresh = true -> d = [TokenRequest])
    /\ (forall e, fst out = Throw e -> d = [TokenRequest] /\ client (snd out) = client r)
    /\ (forall t, fst out = Ok t ->
                  authToken (client (snd out)) = Some t /\ t <> ""
                  /\ (d = [] -> client (snd out) = client r)
                  /\ (d = [TokenRequest] ->
                      delivered tokenEndpoint (tokenRequests (effects r)) = Some t)).
Proof.
  cbv zeta.
  destruct (decide (forceRefresh = true \/ fresh (client r) (clock (reads r)) = false))
    as [Hwhy|Hcached].
  - rewrite (getAccessToken_fetch forceRefresh r Hwhy), tokenRequest_run.
    assert (effects (checked forceRefresh r) = effects r) as Heff.
    { unfold checked. destruct forceRefresh; [done|]. by destruct (_ && _). }
    assert (client (checked forceRefresh r) = client r) as Hc.
    { unfold checked. destruct forceRefresh; [done|]. by destruct (_ && _). }
    exists [TokenRequest]. unfold delivered, after. rewrite Heff.
    destruct (tokenEndpoint (tokenRequests (effects r))) as [data|e].
    + destruct (truthy (access_token data)) eqn:Htr.
      * cbn [fst snd effects client authToken].
        split; [done|]. split; [by right|]. split; [done|]. split; [by intros e [=]|].
        intros t [= <-]. destruct (access_token data) as [t|]; [|done].
        cbn in Htr. apply negb_true_iff, bool_decide_eq_false in Htr.
        change (default "" (Some t)) with t. by repeat split.
      * cbn [fst snd effects client]. rewrite ?Heff, ?Hc.
        split; [done|]. split; [by right|]. split; [done|]. split; [|by intros t [=]].
        by intros e _.
    + cbn [fst snd effects client]. rewrite ?Heff, ?Hc.
      split; [done|]. split; [by right|]. split; [done|]. split; [|by intros t [=]].
      by intros e' _.
  - assert (forceRefresh = false /\ fresh (client r) (clock (reads r)) = true) as [-> Hf].
    { destruct forceRefresh; [by destruct Hcached; left|].
      destruct (fresh _ _); [done|by destruct Hcached; right]. }
    rewrite (getAccessToken_cached r Hf). exists []. cbn [fst snd]. unfold tick.
    cbn [effects client]. rewrite app_nil_r.
    split; [done|]. split; [by left|]. split; [done|]. split; [by intros e [=]|].
    intros t [= <-]. unfold fresh in Hf.
    apply andb_true_iff in Hf as [[Ht _]%andb_true_iff _].
    destruct (authToken (client r)) as [t|]; [|done].
    cbn in Ht. apply negb_true_iff, bool_decide_eq_false in Ht.
    change (default "" (Some t)) with t. by repeat split.
Qed.
Variable responseMessage : JsError -> option string.
Variable random : nat -> string.

Lemma withFreshTokenRetry_run {B} (afterRetryPrefix failedPrefix : string)
      (requestFunc : C B) (r : Run) :
  withFreshTokenRetry clock tokenEndpoint responseMessage afterRetryPrefix failedPrefix
                      requestFunc r
  = match requestFunc r with
    | (Ok b, r1) => (Ok b, r1)
    | (Throw error, r1) =>
        if authFailure error then
          match getAccessToken clock tokenEndpoint true
                               (mkRun (mkClient None None) (reads r1) (effects r1)) with
          | (Ok _, r2) =>
              match requestFunc r2 with
              | (Ok b, r3) => (Ok b, r3)
              | (Throw retryError, r3) =>
                  (Throw (mkError (afterRetryPrefix +:+ message retryError) None None), r3)
              end
          | (Throw retryError, r2) =>
              (Throw (mkError (afterRetryPrefix +:+ message retryError) None None), r2)
          end
        else
          (Throw (mkError (failedPrefix
                             +:+ default "" (js_or (responseMessage error)
                                                   (Some (message error))))
                          None None), r1)
    end.
Proof.
  unfold withFreshTokenRetry, ccatch at 1. rewrite executeWithRetry_single.
  destruct (requestFunc r) as [[b|error] r1]; [done|].
  destruct (authFailure error); [|done].
  unfold ccatch, cbind at 1, set_client at 1, cbind at 1.
  destruct (getAccessToken clock tokenEndpoint true _) as [[t|e2] r2]; [|done].
  rewrite executeWithRetry_single. by destruct (requestFunc r2) as [[b|e3] r3].
Qed.

Lemma authFailure_status (e : JsError) : authFailure e = true -> http_status e <> None.
Proof.
  unfold authFailure. intros [[H _]%andb_true_iff _]%andb_true_iff.
  apply orb_true_iff in H as [H%bool_decide_eq_true|H%bool_decide_eq_true]; by rewrite H.
Qed.

(** The budget of the fresh-token [catch] block around a
    [requestFunc] that sends one request. *)
Lemma withFreshTokenRetry_budget {A B} (api : nat -> string -> Res A)
      (accepted : A -> B -> Prop) (afterRetryPrefix failedPrefix : string)
      (requestFunc : C B) (c : Client) :
  oneRequest tokenEndpoint api accepted requestFunc ->
  requestBudget tokenEndpoint api accepted
                (withFreshTokenRetry clock tokenEndpoint responseMessage
                                     afterRetryPrefix failedPrefix requestFunc (started c)).
Proof.
  intros Hone. unfold requestBudget. cbv zeta. rewrite withFreshTokenRetry_run.
  destruct (Hone (started c)) as (dt1 & Hdt1 & Hfirst). cbv zeta in Hfirst.
  destruct (requestFunc (started c)) as [res1 r1].
  cbn [fst snd started effects app] in Hfirst.
  assert (apiRequests dt1 = 0%nat /\ (tokenRequests dt1 <= 1)%nat) as [Ha1 Ht1]
      by (destruct Hdt1 as [->| ->]; cbn; lia).
  destruct res1 as [result1|e1].
  { (* the first attempt succeeded *)
    destruct Hfirst as [(e & [=] & _)|(b1 & Heff1 & _ & _ & Hok1 & _)].
    cbn [fst snd]. rewrite Heff1, apiRequests_app, tokenRequests_app, Ha1. cbn.
    split; [lia|]. split; [lia|]. split; [lia|]. split; [|by intros e [=]].
    intros result [= <-]. destruct (Hok1 result1 eq_refl) as (data & Hpay & Hrest).
    by exists b1, data. }
  destruct (authFailure e1) eqn:Hauth; cycle 1.
  { (* no retry *)
    cbn [fst snd].
    assert ((apiRequests (effects r1) <= 1)%nat /\ (tokenRequests (effects r1) <= 1)%nat)
      as [Ha Ht].
    { destruct Hfirst as [(e & _ & -> & _)|(b1 & -> & _)];
        rewrite ?apiRequests_app, ?tokenRequests_app, ?Ha1; cbn; lia. }
    split; [lia|]. split; [lia|]. split; [lia|]. split; [by intros result [=]|].
    by intros e [= <-]. }
(* the forced refresh *)
destruct (getAccessToken_spec true (mkRun (mkClient None None) (reads r1) (effects r1)))
  as (d2 & Heff2 & _ & Hd2 & _ & Hok2). specialize (Hd2 eq_refl). subst d2.
cbv zeta in Heff2, Hok2.
destruct (getAccessToken clock tokenEndpoint true _) as [[t2|e2] r2];
  cbn [fst snd effects] in Heff2, Hok2.
2:{ (* the refresh failed *)
  cbn [fst snd]. rewrite Heff2.
  assert ((apiRequests (effects r1) <= 1)%nat /\ (tokenRequests (effects r1) <= 1)%nat)
    as [Ha Ht].
  { destruct Hfirst as [(e & _ & -> & _)|(b1 & -> & _)];
      rewrite ?apiRequests_app, ?tokenRequests_app, ?Ha1; cbn; lia. }
  rewrite apiRequests_app, tokenRequests_app. cbn.
  split; [lia|]. split; [lia|]. split; [lia|]. split; [by intros result [=]|].
  by intros e [= <-]. }
destruct (Hok2 t2 eq_refl) as (Hcache2 & Hne2 & _ & Hdel2). specialize (Hdel2 eq_refl).
cbn [effects] in Hdel2.
(* the second attempt *)
destruct (Hone r2) as (dt3 & Hdt3 & Hsecond). cbv zeta in Hsecond.
assert (apiRequests dt3 = 0%nat /\ (tokenRequests dt3 <= 1)%nat) as [Ha3 Ht3]
    by (destruct Hdt3 as [->| ->]; cbn; lia).
destruct (requestFunc r2) as [res3 r3].
cbn [fst snd] in Hsecond.
assert (forall e, match res3 with
                  | Ok b => (Ok b, r3)
                  | Throw retryError =>
                      (Throw (mkError (afterRetryPrefix +:+ message retryError) None None),
                       r3)
                  end.1 = Throw e -> code e = None /\ http_status e = None) as Hwrapped.
{ destruct res3; [by intros e [=]|]. by intros e' [= <-]. }
assert (snd match res3 with
            | Ok b => (Ok b, r3)
            | Throw retryError =>
                (Throw (mkError (afterRetryPrefix +:+ message retryError) None None), r3)
            end = r3) as Hr3 by by destruct res3.
rewrite Hr3.
destruct Hfirst as [(e & [= <-] & Heff1 & ->)|(b1 & Heff1 & _ & _ & _ & Herr1)].
- (* the first attempt stopped at the token endpoint *)
  cbn [app] in Heff1.
  destruct Hsecond as [(e3 & -> & Heff3 & ->)|(b3 & Heff3 & _ & _ & Hok3 & _)].
  + rewrite Heff3, Heff2, Heff1. cbn.
    split; [lia|]. split; [lia|]. split; [lia|]. split; [by intros result [=]|].
    exact Hwrapped.
  + rewrite Heff3, Heff2, Heff1, !apiRequests_app, !tokenRequests_app, Ha3. cbn.
    split; [lia|]. split; [lia|]. split; [lia|]. split; [|exact Hwrapped].
    intros result Hresult. destruct res3 as [result3|]; [|done]. injection Hresult as <-.
    destruct (Hok3 result3 eq_refl) as (data & Hpay & Hrest).
    rewrite Heff2, Heff1 in Hpay. cbn in Hpay. by exists b3, data.
- (* the first attempt reached the endpoint of the method *)
  destruct (Herr1 e1 eq_refl) as [Hpay1|Hnone];
    [|by apply authFailure_status in Hauth].
  destruct Hsecond as [(e3 & -> & Heff3 & ->)|(b3 & Heff3 & Hsame3 & Hdel3 & Hok3 & _)].
  + rewrite Heff3, Heff2, Heff1, !apiRequests_app, !tokenRequests_app, Ha1. cbn.
    split; [lia|]. split; [lia|]. split; [lia|]. split; [by intros result [=]|].
    exact Hwrapped.
  + rewrite Heff3, Heff2, Heff1, !apiRequests_app, !tokenRequests_app, Ha1, Ha3. cbn.
    split; [lia|]. split; [lia|]. split; [|split; [|exact Hwrapped]].
    * intros _. exists b1, e1, b3, dt1, dt3.
      split; [exact Hpay1|]. split; [exact Hauth|]. split.
      { by rewrite <- !app_assoc. }
      split; [exact Ha1|]. split; [exact Ha3|].
      destruct Hdt3 as [->| ->].
      -- pose proof (Hsame3 eq_refl) as Hb. rewrite Hcache2 in Hb. injection Hb as <-.
         rewrite Heff1, tokenRequests_app in Hdel2. cbn in Hdel2.
         match goal with |- delivered _ ?n = _ =>
           replace n with (tokenRequests dt1 + 0)%nat; [done|cbn; lia] end.
      -- specialize (Hdel3 eq_refl).
         rewrite Heff2, Heff1, !tokenRequests_app in Hdel3. cbn in Hdel3.
         match goal with |- delivered _ ?n = _ =>
           replace n with (tokenRequests dt1 + 0 + 1)%nat; [done|cbn; lia] end.
    * intros result Hresult. destruct res3 as [result3|]; [|done]. injection Hresult as <-.
      destruct (Hok3 result3 eq_refl) as (data & Hpay & Hrest).
      rewrite Heff2, Heff1, !apiRequests_app, Ha1 in Hpay. cbn in Hpay.
      by exists b3, data.
Qed.

Lemma payRequest_run (pay : nat -> string -> Res PayData) (r : Run) :
  payRequest clock tokenEndpoint random pay r
  = match getAccessToken clock tokenEndpoint false (tick r) with
    | (Ok accessToken, r2) =>
        match pay (apiRequests (effects r2)) accessToken with
        | Ok result =>
            if negb (truthy (pd_orderId result)) || negb (truthy (pd_redirectUrl result))
            then (Throw (mkError "Invalid response: missing orderId or redirectUrl"
                                 None None),
                  after (ApiRequest accessToken) r2)
            else (Ok {| po_orderId := default "" (pd_orderId result);
                        po_paymentUrl := default "" (pd_redirectUrl result);
                        po_merchantOrderId :=
                          "ORD_" +:+ pretty (clock (reads r)) +:+ "_"
                                 +:+ random (S (reads r)) |},
                  after (ApiRequest accessToken) r2)
        | Throw e => (Throw e, after (ApiRequest accessToken) r2)
        end
    | (Throw e, r2) => (Throw e, r2)
    end.
Proof.
  unfold payRequest, cbind at 1, Date_now at 1, cbind at 1, Math_random at 1.
  cbn [reads]. unfold cbind at 1. fold (tick r).
  destruct (getAccessToken clock tokenEndpoint false (tick r)) as [[t|e] r2]; [|done].
  unfold cbind at 1, request_api at 1.
  destruct (pay (apiRequests (effects r2)) t) as [data|e]; [|done].
  by destruct (negb (truthy (pd_orderId data)) || negb (truthy (pd_redirectUrl data))).
Qed.

Lemma payRequest_oneRequest (pay : nat -> string -> Res PayData) :
  oneRequest tokenEndpoint pay paymentFrom (payRequest clock tokenEndpoint random pay).
Proof.
  intros r. cbv zeta. rewrite payRequest_run.
  destruct (getAccessToken_spec false (tick r)) as (dt & Heff & Hdt & _ & Hthrow & Hok).
  destruct (getAccessToken clock tokenEndpoint false (tick r)) as [[t|e] r2];
    cbn [fst snd effects client tick] in *.
  - destruct (Hok t eq_refl) as (Hauth & Hne & Hsame & Hdel). exists dt. split; [done|].
    right. exists t.
    assert (apiRequests (effects r2) = apiRequests (effects r)) as ->.
    { rewrite Heff, apiRequests_app. destruct Hdt as [->| ->]; cbn; lia. }
    destruct (pay (apiRequests (effects r)) t) as [data|e]; cbn [fst snd effects client].
    + unfold paymentFrom.
      destruct (pd_orderId data) as [oid|] eqn:Hoid, (pd_redirectUrl data) as [url|] eqn:Hurl;
        cbn [truthy negb orb andb]; try destruct (bool_decide_reflect (oid = ""));
        try destruct (bool_decide_reflect (url = ""));
        cbn [negb orb andb fst snd effects client after]; rewrite Heff, <- app_assoc;
        (split; [done|]);
        (split; [intros Hnil; by rewrite <- (Hsame Hnil)|]); (split; [done|]);
        (split; [intros order; try (intros [= <-]; exists data; cbn; by repeat split);
                 by intros [=]
                | intros e'; try (intros [= <-]; by right); by intros [=]]).
    + cbn [after effects client]. rewrite Heff, <- app_assoc. split; [done|].
      split; [intros Hnil; by rewrite <- (Hsame Hnil)|]. split; [done|].
      split; [by intros order [=] | intros e' [= <-]; by left].
  - destruct (Hthrow e eq_refl) as [-> _]. exists [TokenRequest]. split; [by right|].
    left. by exists e.
Qed.

Lemma refundRequest_oneRequest (refund : nat -> string -> Res RefundData) :
  oneRequest tokenEndpoint refund refundFrom (refundRequest clock tokenEndpoint refund).
Proof.
  intros r. cbv zeta.
  destruct (refundRequest clock tokenEndpoint refund r) as [res r'] eqn:Hrun.
  cbn [fst snd]. revert Hrun. unfold refundRequest, cbind at 1.
  destruct (getAccessToken_spec false r) as (dt & Heff & Hdt & _ & Hthrow & Hok).
  destruct (getAccessToken clock tokenEndpoint false r) as [[t|e] r2];
    cbn [fst snd effects client] in *.
  - destruct (Hok t eq_refl) as (Hauth & Hne & Hsame & Hdel).
    unfold cbind at 1, Date_now at 1, cbind at 1, request_api at 1.
    cbn [effects client reads].
    assert (apiRequests (effects r2) = apiRequests (effects r)) as ->.
    { rewrite Heff, apiRequests_app. destruct Hdt as [->| ->]; cbn; lia. }
    destruct (refund (apiRequests (effects r)) t) as [data|e] eqn:Hanswer.
    + unfold cret. intros [= <- <-]. exists dt. split; [done|]. right. exists t.
      cbn [effects client]. rewrite Heff, <- app_assoc. split; [done|].
      split; [intros Hnil; by rewrite <- (Hsame Hnil)|]. split; [done|].
      split; [|by intros e [=]].
      intros result [= <-]. by exists data.
    + intros [= <- <-]. exists dt. split; [done|]. right. exists t.
      cbn [effects client]. rewrite Heff, <- app_assoc. split; [done|].
      split; [intros Hnil; by rewrite <- (Hsame Hnil)|]. split; [done|].
      split; [by intros result [=]|]. intros e' [= <-]. by left.
  - intros [= <- <-]. destruct (Hthrow e eq_refl) as [-> _].
    exists [TokenRequest]. split; [by right|]. left. by exists e.
Qed.

(** X19: the request budget of [createPaymentOrder] and
    [processRefund].  Whatever the token fields hold and whatever the
    endpoints answer, one call sends at most two requests to the
    endpoint of the method and at most three to the token endpoint.  A
    second request to the method's endpoint is sent only after the
    first was answered by an error of status 401 or 403 that is not a
    timeout, a request to the token endpoint comes between the two, and
    the second carries the token the latest token request delivered.
    A result comes from the answer to the last request sent -- for a
    payment, one with a non-empty [orderId] and [redirectUrl] -- and
    every error the method throws is a new one, without [code] and
    without response status. *)
Theorem X19_payment_and_refund_request_budget
        (pay : nat -> string -> Res PayData) (refund : nat -> string -> Res RefundData)
        (c : Client) :
  requestBudget tokenEndpoint pay paymentFrom
                (createPaymentOrder clock tokenEndpoint responseMessage random pay
                                    (started c))
  /\ requestBudget tokenEndpoint refund refundFrom
                   (processRefund clock tokenEndpoint responseMessage refund (started c)).
Proof.
  split.
  - apply withFreshTokenRetry_budget, payRequest_oneRequest.
  - apply withFreshTokenRetry_budget, refundRequest_oneRequest.
Qed.
End ClientTheorems.

(** ** PhonePe service: the status check with its requests *)

Section StatusCheckTheorems.
Import PhonePeService PhonePeClient PhonePeClientSpec.
Variable clock : nat -> Z.
Variable tokenEndpoint : nat -> Res TokenData.
Variable status : nat -> string -> Res StatusResponse.

(** The status check of the service and the one the routes are
    modelled with agree: the latter takes the outcome of the request
    function as its input. *)
Lemma checkPaymentStatus_agrees (merchantOrderId : string) (r : Run) (w : World) :
  fst (PhonePeClient.checkPaymentStatus clock tokenEndpoint status merchantOrderId r)
  = fst (PhonePeService.checkPaymentStatus
           (fun _ => fst (statusRequest clock tokenEndpoint status r)) merchantOrderId w).
Proof.
  unfold PhonePeClient.checkPaymentStatus, PhonePeService.checkPaymentStatus.
  unfold ccatch, cbind at 1, try_catch, bind at 1.
  rewrite executeWithRetry_single, executeWithRetry_once.
  destruct (statusRequest clock tokenEndpoint status r) as [[result|e] r1]; cbn [fst snd].
  - reflexivity.
  - by destruct (bool_decide (code e = Some "ECONNABORTED")).
Qed.

(** X20: the status check answers success when the token request
    times out.  [checkPaymentStatus] never throws.  When no token good
    for five more minutes is cached and the request to the token
    endpoint fails with code ECONNABORTED, the result is
    [success = true] with status COMPLETED and code
    TIMEOUT_ASSUMED_SUCCESS although no status request was sent: the
    provider was never asked about the payment. *)
Theorem X20_status_check_trusts_a_token_timeout
        (merchantOrderId : string) (r : Run) (e : JsError) :
  fresh (client r) (clock (reads r)) = false ->
  tokenEndpoint (tokenRequests (effects r)) = Throw e ->
  code e = Some "ECONNABORTED" ->
  let out := PhonePeClient.checkPaymentStatus clock tokenEndpoint status merchantOrderId r in
  fst out = Ok {| success := true;
                  st_transactionId := merchantOrderId;
                  st_status := Some "COMPLETED";
                  st_code := Some "TIMEOUT_ASSUMED_SUCCESS";
                  fullResponse := "{ assumedSuccess: true }" |}
  /\ effects (snd out) = effects r ++ [TokenRequest]
  /\ (forall r', exists result,
         fst (PhonePeClient.checkPaymentStatus clock tokenEndpoint status merchantOrderId r')
         = Ok result).
Proof.
  intros Hstale Hanswer Hcode. cbv zeta.
  split; [|split].
  - destruct (PhonePeClient.checkPaymentStatus clock tokenEndpoint status merchantOrderId r)
      as [res r'] eqn:Hrun. cbn [fst]. revert Hrun.
    unfold PhonePeClient.checkPaymentStatus, ccatch, cbind at 1.
    rewrite executeWithRetry_single. unfold statusRequest, cbind at 1.
    rewrite (getAccessToken_fetch clock tokenEndpoint false r (or_intror Hstale)),
      tokenRequest_run.
    assert (effects (checked false r) = effects r) as ->.
    { unfold checked. by destruct (_ && _). }
    rewrite Hanswer, Hcode. by intros [= <- _].
  - destruct (PhonePeClient.checkPaymentStatus clock tokenEndpoint status merchantOrderId r)
      as [res r'] eqn:Hrun. cbn [snd]. revert Hrun.
    unfold PhonePeClient.checkPaymentStatus, ccatch, cbind at 1.
    rewrite executeWithRetry_single. unfold statusRequest, cbind at 1.
    rewrite (getAccessToken_fetch clock tokenEndpoint false r (or_intror Hstale)),
      tokenRequest_run.
    assert (effects (checked false r) = effects r) as Heff.
    { unfold checked. by destruct (_ && _). }
    rewrite Heff, Hanswer, Hcode. intros [= _ <-]. unfold after, checked. cbn [effects negb].
    by destruct (_ && _).
  - intros r'. unfold PhonePeClient.checkPaymentStatus, ccatch, cbind at 1.
    destruct (executeWithRetry _ r') as [[result|e'] r1]; [by eexists|].
    destruct (bool_decide _); by eexists.
Qed.
End StatusCheckTheorems.

(** ** PhonePe service: concrete runs *)

Section ClientWitnesses.
Import PhonePeService PhonePeClient PhonePeClientSpec.

(** The first call on a new service object fetches the one-hour token;
    the next call returns it without a request. *)
Lemma X18_access_token_is_fetched_once_and_reused_witness :
  let first := getAccessToken PhonePeClientSample.clock PhonePeClientSample.tokenOk false
                              (started constructed) in
  let second := getAccessToken PhonePeClientSample.clock PhonePeClientSample.tokenOk false
                               (snd first) in
  fst first = Ok "tok_1"
  /\ effects (snd first) = [TokenRequest]
  /\ fst second = Ok "tok_1"
  /\ effects (snd second) = [TokenRequest].
Proof.
  cbv zeta.
  pose proof (X18_access_token_is_fetched_once_and_reused
                PhonePeClientSample.clock PhonePeClientSample.tokenOk false
                (started constructed) (mkTokenData (Some "tok_1") (Some 3600)) "tok_1"
                (or_intror eq_refl) eq_refl eq_refl ltac:(discriminate))
    as (Hres & Heff & Hc & Hre & _).
  split; [exact Hres|]. split; [exact Heff|].
  destruct (Hre _ eq_refl ltac:(vm_compute; discriminate)) as [Hagain _].
  rewrite Hagain; [unfold tick; cbn [fst snd effects]; by rewrite Heff|].
  vm_compute. reflexivity.
Defined.

(** The token endpoint times out on a new service object: the status
    check reports success although the status endpoint would have
    reported a failed payment. *)
Lemma X20_status_check_trusts_a_token_timeout_witness :
  success <$> match fst (PhonePeClient.checkPaymentStatus
                           PhonePeClientSample.clock PhonePeClientSample.tokenTimesOut
                           PhonePeClientSample.statusFailed "ORD_1" (started constructed)) with
              | Ok result => Some result
              | Throw _ => None
              end
  = Some true.
Proof.
  destruct (X20_status_check_trusts_a_token_timeout
              PhonePeClientSample.clock PhonePeClientSample.tokenTimesOut
              PhonePeClientSample.statusFailed "ORD_1" (started constructed)
              (mkError "timeout of 45000ms exceeded" (Some "ECONNABORTED") None)
              eq_refl eq_refl eq_refl) as (Hres & _).
  by rewrite Hres.
Defined.
End ClientWitnesses.

(** The three renderings of the retry loop agree on the configuration
    the constructor sets: the loop of the routes' status check, the
    loop with its pauses, and the loop of the service methods all come
    down to one call of the request. *)
Lemma executeWithRetry_constructed {A} (call : string) (requestFunc : nat -> Res A)
      (w : World) (r : PhonePeClient.Run) :
  fst (PhonePeService.executeWithRetry call requestFunc w)
  = snd (Retry.executeWithRetry Retry.constructed requestFunc)
  /\ fst (PhonePeClient.executeWithRetry (fun r => (requestFunc 1%nat, r)) r)
     = snd (Retry.executeWithRetry Retry.constructed requestFunc).
Proof.
  rewrite executeWithRetry_once, executeWithRetry_single.
  unfold Retry.executeWithRetry. cbn [Retry.loop Retry.maxRetries Retry.constructed fst].
  destruct (requestFunc 1%nat) as [a|e]; [done|].
  by rewrite (bool_decide_eq_true_2 (1%nat = 1%nat)).
Qed.


(** ** The Razorpay webhook delivered twice *)

Section CapturedTwice.
Import Confirmation ConfirmationSpec.
Variable hmac_sha256_hex : string -> string -> string.
Variable secret : string.

(** The helpers on a [payment.captured] notification for [order]: a
    Paid order is left alone, any other becomes Paid. *)
Lemma handlePaymentCaptured_run (payload : option json) (oid : string)
      (order : Order) (w : World) :
  as_string (at_path ["payment"; "entity"; "notes"; "orderId"] payload) = Some oid ->
  oid <> "" ->
  orderNamed oid w = Some order ->
  let paid o := set_transactionId (as_string (at_path ["payment"; "entity"; "id"] payload))
                                  (set_status OS_Processing PS_Paid o) in
  forall handler,
    handler = handlePaymentCaptured \/ handler = RazorpayWebhook.handlePaymentCaptured ->
    (paymentStatus order = PS_Paid -> handler payload w = (Ok tt, w))
    /\ (paymentStatus order <> PS_Paid ->
        exists w', handler payload w = (Ok tt, w')
                   /\ orders w' = update_by_id (_id order) paid (orders w)
                   /\ products w' = products w).
Proof.
  intros Hnoted Hoid Hfind paid handler Hhandler. subst paid.
  change ["payment"; "entity"; "notes"; "orderId"]
    with (["payment"; "entity"] ++ ["notes"; "orderId"]) in Hnoted.
  change ["payment"; "entity"; "id"] with (["payment"; "entity"] ++ ["id"]).
  rewrite at_path_app in Hnoted. rewrite at_path_app.
  destruct (at_path ["payment"; "entity"] payload) as [entity|] eqn:Hentity; [|done].
  assert (truthy (Some oid) = true) as Htr by (cbn; by rewrite bool_decide_eq_false_2).
  destruct Hhandler as [->| ->].
  - destruct (handlePaymentCaptured payload w) as [res w1] eqn:Hrun. revert Hrun.
    unfold handlePaymentCaptured, paymentEntity. rewrite Hentity.
    unfold bind at 1, ret at 1. rewrite Hnoted, Htr. cbn [negb].
    unfold bind at 1, Order_findOne at 1. rewrite findOne_noted, Hfind.
    destruct (bool_decide_reflect (paymentStatus order = PS_Paid)) as [Hp|Hp]; cbn [negb].
    + intros [= <- <-]. by split.
    + unfold bind, Order_update, auditLogger, emit, notifySeller.
      cbn [orders products seller session trace log set_orders].
      destruct (seller w); intros [= <- <-]; (split; [done|]); intros _; by eexists.
  - destruct (RazorpayWebhook.handlePaymentCaptured payload w) as [res w1] eqn:Hrun.
    revert Hrun.
    unfold RazorpayWebhook.handlePaymentCaptured, RazorpayWebhook.notedOrderId.
    rewrite Hentity. cbn [at_path foldl] in Hnoted.
    destruct (field "notes" entity) as [notes|]; [|done].
    unfold bind at 1, ret at 1. cbn [fst snd]. rewrite Hnoted.
    unfold bind at 1, Order_findOne at 1. rewrite findOne_noted, Hfind.
    destruct (bool_decide_reflect (paymentStatus order = PS_Paid)) as [Hp|Hp]; cbn [negb].
    + intros [= <- <-]. by split.
    + unfold bind, Order_update, auditLogger, emit, notifySeller.
      cbn [orders products seller session trace log set_orders].
      destruct (seller w); intros [= <- <-]; (split; [done|]); intros _; by eexists.
Qed.

(** X21: a [payment.captured] notification delivered twice counts
    once.  A correctly signed notification whose notes name a stored
    order that is not Paid is answered 200: the order becomes
    Paid/Processing with the payment as its transaction, and the stock
    is not touched.  A second delivery of the same notification is
    answered 200 as well and only adds the entry that a notification
    was received to the audit log: it writes no order and sends no
    second notification to the seller.  This holds for the route of the
    order routes and for the handler of [webhooks/razorpayWebhook.js]. *)
Theorem X21_captured_notification_counts_once
        (req : WebhookRequest) (oid : string) (order : Order) (w : World) :
  secret <> "" ->
  header "x-razorpay-signature" req
  = Some (hmac_sha256_hex secret (JSON_stringify (body req))) ->
  as_string (field "event" (body req)) = Some "payment.captured" ->
  as_string (at_path ["payment"; "entity"; "notes"; "orderId"] (field "payload" (body req)))
  = Some oid ->
  oid <> "" ->
  orderNamed oid w = Some order ->
  paymentStatus order <> PS_Paid ->
  let paid o :=
    set_transactionId
      (as_string (at_path ["payment"; "entity"; "id"] (field "payload" (body req))))
      (set_status OS_Processing PS_Paid o) in
  let received :=
    EAudit "payment" "RAZORPAY_WEBHOOK_RECEIVED" [("event", VStr "payment.captured")] in
  forall deliver,
    deliver = razorpay_webhook hmac_sha256_hex (Some secret)
    \/ deliver = RazorpayWebhook.handleRazorpayWebhook hmac_sha256_hex secret ->
    let once := deliver req w in
    let twice := deliver req (snd once) in
    fst once = Ok (Json 200 [("status", VStr "ok")])
    /\ orders (snd once) = update_by_id (_id order) paid (orders w)
    /\ products (snd once) = products w
    /\ fst twice = Ok (Json 200 [("status", VStr "ok")])
    /\ snd twice = log [received] (snd once).
Proof.
  intros Hsecret Hsig Hevent Hnoted Hoid Hfind Hnp paid received deliver Hdeliver.
  subst paid received.
  assert (truthy (Some secret) = true) as Htr by (cbn; by rewrite bool_decide_eq_false_2).
  assert (forall handler,
             handler = handlePaymentCaptured \/ handler = RazorpayWebhook.handlePaymentCaptured ->
             forall failed refunded w0,
               dispatch handler failed refunded req w0
               = handler (field "payload" (body req)) w0) as Hdispatch.
  { intros handler _ failed refunded w0. unfold dispatch. by rewrite Hevent. }
  assert (forall handler,
             handler = handlePaymentCaptured \/ handler = RazorpayWebhook.handlePaymentCaptured ->
             forall w0,
               orders w0 = orders w -> products w0 = products w ->
               exists w1,
                 handler (field "payload" (body req)) w0 = (Ok tt, w1)
                 /\ orders w1
                    = update_by_id (_id order)
                        (fun o => set_transactionId
                                    (as_string (at_path ["payment"; "entity"; "id"]
                                                        (field "payload" (body req))))
                                    (set_status OS_Processing PS_Paid o))
                        (orders w)
                 /\ products w1 = products w
                 /\ forall w2, orders w2 = orders w1 ->
                               handler (field "payload" (body req)) w2 = (Ok tt, w2)) as Hstep.
  { intros handler Hh w0 Ho Hp.
    assert (orderNamed oid w0 = Some order) as Hfind0 by (unfold orderNamed; by rewrite Ho).
    destruct (handlePaymentCaptured_run _ oid order w0 Hnoted Hoid Hfind0 handler Hh)
      as [_ Hfirst].
    destruct (Hfirst Hnp) as (w1 & Hrun & Ho1 & Hp1).
    exists w1. split; [exact Hrun|]. split; [by rewrite Ho1, Ho|]. split; [by rewrite Hp1|].
    intros w2 Ho2.
    assert (orderNamed oid w2
            = Some (set_transactionId
                      (as_string (at_path ["payment"; "entity"; "id"]
                                          (field "payload" (body req))))
                      (set_status OS_Processing PS_Paid order))) as Hfind2.
    { unfold orderNamed. rewrite Ho2, Ho1.
      apply (orderNamed_update oid w0 order); [exact Hfind0|done]. }
    destruct (handlePaymentCaptured_run _ oid _ w2 Hnoted Hoid Hfind2 handler Hh)
      as [Hnoop _].
    by apply Hnoop. }
  cbv zeta. destruct Hdeliver as [->| ->].
  - destruct (Hstep handlePaymentCaptured (or_introl eq_refl)
                    (log [EAudit "payment" "RAZORPAY_WEBHOOK_RECEIVED"
                                 [("event", VStr "payment.captured")]] w) eq_refl eq_refl)
      as (w1 & Hrun & Ho1 & Hp1 & Hnoop).
    assert (forall w0 w',
               handlePaymentCaptured (field "payload" (body req))
                                     (log [EAudit "payment" "RAZORPAY_WEBHOOK_RECEIVED"
                                                  [("event", VStr "payment.captured")]] w0)
               = (Ok tt, w') ->
               razorpay_webhook hmac_sha256_hex (Some secret) req w0
               = (Ok (Json 200 [("status", VStr "ok")]), w')) as Hroute.
    { intros w0 w' Hh. unfold razorpay_webhook, razorpay_signed_message.
      rewrite Htr. cbn [negb].
      change (default "" (Some secret)) with secret.
      rewrite (bool_decide_eq_true_2 (Some _ = header _ req)) by done. cbn [negb].
      unfold try_catch, bind at 1, auditLogger at 1, emit at 1.
      rewrite Hevent. cbn [optStr_of]. unfold bind at 1.
      rewrite (Hdispatch handlePaymentCaptured (or_introl eq_refl)), Hh. done. }
    rewrite (Hroute w w1 Hrun). cbn [fst snd].
    rewrite (Hroute w1 _ (Hnoop (log [EAudit "payment" "RAZORPAY_WEBHOOK_RECEIVED"
                                             [("event", VStr "payment.captured")]] w1)
                                eq_refl)).
    done.
  - destruct (Hstep RazorpayWebhook.handlePaymentCaptured (or_intror eq_refl)
                    (log [EAudit "payment" "RAZORPAY_WEBHOOK_RECEIVED"
                                 [("event", VStr "payment.captured")]] w) eq_refl eq_refl)
      as (w1 & Hrun & Ho1 & Hp1 & Hnoop).
    assert (forall w0 w',
               RazorpayWebhook.handlePaymentCaptured
                 (field "payload" (body req))
                 (log [EAudit "payment" "RAZORPAY_WEBHOOK_RECEIVED"
                              [("event", VStr "payment.captured")]] w0)
               = (Ok tt, w') ->
               RazorpayWebhook.handleRazorpayWebhook hmac_sha256_hex secret req w0
               = (Ok (Json 200 [("status", VStr "ok")]), w')) as Hroute.
    { intros w0 w' Hh. unfold RazorpayWebhook.handleRazorpayWebhook, razorpay_signed_message.
      rewrite (bool_decide_eq_true_2 (Some _ = header _ req)) by done. cbn [negb].
      unfold bind at 1, auditLogger at 1, emit at 1.
      rewrite Hevent. cbn [optStr_of]. unfold try_catch, bind at 1.
      rewrite (Hdispatch RazorpayWebhook.handlePaymentCaptured (or_intror eq_refl)), Hh.
      done. }
    rewrite (Hroute w w1 Hrun). cbn [fst snd].
    rewrite (Hroute w1 _ (Hnoop (log [EAudit "payment" "RAZORPAY_WEBHOOK_RECEIVED"
                                             [("event", VStr "payment.captured")]] w1)
                                eq_refl)).
    done.
Qed.
End CapturedTwice.

(** The notification of pay_1 for the pending order of
    [pendingPhonePe], delivered twice to the route. *)
Lemma X21_captured_notification_counts_once_witness :
  let deliver := Confirmation.razorpay_webhook ConfirmationSample.hmacStub (Some "whsec") in
  let once := deliver (CapturedSample.capturedWebhook "ORD-20250101-1")
                      ConfirmationSample.pendingPhonePe in
  let twice := deliver (CapturedSample.capturedWebhook "ORD-20250101-1") (snd once) in
  map (fun o => (orderStatus o, paymentStatus o, transactionId o)) (orders (snd once))
  = [(OS_Processing, PS_Paid, Some "pay_1")]
  /\ orders (snd twice) = orders (snd once).
Proof.
  cbv zeta.
  destruct (X21_captured_notification_counts_once
              ConfirmationSample.hmacStub "whsec"
              (CapturedSample.capturedWebhook "ORD-20250101-1") "ORD-20250101-1"
              (Sample.guestOrder 1 "ORD-20250101-1" "phonepe_K1" "phonepe"
                                 [Sample.twoApples] 210 PS_Pending OS_Pending
                                 (Some "T1") (Some "T1") 0)
              ConfirmationSample.pendingPhonePe
              ltac:(discriminate) eq_refl eq_refl eq_refl ltac:(discriminate) eq_refl
              ltac:(discriminate)
              (Confirmation.razorpay_webhook ConfirmationSample.hmacStub (Some "whsec"))
              (or_introl eq_refl))
    as (_ & Ho & _ & _ & Htwice).
  split; [by rewrite Ho|]. by rewrite Htwice.
Defined.


(** ** A cart that cannot be served *)

Section UnservableCart.
Import OrderRoutes CreateSpec RefundRouteSpec.



End UnservableCart.


(** ** Orders are never lost and never re-keyed *)

Section Uniqueness.
Import OrderRoutes PhonePeService Confirmation Verify AutoCancel Refund StoreInvariant.

Lemma keeps_ret {A} (a : A) : keeps (ret a).
Proof. by intros ids w Hw. Qed.

Lemma keeps_throw {A} (e : JsError) : keeps (@throw A e).
Proof. by intros ids w Hw. Qed.

Lemma keeps_bind {A B} (m : M A) (k : A -> M B) :
  keeps m -> (forall a, keeps (k a)) -> keeps (bind m k).
Proof.
  intros Hm Hk ids w Hw. unfold bind. specialize (Hm ids w Hw).
  destruct (m w) as [[a|e] w']; cbn [snd] in *; [by apply Hk|done].
Qed.

Lemma keeps_try_catch {A} (m : M A) (h : JsError -> M A) :
  keeps m -> (forall e, keeps (h e)) -> keeps (try_catch m h).
Proof.
  intros Hm Hh ids w Hw. unfold try_catch. specialize (Hm ids w Hw).
  destruct (m w) as [[a|e] w']; cbn [snd] in *; [done|by apply Hh].
Qed.

(** A computation that writes neither orders nor the session. *)
Lemma keeps_same {A} (m : M A) :
  (forall w, orders (snd (m w)) = orders w /\ session (snd (m w)) = session w) -> keeps m.
Proof. intros H ids w [Ho Hs]. destruct (H w) as [Ho' Hs']. split; by rewrite ?Ho', ?Hs'. Qed.

Lemma keeps_emit (e : Event) : keeps (emit e).
Proof. by apply keeps_same. Qed.

Lemma keeps_auditLogger level tag data : keeps (auditLogger level tag data).
Proof. by apply keeps_same. Qed.

Lemma keeps_gateway {A} call args (outcome : Res A) : keeps (gateway call args outcome).
Proof. apply keeps_same. intros w. unfold gateway, bind, emit. by destruct outcome. Qed.

Lemma keeps_notifySeller oid : keeps (notifySeller oid).
Proof. apply keeps_same. intros w. unfold notifySeller. by destruct (seller w). Qed.

Lemma keeps_Product_findById pid : keeps (Product_findById pid).
Proof. by apply keeps_same. Qed.

Lemma keeps_Product_save pid p : keeps (Product_save pid p).
Proof. by apply keeps_same. Qed.

Lemma keeps_Order_find f : keeps (Order_find f).
Proof. by apply keeps_same. Qed.

Lemma keeps_Order_findOne f : keeps (Order_findOne f).
Proof. by apply keeps_same. Qed.

Lemma keeps_generateOrderId today : keeps (generateOrderId today).
Proof. by apply keeps_same. Qed.

Lemma identity_update (id : nat) (f : Order -> Order) (os : list Order) :
  keepsIdentity f -> map identity (update_by_id id f os) = map identity os.
Proof.
  intros Hf. unfold update_by_id. rewrite map_map. apply map_ext.
  intros o. by destruct (decide _).
Qed.

Lemma uniqueOrders_identity (os os' : list Order) :
  map identity os' = map identity os -> uniqueOrders os -> uniqueOrders os'.
Proof.
  intros Heq (H1 & H2 & H3).
  assert (map _id os' = map _id os) as E1.
  { change _id with (fun o => fst (fst (identity o))).
    by rewrite <- !(map_map identity (fun i => fst (fst i))), Heq. }
  assert (map orderId os' = map orderId os) as E2.
  { change orderId with (fun o => snd (fst (identity o))).
    by rewrite <- !(map_map identity (fun i => snd (fst i))), Heq. }
  assert (map idempotencyKey os' = map idempotencyKey os) as E3.
  { change idempotencyKey with (fun o => snd (identity o)).
    by rewrite <- !(map_map identity (fun i => snd i)), Heq. }
  unfold uniqueOrders. by rewrite E1, E2, E3.
Qed.

Lemma keeps_Order_update (id : nat) (f : Order -> Order) :
  keepsIdentity f -> keeps (Order_update id f).
Proof.
  intros Hf ids w [[Hu Hp] Hs]. unfold Order_update. cbv zeta.
  assert (sound ids (update_by_id id f (orders w))) as Hsound.
  { split; [|by rewrite (identity_update id f (orders w) Hf)].
    by apply (uniqueOrders_identity (orders w)); [apply identity_update|]. }
  by destruct (head _).
Qed.

Lemma keeps_Order_save (id : nat) (f : Order -> Order) :
  keepsIdentity f -> keeps (Order_save id f).
Proof.
  intros Hf ids w Hw. unfold Order_save.
  destruct (existsb _ (orders w)); [done|]. by apply keeps_Order_update.
Qed.

Lemma keeps_Order_insert (now : Z) (o : Order) : keeps (Order_insert now o).
Proof.
  intros ids w [[(H1 & H2 & H3) Hp] Hs]. unfold Order_insert.
  destruct (negb _); [done|].
  destruct (existsb (conflicts o) (orders w)) eqn:Hc; [done|].
  assert (forall o', o' ∈ orders w ->
                     orderId o' <> orderId o /\ idempotencyKey o' <> idempotencyKey o) as Hfree.
  { intros o' Hin.
    assert (conflicts o o' = false) as Hn.
    { destruct (conflicts o o') eqn:E; [|done].
      assert (existsb (conflicts o) (orders w) = true) as Habs
          by (apply existsb_exists; exists o'; split; [by apply list_elem_of_In|done]).
      congruence. }
    unfold conflicts in Hn. apply orb_false_iff in Hn as [Ha Hb].
    by apply bool_decide_eq_false in Ha, Hb. }
  cut (sound ids (orders w ++ [with_id_createdAt (next_id (orders w)) now o])).
  { intros Hsound. split; [exact Hsound|exact Hs]. }
  split.
  - unfold uniqueOrders. rewrite !map_app.
    cbn [map with_id_createdAt _id orderId idempotencyKey].
    repeat split; apply NoDup_app; (split; [done|]); (split; [|apply NoDup_singleton]).
    + intros n Hn [->|[]%elem_of_nil]%elem_of_cons. by apply (next_id_fresh (orders w)).
    + intros s (o' & -> & Hin)%list_elem_of_fmap [Heq|[]%elem_of_nil]%elem_of_cons.
      by destruct (Hfree o' Hin).
    + intros s (o' & -> & Hin)%list_elem_of_fmap [Heq|[]%elem_of_nil]%elem_of_cons.
      by destruct (Hfree o' Hin).
  - rewrite map_app. by apply prefix_app_r.
Qed.

Lemma keeps_startTransaction : keeps startTransaction.
Proof. intros ids w [Ho Hs]. by split. Qed.

Lemma keeps_commitTransaction : keeps commitTransaction.
Proof. intros ids w [Ho Hs]. by split. Qed.

Lemma keeps_abortTransaction : keeps abortTransaction.
Proof.
  intros ids w [Ho Hs]. unfold abortTransaction.
  destruct (session w) as [[ps os]|] eqn:Hsw.
  - cbn in Hs. by split.
  - split; [done|]. cbn [snd]. by rewrite Hsw.
Qed.

Lemma keeps_abortIfInTransaction : keeps abortIfInTransaction.
Proof.
  intros ids w Hw. unfold abortIfInTransaction.
  destruct (session w) eqn:Hs; [by apply keeps_abortTransaction|done].
Qed.

Create HintDb keeps.

#[local] Hint Resolve keeps_ret keeps_throw keeps_emit keeps_auditLogger keeps_gateway
  keeps_notifySeller keeps_Product_findById keeps_Product_save keeps_Order_find
  keeps_Order_findOne keeps_generateOrderId keeps_Order_insert keeps_startTransaction
  keeps_commitTransaction keeps_abortTransaction keeps_abortIfInTransaction : keeps.

(** The setters of the routes leave the identity alone. *)
Ltac identity_kept :=
  let o := fresh "o" in
  intros o; cbv zeta;
  repeat match goal with |- context [if ?b then _ else _] => destruct b end;
  by destruct o.

(** One step through the structure of a handler. *)
Ltac keeps_step :=
  first
    [ solve [auto 1 with keeps nocore]
    | apply keeps_Order_update; identity_kept
    | apply keeps_Order_save; identity_kept
    | apply keeps_bind; [|intros ?]
    | apply keeps_try_catch; [|intros ?]
    | match goal with |- keeps (match ?x with _ => _ end) => destruct x end
    | progress cbv zeta ].

Ltac keeps_walk := repeat keeps_step.

Lemma keeps_restoreStock items : keeps (restoreStock items).
Proof. induction items as [|item rest IH]; cbn [restoreStock]; keeps_walk. Qed.

Lemma keeps_restoreProductStock items : keeps (restoreProductStock items).
Proof. induction items as [|item rest IH]; cbn [restoreProductStock]; keeps_walk. Qed.

Lemma keeps_deductStock items : keeps (deductStock items).
Proof. induction items as [|item rest IH]; cbn [deductStock]; keeps_walk. Qed.

Lemma keeps_restoreItems F id items : keeps (restoreItems F id items).
Proof. induction items as [|item rest IH]; cbn [restoreItems]; keeps_walk. Qed.

#[local] Hint Resolve keeps_restoreStock keeps_restoreProductStock keeps_deductStock
  keeps_restoreItems : keeps.

Lemma keeps_cancelEach pendingOrders : keeps (cancelEach pendingOrders).
Proof. induction pendingOrders as [|o rest IH]; cbn [cancelEach]; keeps_walk. Qed.

Lemma keeps_prepareOrderItems method cart items : keeps (prepareOrderItems method cart items).
Proof.
  revert items. induction cart as [|item rest IH]; intros items; cbn [prepareOrderItems];
    keeps_walk.
Qed.

Lemma keeps_deductVerified items : keeps (deductVerified items).
Proof. induction items as [|item rest IH]; cbn [deductVerified]; keeps_walk. Qed.

Lemma keeps_retryLoop {A} call fuel attempt (requestFunc : nat -> Res A) lastError :
  keeps (retryLoop call fuel attempt requestFunc lastError).
Proof.
  revert attempt lastError. induction fuel as [|fuel IH]; intros attempt lastError;
    cbn [retryLoop]; keeps_walk.
Qed.

#[local] Hint Resolve keeps_cancelEach keeps_prepareOrderItems keeps_deductVerified
  keeps_retryLoop : keeps.

Lemma keeps_cancelOrder cfg F order : keeps (cancelOrder cfg F order).
Proof. unfold cancelOrder. keeps_walk. Qed.

#[local] Hint Resolve keeps_cancelOrder : keeps.

Lemma keeps_sweep cfg F pendingOrders cancelledCount errorCount :
  keeps (sweep cfg F pendingOrders cancelledCount errorCount).
Proof.
  revert cancelledCount errorCount.
  induction pendingOrders as [|o rest IH]; intros cancelledCount errorCount;
    cbn [sweep]; keeps_walk.
Qed.

#[local] Hint Resolve keeps_sweep : keeps.

Lemma keeps_checkPendingOrders cfg F now : keeps (checkPendingOrders cfg F now).
Proof. unfold checkPendingOrders. keeps_walk. Qed.

Lemma keeps_checkPaymentStatus requestFunc merchantOrderId :
  keeps (checkPaymentStatus requestFunc merchantOrderId).
Proof. unfold checkPaymentStatus, executeWithRetry. keeps_walk. Qed.

Lemma keeps_sendCheckoutSuccessEmail order : keeps (sendCheckoutSuccessEmail order).
Proof. unfold sendCheckoutSuccessEmail. keeps_walk. Qed.

#[local] Hint Resolve keeps_checkPendingOrders keeps_checkPaymentStatus
  keeps_sendCheckoutSuccessEmail : keeps.

Lemma keeps_create_order env req : keeps (create_order env req).
Proof.
  unfold create_order, cancelPendingOrders, afterCleanup, createOrderBody,
    razorpayBranch, phonePeBranch, phonePeFailure, otherBranch.
  keeps_walk.
Qed.

Lemma keeps_afterCommit okTag failedTag successTag generated orderData txn row :
  keeps (afterCommit okTag failedTag successTag generated orderData txn row).
Proof. unfold afterCommit, autoInvoice, mailCustomer. keeps_walk. Qed.

Lemma keeps_saveOrder now orderData txn paymentData :
  keeps (saveOrder now orderData txn paymentData).
Proof. unfold saveOrder. keeps_walk. Qed.

#[local] Hint Resolve keeps_afterCommit keeps_saveOrder : keeps.

Lemma keeps_verify_payment hmac keySecret fetched invoiceGenerated now req :
  keeps (verify_payment hmac keySecret fetched invoiceGenerated now req).
Proof. unfold verify_payment. keeps_walk. Qed.

Lemma keeps_phonepe_verify statusCheck invoiceGenerated now req :
  keeps (phonepe_verify statusCheck invoiceGenerated now req).
Proof. unfold phonepe_verify. keeps_walk. Qed.

Lemma keeps_phonepe_return statusCheck reqOrderId queryTransactionId :
  keeps (phonepe_return statusCheck reqOrderId queryTransactionId).
Proof. unfold phonepe_return. keeps_walk. Qed.

Lemma keeps_phonepe_webhook sha parse clientSecret req :
  keeps (phonepe_webhook sha parse clientSecret req).
Proof. unfold phonepe_webhook. keeps_walk. Qed.

Lemma keeps_razorpay_webhook hmac webhookSecret req :
  keeps (razorpay_webhook hmac webhookSecret req).
Proof.
  unfold razorpay_webhook, dispatch, handlePaymentCaptured, handlePaymentFailed,
    handleRefundProcessed, paymentEntity.
  keeps_walk.
Qed.

Lemma keeps_handleRazorpayWebhook hmac webhookSecret req :
  keeps (RazorpayWebhook.handleRazorpayWebhook hmac webhookSecret req).
Proof.
  unfold RazorpayWebhook.handleRazorpayWebhook, dispatch,
    RazorpayWebhook.handlePaymentCaptured, RazorpayWebhook.handlePaymentFailed,
    RazorpayWebhook.handleRefundProcessed, RazorpayWebhook.notedOrderId.
  keeps_walk.
Qed.

Lemma keeps_route r reqOrderId reason : keeps (RefundRouteSpec.route r reqOrderId reason).
Proof.
  destruct r; cbn [RefundRouteSpec.route];
    unfold refund_full, refund_partial, phonepe_refund_full, phonepe_refund_partial;
    keeps_walk.
Qed.

Lemma keeps_force_check_route F now s : keeps (AutoCancelService.force_check_route F now s).
Proof. unfold AutoCancelService.force_check_route. keeps_walk. Qed.

Lemma keeps_cleanup_pending base : keeps (DebugRoutes.cleanup_pending base).
Proof. unfold DebugRoutes.cleanup_pending. keeps_walk. Qed.

Lemma serve_inv sha hmac parse (r : Request) ids (w : World) :
  inv ids w -> inv ids (serve sha hmac parse r w).
Proof.
  intros Hw. destruct r; cbn [serve].
  - by apply keeps_create_order.
  - by apply keeps_verify_payment.
  - by apply keeps_phonepe_verify.
  - by apply keeps_phonepe_return.
  - by apply keeps_phonepe_webhook.
  - by apply keeps_razorpay_webhook.
  - by apply keeps_handleRazorpayWebhook.
  - by apply keeps_route.
  - by apply keeps_checkPendingOrders.
  - by apply keeps_force_check_route.
  - by apply keeps_cleanup_pending.
Qed.

Lemma afterRequests_inv sha hmac parse (rs : list Request) ids (w : World) :
  inv ids w -> inv ids (afterRequests sha hmac parse rs w).
Proof.
  unfold afterRequests. revert w.
  induction rs as [|r rs IH]; intros w Hw; [done|].
  cbn [foldl]. apply IH. by apply serve_inv.
Qed.

(** X23: whatever requests are served, one after the other, on a store
    whose orders have distinct [_id]s, order numbers and idempotency
    keys and in which no transaction is open: the orders still have
    distinct [_id]s, order numbers and idempotency keys, and the orders
    that were there are all still there, in their places, each with the
    [_id], the order number and the key it had.  Orders are only ever
    added at the end. *)
Theorem X23_orders_are_never_lost_or_rekeyed sha hmac parse
        (rs : list Request) (w : World) :
  uniqueOrders (orders w) ->
  session w = None ->
  uniqueOrders (orders (afterRequests sha hmac parse rs w))
  /\ map identity (orders w)
       `prefix_of` map identity (orders (afterRequests sha hmac parse rs w)).
Proof.
  intros Hu Hs.
  assert (inv (map identity (orders w)) w) as Hw.
  { split; [by split|]. by rewrite Hs. }
  by destruct (afterRequests_inv sha hmac parse rs _ w Hw) as [[Hu' Hp'] _].
Qed.

Lemma X23_orders_are_never_lost_or_rekeyed_witness :
  let rs := [CreateOrder (CreateSample.env TimedOut) (CreateSample.request "phonepe" "K2");
             CleanupPending "K1";
             SweeperRun defaultConfig noFaults (3 * Sample.hour)] in
  let w' := afterRequests ConfirmationSample.digestStub ConfirmationSample.hmacStub
                          ConfirmationSample.noBase64 rs CreateSample.switched in
  uniqueOrders (orders CreateSample.switched)
  /\ session CreateSample.switched = None
  /\ uniqueOrders (orders w')
  /\ map identity (orders CreateSample.switched) `prefix_of` map identity (orders w').
Proof.
  assert (uniqueOrders (orders CreateSample.switched)) as Hu
    by (repeat split; apply (bool_decide_unpack _); vm_compute; exact I).
  intros rs w'. split; [exact Hu|]. split; [reflexivity|].
  exact (X23_orders_are_never_lost_or_rekeyed
           ConfirmationSample.digestStub ConfirmationSample.hmacStub
           ConfirmationSample.noBase64 rs CreateSample.switched Hu eq_refl).
Defined.
End Uniqueness.


(** ** No route writes a product *)

Section Catalogue.
Import OrderRoutes PhonePeService Confirmation Verify AutoCancel Refund StoreInvariant.

Lemma frames_ret {A} (a : A) : frames (ret a).
Proof. by intros ps w Hw. Qed.

Lemma frames_throw {A} (e : JsError) : frames (@throw A e).
Proof. by intros ps w Hw. Qed.

Lemma frames_bind {A B} (m : M A) (k : A -> M B) :
  frames m -> (forall a, frames (k a)) -> frames (bind m k).
Proof.
  intros Hm Hk ps w Hw. unfold bind. specialize (Hm ps w Hw).
  destruct (m w) as [[a|e] w']; cbn [snd] in *; [by apply Hk|done].
Qed.

Lemma frames_try_catch {A} (m : M A) (h : JsError -> M A) :
  frames m -> (forall e, frames (h e)) -> frames (try_catch m h).
Proof.
  intros Hm Hh ps w Hw. unfold try_catch. specialize (Hm ps w Hw).
  destruct (m w) as [[a|e] w']; cbn [snd] in *; [done|by apply Hh].
Qed.

(** A computation that writes neither products nor the session. *)
Lemma frames_same {A} (m : M A) :
  (forall w, products (snd (m w)) = products w /\ session (snd (m w)) = session w) ->
  frames m.
Proof. intros H ps w [Hp Hs]. destruct (H w) as [Hp' Hs']. split; by rewrite ?Hp', ?Hs'. Qed.

Lemma frames_emit (e : Event) : frames (emit e).
Proof. by apply frames_same. Qed.

Lemma frames_auditLogger level tag data : frames (auditLogger level tag data).
Proof. by apply frames_same. Qed.

Lemma frames_gateway {A} call args (outcome : Res A) : frames (gateway call args outcome).
Proof. apply frames_same. intros w. unfold gateway, bind, emit. by destruct outcome. Qed.

Lemma frames_notifySeller oid : frames (notifySeller oid).
Proof. apply frames_same. intros w. unfold notifySeller. by destruct (seller w). Qed.

Lemma frames_Order_find f : frames (Order_find f).
Proof. by apply frames_same. Qed.

Lemma frames_Order_findOne f : frames (Order_findOne f).
Proof. by apply frames_same. Qed.

Lemma frames_generateOrderId today : frames (generateOrderId today).
Proof. by apply frames_same. Qed.

Lemma frames_Order_update id f : frames (Order_update id f).
Proof. apply frames_same. intros w. unfold Order_update. cbv zeta. by destruct (head _). Qed.

Lemma frames_Order_save id f : frames (Order_save id f).
Proof.
  apply frames_same. intros w. unfold Order_save.
  destruct (existsb _ (orders w)); [done|].
  unfold Order_update. cbv zeta. by destruct (head _).
Qed.

Lemma frames_Order_insert now o : frames (Order_insert now o).
Proof.
  apply frames_same. intros w. unfold Order_insert.
  destruct (negb _); [done|]. by destruct (existsb _ _).
Qed.

Lemma frames_startTransaction : frames startTransaction.
Proof. intros ps w [Hp Hs]. by split. Qed.

Lemma frames_commitTransaction : frames commitTransaction.
Proof. intros ps w [Hp Hs]. by split. Qed.

Lemma frames_abortTransaction : frames abortTransaction.
Proof.
  intros ps w [Hp Hs]. unfold abortTransaction.
  destruct (session w) as [[ps' os]|] eqn:Hsw.
  - cbn in Hs. by split.
  - split; [done|]. cbn [snd]. by rewrite Hsw.
Qed.

Lemma frames_abortIfInTransaction : frames abortIfInTransaction.
Proof.
  intros ps w Hw. unfold abortIfInTransaction.
  destruct (session w) eqn:Hs; [by apply frames_abortTransaction|done].
Qed.

(** The loops that assign [product.stock] and save the product. *)
Lemma frames_restoreStock items : frames (restoreStock items).
Proof. apply frames_same. intros w. by rewrite restoreStock_run. Qed.

Lemma frames_restoreProductStock items : frames (restoreProductStock items).
Proof. apply frames_same. intros w. by rewrite restoreProductStock_eq, restoreStock_run. Qed.

Lemma frames_deductStock items : frames (deductStock items).
Proof. apply frames_same. intros w. by rewrite deductStock_run. Qed.

Lemma frames_restoreItems F id items : frames (restoreItems F id items).
Proof. apply frames_same. intros w. by rewrite restoreItems_run. Qed.

Create HintDb frames.

#[local] Hint Resolve frames_ret frames_throw frames_emit frames_auditLogger frames_gateway
  frames_notifySeller frames_Order_find frames_Order_findOne frames_generateOrderId
  frames_Order_update frames_Order_save frames_Order_insert frames_startTransaction
  frames_commitTransaction frames_abortTransaction frames_abortIfInTransaction
  frames_restoreStock frames_restoreProductStock frames_deductStock frames_restoreItems
  : frames.

(** One step through the structure of a handler. *)
Ltac frames_step :=
  first
    [ solve [auto 1 with frames nocore]
    | apply frames_bind; [|intros ?]
    | apply frames_try_catch; [|intros ?]
    | match goal with |- frames (match ?x with _ => _ end) => destruct x end
    | progress cbv zeta ].

Ltac frames_walk := repeat frames_step.

Lemma frames_prepareOrderItems method cart items :
  frames (prepareOrderItems method cart items).
Proof.
  revert items. induction cart as [|item rest IH]; intros items; cbn [prepareOrderItems];
    [frames_walk|].
  intros ps w Hw. unfold bind at 1, Product_findById at 1.
  destruct (products w !! ci_productId item) as [product|] eqn:Hp;
    cbn [fmap option_fmap option_map].
  - cbn [stock doc_fields]. rewrite undefined_ltb.
    destruct (isGatewayMethod method); [by apply IH|].
    unfold bind at 1, Product_save at 1. cbn [doc_fields set_stock].
    rewrite (insert_id _ _ _ Hp), set_products_id. by apply IH.
  - revert ps w Hw Hp. intros ps w Hw _. revert ps w Hw.
    change (frames (abortTransaction ;;
                    ret (inl (Json 404 [("message",
                                         VStr ("Product with ID " +:+ ci_productId item
                                                 +:+ " not found."))])) : M (Response + list OrderItem))).
    frames_walk.
Qed.

Lemma frames_deductVerified items : frames (deductVerified items).
Proof.
  induction items as [|item rest IH]; cbn [deductVerified]; [frames_walk|].
  intros ps w Hw. unfold bind at 1, Product_findById at 1.
  destruct (products w !! productId item) as [product|] eqn:Hp;
    cbn [fmap option_fmap option_map].
  - cbn [stock doc_fields]. rewrite undefined_ltb.
    unfold bind at 1, Product_save at 1. cbn [doc_fields set_stock].
    rewrite (insert_id _ _ _ Hp), set_products_id. by apply IH.
  - revert ps w Hw Hp. intros ps w Hw _. revert ps w Hw.
    change (frames (abortTransaction ;;
                    ret (Some (Json 404 [("success", VBool false);
                                         ("message",
                                          VStr ("Product " +:+ name item +:+ " not found"))])))).
    frames_walk.
Qed.

Lemma frames_cancelEach pendingOrders : frames (cancelEach pendingOrders).
Proof. induction pendingOrders as [|o rest IH]; cbn [cancelEach]; frames_walk. Qed.

Lemma frames_retryLoop {A} call fuel attempt (requestFunc : nat -> Res A) lastError :
  frames (retryLoop call fuel attempt requestFunc lastError).
Proof.
  revert attempt lastError. induction fuel as [|fuel IH]; intros attempt lastError;
    cbn [retryLoop]; frames_walk.
Qed.

#[local] Hint Resolve frames_cancelEach frames_prepareOrderItems frames_deductVerified
  frames_retryLoop : frames.

Lemma frames_cancelOrder cfg F order : frames (cancelOrder cfg F order).
Proof. unfold cancelOrder. frames_walk. Qed.

#[local] Hint Resolve frames_cancelOrder : frames.

Lemma frames_sweep cfg F pendingOrders cancelledCount errorCount :
  frames (sweep cfg F pendingOrders cancelledCount errorCount).
Proof.
  revert cancelledCount errorCount.
  induction pendingOrders as [|o rest IH]; intros cancelledCount errorCount;
    cbn [sweep]; frames_walk.
Qed.

#[local] Hint Resolve frames_sweep : frames.

Lemma frames_checkPendingOrders cfg F now : frames (checkPendingOrders cfg F now).
Proof. unfold checkPendingOrders. frames_walk. Qed.

Lemma frames_checkPaymentStatus requestFunc merchantOrderId :
  frames (checkPaymentStatus requestFunc merchantOrderId).
Proof. unfold checkPaymentStatus, executeWithRetry. frames_walk. Qed.

Lemma frames_sendCheckoutSuccessEmail order : frames (sendCheckoutSuccessEmail order).
Proof. unfold sendCheckoutSuccessEmail. frames_walk. Qed.

#[local] Hint Resolve frames_checkPendingOrders frames_checkPaymentStatus
  frames_sendCheckoutSuccessEmail : frames.

Lemma frames_create_order env req : frames (create_order env req).
Proof.
  unfold create_order, cancelPendingOrders, afterCleanup, createOrderBody,
    razorpayBranch, phonePeBranch, phonePeFailure, otherBranch.
  frames_walk.
Qed.

Lemma frames_afterCommit okTag failedTag successTag generated orderData txn row :
  frames (afterCommit okTag failedTag successTag generated orderData txn row).
Proof. unfold afterCommit, autoInvoice, mailCustomer. frames_walk. Qed.

Lemma frames_saveOrder now orderData txn paymentData :
  frames (saveOrder now orderData txn paymentData).
Proof. unfold saveOrder. frames_walk. Qed.

#[local] Hint Resolve frames_afterCommit frames_saveOrder : frames.

Lemma frames_verify_payment hmac keySecret fetched invoiceGenerated now req :
  frames (verify_payment hmac keySecret fetched invoiceGenerated now req).
Proof. unfold verify_payment. frames_walk. Qed.

Lemma frames_phonepe_verify statusCheck invoiceGenerated now req :
  frames (phonepe_verify statusCheck invoiceGenerated now req).
Proof. unfold phonepe_verify. frames_walk. Qed.

Lemma frames_phonepe_return statusCheck reqOrderId queryTransactionId :
  frames (phonepe_return statusCheck reqOrderId queryTransactionId).
Proof. unfold phonepe_return. frames_walk. Qed.

Lemma frames_phonepe_webhook sha parse clientSecret req :
  frames (phonepe_webhook sha parse clientSecret req).
Proof. unfold phonepe_webhook. frames_walk. Qed.

Lemma frames_razorpay_webhook hmac webhookSecret req :
  frames (razorpay_webhook hmac webhookSecret req).
Proof.
  unfold razorpay_webhook, dispatch, handlePaymentCaptured, handlePaymentFailed,
    handleRefundProcessed, paymentEntity.
  frames_walk.
Qed.

Lemma frames_handleRazorpayWebhook hmac webhookSecret req :
  frames (RazorpayWebhook.handleRazorpayWebhook hmac webhookSecret req).
Proof.
  unfold RazorpayWebhook.handleRazorpayWebhook, dispatch,
    RazorpayWebhook.handlePaymentCaptured, RazorpayWebhook.handlePaymentFailed,
    RazorpayWebhook.handleRefundProcessed, RazorpayWebhook.notedOrderId.
  frames_walk.
Qed.

Lemma frames_route r reqOrderId reason : frames (RefundRouteSpec.route r reqOrderId reason).
Proof.
  destruct r; cbn [RefundRouteSpec.route];
    unfold refund_full, refund_partial, phonepe_refund_full, phonepe_refund_partial;
    frames_walk.
Qed.

Lemma frames_force_check_route F now s :
  frames (AutoCancelService.force_check_route F now s).
Proof. unfold AutoCancelService.force_check_route. frames_walk. Qed.

Lemma frames_cleanup_pending base : frames (DebugRoutes.cleanup_pending base).
Proof. unfold DebugRoutes.cleanup_pending. frames_walk. Qed.

Lemma serve_catalogued sha hmac parse (r : Request) ps (w : World) :
  catalogued ps w -> catalogued ps (serve sha hmac parse r w).
Proof.
  intros Hw. destruct r; cbn [serve].
  - by apply frames_create_order.
  - by apply frames_verify_payment.
  - by apply frames_phonepe_verify.
  - by apply frames_phonepe_return.
  - by apply frames_phonepe_webhook.
  - by apply frames_razorpay_webhook.
  - by apply frames_handleRazorpayWebhook.
  - by apply frames_route.
  - by apply frames_checkPendingOrders.
  - by apply frames_force_check_route.
  - by apply frames_cleanup_pending.
Qed.

Lemma afterRequests_catalogued sha hmac parse (rs : list Request) ps (w : World) :
  catalogued ps w -> catalogued ps (afterRequests sha hmac parse rs w).
Proof.
  unfold afterRequests. revert w.
  induction rs as [|r rs IH]; intros w Hw; [done|].
  cbn [foldl]. apply IH. by apply serve_catalogued.
Qed.

(** X3: no route writes a product.  Whatever requests are served, one
    after the other, on a store in which no transaction is open --
    orders created, verified, paid, refunded, cancelled by a clean-up
    or swept -- the stored products are exactly what they were.  The
    loops that assign [product.stock] and call [product.save()] leave
    every product as it was stored: the Product schema has no [stock]
    path. *)
Theorem X3_no_route_writes_a_product sha hmac parse (rs : list Request) (w : World) :
  session w = None ->
  products (afterRequests sha hmac parse rs w) = products w.
Proof.
  intros Hs.
  assert (catalogued (products w) w) as Hw by (split; [done|by rewrite Hs]).
  by destruct (afterRequests_catalogued sha hmac parse rs _ w Hw).
Qed.

(** A PhonePe order for two apples is created, abandoned, cleaned up
    and swept; the paid order of the store is refunded in full. *)
Lemma X3_no_route_writes_a_product_witness :
  let rs := [CreateOrder (CreateSample.env (Resolved CreateSample.intent))
                         (CreateSample.request "phonepe" "K2");
             CleanupPending "K2";
             SweeperRun defaultConfig noFaults (3 * Sample.hour);
             RefundRoute (RefundRouteSpec.FullRazorpay (Ok RefundSample.confirmed1249))
                         "ORD-20250101-1" "returned"] in
  let w' := afterRequests ConfirmationSample.digestStub ConfirmationSample.hmacStub
                          ConfirmationSample.noBase64 rs CreateSample.switched in
  session CreateSample.switched = None
  /\ products w' = Sample.catalogue
  /\ map (fun o => (orderId o, orderStatus o, paymentStatus o)) (orders w')
     = [("ORD-20250101-1", OS_Canceled, PS_Refunded);
        ("ORD-20250101-2", OS_Canceled, PS_Failed);
        ("ORD-20250101-3", OS_Canceled, PS_Failed)].
Proof.
  intros rs w'. split; [reflexivity|]. split.
  - exact (X3_no_route_writes_a_product
             ConfirmationSample.digestStub ConfirmationSample.hmacStub
             ConfirmationSample.noBase64 rs CreateSample.switched eq_refl).
  - by vm_compute.
Defined.
End Catalogue.

